(** * KickDropsMiner: queue scheduling and channel rotation

    A shallow embedding of [kick_models.py] and of the scheduling core of
    [app/kick_app.py] (queue worker, discovery reconciliation, next-item
    selection, liveness cache), followed by the properties proved about it.

    Conventions of the embedding
    - Python [str] is [string]; [int] is [Z]; [None] is [None] of an option
      type or [JNull] for raw JSON values.
    - The methods of [str] that need Unicode tables ([lower], [casefold]),
      the text parsers of the runtime ([int], [datetime]) and [repr] of a
      [str] are the operations of the class [PyRuntime]; every definition
      and theorem is parametric in them.  [ascii_runtime] is their
      restriction to ASCII text and runs the examples.
    - [str.strip] is written out for the ASCII white space of Python.
    - [QueueItem] objects are mutable and shared: they live in a heap
      (a list indexed by address) and the queue is a list of addresses.
    - Clock readings are integers (seconds); one call of a scheduler
      function reads one [World]: a clock value and the answers of the
      remote service. *)

From Stdlib Require Import ZArith Lia Ascii String List Sorted Permutation.
From stdpp Require Import base option list strings gmap pretty.

Local Open Scope string_scope.
Local Open Scope Z_scope.

(** ** Exceptions *)

Inductive exn :=
  | AttributeError
  | TypeError
  | ValueError
  | KickBrowserError.

Inductive Exc (A : Type) :=
  | Ok (a : A)
  | Raise (e : exn).
Arguments Ok {A} a.
Arguments Raise {A} e.

Definition exc_bind {A B} (m : Exc A) (k : A -> Exc B) : Exc B :=
  match m with
  | Ok a => k a
  | Raise e => Raise e
  end.

#[global] Instance exc_mbind : MBind Exc := fun A B k m => exc_bind m k.
#[global] Instance exc_mret : MRet Exc := fun A a => Ok a.

#[global] Instance exn_eq_dec : EqDecision exn.
Proof. solve_decision. Defined.

(** [try: body / except (classes): handler]. *)
Definition try_except {A} (body : Exc A) (classes : list exn) (handler : Exc A) : Exc A :=
  match body with
  | Ok a => Ok a
  | Raise e => if bool_decide (e ∈ classes) then handler else Raise e
  end.

(** [try: body / except Exception: handler] with a handler that cannot fail. *)
Definition try_except_all {A} (body : Exc A) (handler : A) : A :=
  match body with
  | Ok a => a
  | Raise _ => handler
  end.

Fixpoint exc_map {A B} (f : A -> Exc B) (l : list A) : Exc (list B) :=
  match l with
  | [] => Ok []
  | x :: l' => y ← f x; ys ← exc_map f l'; Ok (y :: ys)
  end.

(** ** Text *)

(** [str.isspace] on ASCII: tab, line feed, vertical tab, form feed, carriage
    return, the four separators 0x1c-0x1f, and space. *)
Definition py_isspace (a : ascii) : bool :=
  let n := nat_of_ascii a in
  ((9 <=? n)%nat && (n <=? 13)%nat) || ((28 <=? n)%nat && (n <=? 32)%nat).

Fixpoint lstrip_with (p : ascii -> bool) (s : string) : string :=
  match s with
  | EmptyString => EmptyString
  | String a s' => if p a then lstrip_with p s' else s
  end.

Fixpoint rstrip_with (p : ascii -> bool) (s : string) : string :=
  match s with
  | EmptyString => EmptyString
  | String a s' =>
      match rstrip_with p s' with
      | EmptyString => if p a then EmptyString else String a EmptyString
      | r => String a r
      end
  end.

Definition lstrip (s : string) : string := lstrip_with py_isspace s.
Definition rstrip (s : string) : string := rstrip_with py_isspace s.
(** [s.strip()] *)
Definition strip (s : string) : string := rstrip (lstrip s).

Definition is_slash (a : ascii) : bool := Ascii.eqb a "/"%char.

(** [s.split("/")[-1]]: what follows the last slash. *)
Fixpoint last_segment_go (cur : string) (s : string) : string :=
  match s with
  | EmptyString => String.rev cur
  | String a s' =>
      if is_slash a then last_segment_go EmptyString s'
      else last_segment_go (String a cur) s'
  end.
Definition last_segment (s : string) : string := last_segment_go EmptyString s.

(** [sub in s] *)
Fixpoint contains (s sub : string) : bool :=
  String.prefix sub s ||
  match s with
  | EmptyString => false
  | String _ s' => contains s' sub
  end.

Fixpoint map_chars (f : ascii -> ascii) (s : string) : string :=
  match s with
  | EmptyString => EmptyString
  | String a s' => String (f a) (map_chars f s')
  end.

(** [s.replace(" ", "_")] *)
Definition replace_space_underscore (s : string) : string :=
  map_chars (fun a => if Ascii.eqb a " "%char then "_"%char else a) s.

(** [x or y] on strings and the truth value of an optional string. *)
Definition str_or (s d : string) : string := if String.eqb s "" then d else s.
Definition opt_str (o : option string) : string := default "" o.
Definition opt_truthy (o : option string) : bool := negb (String.eqb (opt_str o) "").

(** The library operations the code relies on.  [utc_timestamp s] is the
    instant (seconds since the epoch, UTC) that the parsing attempts of
    [_parse_kick_datetime] ([datetime.fromisoformat] on the text with Z
    replaced by +00:00, then three [strptime] formats) obtain from the
    non-empty text [s], [None] when all of them fail; [int_of_str s] is
    [int(s)], [None] standing for [ValueError]; [repr_str s] is [repr(s)]. *)
Class PyRuntime := {
  lower : string -> string;
  upper : string -> string;
  casefold : string -> string;
  utc_timestamp : string -> option Z;
  int_of_str : string -> option Z;
  repr_str : string -> string;
}.

(** *** The runtime on ASCII text *)

Definition ascii_lower_char (a : ascii) : ascii :=
  let n := nat_of_ascii a in
  if ((65 <=? n)%nat && (n <=? 90)%nat) then ascii_of_nat (n + 32) else a.

Definition ascii_upper_char (a : ascii) : ascii :=
  let n := nat_of_ascii a in
  if ((97 <=? n)%nat && (n <=? 122)%nat) then ascii_of_nat (n - 32) else a.

Definition digit_of (a : ascii) : option Z :=
  let n := nat_of_ascii a in
  if ((48 <=? n)%nat && (n <=? 57)%nat) then Some (Z.of_nat (n - 48)) else None.

(** Decimal digits, single underscores allowed between two digits. *)
Fixpoint parse_digits (acc : Z) (after_digit : bool) (s : string) : option Z :=
  match s with
  | EmptyString => if after_digit then Some acc else None
  | String a s' =>
      match digit_of a with
      | Some d => parse_digits (acc * 10 + d) true s'
      | None =>
          if Ascii.eqb a "_"%char && after_digit then parse_digits acc false s'
          else None
      end
  end.

Definition ascii_int_of_str (s : string) : option Z :=
  match strip s with
  | String "-"%char r => Z.opp <$> parse_digits 0 false r
  | String "+"%char r => parse_digits 0 false r
  | r => parse_digits 0 false r
  end.

Definition dquote : ascii := ascii_of_nat 34.
Definition squote : ascii := ascii_of_nat 39.
Definition backslash : ascii := ascii_of_nat 92.

Definition hex_digit (n : nat) : ascii :=
  if (n <? 10)%nat then ascii_of_nat (48 + n) else ascii_of_nat (87 + n).

Definition repr_char (q : ascii) (a : ascii) : string :=
  let n := nat_of_ascii a in
  if Ascii.eqb a backslash then String backslash (String backslash EmptyString)
  else if Ascii.eqb a q then String backslash (String q EmptyString)
  else if (n =? 10)%nat then String backslash "n"
  else if (n =? 13)%nat then String backslash "r"
  else if (n =? 9)%nat then String backslash "t"
  else if ((n <? 32)%nat || (n =? 127)%nat) then
    String backslash (String "x" (String (hex_digit (n / 16)) (String (hex_digit (n mod 16)) EmptyString)))
  else String a EmptyString.

Fixpoint repr_body (q : ascii) (s : string) : string :=
  match s with
  | EmptyString => EmptyString
  | String a s' => repr_char q a +:+ repr_body q s'
  end.

Definition ascii_repr_str (s : string) : string :=
  let q := if contains s (String squote EmptyString) && negb (contains s (String dquote EmptyString))
           then dquote else squote in
  String q (repr_body q s +:+ String q EmptyString).

Definition is_leap (y : Z) : bool :=
  ((y mod 4 =? 0) && negb (y mod 100 =? 0)) || (y mod 400 =? 0).

Definition days_in_month (y m : Z) : Z :=
  if m =? 2 then (if is_leap y then 29 else 28)
  else if (m =? 4) || (m =? 6) || (m =? 9) || (m =? 11) then 30 else 31.

(** Days between 1970-01-01 and the civil date [y]-[m]-[d]. *)
Definition days_from_civil (y m d : Z) : Z :=
  let y' := if m <=? 2 then y - 1 else y in
  let era := y' / 400 in
  let yoe := y' - era * 400 in
  let mp := (m + 9) mod 12 in
  let doy := (153 * mp + 2) / 5 + d - 1 in
  let doe := yoe * 365 + yoe / 4 - yoe / 100 + doy in
  era * 146097 + doe - 719468.

Definition num_of (ds : list ascii) : option Z :=
  foldl (fun acc a => n ← acc; d ← digit_of a; Some (n * 10 + d)) (Some 0) ds.

(** Timestamps written [YYYY-MM-DD], [T] or a space, [HH:MM:SS], and an
    optional [Z]; every other spelling is read as unparseable. *)
Definition ascii_utc_timestamp (s : string) : option Z :=
  match list_ascii_of_string s with
  | y1 :: y2 :: y3 :: y4 :: h1 :: m1 :: m2 :: h2 :: d1 :: d2 :: sep ::
    hh1 :: hh2 :: c1 :: mi1 :: mi2 :: c2 :: s1 :: s2 :: rest =>
      let seps_ok :=
        Ascii.eqb h1 "-"%char && Ascii.eqb h2 "-"%char &&
        (Ascii.eqb sep "T"%char || Ascii.eqb sep " "%char) &&
        Ascii.eqb c1 ":"%char && Ascii.eqb c2 ":"%char &&
        match rest with
        | [] => true
        | [z] => Ascii.eqb z "Z"%char
        | _ => false
        end in
      if seps_ok then
        y ← num_of [y1; y2; y3; y4];
        m ← num_of [m1; m2];
        d ← num_of [d1; d2];
        hh ← num_of [hh1; hh2];
        mi ← num_of [mi1; mi2];
        ss ← num_of [s1; s2];
        if (1 <=? y) && (1 <=? m) && (m <=? 12) && (1 <=? d) && (d <=? days_in_month y m)
           && (hh <? 24) && (mi <? 60) && (ss <? 60)
        then Some (days_from_civil y m d * 86400 + hh * 3600 + mi * 60 + ss)
        else None
      else None
  | _ => None
  end.

Definition ascii_runtime : PyRuntime := {|
  lower := map_chars ascii_lower_char;
  upper := map_chars ascii_upper_char;
  casefold := map_chars ascii_lower_char;
  utc_timestamp := ascii_utc_timestamp;
  int_of_str := ascii_int_of_str;
  repr_str := ascii_repr_str;
|}.

(** ** JSON values, as [json.load] returns them *)

#[local] Unset Elimination Schemes.
Inductive json :=
  | JNull
  | JBool (b : bool)
  | JInt (n : Z)
  | JStr (s : string)
  | JList (l : list json)
  | JDict (d : list (string * json)).
#[local] Set Elimination Schemes.

(** A Python [dict] with [str] keys, in insertion order. *)
Abbreviation pydict := (list (string * json)).

(** [bool(v)] *)
Definition truthy (v : json) : bool :=
  match v with
  | JNull => false
  | JBool b => b
  | JInt n => negb (n =? 0)
  | JStr s => negb (String.eqb s "")
  | JList l => match l with [] => false | _ => true end
  | JDict d => match d with [] => false | _ => true end
  end.

(** [a or b] *)
Definition py_or (a b : json) : json := if truthy a then a else b.

(** Insertion-ordered dictionaries with [str] keys: lookup, and assignment
    [d[k] = v], which keeps the place of a key already present. *)
Fixpoint dict_lookup {V} (d : list (string * V)) (k : string) : option V :=
  match d with
  | [] => None
  | (k', v) :: d' => if String.eqb k' k then Some v else dict_lookup d' k
  end.

Fixpoint dict_set {V} (d : list (string * V)) (k : string) (v : V) : list (string * V) :=
  match d with
  | [] => [(k, v)]
  | (k', v') :: d' =>
      if String.eqb k' k then (k, v) :: d' else (k', v') :: dict_set d' k v
  end.

(** [d.get(k)] and [d.get(k, dflt)] on a dict. *)
Definition dict_get (d : pydict) (k : string) : json := default JNull (dict_lookup d k).
Definition dict_get_default (d : pydict) (k : string) (dflt : json) : json :=
  default dflt (dict_lookup d k).

(** [v.get(k)] on any value: only a dict has the method. *)
Definition py_get (v : json) (k : string) : Exc json :=
  match v with
  | JDict d => Ok (dict_get d k)
  | _ => Raise AttributeError
  end.

Fixpoint chars_of (s : string) : list json :=
  match s with
  | EmptyString => []
  | String a s' => JStr (String a EmptyString) :: chars_of s'
  end.

(** [for x in v]: the elements of a list, the characters of a string, the
    keys of a dict; other values are not iterable. *)
Definition py_iter (v : json) : Exc (list json) :=
  match v with
  | JList l => Ok l
  | JStr s => Ok (chars_of s)
  | JDict d => Ok (map (fun kv => JStr (fst kv)) d)
  | _ => Raise TypeError
  end.

Section Json.
Context `{PyRuntime}.

(** [repr(v)] and [str(v)]. *)
Fixpoint py_repr (v : json) : string :=
  match v with
  | JNull => "None"
  | JBool b => if b then "True" else "False"
  | JInt n => pretty n
  | JStr s => repr_str s
  | JList l => "[" +:+ String.concat ", " (map py_repr l) +:+ "]"
  | JDict d =>
      "{" +:+ String.concat ", "
               (map (fun kv => match kv with
                               | (k, x) => repr_str k +:+ ": " +:+ py_repr x
                               end) d) +:+ "}"
  end.

Definition py_str (v : json) : string :=
  match v with
  | JStr s => s
  | _ => py_repr v
  end.

(** [int(v)] *)
Definition py_int (v : json) : Exc Z :=
  match v with
  | JInt n => Ok n
  | JBool b => Ok (if b then 1 else 0)
  | JStr s => match int_of_str s with
              | Some n => Ok n
              | None => Raise ValueError
              end
  | JNull | JList _ | JDict _ => Raise TypeError
  end.

(** The handler [except (TypeError, ValueError)] covers the two classes
    [py_int] raises. *)
Definition _safe_int (value : json) (dflt : Z) : Z :=
  try_except_all
    (match value with
     | JNull => Ok dflt
     | _ => py_int value
     end)
    dflt.
End Json.

Definition opt_json (o : option string) : json :=
  match o with
  | Some s => JStr s
  | None => JNull
  end.

Definition opt_int_json (o : option Z) : json :=
  match o with
  | Some n => JInt n
  | None => JNull
  end.

(** ** kick_models.py

    [KickReward.progress] and [KickProgressReward.progress] are floats and
    are left out of the records; JSON numbers are integers. *)

Definition KICK_URL_PREFIX : string := "https://kick.com/".

Module KickChannel.
Record t := {
  slug : string;
  username : string;
  url : string;
  profile_picture : string;
}.

Section Methods.
Context `{PyRuntime}.

Definition from_campaign_channel (data : pydict) : Exc (option t) :=
  let slug := strip (py_str (py_or (dict_get data "slug") (JStr ""))) in
  if String.eqb slug "" then Ok None
  else
    let user := py_or (dict_get data "user") (JDict []) in
    uname ← py_get user "username";
    let username := py_str (py_or uname (JStr slug)) in
    pic ← py_get user "profile_picture";
    Ok (Some {| slug := slug;
                username := username;
                url := KICK_URL_PREFIX +:+ slug;
                profile_picture := py_str (py_or pic (JStr "")) |}).
End Methods.
End KickChannel.

Module KickReward.
Record t := {
  id : string;
  name : string;
  required_units : Z;
  image_url : string;
  claimed : bool;
}.

Section Methods.
Context `{PyRuntime}.

Definition from_api (data : pydict) : t :=
  {| id := py_str (py_or (dict_get data "id") (JStr ""));
     name := py_str (py_or (dict_get data "name") (JStr "Unknown Reward"));
     required_units := _safe_int (dict_get data "required_units") 0;
     image_url := py_str (py_or (py_or (dict_get data "image_url") (dict_get data "image")) (JStr ""));
     claimed := truthy (dict_get_default data "claimed" (JBool false)) |}.
End Methods.
End KickReward.

Module KickCampaign.
Record t := {
  id : string;
  name : string;
  game : string;
  game_slug : string;
  game_image : string;
  category_id : option Z;
  status : string;
  starts_at : json;
  ends_at : json;
  rewards : list KickReward.t;
  channels : list KickChannel.t;
  progress_status : string;
  progress_units : Z;
  raw : pydict;
}.

Section Methods.
Context `{PyRuntime}.

(** The loop that fills [channels]. *)
Fixpoint channels_of (src : list json) : Exc (list KickChannel.t) :=
  match src with
  | [] => Ok []
  | JDict d :: src' =>
      channel ← KickChannel.from_campaign_channel d;
      rest ← channels_of src';
      Ok (match channel with
          | Some c => c :: rest
          | None => rest
          end)
  | _ :: src' => channels_of src'
  end.

Definition rewards_of (src : list json) : list KickReward.t :=
  omap (fun r => match r with
                 | JDict d => Some (KickReward.from_api d)
                 | _ => None
                 end) src.

Definition from_api (data : pydict) : Exc t :=
  let category := py_or (dict_get data "category") (JDict []) in
  rewards_src ← py_iter (py_or (dict_get data "rewards") (JList []));
  let rewards := rewards_of rewards_src in
  channels_src ← py_iter (py_or (dict_get data "channels") (JList []));
  channels ← channels_of channels_src;
  cname ← py_get category "name";
  cslug ← py_get category "slug";
  cimage ← py_get category "image_url";
  cid ← py_get category "id";
  Ok {| id := py_str (py_or (dict_get data "id") (JStr ""));
        name := py_str (py_or (dict_get data "name") (JStr "Unknown Campaign"));
        game := py_str (py_or cname (JStr "Unknown Game"));
        game_slug := py_str (py_or cslug (JStr ""));
        game_image := py_str (py_or cimage (JStr ""));
        category_id := (let n := _safe_int cid 0 in if n =? 0 then None else Some n);
        status := py_str (py_or (dict_get data "status") (JStr "unknown"));
        starts_at := dict_get data "starts_at";
        ends_at := dict_get data "ends_at";
        rewards := rewards;
        channels := channels;
        progress_status := "not_started";
        progress_units := 0;
        raw := data |}.
End Methods.
End KickCampaign.

Module KickProgressReward.
Record t := {
  id : string;
  claimed : bool;
  required_units : Z;
  name : string;
}.

Section Methods.
Context `{PyRuntime}.

Definition from_api (data : pydict) : t :=
  {| id := py_str (py_or (dict_get data "id") (JStr ""));
     claimed := truthy (dict_get_default data "claimed" (JBool false));
     required_units := _safe_int (dict_get data "required_units") 0;
     name := py_str (py_or (dict_get data "name") (JStr "")) |}.
End Methods.
End KickProgressReward.

Module KickProgressCampaign.
Record t := {
  id : string;
  name : string;
  status : string;
  progress_units : Z;
  category_name : string;
  rewards : list KickProgressReward.t;
  raw : pydict;
}.

Section Methods.
Context `{PyRuntime}.

Definition rewards_of (src : list json) : list KickProgressReward.t :=
  omap (fun r => match r with
                 | JDict d => Some (KickProgressReward.from_api d)
                 | _ => None
                 end) src.

Definition from_api (data : pydict) : Exc t :=
  let category := py_or (dict_get data "category") (JDict []) in
  rewards_src ← py_iter (py_or (dict_get data "rewards") (JList []));
  cname ← py_get category "name";
  Ok {| id := py_str (py_or (dict_get data "id") (JStr ""));
        name := py_str (py_or (dict_get data "name") (JStr "Unknown Campaign"));
        status := py_str (py_or (dict_get data "status") (JStr "unknown"));
        progress_units := _safe_int (dict_get data "progress_units") 0;
        category_name := py_str (py_or cname (JStr "Unknown"));
        rewards := rewards_of rewards_src;
        raw := data |}.
End Methods.
End KickProgressCampaign.

Module QueueItem.
Record t := {
  url : string;
  minutes_target : Z;
  elapsed_seconds : Z;
  status : string;
  campaign_id : option string;
  campaign_name : option string;
  category_id : option Z;
  notes : string;
}.

#[global] Instance eq_dec : EqDecision t.
Proof. solve_decision. Defined.

(** Attribute assignments. *)
Definition with_url (self : t) (v : string) : t :=
  {| url := v; minutes_target := minutes_target self;
     elapsed_seconds := elapsed_seconds self; status := status self;
     campaign_id := campaign_id self; campaign_name := campaign_name self;
     category_id := category_id self; notes := notes self |}.
Definition with_elapsed_seconds (self : t) (v : Z) : t :=
  {| url := url self; minutes_target := minutes_target self;
     elapsed_seconds := v; status := status self;
     campaign_id := campaign_id self; campaign_name := campaign_name self;
     category_id := category_id self; notes := notes self |}.
Definition with_status (self : t) (v : string) : t :=
  {| url := url self; minutes_target := minutes_target self;
     elapsed_seconds := elapsed_seconds self; status := v;
     campaign_id := campaign_id self; campaign_name := campaign_name self;
     category_id := category_id self; notes := notes self |}.
Definition with_notes (self : t) (v : string) : t :=
  {| url := url self; minutes_target := minutes_target self;
     elapsed_seconds := elapsed_seconds self; status := status self;
     campaign_id := campaign_id self; campaign_name := campaign_name self;
     category_id := category_id self; notes := v |}.
(** [campaign_id], [campaign_name], [category_id] and [notes] at once. *)
Definition with_campaign (self : t) (cid cname : option string) (cat : option Z)
    (v : string) : t :=
  {| url := url self; minutes_target := minutes_target self;
     elapsed_seconds := elapsed_seconds self; status := status self;
     campaign_id := cid; campaign_name := cname;
     category_id := cat; notes := v |}.

Definition slug (self : t) : string :=
  strip (last_segment (rstrip_with is_slash (url self))).

Definition done (self : t) : bool :=
  (0 <? minutes_target self) && (minutes_target self * 60 <=? elapsed_seconds self).

(** [dataclasses.asdict] *)
Definition to_dict (self : t) : pydict :=
  [ ("url", JStr (url self));
    ("minutes_target", JInt (minutes_target self));
    ("elapsed_seconds", JInt (elapsed_seconds self));
    ("status", JStr (status self));
    ("campaign_id", opt_json (campaign_id self));
    ("campaign_name", opt_json (campaign_name self));
    ("category_id", opt_int_json (category_id self));
    ("notes", JStr (notes self)) ].

(** [campaign_id] and [campaign_name] are stored as found.  A value that
    is neither a string nor null would leave the declared type
    [str | None]: the typed record has no such item. *)
Definition typed_opt_str (v : json) : option (option string) :=
  match v with
  | JNull => Some None
  | JStr s => Some (Some s)
  | _ => None
  end.

Section Methods.
Context `{PyRuntime}.

Definition from_dict (data : pydict) : option t :=
  cid ← typed_opt_str (dict_get data "campaign_id");
  cname ← typed_opt_str (dict_get data "campaign_name");
  Some {| url := py_str (py_or (dict_get data "url") (JStr ""));
          minutes_target :=
            _safe_int (dict_get data "minutes_target") (_safe_int (dict_get data "minutes") 0);
          elapsed_seconds :=
            _safe_int (dict_get data "elapsed_seconds") (_safe_int (dict_get data "elapsed") 0);
          status := py_str (py_or (dict_get data "status") (JStr "PENDING"));
          campaign_id := cid;
          campaign_name := cname;
          category_id :=
            (let n := _safe_int (dict_get data "category_id") 0 in
             if n =? 0 then None else Some n);
          notes := py_str (py_or (dict_get data "notes") (JStr "")) |}.
End Methods.
End QueueItem.

Section Parsing.
Context `{PyRuntime}.

Definition dict_entries (data : list json) : list pydict :=
  omap (fun item => match item with
                    | JDict d => Some d
                    | _ => None
                    end) data.

Definition parse_campaigns_response (payload : pydict) : Exc (list KickCampaign.t) :=
  match py_or (dict_get payload "data") (JList []) with
  | JList data =>
      campaigns ← exc_map KickCampaign.from_api (dict_entries data);
      Ok (filter (fun c => KickCampaign.id c ≠ "") campaigns)
  | _ => Ok []
  end.

Definition parse_progress_response (payload : pydict) : Exc (list KickProgressCampaign.t) :=
  match py_or (dict_get payload "data") (JList []) with
  | JList data =>
      progress ← exc_map KickProgressCampaign.from_api (dict_entries data);
      Ok (filter (fun c => KickProgressCampaign.id c ≠ "") progress)
  | _ => Ok []
  end.
End Parsing.

(** ** app/kick_app.py *)

Definition ALL_GAMES_TOKEN : string := "__ALL_GAMES__".
Definition AUTO_GAMES_CHANNEL_SOURCE : string := "source=auto-games-channel".

Module AppConfig.
Record t := {
  queue_items : list QueueItem.t;
  hide_player : bool;
  auto_claim : bool;
  default_minutes : Z;
  watch_tick_seconds : Z;
  poll_interval_seconds : Z;
  browser_cookie_source : string;
  show_browser_window : bool;
  auto_refresh_progress : bool;
  auto_refresh_seconds : Z;
  login_username : string;
  auto_game_mining : bool;
  preferred_games : list string;
  language : string;
}.

Definition to_dict (self : t) : pydict :=
  [ ("queue_items", JList (map (fun item => JDict (QueueItem.to_dict item)) (queue_items self)));
    ("hide_player", JBool (hide_player self));
    ("auto_claim", JBool (auto_claim self));
    ("default_minutes", JInt (default_minutes self));
    ("watch_tick_seconds", JInt (watch_tick_seconds self));
    ("poll_interval_seconds", JInt (poll_interval_seconds self));
    ("browser_cookie_source", JStr (browser_cookie_source self));
    ("show_browser_window", JBool (show_browser_window self));
    ("auto_refresh_progress", JBool (auto_refresh_progress self));
    ("auto_refresh_seconds", JInt (auto_refresh_seconds self));
    ("login_username", JStr (login_username self));
    ("auto_game_mining", JBool (auto_game_mining self));
    ("preferred_games", JList (map JStr (preferred_games self)));
    ("language", JStr (language self)) ].

Section Methods.
Context `{PyRuntime}.

(** The loop over [raw_items]; [QueueItem.from_dict] raises nothing, so
    the [try] around it never skips an entry.  [None]: some entry lies
    outside the typed record. *)
Fixpoint items_of (raw_items : list json) : option (list QueueItem.t) :=
  match raw_items with
  | [] => Some []
  | JDict d :: rest =>
      item ← QueueItem.from_dict d;
      items ← items_of rest;
      Some (item :: items)
  | _ :: rest => items_of rest
  end.

Definition int_or (data : pydict) (k : string) (dflt : Z) : Exc Z :=
  py_int (py_or (dict_get_default data k (JInt dflt)) (JInt dflt)).

Definition from_dict (data : pydict) : Exc (option t) :=
  let raw_items :=
    py_or (py_or (dict_get data "queue_items") (dict_get data "items")) (JList []) in
  let items :=
    match raw_items with
    | JList l => items_of l
    | _ => Some []
    end in
  default_minutes ← int_or data "default_minutes" 120;
  watch_tick_seconds ← int_or data "watch_tick_seconds" 60;
  poll_interval_seconds ← int_or data "poll_interval_seconds" 20;
  auto_refresh_seconds ← int_or data "auto_refresh_seconds" 120;
  preferred_games ←
    match dict_get data "preferred_games" with
    | JList l => Ok (filter (fun g => g ≠ "") (map (fun v => strip (py_str v)) l))
    | _ => Ok []
    end;
  Ok (items ← items;
      Some {| queue_items := items;
              hide_player := truthy (dict_get_default data "hide_player" (JBool false));
              auto_claim := truthy (dict_get_default data "auto_claim" (JBool false));
              default_minutes := default_minutes;
              watch_tick_seconds := watch_tick_seconds;
              poll_interval_seconds := poll_interval_seconds;
              browser_cookie_source :=
                py_str (py_or (dict_get data "browser_cookie_source") (JStr "chrome"));
              show_browser_window :=
                truthy (dict_get_default data "show_browser_window" (JBool false));
              auto_refresh_progress :=
                truthy (dict_get_default data "auto_refresh_progress" (JBool true));
              auto_refresh_seconds := auto_refresh_seconds;
              login_username := strip (py_str (py_or (dict_get data "login_username") (JStr "")));
              auto_game_mining :=
                truthy (dict_get_default data "auto_game_mining" (JBool false));
              preferred_games := preferred_games;
              language :=
                str_or (lower (strip (py_str (py_or (dict_get data "language") (JStr "en")))))
                       "en" |}).
End Methods.
End AppConfig.

(** *** Python's [sorted(l, key=...)]: stable, by [<] on the keys. *)
Section PySorted.
Context {A K : Type} (key : A -> K) (ltb : K -> K -> bool).

Fixpoint insert_sorted (x : A) (l : list A) : list A :=
  match l with
  | [] => [x]
  | y :: l' => if ltb (key y) (key x) then y :: insert_sorted x l' else x :: l
  end.

Definition py_sorted (l : list A) : list A := foldr insert_sorted [] l.

(** [a] may stand before [b] in a sorted list: the key of [b] is not
    smaller. *)
Definition not_after (a b : A) : Prop := ltb (key b) (key a) = false.
End PySorted.

(** [<] on [(int, int, str)] tuples. *)
Definition sort_key : Type := Z * Z * string.

Definition sort_key_ltb (a b : sort_key) : bool :=
  match a, b with
  | (r1, v1, s1), (r2, v2, s2) =>
      (r1 <? r2) || ((r1 =? r2) && ((v1 <? v2) || ((v1 =? v2) && String.ltb s1 s2)))
  end.

(** What [browser.channel_live_status] returns (its [raw] entry is not
    read by the scheduler). *)
Record LiveInfo := {
  live : bool;
  viewer_count : Z;
  live_category_id : option Z;
}.

(** ** app/kick_browser.py *)

Module KickBrowserClient.
Section Methods.
Context `{PyRuntime}.

(** [x if isinstance(x, dict) else {}] *)
Definition dict_or_empty (v : json) : pydict :=
  match v with
  | JDict d => d
  | _ => []
  end.

(** The loop over [truthy_keys]: the first boolean found, looking at
    [stream] before [data] for each key, ends the loop. *)
Fixpoint live_flag (stream data : pydict) (keys : list string) : bool :=
  match keys with
  | [] => false
  | key :: keys' =>
      match dict_get stream key with
      | JBool b => b
      | _ =>
          match dict_get data key with
          | JBool b => b
          | _ => live_flag stream data keys'
          end
      end
  end.

Definition truthy_keys : list string := ["is_live"; "isLive"; "live"; "online"].
Definition stream_keys : list string :=
  ["id"; "session_title"; "created_at"; "playback_url"; "key"].

Definition is_none (v : json) : bool :=
  match v with
  | JNull => true
  | _ => false
  end.

(** [data]: the payload itself, or what it holds under [data]. *)
Definition payload_data (payload : pydict) : pydict :=
  dict_or_empty
    match dict_lookup payload "data" with
    | None => JDict payload
    | Some v => py_or v (JDict [])
    end.

(** [stream] *)
Definition data_stream (data : pydict) : pydict :=
  dict_or_empty
    (py_or (py_or (py_or (dict_get data "livestream") (dict_get data "stream"))
                  (dict_get data "live_stream")) (JDict [])).

(** [category_id] *)
Definition category_id_of (data stream : pydict) : option Z :=
  match py_or (py_or (dict_get stream "category") (dict_get data "category")) (JDict []) with
  | JDict c =>
      if is_none (dict_get c "id") then None
      else try_except_all (n ← py_int (dict_get c "id"); Ok (Some n)) None
  | _ => None
  end.

(** [live], after the loop over the flags and the heuristics. *)
Definition live_of (data stream : pydict) : bool :=
  if live_flag stream data truthy_keys then true
  else existsb (fun k => negb (is_none (dict_get stream k))) stream_keys.

(** [viewers] *)
Definition viewers_of (data stream : pydict) : json :=
  py_or (py_or (py_or (dict_get stream "viewer_count") (dict_get stream "viewers"))
               (dict_get data "viewer_count")) (JInt 0).

(** [channel_live_status], given what [_http_fetch_json] returned (a dict)
    or raised. *)
Definition channel_live_status (fetched : Exc pydict) : Exc LiveInfo :=
  payload ← fetched;
  let data := payload_data payload in
  let stream := data_stream data in
  viewer_count ← py_int (py_or (viewers_of data stream) (JInt 0));
  Ok {| live := live_of data stream; viewer_count := viewer_count;
        live_category_id := category_id_of data stream |}.
End Methods.
End KickBrowserClient.

(** The surroundings of one scheduler call: the clock and the remote
    service. *)
Record World := {
  now : Z;
  channel_live_status : string -> Exc LiveInfo;
}.

(** Address of a [QueueItem] object. *)
Abbreviation loc := nat.

(** A row of [desired_by_url]. *)
Record Row := {
  row_campaign : KickCampaign.t;
  row_channel : KickChannel.t;
  row_live : option bool;
  row_viewers : Z;
  row_sort_key : sort_key;
}.

(** The counters of one discovery run. *)
Record Counts := {
  visible : nat;
  added : nat;
  updated : nat;
  removed : nat;
}.

Module KickMinerApp.
(** The fields of the application object that the scheduler reads and
    writes.  [heap] holds the [QueueItem] objects; [queue_items] lists
    their addresses.  The two timing fields are those of [config];
    [_settings_game_vars] holds the games of the settings panel with the
    value of the check box of each. *)
Record t := {
  heap : list QueueItem.t;
  queue_items : list loc;
  campaigns : list KickCampaign.t;
  progress : list KickProgressCampaign.t;
  poll_interval_seconds : Z;
  watch_tick_seconds : Z;
  _force_switch_urls : gset string;
  _retry_campaign_hint_id : option string;
  _retry_campaign_hint_name : option string;
  _channel_live_cache : gmap string (option bool * Z * Z);
  _preferred_games_cached : list string;
  _settings_game_vars : list (string * bool);
  _shutting_down : bool;
  _session_state : string;
}.

Definition with_queue (self : t) (h : list QueueItem.t) (q : list loc) : t :=
  {| heap := h; queue_items := q; campaigns := campaigns self;
     progress := progress self;
     poll_interval_seconds := poll_interval_seconds self;
     watch_tick_seconds := watch_tick_seconds self;
     _force_switch_urls := _force_switch_urls self;
     _retry_campaign_hint_id := _retry_campaign_hint_id self;
     _retry_campaign_hint_name := _retry_campaign_hint_name self;
     _channel_live_cache := _channel_live_cache self;
     _preferred_games_cached := _preferred_games_cached self;
     _settings_game_vars := _settings_game_vars self;
     _shutting_down := _shutting_down self;
     _session_state := _session_state self |}.
Definition with_force_switch_urls (self : t) (v : gset string) : t :=
  {| heap := heap self; queue_items := queue_items self; campaigns := campaigns self;
     progress := progress self;
     poll_interval_seconds := poll_interval_seconds self;
     watch_tick_seconds := watch_tick_seconds self;
     _force_switch_urls := v;
     _retry_campaign_hint_id := _retry_campaign_hint_id self;
     _retry_campaign_hint_name := _retry_campaign_hint_name self;
     _channel_live_cache := _channel_live_cache self;
     _preferred_games_cached := _preferred_games_cached self;
     _settings_game_vars := _settings_game_vars self;
     _shutting_down := _shutting_down self;
     _session_state := _session_state self |}.
Definition with_retry_hint (self : t) (hid hname : option string) : t :=
  {| heap := heap self; queue_items := queue_items self; campaigns := campaigns self;
     progress := progress self;
     poll_interval_seconds := poll_interval_seconds self;
     watch_tick_seconds := watch_tick_seconds self;
     _force_switch_urls := _force_switch_urls self;
     _retry_campaign_hint_id := hid;
     _retry_campaign_hint_name := hname;
     _channel_live_cache := _channel_live_cache self;
     _preferred_games_cached := _preferred_games_cached self;
     _settings_game_vars := _settings_game_vars self;
     _shutting_down := _shutting_down self;
     _session_state := _session_state self |}.
Definition with_channel_live_cache (self : t) (v : gmap string (option bool * Z * Z)) : t :=
  {| heap := heap self; queue_items := queue_items self; campaigns := campaigns self;
     progress := progress self;
     poll_interval_seconds := poll_interval_seconds self;
     watch_tick_seconds := watch_tick_seconds self;
     _force_switch_urls := _force_switch_urls self;
     _retry_campaign_hint_id := _retry_campaign_hint_id self;
     _retry_campaign_hint_name := _retry_campaign_hint_name self;
     _channel_live_cache := v;
     _preferred_games_cached := _preferred_games_cached self;
     _settings_game_vars := _settings_game_vars self;
     _shutting_down := _shutting_down self;
     _session_state := _session_state self |}.
Definition with_preferred_games_cached (self : t) (v : list string) : t :=
  {| heap := heap self; queue_items := queue_items self; campaigns := campaigns self;
     progress := progress self;
     poll_interval_seconds := poll_interval_seconds self;
     watch_tick_seconds := watch_tick_seconds self;
     _force_switch_urls := _force_switch_urls self;
     _retry_campaign_hint_id := _retry_campaign_hint_id self;
     _retry_campaign_hint_name := _retry_campaign_hint_name self;
     _channel_live_cache := _channel_live_cache self;
     _preferred_games_cached := v;
     _settings_game_vars := _settings_game_vars self;
     _shutting_down := _shutting_down self;
     _session_state := _session_state self |}.

(** *** Force-switch requests (guarded by [_force_switch_lock]) *)

Definition _request_force_channel_switch (self : t) (url : string) : t :=
  let target := strip url in
  if String.eqb target "" then self
  else with_force_switch_urls self ({[target]} ∪ _force_switch_urls self).

Definition _consume_force_channel_switch (self : t) (url : string) : t * bool :=
  let target := strip url in
  if String.eqb target "" then (self, false)
  else if bool_decide (target ∈ _force_switch_urls self)
       then (with_force_switch_urls self (_force_switch_urls self ∖ {[target]}), true)
       else (self, false).

(** *** Queue lookups *)

Fixpoint find_loc_by_url (h : list QueueItem.t) (q : list loc) (url : string) : option loc :=
  match q with
  | [] => None
  | l :: q' =>
      match h !! l with
      | Some item => if String.eqb (QueueItem.url item) url then Some l
                     else find_loc_by_url h q' url
      | None => find_loc_by_url h q' url
      end
  end.

Definition _find_item_by_url (self : t) (url : string) : option loc :=
  find_loc_by_url (heap self) (queue_items self) url.

(** [queue_items.index(item)] *)
Fixpoint index_of (q : list loc) (l : loc) : option nat :=
  match q with
  | [] => None
  | l' :: q' => if Nat.eqb l' l then Some 0%nat else S <$> index_of q' l
  end.

(** The keyword arguments of [post_update_item]. *)
Record Changes := {
  ch_status : option string;
  ch_notes : option string;
}.

Definition apply_changes (item : QueueItem.t) (changes : Changes) : QueueItem.t :=
  let item := match ch_status changes with
              | Some v => QueueItem.with_status item v
              | None => item
              end in
  match ch_notes changes with
  | Some v => QueueItem.with_notes item v
  | None => item
  end.

Definition is_final_status (s : string) : bool :=
  String.eqb s "FINISHED" || String.eqb s "EXPIRED".

Section Methods.
Context `{PyRuntime}.

Definition none_if_empty (s : string) : option string :=
  if String.eqb s "" then None else Some s.

Definition _ui_set_retry_campaign_hint (self : t)
    (campaign_id campaign_name : option string) : t :=
  with_retry_hint self
    (none_if_empty (strip (opt_str campaign_id)))
    (none_if_empty (lower (strip (opt_str campaign_name)))).

(** *** Progress and expiry of campaigns *)

Definition _is_progress_campaign_finished
    (progress_campaign : option KickProgressCampaign.t) : bool :=
  match progress_campaign with
  | None => false
  | Some p =>
      match KickProgressCampaign.rewards p with
      | [] =>
          let status := lower (strip (KickProgressCampaign.status p)) in
          bool_decide (status ∈ ["claimed"; "completed"; "finished"; "done"])
      | rewards => forallb KickProgressReward.claimed rewards
      end
  end.

Definition _resolve_item_progress_campaign (item : QueueItem.t)
    (progress_by_id progress_by_name : gmap string KickProgressCampaign.t)
    : option KickProgressCampaign.t :=
  let progress_campaign :=
    if opt_truthy (QueueItem.campaign_id item)
    then progress_by_id !! opt_str (QueueItem.campaign_id item)
    else None in
  match progress_campaign with
  | None =>
      if opt_truthy (QueueItem.campaign_name item)
      then progress_by_name !! lower (strip (opt_str (QueueItem.campaign_name item)))
      else None
  | found => found
  end.

Definition _parse_kick_datetime (value : json) : option Z :=
  let raw := strip (py_str (py_or value (JStr ""))) in
  if String.eqb raw "" then None else utc_timestamp raw.

Definition expired_tokens : list string := ["expired"; "ended"; "closed"; "past"].

Definition _is_campaign_expired (w : World) (campaign : option KickCampaign.t) : bool :=
  match campaign with
  | None => false
  | Some c =>
      let status_values :=
        [ replace_space_underscore (lower (strip (KickCampaign.status c)));
          replace_space_underscore (lower (strip (KickCampaign.progress_status c))) ] in
      if existsb (fun value => bool_decide (value ∈ expired_tokens))
                 (filter (fun value => value ≠ "") status_values)
      then true
      else
        match _parse_kick_datetime (KickCampaign.ends_at c) with
        | Some ends_at => ends_at <=? now w
        | None => false
        end
  end.

(** *** The game selection *)

(** The loop of [_normalize_preferred_games] that fills [cleaned]. *)
Fixpoint clean_games (seen : gset string) (values : list string) : list string :=
  match values with
  | [] => []
  | raw :: rest =>
      let game := strip raw in
      if String.eqb game "" then clean_games seen rest
      else
        let key := casefold game in
        if bool_decide (key ∈ seen) then clean_games seen rest
        else game :: clean_games ({[key]} ∪ seen) rest
  end.

(** A [None] argument is read as the empty list. *)
Definition _normalize_preferred_games (values : list string) : list string :=
  let cleaned := clean_games ∅ values in
  if existsb (fun game => String.eqb game ALL_GAMES_TOKEN) cleaned
  then [ALL_GAMES_TOKEN]
  else
    match cleaned with
    | [] => [ALL_GAMES_TOKEN]
    | _ => py_sorted casefold String.ltb cleaned
    end.

Definition selected_of (normalized : list string) : gset string :=
  list_to_set
    (map (fun game => casefold (strip game))
         (filter (fun game => game ≠ ALL_GAMES_TOKEN ∧ strip game ≠ "") normalized)).

Definition _preferred_game_filter (self : t) : t * (bool * gset string) :=
  let normalized := _normalize_preferred_games (_preferred_games_cached self) in
  let self := with_preferred_games_cached self normalized in
  let mine_all := bool_decide (ALL_GAMES_TOKEN ∈ normalized) in
  (self, (mine_all, selected_of normalized)).

(** *** Discovery helpers *)

Definition _is_auto_games_channel_item (item : QueueItem.t) : bool :=
  contains (QueueItem.notes item) AUTO_GAMES_CHANNEL_SOURCE.

Definition _build_auto_games_item_notes (campaign : KickCampaign.t)
    (channel : KickChannel.t) (viewers : Z) : string :=
  AUTO_GAMES_CHANNEL_SOURCE +:+ " | " +:+
  "game=" +:+ KickCampaign.game campaign +:+ " | auto=" +:+ KickChannel.slug channel +:+
  " (" +:+ pretty (Z.max 0 viewers) +:+ " viewers)".

Definition _channel_live_sort_key (live : option bool) (viewers : Z) (slug : string)
    : sort_key :=
  let rank :=
    match live with
    | Some true => 0
    | Some false => 1
    | None => 2
    end in
  (rank, - Z.max 0 viewers, casefold slug).

(** *** The liveness cache *)

Definition cached_pair (cached : option (option bool * Z * Z)) : option bool * Z :=
  match cached with
  | Some (l, v, _) => (l, v)
  | None => (None, 0)
  end.

Definition is_fresh (w : World) (cached : option (option bool * Z * Z)) (max_age_seconds : Z)
    : bool :=
  match cached with
  | Some (_, _, ts) => now w - ts <=? max_age_seconds
  | None => false
  end.

Definition _get_channel_live_snapshot (w : World)
    (cache : gmap string (option bool * Z * Z))
    (slug : string) (max_age_seconds : Z) (use_network : bool)
    : (option bool * Z) * gmap string (option bool * Z * Z) :=
  let cached := cache !! slug in
  if is_fresh w cached max_age_seconds then (cached_pair cached, cache)
  else if negb use_network then (cached_pair cached, cache)
  else
    try_except_all
      (info ← channel_live_status w slug;
       let live := live info in
       let viewers := viewer_count info in
       Ok ((Some live, viewers), <[slug := (Some live, viewers, now w)]> cache))
      (cached_pair cached, cache).

(** *** [_auto_queue_selected_games] *)

(** The body of the loop over the channels of one campaign. *)
Definition desired_channel (w : World) (campaign : KickCampaign.t)
    (acc : gmap string (option bool * Z * Z) * list (string * Row))
    (channel : KickChannel.t)
    : gmap string (option bool * Z * Z) * list (string * Row) :=
  let '(cache, desired_by_url) := acc in
  let slug := strip (KickChannel.slug channel) in
  if String.eqb slug "" then acc
  else
    let url := strip (str_or (KickChannel.url channel) (KICK_URL_PREFIX +:+ slug)) in
    if String.eqb url "" then acc
    else
      let '(live, viewers, cache) := _get_channel_live_snapshot w cache slug 45 true in
      let sort_key := _channel_live_sort_key live viewers slug in
      let row := {| row_campaign := campaign; row_channel := channel;
                    row_live := live; row_viewers := viewers;
                    row_sort_key := sort_key |} in
      match dict_lookup desired_by_url url with
      | Some previous =>
          if sort_key_ltb sort_key (row_sort_key previous)
          then (cache, dict_set desired_by_url url row)
          else (cache, desired_by_url)
      | None => (cache, dict_set desired_by_url url row)
      end.

(** The body of the loop over the campaigns. *)
Definition desired_campaign (w : World) (mine_all : bool) (selected_games : gset string)
    (acc : gmap string (option bool * Z * Z) * list (string * Row))
    (campaign : KickCampaign.t)
    : gmap string (option bool * Z * Z) * list (string * Row) :=
  let game_key := casefold (strip (KickCampaign.game campaign)) in
  if negb mine_all && negb (bool_decide (game_key ∈ selected_games)) then acc
  else if _is_campaign_expired w (Some campaign) then acc
  else foldl (desired_channel w campaign) acc (KickCampaign.channels campaign).

Definition desired_by_url_of (w : World) (mine_all : bool) (selected_games : gset string)
    (campaigns : list KickCampaign.t) (cache : gmap string (option bool * Z * Z))
    : gmap string (option bool * Z * Z) * list (string * Row) :=
  foldl (desired_campaign w mine_all selected_games) (cache, []) campaigns.

Definition existing_by_url_of (h : list QueueItem.t) (q : list loc) : gmap string loc :=
  foldl (fun m l =>
           match h !! l with
           | Some item =>
               let u := QueueItem.url item in
               if negb (String.eqb u "") && bool_decide (m !! u = None)
               then <[u := l]> m else m
           | None => m
           end) ∅ q.

Record Reconcile := {
  r_heap : list QueueItem.t;
  r_added : nat;
  r_updated : nat;
  r_ordered_urls : gset string;
  r_final_queue : list loc;
}.

Definition row_url (row : Row) : string :=
  let channel := row_channel row in
  str_or (KickChannel.url channel) (KICK_URL_PREFIX +:+ KickChannel.slug channel).

Definition linkage (item : QueueItem.t)
    : option string * option string * option Z * string * string :=
  (QueueItem.campaign_id item, QueueItem.campaign_name item,
   QueueItem.category_id item, QueueItem.notes item, QueueItem.status item).

(** The body of the loop over [ordered].  An address found in
    [existing_by_url] always holds an object; the branch without one
    leaves the accumulator as it is. *)
Definition reconcile_row (existing_by_url : gmap string loc) (acc : Reconcile) (row : Row)
    : Reconcile :=
  let campaign := row_campaign row in
  let channel := row_channel row in
  let viewers := row_viewers row in
  let url := row_url row in
  match existing_by_url !! url with
  | None =>
      let existing :=
        {| QueueItem.url := url;
           QueueItem.minutes_target := 0;
           QueueItem.elapsed_seconds := 0;
           QueueItem.status := "PENDING";
           QueueItem.campaign_id := Some (KickCampaign.id campaign);
           QueueItem.campaign_name := Some (KickCampaign.name campaign);
           QueueItem.category_id := KickCampaign.category_id campaign;
           QueueItem.notes := _build_auto_games_item_notes campaign channel viewers |} in
      {| r_heap := r_heap acc ++ [existing];
         r_added := S (r_added acc);
         r_updated := r_updated acc;
         r_ordered_urls := {[url]} ∪ r_ordered_urls acc;
         r_final_queue := r_final_queue acc ++ [length (r_heap acc)] |}
  | Some l =>
      match r_heap acc !! l with
      | None => acc
      | Some existing =>
          let before := linkage existing in
          let existing :=
            QueueItem.with_campaign existing
              (Some (KickCampaign.id campaign)) (Some (KickCampaign.name campaign))
              (KickCampaign.category_id campaign)
              (_build_auto_games_item_notes campaign channel viewers) in
          let existing :=
            if String.eqb (QueueItem.status existing) "EXPIRED"
            then QueueItem.with_status existing "PENDING" else existing in
          let after := linkage existing in
          {| r_heap := <[l := existing]> (r_heap acc);
             r_added := r_added acc;
             r_updated := if bool_decide (after ≠ before)
                          then S (r_updated acc) else r_updated acc;
             r_ordered_urls := {[url]} ∪ r_ordered_urls acc;
             r_final_queue := r_final_queue acc ++ [l] |}
      end
  end.

(** The body of the last loop, over the old queue. *)
Definition keep_survivor (h : list QueueItem.t) (ordered_urls : gset string)
    (acc : list loc * nat) (l : loc) : list loc * nat :=
  match h !! l with
  | None => acc
  | Some item =>
      if bool_decide (QueueItem.url item ∈ ordered_urls) then acc
      else if _is_auto_games_channel_item item then (fst acc, S (snd acc))
      else ((fst acc ++ [l])%list, snd acc)
  end.

Definition no_counts : Counts :=
  {| visible := 0; added := 0; updated := 0; removed := 0 |}.

(** Returns the new state and the counters of the summary line (the
    Python function returns [added]).  [a is not b] compares
    addresses, so [order_or_size_changed] is inequality of the two
    address lists. *)
Definition _auto_queue_selected_games (w : World) (self : t) : t * Counts :=
  let '(self, (mine_all, selected_games)) := _preferred_game_filter self in
  match campaigns self with
  | [] => (self, no_counts)
  | _ =>
      if negb mine_all && bool_decide (selected_games = ∅) then (self, no_counts)
      else
        let '(cache, desired_by_url) :=
          desired_by_url_of w mine_all selected_games (campaigns self)
            (_channel_live_cache self) in
        let ordered := py_sorted row_sort_key sort_key_ltb (map snd desired_by_url) in
        let existing_by_url := existing_by_url_of (heap self) (queue_items self) in
        let acc :=
          foldl (reconcile_row existing_by_url)
            {| r_heap := heap self; r_added := 0; r_updated := 0;
               r_ordered_urls := ∅; r_final_queue := [] |}
            ordered in
        let '(final_queue, removed) :=
          foldl (keep_survivor (r_heap acc) (r_ordered_urls acc))
            (r_final_queue acc, 0%nat) (queue_items self) in
        let order_or_size_changed := bool_decide (final_queue ≠ queue_items self) in
        let queue := if order_or_size_changed then final_queue else queue_items self in
        (with_channel_live_cache (with_queue self (r_heap acc) queue) cache,
         {| visible := length ordered; added := r_added acc;
            updated := r_updated acc; removed := removed |})
  end.

(** *** Next-item selection *)

(** A dict comprehension: later entries replace earlier ones. *)
Definition dict_of {V} (kvs : list (string * V)) : gmap string V :=
  foldl (fun m kv => <[fst kv := snd kv]> m) ∅ kvs.

Definition _resolve_queue_item_campaign (item : QueueItem.t)
    (campaign_by_id campaign_by_name : gmap string KickCampaign.t)
    : option KickCampaign.t :=
  let campaign :=
    if opt_truthy (QueueItem.campaign_id item)
    then campaign_by_id !! opt_str (QueueItem.campaign_id item)
    else None in
  match campaign with
  | None =>
      if opt_truthy (QueueItem.campaign_name item)
      then campaign_by_name !! lower (strip (opt_str (QueueItem.campaign_name item)))
      else None
  | found => found
  end.

Record PickState := {
  p_cache : gmap string (option bool * Z * Z);
  best_live : option KickChannel.t;
  best_live_viewers : Z;
  fallback : option KickChannel.t;
  fallback_viewers : Z;
}.

Definition pick_step (w : World) (use_network : bool) (st : PickState)
    (channel : KickChannel.t) : PickState :=
  let '(live, viewers, cache) :=
    _get_channel_live_snapshot w (p_cache st) (KickChannel.slug channel) 45 use_network in
  let take_fallback :=
    match fallback st with
    | None => true
    | Some _ => fallback_viewers st <? viewers
    end in
  let take_live :=
    match live with
    | Some true => best_live_viewers st <=? viewers
    | _ => false
    end in
  {| p_cache := cache;
     best_live := if take_live then Some channel else best_live st;
     best_live_viewers := if take_live then viewers else best_live_viewers st;
     fallback := if take_fallback then Some channel else fallback st;
     fallback_viewers := if take_fallback then viewers else fallback_viewers st |}.

Definition _pick_preferred_channel_for_campaign (w : World)
    (cache : gmap string (option bool * Z * Z)) (campaign : KickCampaign.t)
    (use_network : bool)
    : (option KickChannel.t * bool * Z) * gmap string (option bool * Z * Z) :=
  match KickCampaign.channels campaign with
  | [] => ((None, false, 0), cache)
  | channels =>
      let st :=
        foldl (pick_step w use_network)
          {| p_cache := cache; best_live := None; best_live_viewers := -1;
             fallback := None; fallback_viewers := -1 |}
          channels in
      match best_live st, fallback st with
      | Some c, _ => ((Some c, true, Z.max 0 (best_live_viewers st)), p_cache st)
      | None, Some c => ((Some c, false, Z.max 0 (fallback_viewers st)), p_cache st)
      | None, None => ((None, false, 0), p_cache st)
      end
  end.

(** Returns [(is_live, viewers)], the item after its assignments, and
    the cache. *)
Definition _set_item_channel_for_campaign (w : World)
    (cache : gmap string (option bool * Z * Z)) (item : QueueItem.t)
    (campaign : option KickCampaign.t) (use_network : bool)
    : (bool * Z) * QueueItem.t * gmap string (option bool * Z * Z) :=
  match campaign with
  | None => ((false, 0), item, cache)
  | Some campaign =>
      let '((preferred, is_live, viewers), cache) :=
        _pick_preferred_channel_for_campaign w cache campaign use_network in
      match preferred with
      | None => ((false, 0), item, cache)
      | Some preferred =>
          let item :=
            if String.eqb (QueueItem.url item) (KickChannel.url preferred) then item
            else QueueItem.with_url item (KickChannel.url preferred) in
          let item :=
            QueueItem.with_campaign item
              (Some (KickCampaign.id campaign)) (Some (KickCampaign.name campaign))
              (KickCampaign.category_id campaign)
              ("game=" +:+ KickCampaign.game campaign +:+ " | auto=" +:+
               KickChannel.slug preferred +:+ " (" +:+ pretty viewers +:+ " viewers)") in
          ((is_live, viewers), item, cache)
      end
  end.

(** What [get_next_queue_item] computes before its loop. *)
Record Lookups := {
  auto_filter : bool;
  selected_games : gset string;
  campaign_by_id : gmap string KickCampaign.t;
  campaign_by_name : gmap string KickCampaign.t;
  progress_by_id : gmap string KickProgressCampaign.t;
  progress_by_name : gmap string KickProgressCampaign.t;
}.

Definition lookups_of (self : t) (mine_all : bool) (selected : gset string) : Lookups :=
  {| auto_filter := negb mine_all && negb (bool_decide (selected = ∅));
     selected_games := selected;
     campaign_by_id :=
       dict_of (map (fun c => (KickCampaign.id c, c))
                    (filter (fun c => KickCampaign.id c ≠ "") (campaigns self)));
     campaign_by_name :=
       dict_of (map (fun c => (lower (strip (KickCampaign.name c)), c))
                    (filter (fun c => strip (KickCampaign.name c) ≠ "") (campaigns self)));
     progress_by_id :=
       dict_of (map (fun c => (KickProgressCampaign.id c, c))
                    (filter (fun c => KickProgressCampaign.id c ≠ "") (progress self)));
     progress_by_name :=
       dict_of (map (fun c => (lower (strip (KickProgressCampaign.name c)), c))
                    (filter (fun c => strip (KickProgressCampaign.name c) ≠ "")
                            (progress self))) |}.

(** The test of the game filter on an item whose campaign is [campaign]. *)
Definition game_filtered_out (lk : Lookups) (item : QueueItem.t)
    (campaign : option KickCampaign.t) : bool :=
  if auto_filter lk
     && (opt_truthy (QueueItem.campaign_id item) || opt_truthy (QueueItem.campaign_name item))
  then
    match campaign with
    | Some c =>
        let game_name := casefold (strip (KickCampaign.game c)) in
        negb (String.eqb game_name "") && negb (bool_decide (game_name ∈ selected_games lk))
    | None => false
    end
  else false.

(** One pass of the loop body on one item: either the item is left
    behind by a [continue] ([Skip], with the item as assigned so far),
    or it reaches the liveness test ([Candidate]). *)
Inductive Verdict :=
  | Skip (item : QueueItem.t)
  | Candidate (item : QueueItem.t) (cache : gmap string (option bool * Z * Z))
              (is_live : bool) (viewers : Z).

Definition examine_item (w : World) (lk : Lookups)
    (cache : gmap string (option bool * Z * Z)) (item : QueueItem.t) : Verdict :=
  if (0 <? QueueItem.minutes_target item) && QueueItem.done item
  then Skip (QueueItem.with_status item "FINISHED")
  else
    let progress_campaign :=
      _resolve_item_progress_campaign item (progress_by_id lk) (progress_by_name lk) in
    let item :=
      if _is_progress_campaign_finished progress_campaign
      then QueueItem.with_status item "FINISHED" else item in
    if is_final_status (QueueItem.status item) then Skip item
    else
      let item :=
        if String.eqb (QueueItem.status item) "STOPPED"
        then QueueItem.with_status item "PENDING" else item in
      let campaign :=
        _resolve_queue_item_campaign item (campaign_by_id lk) (campaign_by_name lk) in
      if _is_campaign_expired w campaign
      then Skip (QueueItem.with_notes (QueueItem.with_status item "EXPIRED")
                   "campaign expired")
      else if game_filtered_out lk item campaign then Skip item
      else if _is_auto_games_channel_item item then
        let '(live_snapshot, viewers, cache) :=
          _get_channel_live_snapshot w cache (QueueItem.slug item) 30 true in
        Candidate item cache
          (match live_snapshot with Some true => true | _ => false end) viewers
      else
        let '((is_live, viewers), item, cache) :=
          _set_item_channel_for_campaign w cache item campaign true in
        Candidate item cache is_live viewers.

(** The loop over [ordered_items].  An address of the queue always
    holds an object; one without is passed over. *)
Fixpoint next_item_loop (w : World) (lk : Lookups) (h : list QueueItem.t)
    (cache : gmap string (option bool * Z * Z))
    (fallback_item : option loc) (fallback_live_viewers : Z) (items : list loc)
    : list QueueItem.t * gmap string (option bool * Z * Z) * option loc :=
  match items with
  | [] => (h, cache, fallback_item)
  | l :: rest =>
      match h !! l with
      | None => next_item_loop w lk h cache fallback_item fallback_live_viewers rest
      | Some item =>
          match examine_item w lk cache item with
          | Skip item =>
              next_item_loop w lk (<[l := item]> h) cache
                fallback_item fallback_live_viewers rest
          | Candidate item cache is_live viewers =>
              let h := <[l := item]> h in
              if is_live then (h, cache, Some l)
              else
                match fallback_item with
                | Some _ =>
                    if fallback_live_viewers <? viewers
                    then next_item_loop w lk h cache (Some l) viewers rest
                    else next_item_loop w lk h cache
                           fallback_item fallback_live_viewers rest
                | None => next_item_loop w lk h cache (Some l) viewers rest
                end
          end
      end
  end.

Definition hint_matches (hint_id hint_name : string) (item : QueueItem.t) : bool :=
  let item_id := strip (opt_str (QueueItem.campaign_id item)) in
  let item_name := lower (strip (opt_str (QueueItem.campaign_name item))) in
  (negb (String.eqb hint_id "") && String.eqb item_id hint_id)
  || (negb (String.eqb hint_name "") && String.eqb item_name hint_name).

Definition loc_matches (h : list QueueItem.t) (hint_id hint_name : string) (l : loc) : bool :=
  match h !! l with
  | Some item => hint_matches hint_id hint_name item
  | None => false
  end.

(** The loop that fills [preferred_items] and [other_items]. *)
Definition partition_step (h : list QueueItem.t) (hint_id hint_name : string)
    (acc : list loc * list loc) (l : loc) : list loc * list loc :=
  if loc_matches h hint_id hint_name l
  then ((fst acc ++ [l])%list, snd acc)
  else (fst acc, (snd acc ++ [l])%list).

(** [ordered_items], with the hint fields as the branch leaves them. *)
Definition ordered_items_of (self : t) : t * list loc :=
  let hint_id := strip (opt_str (_retry_campaign_hint_id self)) in
  let hint_name := lower (strip (opt_str (_retry_campaign_hint_name self))) in
  if negb (String.eqb hint_id "") || negb (String.eqb hint_name "") then
    let '(preferred_items, other_items) :=
      foldl (partition_step (heap self) hint_id hint_name) ([], []) (queue_items self) in
    match preferred_items with
    | [] => (with_retry_hint self None None, queue_items self)
    | _ => (self, (preferred_items ++ other_items)%list)
    end
  else (self, queue_items self).

Definition get_next_queue_item (w : World) (self : t) : t * option loc :=
  let '(self, (mine_all, selected)) := _preferred_game_filter self in
  let lk := lookups_of self mine_all selected in
  let '(self, ordered_items) := ordered_items_of self in
  let '(h, cache, result) :=
    next_item_loop w lk (heap self) (_channel_live_cache self) None (-1) ordered_items in
  (with_channel_live_cache (with_queue self h (queue_items self)) cache, result).

(** *** [save_config]

    Of its assignments, those to the game selection; the others go to
    [self.config].  The write of the configuration file comes last: an
    exception it raises finds these assignments made, and what it does
    to the caller is not modelled. *)

Definition _get_selected_games_from_settings (self : t) : list string :=
  _normalize_preferred_games
    (map fst (filter (fun gv => snd gv = true) (_settings_game_vars self))).

Definition save_config (self : t) : t :=
  let self :=
    match _settings_game_vars self with
    | [] => self
    | _ => with_preferred_games_cached self (_get_selected_games_from_settings self)
    end in
  with_preferred_games_cached self
    (_normalize_preferred_games (_preferred_games_cached self)).

(** *** [_refresh_queue_tree]

    The redraw of the queue view also marks the items: as it comes to an
    item it sets the status to [EXPIRED] when the campaign of the item is
    expired and to [FINISHED] when its progress campaign is fully claimed.
    The texts and tags of the row, computed next, go to the tree widget;
    the liveness of the row is read from the cache without a request.
    After the loop the mining panel is redrawn from the queue and the
    configuration is saved. *)

(** The two assignments to [item.status]. *)
Definition refresh_item (w : World)
    (campaign_by_id campaign_by_name : gmap string KickCampaign.t)
    (progress_by_id progress_by_name : gmap string KickProgressCampaign.t)
    (item : QueueItem.t) : QueueItem.t :=
  let campaign := _resolve_queue_item_campaign item campaign_by_id campaign_by_name in
  let item :=
    if _is_campaign_expired w campaign then QueueItem.with_status item "EXPIRED" else item in
  let progress_campaign :=
    _resolve_item_progress_campaign item progress_by_id progress_by_name in
  if _is_progress_campaign_finished progress_campaign
  then QueueItem.with_status item "FINISHED" else item.

(** One turn of the loop over [enumerate(self.queue_items)]. *)
Definition refresh_row (w : World)
    (campaign_by_id campaign_by_name : gmap string KickCampaign.t)
    (progress_by_id progress_by_name : gmap string KickProgressCampaign.t)
    (acc : list QueueItem.t * gmap string (option bool * Z * Z)) (l : loc)
    : list QueueItem.t * gmap string (option bool * Z * Z) :=
  match acc.1 !! l with
  | None => acc
  | Some item =>
      let item :=
        refresh_item w campaign_by_id campaign_by_name progress_by_id progress_by_name item in
      let '(_, cache) :=
        _get_channel_live_snapshot w acc.2 (QueueItem.slug item) 120 false in
      (<[l := item]> acc.1, cache)
  end.

Definition _refresh_queue_tree (w : World) (self : t) : t :=
  let campaign_by_id :=
    dict_of (map (fun c => (KickCampaign.id c, c))
                 (filter (fun c => KickCampaign.id c ≠ "") (campaigns self))) in
  let campaign_by_name :=
    dict_of (map (fun c => (lower (strip (KickCampaign.name c)), c))
                 (filter (fun c => strip (KickCampaign.name c) ≠ "") (campaigns self))) in
  let progress_by_id :=
    dict_of (map (fun c => (KickProgressCampaign.id c, c))
                 (filter (fun c => KickProgressCampaign.id c ≠ "") (progress self))) in
  let progress_by_name :=
    dict_of (map (fun c => (lower (strip (KickProgressCampaign.name c)), c))
                 (filter (fun c => strip (KickProgressCampaign.name c) ≠ "")
                         (progress self))) in
  let '(h, cache) :=
    foldl (refresh_row w campaign_by_id campaign_by_name progress_by_id progress_by_name)
      (heap self, _channel_live_cache self) (queue_items self) in
  save_config (with_channel_live_cache (with_queue self h (queue_items self)) cache).

(** *** The handlers run by the message consumer *)

Definition _ui_worker_stopped (w : World) (self : t) : t :=
  _refresh_queue_tree w self.

(** Here an exception of the file write is caught and logged; the
    assignments are made before it. *)
Definition _ui_save_config (self : t) : t := save_config self.

Definition _ui_update_item (w : World) (self : t) (url : string) (changes : Changes) : t :=
  match _find_item_by_url self url with
  | None => self
  | Some l =>
      match heap self !! l with
      | None => self
      | Some item =>
          let item := apply_changes item changes in
          let item :=
            if QueueItem.done item && negb (String.eqb (QueueItem.status item) "FINISHED")
            then QueueItem.with_status item "FINISHED" else item in
          let self := with_queue self (<[l := item]> (heap self)) (queue_items self) in
          let self :=
            if is_final_status (QueueItem.status item) then
              let hint_id := opt_str (_retry_campaign_hint_id self) in
              let hint_name := opt_str (_retry_campaign_hint_name self) in
              let item_id := opt_str (QueueItem.campaign_id item) in
              let item_name := lower (strip (opt_str (QueueItem.campaign_name item))) in
              if (negb (String.eqb hint_id "") && String.eqb item_id hint_id)
                 || (negb (String.eqb hint_name "") && String.eqb item_name hint_name)
              then with_retry_hint self None None
              else self
            else self in
          _refresh_queue_tree w self
      end
  end.

Definition _ui_increment_elapsed (w : World) (self : t) (url : string) (seconds : Z) : t :=
  match _find_item_by_url self url with
  | None => self
  | Some l =>
      match heap self !! l with
      | None => self
      | Some item =>
          let item :=
            QueueItem.with_elapsed_seconds item
              (QueueItem.elapsed_seconds item + Z.max 1 seconds) in
          let item :=
            if QueueItem.done item then QueueItem.with_status item "FINISHED" else item in
          _refresh_queue_tree w
            (with_queue self (<[l := item]> (heap self)) (queue_items self))
      end
  end.

(** [index] compares with [==]; the first item equal to the one found by
    URL is that item itself, no earlier item having its URL. *)
Definition _ui_rotate_item (w : World) (self : t) (url : string) : t :=
  match _find_item_by_url self url with
  | None => self
  | Some l =>
      match index_of (queue_items self) l with
      | None => self
      | Some idx =>
          if (idx <? length (queue_items self) - 1)%nat
          then _refresh_queue_tree w
                 (with_queue self (heap self)
                    (take idx (queue_items self) ++ drop (S idx) (queue_items self) ++ [l]))
          else self
      end
  end.

(** *** Starting the worker

    [worker] is [self.worker]: whether its thread is alive and the URL
    it is on.  The thread [start_queue] starts is not part of the state
    returned. *)
Record WorkerHandle := {
  is_alive : bool;
  worker_current_url : string;
}.

Definition worker_alive (worker : option WorkerHandle) : bool :=
  match worker with
  | Some handle => is_alive handle
  | None => false
  end.

(** [silent] chooses whether the dialogs and the status line are shown. *)
Definition start_queue (self : t) (worker : option WorkerHandle) (silent : bool) : t * bool :=
  if worker_alive worker then (self, true)
  else
    match queue_items self with
    | [] => (self, false)
    | _ => (save_config self, true)
    end.

Definition _ensure_queue_worker_running (self : t) (worker : option WorkerHandle) : t :=
  if _shutting_down self then self
  else if negb (String.eqb (_session_state self) "logged_in") then self
  else if worker_alive worker then self
  else
    match queue_items self with
    | [] => self
    | _ => (start_queue self worker true).1
    end.

(** *** Editing the queue by hand

    [selected] stands for [int(iid)] over the selection of the queue
    tree, whose row ids are the positions [0], [1], ... of the queue. *)

Definition pair_ltb (a b : Z * Z) : bool :=
  (fst a <? fst b) || ((fst a =? fst b) && (snd a <? snd b)).

(** [0 <= idx < len(q)] *)
Definition in_range (q : list loc) (idx : Z) : bool :=
  (0 <=? idx) && (idx <? Z.of_nat (length q)).

(** [q[i], q[j] = q[j], q[i]] on positions that exist. *)
Definition swap_at (q : list loc) (i j : nat) : list loc :=
  match q !! i, q !! j with
  | Some a, Some b => <[i := b]> (<[j := a]> q)
  | _, _ => q
  end.

Definition remove_selected_queue_items (w : World) (self : t) (selected : list Z) : t :=
  match selected with
  | [] => self
  | _ =>
      _refresh_queue_tree w
        (with_queue self (heap self)
           (foldl (fun q idx => if in_range q idx then delete (Z.to_nat idx) q else q)
              (queue_items self)
              (py_sorted (fun idx : Z => idx) (fun a b => b <? a) selected)))
  end.

Definition move_selected_up (w : World) (self : t) (selected : list Z) : t :=
  match selected with
  | [] => self
  | _ =>
      _refresh_queue_tree w
        (with_queue self (heap self)
           (foldl (fun q idx =>
                     if (idx <=? 0) || (Z.of_nat (length q) <=? idx) then q
                     else swap_at q (Z.to_nat (idx - 1)) (Z.to_nat idx))
              (queue_items self)
              (py_sorted (fun idx : Z => idx) Z.ltb selected)))
  end.

Definition move_selected_down (w : World) (self : t) (selected : list Z) : t :=
  match selected with
  | [] => self
  | _ =>
      _refresh_queue_tree w
        (with_queue self (heap self)
           (foldl (fun q idx =>
                     if (idx <? 0) || (Z.of_nat (length q) - 1 <=? idx) then q
                     else swap_at q (Z.to_nat (idx + 1)) (Z.to_nat idx))
              (queue_items self)
              (py_sorted (fun idx : Z => idx) (fun a b => b <? a) selected)))
  end.

(** Returns the state and the flag [_add_campaign_channel_to_queue]
    returns; the new object takes the next free address.  [silent]
    leaves out the dialog, the status line and the redraw. *)
Definition _add_campaign_channel_to_queue (w : World) (self : t) (url : string)
    (campaign : KickCampaign.t) (silent : bool) : t * bool :=
  match _find_item_by_url self url with
  | Some _ => (self, false)
  | None =>
      let item :=
        {| QueueItem.url := url;
           QueueItem.minutes_target := 0;
           QueueItem.elapsed_seconds := 0;
           QueueItem.status := "PENDING";
           QueueItem.campaign_id := Some (KickCampaign.id campaign);
           QueueItem.campaign_name := Some (KickCampaign.name campaign);
           QueueItem.category_id := KickCampaign.category_id campaign;
           QueueItem.notes := "game=" +:+ KickCampaign.game campaign |} in
      let self :=
        with_queue self (heap self ++ [item]) (queue_items self ++ [length (heap self)]) in
      (if silent then self else _refresh_queue_tree w self, true)
  end.

Definition finished_tokens : list string :=
  ["claimed"; "completed"; "finished"; "done"; "expired"; "ended"].
Definition active_tokens : list string := ["in_progress"; "active"; "running"; "ongoing"].

(** [_score] of [_find_best_campaign_for_channel_slug]. *)
Definition _score (campaign : KickCampaign.t) : Z * Z :=
  let status :=
    lower (strip (str_or (KickCampaign.progress_status campaign)
                         (KickCampaign.status campaign))) in
  let claimed :=
    length (filter (fun reward => KickReward.claimed reward = true)
              (KickCampaign.rewards campaign)) in
  let pending :=
    Z.max 0 (Z.of_nat (length (KickCampaign.rewards campaign)) - Z.of_nat claimed) in
  let phase :=
    if bool_decide (status ∈ active_tokens) then 0
    else if bool_decide (status ∈ finished_tokens) then 2
    else 1 in
  (phase, - pending).

Definition lists_slug (slug_norm : string) (campaign : KickCampaign.t) : bool :=
  existsb (fun channel => String.eqb (lower (strip (KickChannel.slug channel))) slug_norm)
    (KickCampaign.channels campaign).

Definition _find_best_campaign_for_channel_slug (w : World) (self : t) (slug : string)
    : option KickCampaign.t :=
  let slug_norm := lower (strip slug) in
  if String.eqb slug_norm "" then None
  else
    let candidates := filter (fun c => lists_slug slug_norm c = true) (campaigns self) in
    match candidates with
    | [] => None
    | _ =>
        let non_expired :=
          filter (fun c => _is_campaign_expired w (Some c) = false) candidates in
        let candidates :=
          match non_expired with
          | [] => candidates
          | _ => non_expired
          end in
        head (py_sorted _score pair_ltb candidates)
    end.

(** The first item that is neither [FINISHED] nor [EXPIRED]. *)
Fixpoint first_open (h : list QueueItem.t) (q : list loc) : option loc :=
  match q with
  | [] => None
  | l :: q' =>
      match h !! l with
      | Some item => if is_final_status (QueueItem.status item) then first_open h q'
                     else Some l
      | None => first_open h q'
      end
  end.

(** [change_channel_now]; the log lines are left out.  The item the
    button designates is the selected row, else the one the worker is on,
    else the first open one. *)
Definition change_channel_now (w : World) (self : t) (selected : list Z)
    (worker : option WorkerHandle) : t :=
  let target_item :=
    match selected with
    | idx :: _ =>
        if in_range (queue_items self) idx then queue_items self !! Z.to_nat idx else None
    | [] => None
    end in
  let target_item :=
    match target_item with
    | Some l => Some l
    | None =>
        match worker with
        | Some handle =>
            if String.eqb (worker_current_url handle) "" then None
            else _find_item_by_url self (worker_current_url handle)
        | None => None
        end
    end in
  let target_item :=
    match target_item with
    | Some l => Some l
    | None => first_open (heap self) (queue_items self)
    end in
  match target_item with
  | None => self
  | Some l =>
      match heap self !! l with
      | None => self
      | Some item =>
          let self := _request_force_channel_switch self (QueueItem.url item) in
          let item :=
            QueueItem.with_notes (QueueItem.with_status item "RETRY")
              "cambio manual solicitado" in
          let self := with_queue self (<[l := item]> (heap self)) (queue_items self) in
          let self := _ui_rotate_item w self (QueueItem.url item) in
          let self := _refresh_queue_tree w self in
          _ensure_queue_worker_running self worker
      end
  end.
End Methods.
End KickMinerApp.

(** *** The message queue between the worker and the consumer

    The worker thread posts; [_pump_ui_queue] applies the messages in the
    order they were posted, in the world [w] of that call of the consumer.
    Logging touches widgets only. *)
Module UiQueue.
Inductive Msg :=
  | post_log (text : string)
  | post_worker_stopped
  | post_update_item (url : string) (changes : KickMinerApp.Changes)
  | post_increment_elapsed (url : string) (seconds : Z)
  | post_save_config
  | post_rotate_item (url : string)
  | post_retry_campaign_hint (campaign_id campaign_name : option string).

Section Consumer.
Context `{PyRuntime}.

Definition dispatch (w : World) (app : KickMinerApp.t) (m : Msg) : KickMinerApp.t :=
  match m with
  | post_log _ => app
  | post_worker_stopped => KickMinerApp._ui_worker_stopped w app
  | post_update_item url changes => KickMinerApp._ui_update_item w app url changes
  | post_increment_elapsed url seconds =>
      KickMinerApp._ui_increment_elapsed w app url seconds
  | post_save_config => KickMinerApp._ui_save_config app
  | post_rotate_item url => KickMinerApp._ui_rotate_item w app url
  | post_retry_campaign_hint cid cname =>
      KickMinerApp._ui_set_retry_campaign_hint app cid cname
  end.

Definition _pump_ui_queue (w : World) (app : KickMinerApp.t) (msgs : list Msg)
    : KickMinerApp.t :=
  foldl (dispatch w) app msgs.
End Consumer.
End UiQueue.

Module QueueWorker.
Import UiQueue.

(** The browser calls of the worker, as one iteration finds them, and the
    text [str(exc)] of an exception they raise. *)
Record Browser := {
  open_channel : string -> Exc unit;
  apply_watch_page_tweaks : Exc unit;
  best_effort_claim_all : Exc Z;
  exc_text : exn -> string;
}.

Record t := {
  stop_event : bool;
  has_driver : bool;
  current_url : string;
  current_slug : string;
  hide_player : bool;
  auto_claim : bool;
}.

(** The two timers of the watch loop. *)
Record Timers := {
  next_poll : Z;
  next_tick : Z;
}.

(** An iteration goes on to the next one, returns from [_process_item],
    or lets an exception of a browser call through. *)
Inductive Outcome :=
  | Continue (timers : Timers)
  | Return (result : string)
  | Propagate (e : exn).

Definition changes (status : string) (notes : string) : KickMinerApp.Changes :=
  {| KickMinerApp.ch_status := Some status; KickMinerApp.ch_notes := Some notes |}.

Definition status_only (status : string) : KickMinerApp.Changes :=
  {| KickMinerApp.ch_status := Some status; KickMinerApp.ch_notes := None |}.

Section Methods.
Context `{PyRuntime}.

Definition _auto_claim_if_enabled (b : Browser) (self : t) : list Msg :=
  if negb (has_driver self) then []
  else
    match best_effort_claim_all b with
    | Raise e => [post_log ("Auto-claim falló: " +:+ exc_text b e)]
    | Ok clicked =>
        post_log ("Auto-claim (DOM): " +:+ pretty clicked +:+ " click(s)") ::
        (if String.eqb (current_url self) "" then []
         else
           match open_channel b (current_url self) with
           | Ok _ => []
           | Raise e => [post_log ("Auto-claim falló: " +:+ exc_text b e)]
           end)
    end.

(** [item.category_id and live_category and
    int(live_category) != int(item.category_id)] *)
Definition wrong_category (item : QueueItem.t) (live_info : LiveInfo) : bool :=
  match QueueItem.category_id item, live_category_id live_info with
  | Some cat, Some live_category =>
      negb (cat =? 0) && negb (live_category =? 0) && negb (live_category =? cat)
  | _, _ => false
  end.

(** The liveness poll of one iteration: the messages it posts, and how
    it ends ([Continue] stands for falling through to the tick). *)
Definition poll_live (w : World) (b : Browser) (item : QueueItem.t) (url slug : string)
    (timers : Timers) : list Msg * Outcome :=
  match channel_live_status w slug with
  | Raise e =>
      ([ post_update_item url (changes "RETRY" ("error live check: " +:+ exc_text b e));
         post_log ("Live check error (" +:+ slug +:+ "): " +:+ exc_text b e) ],
       Return "retry")
  | Ok live_info =>
      if negb (live live_info) then
        ([ post_update_item url (changes "RETRY" "offline");
           post_log ("Canal offline: " +:+ slug) ], Return "retry")
      else if wrong_category item live_info then
        let live_category := pretty (default 0 (live_category_id live_info)) in
        let cat := pretty (default 0 (QueueItem.category_id item)) in
        ([ post_update_item url
             (changes "WRONG_CATEGORY" ("cat " +:+ live_category +:+ " != " +:+ cat));
           post_log ("Canal en categoría distinta (" +:+ slug +:+ "): " +:+
                     live_category +:+ " != " +:+ cat) ],
         Return "retry")
      else
        ([ post_update_item url
             (changes "LIVE" ("viewers=" +:+ pretty (viewer_count live_info))) ],
         match apply_watch_page_tweaks b with
         | Ok _ => Continue timers
         | Raise e => Propagate e
         end)
  end.

(** The body of the [while] loop of [_process_item], entered with the
    stop event clear.  [item] is the object as the iteration reads it. *)
Definition watch_iteration (w : World) (b : Browser) (self : t) (app : KickMinerApp.t)
    (item : QueueItem.t) (url slug : string) (poll_every tick_seconds : Z)
    (timers : Timers) : KickMinerApp.t * list Msg * Outcome :=
  let '(app, forced) := KickMinerApp._consume_force_channel_switch app url in
  if forced then
    (app,
     [ post_update_item url (changes "RETRY" "cambio manual de canal");
       post_log ("Cambio manual solicitado: " +:+ slug) ],
     Return "retry")
  else
    let status_upper := upper (QueueItem.status item) in
    if QueueItem.done item || KickMinerApp.is_final_status status_upper then
      if String.eqb status_upper "EXPIRED" then
        (app, [ post_update_item url (changes "EXPIRED" "campaña caducada") ],
         Return "finished")
      else
        (app,
         post_update_item url (changes "FINISHED" "drops completados") ::
         (if auto_claim self then _auto_claim_if_enabled b self else []),
         Return "finished")
    else
      let '(poll_msgs, polled) :=
        if next_poll timers <=? now w
        then poll_live w b item url slug
               {| next_poll := now w + poll_every; next_tick := next_tick timers |}
        else ([], Continue timers) in
      match polled with
      | Continue timers =>
          if next_tick timers <=? now w then
            (app,
             (poll_msgs ++
              [ post_increment_elapsed url tick_seconds;
                post_update_item url (status_only "LIVE") ])%list,
             Continue {| next_poll := next_poll timers;
                         next_tick := now w + tick_seconds |})
          else (app, poll_msgs, Continue timers)
      | ended => (app, poll_msgs, ended)
      end.

(** One turn of [while not self.stop_event.is_set()], and the exit of the
    loop when the event is set. *)
Definition watch_loop_step (w : World) (b : Browser) (self : t) (app : KickMinerApp.t)
    (item : QueueItem.t) (url slug : string) (poll_every tick_seconds : Z)
    (timers : Timers) : KickMinerApp.t * list Msg * Outcome :=
  if stop_event self
  then (app, [ post_update_item url (changes "STOPPED" "detenido") ], Return "stopped")
  else watch_iteration w b self app item url slug poll_every tick_seconds timers.

(** What [_run_loop] posts once [_process_item] has returned [result]. *)
Definition after_process_item (item : QueueItem.t) (result : string) (now last_save : Z)
    : list Msg :=
  ((if String.eqb result "retry"
    then [ post_retry_campaign_hint (QueueItem.campaign_id item)
             (QueueItem.campaign_name item);
           post_rotate_item (QueueItem.url item) ]
    else []) ++
   (if 3 <=? now - last_save then [ post_save_config ] else []))%list.
End Methods.
End QueueWorker.

(** ** Vocabulary of the statements *)

Section Vocabulary.
Context `{PyRuntime}.

(** A game name as [_normalize_preferred_games] keeps it: stripped and not
    empty. *)
Definition clean_name (g : string) : Prop := strip g = g /\ g <> "".

(** The shape of a normalized selection [n] of specific games, read from
    the input [values]. *)
Definition specific_games (values n : list string) : Prop :=
  n <> [] /\ (ALL_GAMES_TOKEN ∉ n) /\
  Forall clean_name n /\
  NoDup (casefold <$> n) /\
  StronglySorted (fun a b => String.le (casefold a) (casefold b)) n /\
  (forall g, g ∈ n -> exists v, v ∈ values /\ g = strip v) /\
  (forall v, v ∈ values -> strip v <> "" -> casefold (strip v) ∈ (casefold <$> n)).
End Vocabulary.

(** What reloading does to an item besides copying it: an empty status is
    read as [PENDING] and category 0 as no category. *)
Definition default_filled (item : QueueItem.t) : QueueItem.t :=
  {| QueueItem.url := QueueItem.url item;
     QueueItem.minutes_target := QueueItem.minutes_target item;
     QueueItem.elapsed_seconds := QueueItem.elapsed_seconds item;
     QueueItem.status := str_or (QueueItem.status item) "PENDING";
     QueueItem.campaign_id := QueueItem.campaign_id item;
     QueueItem.campaign_name := QueueItem.campaign_name item;
     QueueItem.category_id :=
       match QueueItem.category_id item with
       | Some 0 => None
       | c => c
       end;
     QueueItem.notes := QueueItem.notes item |}.

(** A world whose remote service fails for every channel, at clock [t]. *)
Definition offline_world (t : Z) : World :=
  {| now := t; channel_live_status := fun _ => Raise KickBrowserError |}.

(** A payload with one well-formed campaign and one whose [category] is a
    string. *)
Definition payload_with_text_category : pydict :=
  [ ("data",
     JList [ JDict [ ("id", JStr "c1"); ("name", JStr "First");
                     ("category", JDict [ ("name", JStr "Game") ]) ];
             JDict [ ("id", JStr "c2"); ("category", JStr "Game") ] ]) ].

(** The retry hint as [get_next_queue_item] reads it, and the items it
    designates. *)
Definition hint_of `{PyRuntime} (app : KickMinerApp.t) : string * string :=
  (strip (opt_str (KickMinerApp._retry_campaign_hint_id app)),
   lower (strip (opt_str (KickMinerApp._retry_campaign_hint_name app)))).

Definition hinted `{PyRuntime} (app : KickMinerApp.t) (l : loc) : bool :=
  KickMinerApp.loc_matches (KickMinerApp.heap app) (hint_of app).1 (hint_of app).2 l.

(** Sample data for the examples. *)
Definition sample_item (url status : string) (campaign : option string) (notes : string)
    : QueueItem.t :=
  {| QueueItem.url := url; QueueItem.minutes_target := 0; QueueItem.elapsed_seconds := 0;
     QueueItem.status := status; QueueItem.campaign_id := campaign;
     QueueItem.campaign_name := None; QueueItem.category_id := None;
     QueueItem.notes := notes |}.

Definition sample_app (h : list QueueItem.t) (q : list loc) (cs : list KickCampaign.t)
    (hint : option string) : KickMinerApp.t :=
  {| KickMinerApp.heap := h; KickMinerApp.queue_items := q;
     KickMinerApp.campaigns := cs; KickMinerApp.progress := [];
     KickMinerApp.poll_interval_seconds := 20; KickMinerApp.watch_tick_seconds := 60;
     KickMinerApp._force_switch_urls := ∅;
     KickMinerApp._retry_campaign_hint_id := hint;
     KickMinerApp._retry_campaign_hint_name := None;
     KickMinerApp._channel_live_cache := ∅;
     KickMinerApp._preferred_games_cached := [];
     KickMinerApp._settings_game_vars := [];
     KickMinerApp._shutting_down := false;
     KickMinerApp._session_state := "logged_in" |}.

(** Three queued channels, the second and third of campaign [c2]. *)
Definition three_items : list QueueItem.t :=
  [ sample_item "https://kick.com/a" "PENDING" (Some "c1") "";
    sample_item "https://kick.com/b" "PENDING" (Some "c2") "";
    sample_item "https://kick.com/c" "PENDING" (Some "c2") "" ].

(** A worker that watches with the stop event clear, and a browser whose
    calls succeed. *)
Definition running_worker : QueueWorker.t :=
  {| QueueWorker.stop_event := false; QueueWorker.has_driver := true;
     QueueWorker.current_url := "https://kick.com/foo";
     QueueWorker.current_slug := "foo";
     QueueWorker.hide_player := true; QueueWorker.auto_claim := true |}.

Definition calm_browser : QueueWorker.Browser :=
  {| QueueWorker.open_channel := fun _ => Ok tt;
     QueueWorker.apply_watch_page_tweaks := Ok tt;
     QueueWorker.best_effort_claim_all := Ok 0;
     QueueWorker.exc_text := fun _ => "" |}.

(** The item watched in the force-switch examples: [target] minutes to
    watch, [elapsed] seconds watched. *)
Definition watched_item (target elapsed : Z) : QueueItem.t :=
  {| QueueItem.url := "https://kick.com/foo"; QueueItem.minutes_target := target;
     QueueItem.elapsed_seconds := elapsed; QueueItem.status := "LIVE";
     QueueItem.campaign_id := Some "c1"; QueueItem.campaign_name := None;
     QueueItem.category_id := None; QueueItem.notes := "viewers=5" |}.

(** The watched item first in a queue of two, with a force-switch request
    pending for its URL. *)
Definition switch_requested_app (target elapsed : Z) : KickMinerApp.t :=
  KickMinerApp._request_force_channel_switch
    (sample_app [ watched_item target elapsed;
                  sample_item "https://kick.com/bar" "PENDING" (Some "c1") "" ]
                [0; 1]%nat [] None)
    "https://kick.com/foo".

(** The state the consumer reaches from [app] after one turn of the watch
    loop on [item] and what [_run_loop] posts on its result; [ui] is the
    world of the consumer when it applies the messages. *)
Definition after_watch_turn `{PyRuntime} (w ui : World) (b : QueueWorker.Browser)
    (self : QueueWorker.t) (app : KickMinerApp.t) (item : QueueItem.t)
    (poll_every tick_seconds : Z) (timers : QueueWorker.Timers) (last_save : Z)
    : KickMinerApp.t * QueueWorker.Outcome :=
  let '(app, msgs, outcome) :=
    QueueWorker.watch_loop_step w b self app item (QueueItem.url item) (QueueItem.slug item)
      poll_every tick_seconds timers in
  let result :=
    match outcome with
    | QueueWorker.Return r => r
    | _ => ""
    end in
  (UiQueue._pump_ui_queue ui app
     (msgs ++ QueueWorker.after_process_item item result (now w) last_save)%list,
   outcome).

(** The lookup tables and game filter [get_next_queue_item] computes from
    [app]. *)
Definition lookups_for `{PyRuntime} (app : KickMinerApp.t) : KickMinerApp.Lookups :=
  KickMinerApp.lookups_of (KickMinerApp._preferred_game_filter app).1
    (KickMinerApp._preferred_game_filter app).2.1
    (KickMinerApp._preferred_game_filter app).2.2.

Definition item_campaign `{PyRuntime} (lk : KickMinerApp.Lookups) (item : QueueItem.t)
    : option KickCampaign.t :=
  KickMinerApp._resolve_queue_item_campaign item
    (KickMinerApp.campaign_by_id lk) (KickMinerApp.campaign_by_name lk).

Definition item_progress `{PyRuntime} (lk : KickMinerApp.Lookups) (item : QueueItem.t)
    : option KickProgressCampaign.t :=
  KickMinerApp._resolve_item_progress_campaign item
    (KickMinerApp.progress_by_id lk) (KickMinerApp.progress_by_name lk).

(** The status of an item once the finalization has marked it: [FINISHED]
    when its target is reached or its progress campaign is fully claimed,
    [EXPIRED] when its campaign is expired, its own status otherwise. *)
Definition finalized_status `{PyRuntime} (w : World) (lk : KickMinerApp.Lookups)
    (item : QueueItem.t) : string :=
  if QueueItem.done item then "FINISHED"
  else if KickMinerApp._is_progress_campaign_finished
            (KickMinerApp._resolve_item_progress_campaign item
               (KickMinerApp.progress_by_id lk) (KickMinerApp.progress_by_name lk))
  then "FINISHED"
  else if KickMinerApp._is_campaign_expired w (item_campaign lk item) then "EXPIRED"
  else QueueItem.status item.

(** Neither [FINISHED] nor [EXPIRED] after finalization, and not skipped by
    the game filter. *)
Definition eligible `{PyRuntime} (w : World) (lk : KickMinerApp.Lookups)
    (item : QueueItem.t) : bool :=
  negb (KickMinerApp.is_final_status (finalized_status w lk item))
  && negb (KickMinerApp.game_filtered_out lk item (item_campaign lk item)).

(** A channel as [KickChannel.from_campaign_channel] builds it. *)
Definition channel_wf (channel : KickChannel.t) : Prop :=
  strip (KickChannel.slug channel) = KickChannel.slug channel /\
  KickChannel.slug channel <> "" /\
  KickChannel.url channel = KICK_URL_PREFIX +:+ KickChannel.slug channel.

Definition campaigns_wf (campaigns : list KickCampaign.t) : Prop :=
  Forall (fun c => Forall channel_wf (KickCampaign.channels c)) campaigns.

(** The rows [ordered] of a discovery run that gets past its guards, and
    their URLs: the desired set. *)
Definition desired_rows `{PyRuntime} (w : World) (app : KickMinerApp.t) : list Row :=
  py_sorted row_sort_key sort_key_ltb
    (map snd
       (KickMinerApp.desired_by_url_of w
          (KickMinerApp._preferred_game_filter app).2.1
          (KickMinerApp._preferred_game_filter app).2.2
          (KickMinerApp.campaigns app) (KickMinerApp._channel_live_cache app)).2).

Definition desired_urls `{PyRuntime} (w : World) (app : KickMinerApp.t) : list string :=
  KickMinerApp.row_url <$> desired_rows w app.

(** The URLs of the queued items, in queue order. *)
Definition queue_urls (app : KickMinerApp.t) : list string :=
  omap (fun l => QueueItem.url <$> KickMinerApp.heap app !! l) (KickMinerApp.queue_items app).

(** The item at [l] is what the reconciliation makes of the row: the URL
    of the row, its campaign linkage and notes, and a status other than
    [EXPIRED]. *)
Definition settled `{PyRuntime} (h : list QueueItem.t) (row : Row) (l : loc) : Prop :=
  exists item,
    h !! l = Some item /\
    QueueItem.url item = KickMinerApp.row_url row /\
    QueueItem.campaign_id item = Some (KickCampaign.id (row_campaign row)) /\
    QueueItem.campaign_name item = Some (KickCampaign.name (row_campaign row)) /\
    QueueItem.category_id item = KickCampaign.category_id (row_campaign row) /\
    QueueItem.notes item =
      KickMinerApp._build_auto_games_item_notes (row_campaign row) (row_channel row)
        (row_viewers row) /\
    QueueItem.status item <> "EXPIRED".

(** The test of the last loop of the reconciliation: the item at [l] is
    appended to the final queue. *)
Definition survives (h : list QueueItem.t) (ordered_urls : gset string) (l : loc) : bool :=
  match h !! l with
  | Some item =>
      negb (bool_decide (QueueItem.url item ∈ ordered_urls))
      && negb (KickMinerApp._is_auto_games_channel_item item)
  | None => false
  end.

(** The test under which the last loop counts the item at [l] as removed. *)
Definition dropped (h : list QueueItem.t) (ordered_urls : gset string) (l : loc) : bool :=
  match h !! l with
  | Some item =>
      negb (bool_decide (QueueItem.url item ∈ ordered_urls))
      && KickMinerApp._is_auto_games_channel_item item
  | None => false
  end.

(** Two caches, each in its world, answer every 45-second lookup alike. *)
Definition same_snapshots (w2 : World) (cache2 : gmap string (option bool * Z * Z))
    (w1 : World) (cache1 : gmap string (option bool * Z * Z)) : Prop :=
  forall slug,
    (KickMinerApp._get_channel_live_snapshot w2 cache2 slug 45 true).1 =
    (KickMinerApp._get_channel_live_snapshot w1 cache1 slug 45 true).1.

(** [existing_by_url] maps a URL to an item that has it. *)
Definition existing_sound (h0 : list QueueItem.t) (ex : gmap string loc) : Prop :=
  forall u l, ex !! u = Some l -> exists item, h0 !! l = Some item /\ QueueItem.url item = u.

(** What holds in the loop over [ordered] once the rows [done] are
    processed, [h0] being the heap at its start: the heap has only grown,
    the items of [h0] keep their URL and, unless a row has it, everything
    else; [ordered_urls] holds the URLs of [done]; the final queue holds
    new addresses or items whose URL a row has, among them the item
    [existing_by_url] gives for each row. *)
Definition rows_inv `{PyRuntime} (h0 : list QueueItem.t) (ex : gmap string loc)
    (done : list Row) (acc : KickMinerApp.Reconcile) : Prop :=
  (length h0 <= length (KickMinerApp.r_heap acc))%nat /\
  (forall l item, h0 !! l = Some item ->
     exists item', KickMinerApp.r_heap acc !! l = Some item' /\
                   QueueItem.url item' = QueueItem.url item /\
                   (QueueItem.url item ∉ KickMinerApp.row_url <$> done -> item' = item)) /\
  (forall u, u ∈ KickMinerApp.r_ordered_urls acc <-> u ∈ KickMinerApp.row_url <$> done) /\
  (forall l, l ∈ KickMinerApp.r_final_queue acc ->
     (length h0 <= l)%nat \/
     exists item, h0 !! l = Some item /\ QueueItem.url item ∈ KickMinerApp.row_url <$> done) /\
  (forall row l, row ∈ done -> ex !! KickMinerApp.row_url row = Some l ->
     l ∈ KickMinerApp.r_final_queue acc).

(** Every key of [desired_by_url] is the URL the loop over [ordered] reads
    from its row, and no key occurs twice. *)
Definition desired_keys_ok (desired_by_url : list (string * Row)) : Prop :=
  NoDup desired_by_url.*1 /\
  Forall (fun kv => fst kv = KickMinerApp.row_url (snd kv)) desired_by_url.

(** Two accumulators of the loops that fill [desired_by_url], each in its
    world: the same dictionary so far, over caches that answer alike. *)
Definition same_desired (w2 w1 : World)
    (acc2 acc1 : gmap string (option bool * Z * Z) * list (string * Row)) : Prop :=
  acc2.2 = acc1.2 /\ same_snapshots w2 acc2.1 w1 acc1.1.

(** The item at [l] has the URL of the row. *)
Definition holds_row_url (h : list QueueItem.t) (row : Row) (l : loc) : Prop :=
  exists item, h !! l = Some item /\ QueueItem.url item = KickMinerApp.row_url row.

Definition sample_channel (slug : string) : KickChannel.t :=
  {| KickChannel.slug := slug; KickChannel.username := slug;
     KickChannel.url := KICK_URL_PREFIX +:+ slug; KickChannel.profile_picture := "" |}.

Definition sample_campaign (id game : string) (channels : list KickChannel.t)
    : KickCampaign.t :=
  {| KickCampaign.id := id; KickCampaign.name := id; KickCampaign.game := game;
     KickCampaign.game_slug := ""; KickCampaign.game_image := "";
     KickCampaign.category_id := None; KickCampaign.status := "active";
     KickCampaign.starts_at := JNull; KickCampaign.ends_at := JNull;
     KickCampaign.rewards := []; KickCampaign.channels := channels;
     KickCampaign.progress_status := "not_started"; KickCampaign.progress_units := 0;
     KickCampaign.raw := [] |}.

(** A world in which every channel is live with five viewers, at clock [t]. *)
Definition live_world (t : Z) : World :=
  {| now := t;
     channel_live_status := fun _ =>
       Ok {| live := true; viewer_count := 5; live_category_id := None |} |}.

(** An item that discovery queued earlier for a channel no campaign lists
    any more, and an item added by hand. *)
Definition stale_auto_item : QueueItem.t :=
  sample_item "https://kick.com/old" "PENDING" (Some "c0")
    (AUTO_GAMES_CHANNEL_SOURCE +:+ " | game=Game | auto=old (0 viewers)").

Definition manual_item : QueueItem.t :=
  sample_item "https://kick.com/bar" "PENDING" None "".

(** One campaign with the channel [foo]; the queue holds the stale item and
    the manual one. *)
Definition discovery_app : KickMinerApp.t :=
  sample_app [stale_auto_item; manual_item] [0; 1]%nat
    [sample_campaign "c1" "Game" [sample_channel "foo"]] None.

(** [b] holds the items of [a]: the same addresses queued, in some order,
    every object still in place with its URL and its target, and no watch
    time taken away. *)
Definition same_items (a b : KickMinerApp.t) : Prop :=
  KickMinerApp.queue_items b ≡ₚ KickMinerApp.queue_items a /\
  length (KickMinerApp.heap b) = length (KickMinerApp.heap a) /\
  forall l item, KickMinerApp.heap a !! l = Some item ->
    exists item', KickMinerApp.heap b !! l = Some item' /\
      QueueItem.url item' = QueueItem.url item /\
      QueueItem.minutes_target item' = QueueItem.minutes_target item /\
      QueueItem.elapsed_seconds item <= QueueItem.elapsed_seconds item'.

(** The snapshot a lookup with the 45-second limit returns for a channel
    from the cache [cache]. *)
Definition snapshot_of (w : World) (cache : gmap string (option bool * Z * Z))
    (use_network : bool) (channel : KickChannel.t) : option bool * Z :=
  (KickMinerApp._get_channel_live_snapshot w cache (KickChannel.slug channel) 45
     use_network).1.

(** A campaign like [sample_campaign], with an end date. *)
Definition ending_campaign (id : string) (ends_at : string) : KickCampaign.t :=
  {| KickCampaign.id := id; KickCampaign.name := id; KickCampaign.game := "Game";
     KickCampaign.game_slug := ""; KickCampaign.game_image := "";
     KickCampaign.category_id := None; KickCampaign.status := "active";
     KickCampaign.starts_at := JNull; KickCampaign.ends_at := JStr ends_at;
     KickCampaign.rewards := []; KickCampaign.channels := [];
     KickCampaign.progress_status := "not_started"; KickCampaign.progress_units := 0;
     KickCampaign.raw := [] |}.

(** A world in which [foo] is live with five viewers, [bar] is offline with
    none and every other lookup fails, at clock [t]. *)
Definition mixed_world (t : Z) : World :=
  {| now := t;
     channel_live_status := fun slug =>
       if String.eqb slug "foo"
       then Ok {| live := true; viewer_count := 5; live_category_id := None |}
       else if String.eqb slug "bar"
       then Ok {| live := false; viewer_count := 0; live_category_id := None |}
       else Raise KickBrowserError |}.

(** What holds in the loop of [_pick_preferred_channel_for_campaign] once
    the channels [past] are processed, [cache] being the cache at its
    start: the cache still answers as [cache] did, [fallback] is a channel
    of [past] with the most viewers, and [best_live] a live one with the
    most viewers among the live ones. *)
Definition pick_inv (w : World) (cache : gmap string (option bool * Z * Z))
    (use_network : bool) (past : list KickChannel.t) (st : KickMinerApp.PickState) : Prop :=
  (forall s,
     (KickMinerApp._get_channel_live_snapshot w (KickMinerApp.p_cache st) s 45 use_network).1 =
     (KickMinerApp._get_channel_live_snapshot w cache s 45 use_network).1) /\
  match KickMinerApp.fallback st with
  | None => past = []
  | Some c =>
      c ∈ past /\
      (snapshot_of w cache use_network c).2 = KickMinerApp.fallback_viewers st /\
      forall c', c' ∈ past ->
        (snapshot_of w cache use_network c').2 <= KickMinerApp.fallback_viewers st
  end /\
  match KickMinerApp.best_live st with
  | None =>
      KickMinerApp.best_live_viewers st = -1 /\
      forall c', c' ∈ past -> (snapshot_of w cache use_network c').1 = Some true ->
        (snapshot_of w cache use_network c').2 < -1
  | Some c =>
      c ∈ past /\
      snapshot_of w cache use_network c = (Some true, KickMinerApp.best_live_viewers st) /\
      forall c', c' ∈ past -> (snapshot_of w cache use_network c').1 = Some true ->
        (snapshot_of w cache use_network c').2 <= KickMinerApp.best_live_viewers st
  end /\
  -1 <= KickMinerApp.best_live_viewers st.

(** A campaign with the channels [foo] and [bar]. *)
Definition two_channel_campaign : KickCampaign.t :=
  sample_campaign "c1" "Game" [sample_channel "bar"; sample_channel "foo"].

(** A configuration that [AppConfig.from_dict] has nothing to fill in or
    tidy: items that reload unchanged, numbers other than 0, a cookie
    source, a stripped user name, stripped non-empty game names, and a
    language code already stripped and in lower case. *)
Definition config_normal `{PyRuntime} (config : AppConfig.t) : Prop :=
  Forall (fun item => default_filled item = item) (AppConfig.queue_items config) /\
  AppConfig.default_minutes config <> 0 /\
  AppConfig.watch_tick_seconds config <> 0 /\
  AppConfig.poll_interval_seconds config <> 0 /\
  AppConfig.auto_refresh_seconds config <> 0 /\
  AppConfig.browser_cookie_source config <> "" /\
  strip (AppConfig.login_username config) = AppConfig.login_username config /\
  Forall clean_name (AppConfig.preferred_games config) /\
  AppConfig.language config <> "" /\
  lower (strip (AppConfig.language config)) = AppConfig.language config.

(** The configuration of a first start, with one queued channel. *)
Definition stock_config : AppConfig.t :=
  {| AppConfig.queue_items := [manual_item];
     AppConfig.hide_player := false; AppConfig.auto_claim := false;
     AppConfig.default_minutes := 120; AppConfig.watch_tick_seconds := 60;
     AppConfig.poll_interval_seconds := 20;
     AppConfig.browser_cookie_source := "chrome";
     AppConfig.show_browser_window := false; AppConfig.auto_refresh_progress := true;
     AppConfig.auto_refresh_seconds := 120; AppConfig.login_username := "";
     AppConfig.auto_game_mining := false; AppConfig.preferred_games := ["Rust"];
     AppConfig.language := "en" |}.

(** A campaigns payload with a padded slug, a blank one, entries that are
    not objects and a campaign without an id. *)
Definition payload_with_junk : pydict :=
  [ ("data",
     JList [ JDict [ ("id", JStr "c1"); ("name", JStr "First");
                     ("category", JDict [ ("name", JStr "Game"); ("id", JInt 7) ]);
                     ("channels",
                      JList [ JDict [ ("slug", JStr " foo ") ];
                              JDict [ ("slug", JStr "  ") ];
                              JInt 5 ]) ];
             JStr "junk";
             JDict [ ("name", JStr "No id") ] ]) ].

(** No character of [s] is a slash. *)
Fixpoint slash_free (s : string) : bool :=
  match s with
  | EmptyString => true
  | String a s' => negb (is_slash a) && slash_free s'
  end.

(** Every object of [h] is still in [h'], with its URL, its target and
    its watch time. *)
Definition keeps_progress (h h' : list QueueItem.t) : Prop :=
  forall l item, h !! l = Some item ->
    exists item', h' !! l = Some item' /\
      QueueItem.url item' = QueueItem.url item /\
      QueueItem.minutes_target item' = QueueItem.minutes_target item /\
      QueueItem.elapsed_seconds item' = QueueItem.elapsed_seconds item.

(** [h'] has the objects of [h], each with its target and its watch time. *)
Definition keeps_time (h h' : list QueueItem.t) : Prop :=
  length h' = length h /\
  forall l item, h !! l = Some item ->
    exists item', h' !! l = Some item' /\
      QueueItem.minutes_target item' = QueueItem.minutes_target item /\
      QueueItem.elapsed_seconds item' = QueueItem.elapsed_seconds item.

(** The exchange of the positions [i] and [j]. *)
Definition transpose (i j k : nat) : nat :=
  if decide (k = i) then j else if decide (k = j) then i else k.

(** [q] without the entries at the positions listed in [selected], the
    first entry of [q] being at position [pos]. *)
Fixpoint drop_positions (selected : list Z) (pos : Z) (q : list loc) : list loc :=
  match q with
  | [] => []
  | l :: q' =>
      if bool_decide (pos ∈ selected) then drop_positions selected (pos + 1) q'
      else l :: drop_positions selected (pos + 1) q'
  end.

(** Every entry of the queue is the address of an object. *)
Definition queue_sound (app : KickMinerApp.t) : Prop :=
  Forall (fun l => (l < length (KickMinerApp.heap app))%nat) (KickMinerApp.queue_items app).

(** Two queued channels, the worker watching the first. *)
Definition watching_app : KickMinerApp.t :=
  sample_app [watched_item 0 0; manual_item] [0; 1]%nat [] None.

(** The object at [l] is there, is not done and is neither [FINISHED],
    [EXPIRED] nor [STOPPED]. *)
Definition open_item (h : list QueueItem.t) (l : loc) : Prop :=
  exists item,
    h !! l = Some item /\ QueueItem.done item = false /\
    QueueItem.status item <> "FINISHED" /\ QueueItem.status item <> "EXPIRED" /\
    QueueItem.status item <> "STOPPED".

(** An item as one redraw of the queue view of [app] leaves it. *)
Definition refreshed `{PyRuntime} (w : World) (app : KickMinerApp.t) (item : QueueItem.t)
    : QueueItem.t :=
  let lk := KickMinerApp.lookups_of app true ∅ in
  KickMinerApp.refresh_item w
    (KickMinerApp.campaign_by_id lk) (KickMinerApp.campaign_by_name lk)
    (KickMinerApp.progress_by_id lk) (KickMinerApp.progress_by_name lk) item.

(** [h'] holds the objects of [h], each as it was but for its status,
    which is the old one, [EXPIRED] or [FINISHED]. *)
Definition marks_only (h h' : list QueueItem.t) : Prop :=
  length h' = length h /\
  forall l item, h !! l = Some item ->
    exists status,
      h' !! l = Some (QueueItem.with_status item status) /\
      (status = QueueItem.status item \/ status = "EXPIRED" \/ status = "FINISHED").

(** The queue of [switch_requested_app] with campaign [c1] loaded, which
    ended with the year 2022. *)
Definition expired_switch_app : KickMinerApp.t :=
  KickMinerApp._request_force_channel_switch
    (sample_app [ watched_item 0 0;
                  sample_item "https://kick.com/bar" "PENDING" (Some "c1") "" ]
                [0; 1]%nat [ending_campaign "c1" "2023-01-01T00:00:00Z"] None)
    "https://kick.com/foo".

(** The watched item second in the queue, behind an item with its URL. *)
Definition twin_switch_app : KickMinerApp.t :=
  KickMinerApp._request_force_channel_switch
    (sample_app [ sample_item "https://kick.com/foo" "PENDING" None "";
                  watched_item 0 0 ]
                [0; 1]%nat [] None)
    "https://kick.com/foo".

(** The item discovery queued for [foo], and an item of the same campaign
    added by hand, with ten minutes watched, as
    [_set_item_channel_for_campaign] leaves it once it has pointed it to
    [foo]; campaign [c1] lists [foo], and the queue holds the two. *)
Definition auto_foo_item : QueueItem.t :=
  sample_item "https://kick.com/foo" "PENDING" (Some "c1")
    (AUTO_GAMES_CHANNEL_SOURCE +:+ " | game=Game | auto=foo (5 viewers)").

Definition manual_foo_item : QueueItem.t :=
  {| QueueItem.url := "https://kick.com/foo"; QueueItem.minutes_target := 0;
     QueueItem.elapsed_seconds := 600; QueueItem.status := "PENDING";
     QueueItem.campaign_id := Some "c1"; QueueItem.campaign_name := Some "c1";
     QueueItem.category_id := None;
     QueueItem.notes := "game=Game | auto=foo (5 viewers)" |}.

Definition twin_discovery_app : KickMinerApp.t :=
  sample_app [auto_foo_item; manual_foo_item] [0; 1]%nat
    [sample_campaign "c1" "Game" [sample_channel "foo"]] None.

(** A campaign on the channel [foo] that ends with the year 2022 (at
    clock 1672531200), alone in an application with an empty queue. *)
Definition short_campaign : KickCampaign.t :=
  {| KickCampaign.id := "c1"; KickCampaign.name := "c1"; KickCampaign.game := "Game";
     KickCampaign.game_slug := ""; KickCampaign.game_image := "";
     KickCampaign.category_id := None; KickCampaign.status := "active";
     KickCampaign.starts_at := JNull; KickCampaign.ends_at := JStr "2023-01-01T00:00:00Z";
     KickCampaign.rewards := []; KickCampaign.channels := [sample_channel "foo"];
     KickCampaign.progress_status := "not_started"; KickCampaign.progress_units := 0;
     KickCampaign.raw := [] |}.

Definition expiring_app : KickMinerApp.t := sample_app [] [] [short_campaign] None.

Definition fresh_timers : QueueWorker.Timers :=
  {| QueueWorker.next_poll := 0; QueueWorker.next_tick := 30 |}.

(** * Properties *)

(** ** Order on strings and on sort keys *)

Lemma string_ltb_spec (a b : string) :
  String.ltb a b = true <-> String.le a b /\ a <> b.
Proof.
  unfold String.le, String.ltb, String.leb.
  destruct (String.compare a b) eqn:E; simpl.
  - apply String.compare_eq_iff in E. subst. split; [discriminate | intros [_ ?]; congruence].
  - split; [intros _ | done]. split; [done | intros ->].
    pose proof (String.compare_antisym b b) as Hbb. rewrite E in Hbb. discriminate.
  - split; [discriminate | intros [[] _]].
Qed.

Lemma string_ltb_irrefl (a : string) : String.ltb a a = false.
Proof.
  destruct (String.ltb a a) eqn:E; [|done].
  apply string_ltb_spec in E as [_ ?]. done.
Qed.

Lemma string_ltb_trans (a b c : string) :
  String.ltb a b = true -> String.ltb b c = true -> String.ltb a c = true.
Proof.
  rewrite !string_ltb_spec. intros [Hab Hne] [Hbc Hne'].
  split; [by etrans|]. intros ->.
  apply Hne. by apply (anti_symm String.le).
Qed.

Lemma string_ltb_trichotomy (a b : string) :
  String.ltb a b = true \/ a = b \/ String.ltb b a = true.
Proof.
  destruct (decide (a = b)) as [->|Hne]; [by right; left|].
  destruct (total String.le a b).
  - left. by apply string_ltb_spec.
  - right; right. apply string_ltb_spec. split; [done | congruence].
Qed.

Lemma string_ltb_false_le (a b : string) : String.ltb a b = false <-> String.le b a.
Proof.
  split.
  - intros Hf. destruct (string_ltb_trichotomy a b) as [?|[->|Hlt]]; [congruence|done|].
    by apply string_ltb_spec in Hlt as [? _].
  - intros Hle. destruct (String.ltb a b) eqn:E; [|done].
    apply string_ltb_spec in E as [Hab Hne]. destruct Hne. by apply (anti_symm String.le).
Qed.

Lemma sort_key_ltb_spec (a b : sort_key) :
  sort_key_ltb a b = true <->
  a.1.1 < b.1.1 \/
  (a.1.1 = b.1.1 /\ (a.1.2 < b.1.2 \/ (a.1.2 = b.1.2 /\ String.ltb a.2 b.2 = true))).
Proof.
  destruct a as [[r1 v1] s1], b as [[r2 v2] s2]. simpl.
  rewrite !orb_true_iff, !andb_true_iff, !orb_true_iff, !andb_true_iff.
  rewrite !Z.ltb_lt, !Z.eqb_eq. tauto.
Qed.

Lemma sort_key_ltb_irrefl (a : sort_key) : sort_key_ltb a a = false.
Proof.
  destruct (sort_key_ltb a a) eqn:E; [|done].
  apply sort_key_ltb_spec in E. rewrite string_ltb_irrefl in E. lia.
Qed.

Lemma sort_key_ltb_trans (a b c : sort_key) :
  sort_key_ltb a b = true -> sort_key_ltb b c = true -> sort_key_ltb a c = true.
Proof.
  rewrite !sort_key_ltb_spec.
  intros [?|[? [?|[? Hs1]]]] [?|[? [?|[? Hs2]]]]; try lia.
  right. split; [lia|]. right. split; [lia|]. by eapply string_ltb_trans.
Qed.

Lemma sort_key_ltb_trichotomy (a b : sort_key) :
  sort_key_ltb a b = true \/ a = b \/ sort_key_ltb b a = true.
Proof.
  rewrite !sort_key_ltb_spec.
  destruct a as [[r1 v1] s1], b as [[r2 v2] s2]. simpl.
  destruct (Z.lt_trichotomy r1 r2) as [?|[->|?]]; [by left; left| |by right; right; left].
  destruct (Z.lt_trichotomy v1 v2) as [?|[->|?]]; [left; right; lia| |right; right; right; lia].
  destruct (string_ltb_trichotomy s1 s2) as [?|[->|?]].
  - left. right. tauto.
  - right. by left.
  - right. right. right. tauto.
Qed.

(** C2, as amended.  The keys of [_channel_live_sort_key] are strictly and
    totally ordered by [<]; every live channel comes before every
    known-offline channel, and every known-offline channel before every
    channel of unknown liveness; among channels of equal liveness the key
    is smaller exactly when the viewer count (a negative count taken as 0)
    is larger, or the counts agree and the case-folded slug is smaller. *)
Theorem channel_live_sort_key_order `{PyRuntime} :
  (forall a, sort_key_ltb a a = false) /\
  (forall a b c, sort_key_ltb a b = true -> sort_key_ltb b c = true ->
                 sort_key_ltb a c = true) /\
  (forall a b, sort_key_ltb a b = true \/ a = b \/ sort_key_ltb b a = true) /\
  (forall v1 s1 v2 s2,
     sort_key_ltb (KickMinerApp._channel_live_sort_key (Some true) v1 s1)
                  (KickMinerApp._channel_live_sort_key (Some false) v2 s2) = true /\
     sort_key_ltb (KickMinerApp._channel_live_sort_key (Some false) v1 s1)
                  (KickMinerApp._channel_live_sort_key None v2 s2) = true) /\
  (forall live v1 s1 v2 s2,
     sort_key_ltb (KickMinerApp._channel_live_sort_key live v1 s1)
                  (KickMinerApp._channel_live_sort_key live v2 s2) = true <->
     Z.max 0 v2 < Z.max 0 v1 \/
     (Z.max 0 v1 = Z.max 0 v2 /\ String.ltb (casefold s1) (casefold s2) = true)).
Proof.
  split; [apply sort_key_ltb_irrefl|].
  split; [apply sort_key_ltb_trans|].
  split; [apply sort_key_ltb_trichotomy|].
  split.
  - intros. split; apply sort_key_ltb_spec; simpl; lia.
  - intros. rewrite sort_key_ltb_spec. simpl. split.
    + intros [?|[_ [?|[? ?]]]]; [lia | left; lia | right; split; [lia | done]].
    + intros [?|[? ?]]; right; (split; [done|]); [left; lia | right; split; [lia | done]].
Qed.

(** The claim of C2 puts unknown liveness before known-offline; the code
    orders them the other way round. *)
Lemma channel_live_sort_key_unknown_after_offline :
  sort_key_ltb (@KickMinerApp._channel_live_sort_key ascii_runtime None 0 "a")
               (@KickMinerApp._channel_live_sort_key ascii_runtime (Some false) 0 "a") = false /\
  sort_key_ltb (@KickMinerApp._channel_live_sort_key ascii_runtime (Some false) 0 "a")
               (@KickMinerApp._channel_live_sort_key ascii_runtime None 0 "a") = true.
Proof. split; reflexivity. Qed.

(** ** [sorted] *)

Section PySortedFacts.
Context {A K : Type} (key : A -> K) (ltb : K -> K -> bool).

Lemma insert_sorted_perm (x : A) (l : list A) : insert_sorted key ltb x l ≡ₚ x :: l.
Proof.
  induction l as [|y l IH]; simpl; [done|].
  destruct (ltb (key y) (key x)); [|done].
  rewrite IH. apply Permutation_swap.
Qed.

Lemma py_sorted_perm (l : list A) : py_sorted key ltb l ≡ₚ l.
Proof.
  induction l as [|x l IH]; simpl; [done|].
  rewrite insert_sorted_perm. by rewrite IH.
Qed.

Lemma py_sorted_elem_of (x : A) (l : list A) : x ∈ py_sorted key ltb l <-> x ∈ l.
Proof. by rewrite py_sorted_perm. Qed.

Lemma py_sorted_fixed (l : list A) : StronglySorted (not_after key ltb) l -> py_sorted key ltb l = l.
Proof.
  induction 1 as [|x l Hs IH Hall]; simpl; [done|].
  rewrite IH. destruct l as [|y l']; simpl; [done|].
  apply Forall_cons in Hall as [Hxy _]. unfold not_after in Hxy. by rewrite Hxy.
Qed.

Hypothesis ltb_asym : forall a b, ltb a b = true -> ltb b a = false.
Hypothesis not_after_trans : forall a b c, ltb b a = false -> ltb c b = false -> ltb c a = false.

Lemma insert_sorted_sorted (x : A) (l : list A) :
  StronglySorted (not_after key ltb) l -> StronglySorted (not_after key ltb) (insert_sorted key ltb x l).
Proof.
  induction 1 as [|y l Hs IH Hall]; simpl.
  - repeat constructor.
  - destruct (ltb (key y) (key x)) eqn:E.
    + constructor; [done|].
      rewrite insert_sorted_perm. constructor; [|done].
      unfold not_after. by apply ltb_asym.
    + constructor; [by constructor|].
      constructor; [done|].
      eapply Forall_impl; [exact Hall|]. intros z Hz. unfold not_after in *. eauto.
Qed.

Lemma py_sorted_sorted (l : list A) : StronglySorted (not_after key ltb) (py_sorted key ltb l).
Proof.
  induction l as [|x l IH]; simpl; [constructor|]. by apply insert_sorted_sorted.
Qed.
End PySortedFacts.

(** ** [str.strip] *)

Lemma rstrip_with_idemp (p : ascii -> bool) (s : string) :
  rstrip_with p (rstrip_with p s) = rstrip_with p s.
Proof.
  induction s as [|a s IH]; simpl; [done|].
  destruct (rstrip_with p s) as [|b r] eqn:E.
  - destruct (p a) eqn:Ea; simpl; [done|]. by rewrite Ea.
  - simpl. simpl in IH. by rewrite IH.
Qed.

Lemma lstrip_with_head (p : ascii -> bool) (s : string) :
  match lstrip_with p s with
  | EmptyString => True
  | String a _ => p a = false
  end.
Proof.
  induction s as [|a s IH]; simpl; [done|].
  destruct (p a) eqn:E; [done|]. simpl. done.
Qed.

Lemma rstrip_with_keeps_head (p : ascii -> bool) (a : ascii) (s : string) :
  p a = false -> exists r, rstrip_with p (String a s) = String a r.
Proof.
  intros Ha. simpl. destruct (rstrip_with p s); rewrite ?Ha; eauto.
Qed.

Lemma lstrip_with_fixed (p : ascii -> bool) (a : ascii) (s : string) :
  p a = false -> lstrip_with p (String a s) = String a s.
Proof. intros Ha. simpl. by rewrite Ha. Qed.

Lemma strip_idemp (s : string) : strip (strip s) = strip s.
Proof.
  unfold strip, rstrip, lstrip.
  pose proof (lstrip_with_head py_isspace s) as Hh.
  destruct (lstrip_with py_isspace s) as [|a t] eqn:E; [done|].
  destruct (rstrip_with_keeps_head py_isspace a t Hh) as [r Hr].
  rewrite Hr, lstrip_with_fixed by done. rewrite <- Hr. apply rstrip_with_idemp.
Qed.

Lemma rstrip_of_strip (s : string) : rstrip (strip s) = strip s.
Proof. unfold strip, rstrip. apply rstrip_with_idemp. Qed.

Lemma rstrip_with_cons (p : ascii -> bool) (a : ascii) (s : string) :
  rstrip_with p s <> EmptyString -> rstrip_with p (String a s) = String a (rstrip_with p s).
Proof. intros Hne. simpl. by destruct (rstrip_with p s). Qed.

Lemma rstrip_with_app (p : ascii -> bool) (s1 s2 : string) :
  rstrip_with p s2 <> EmptyString -> rstrip_with p (s1 +:+ s2) = s1 +:+ rstrip_with p s2.
Proof.
  intros Hne. induction s1 as [|a s1 IH]; [done|].
  change (String a s1 +:+ s2) with (String a (s1 +:+ s2)).
  rewrite rstrip_with_cons; [by rewrite IH|].
  rewrite IH. by destruct s1.
Qed.

(** A channel URL built from a stripped, non-empty slug has no white space
    to strip. *)
Lemma strip_kick_url (slug : string) :
  strip slug = slug -> slug <> "" -> strip (KICK_URL_PREFIX +:+ slug) = KICK_URL_PREFIX +:+ slug.
Proof.
  intros Hs Hne. unfold strip at 1.
  replace (lstrip (KICK_URL_PREFIX +:+ slug)) with (KICK_URL_PREFIX +:+ slug) by done.
  unfold rstrip. rewrite rstrip_with_app.
  - f_equal. fold (rstrip slug). rewrite <- Hs. apply rstrip_of_strip.
  - fold (rstrip slug). rewrite <- Hs, rstrip_of_strip, Hs. done.
Qed.

Lemma StronglySorted_mono {A} (R1 R2 : A -> A -> Prop) (l : list A) :
  (forall a b, R1 a b -> R2 a b) -> StronglySorted R1 l -> StronglySorted R2 l.
Proof.
  intros Himp. induction 1 as [|x l Hs IH Hall]; constructor; [done|].
  eapply Forall_impl; [exact Hall | auto].
Qed.

(** ** The game selection *)

Section PreferredGames.
Context `{PyRuntime}.

Lemma clean_games_elem (seen : gset string) (values : list string) (g : string) :
  g ∈ KickMinerApp.clean_games seen values ->
  clean_name g /\ (casefold g ∉ seen) /\ exists v, v ∈ values /\ g = strip v.
Proof.
  revert seen. induction values as [|raw rest IH]; intros seen; simpl.
  - intros Hin. by apply elem_of_nil in Hin.
  - assert (Hrest : forall seen', g ∈ KickMinerApp.clean_games seen' rest ->
              clean_name g /\ (casefold g ∉ seen') /\
              exists v, v ∈ raw :: rest /\ g = strip v).
    { intros seen' Hin. apply IH in Hin as (? & ? & v & ? & ?).
      split_and!; [done..|]. exists v. split; [by right|done]. }
    destruct (String.eqb_spec (strip raw) "") as [He|Hne]; [apply Hrest|].
    case_bool_decide as Hseen; [apply Hrest|].
    intros [->|Hin]%elem_of_cons.
    + split_and!; [split; [apply strip_idemp | done] | done |].
      exists raw. split; [by left | done].
    + apply Hrest in Hin as (? & Hns & ?). split_and!; [done | | done].
      intros Hs. apply Hns, elem_of_union. by right.
Qed.

Lemma clean_games_NoDup (seen : gset string) (values : list string) :
  NoDup (casefold <$> KickMinerApp.clean_games seen values).
Proof.
  revert seen. induction values as [|raw rest IH]; intros seen; simpl; [constructor|].
  destruct (String.eqb (strip raw) ""); [apply IH|].
  case_bool_decide; [apply IH|].
  rewrite fmap_cons. constructor; [|apply IH].
  intros (g & Hk & Hin)%list_elem_of_fmap.
  apply clean_games_elem in Hin as (_ & Hns & _). set_solver.
Qed.

Lemma clean_games_cover (seen : gset string) (values : list string) (v : string) :
  v ∈ values -> strip v <> "" ->
  casefold (strip v) ∈ seen \/
  casefold (strip v) ∈ (casefold <$> KickMinerApp.clean_games seen values).
Proof.
  revert seen. induction values as [|raw rest IH]; intros seen Hin Hne; simpl.
  - by apply elem_of_nil in Hin.
  - apply elem_of_cons in Hin as [->|Hin].
    + destruct (String.eqb_spec (strip raw) "") as [He|_]; [done|].
      case_bool_decide; [by left|]. right. rewrite fmap_cons. by left.
    + destruct (String.eqb (strip raw) ""); [by apply IH|].
      case_bool_decide; [by apply IH|].
      destruct (IH ({[casefold (strip raw)]} ∪ seen) Hin Hne) as [Hs|Hs].
      * apply elem_of_union in Hs as [Hs|Hs]; [|by left].
        right. rewrite fmap_cons. apply elem_of_singleton in Hs. rewrite Hs. by left.
      * right. rewrite fmap_cons. by right.
Qed.

Lemma clean_games_fixed (seen : gset string) (l : list string) :
  Forall clean_name l -> NoDup (casefold <$> l) ->
  (forall g, g ∈ l -> casefold g ∉ seen) ->
  KickMinerApp.clean_games seen l = l.
Proof.
  revert seen. induction l as [|g l IH]; intros seen Hc Hnd Hseen; simpl; [done|].
  apply Forall_cons in Hc as [[Hs Hne] Hc].
  rewrite fmap_cons in Hnd. apply NoDup_cons in Hnd as [Hg Hnd].
  rewrite Hs. destruct (String.eqb_spec g "") as [?|_]; [done|].
  case_bool_decide as Hin.
  { destruct (Hseen g); [by left | done]. }
  f_equal. apply IH; [done..|].
  intros g' Hg'. apply not_elem_of_union. split; [|apply Hseen; by right].
  intros Heq%elem_of_singleton. apply Hg. rewrite <- Heq. by apply list_elem_of_fmap_2.
Qed.

Lemma existsb_all_games (l : list string) :
  existsb (fun game => String.eqb game ALL_GAMES_TOKEN) l = true <-> ALL_GAMES_TOKEN ∈ l.
Proof.
  rewrite existsb_exists. split.
  - intros (g & Hin & ->%String.eqb_eq). by apply list_elem_of_In.
  - intros Hin. exists ALL_GAMES_TOKEN. split; [by apply list_elem_of_In | apply String.eqb_refl].
Qed.

Lemma sorted_by_casefold (l : list string) :
  StronglySorted (fun a b => String.le (casefold a) (casefold b))
    (py_sorted casefold String.ltb l).
Proof.
  eapply StronglySorted_mono; [|apply py_sorted_sorted].
  - intros a b Hab. by apply string_ltb_false_le.
  - intros a b Hab. destruct (String.ltb b a) eqn:E; [|done].
    pose proof (string_ltb_trans _ _ _ Hab E) as Hc'.
    by rewrite string_ltb_irrefl in Hc'.
  - intros a b c Hab Hbc. apply string_ltb_false_le.
    apply string_ltb_false_le in Hab, Hbc. by etrans.
Qed.

Lemma normalize_preferred_games_shape (values : list string) :
  KickMinerApp._normalize_preferred_games values = [ALL_GAMES_TOKEN] \/
  specific_games values (KickMinerApp._normalize_preferred_games values).
Proof.
  unfold KickMinerApp._normalize_preferred_games.
  destruct (existsb _ _) eqn:Hall; [by left|].
  destruct (KickMinerApp.clean_games ∅ values) as [|g0 l0] eqn:Hc; [by left|].
  right. rewrite <- Hc.
  assert (Hperm : py_sorted casefold String.ltb (KickMinerApp.clean_games ∅ values)
                  ≡ₚ KickMinerApp.clean_games ∅ values) by apply py_sorted_perm.
  split_and!.
  - intros Hnil. rewrite Hnil in Hperm. apply Permutation_nil_l in Hperm.
    rewrite Hc in Hperm. done.
  - rewrite Hperm. intros Hin%existsb_all_games. rewrite Hc in Hin. congruence.
  - rewrite Hperm. apply Forall_forall. intros g Hg. by apply clean_games_elem in Hg as [? _].
  - rewrite Hperm. apply clean_games_NoDup.
  - apply sorted_by_casefold.
  - intros g Hg. rewrite Hperm in Hg. by apply clean_games_elem in Hg as (_ & _ & ?).
  - intros v Hv Hne. rewrite Hperm.
    destruct (clean_games_cover ∅ values v Hv Hne) as [Hs|Hs]; [|done].
    by apply not_elem_of_empty in Hs.
Qed.

Lemma normalize_preferred_games_blank (values : list string) :
  (forall v, v ∈ values -> strip v = "") ->
  KickMinerApp._normalize_preferred_games values = [ALL_GAMES_TOKEN].
Proof.
  intros Hblank. destruct (normalize_preferred_games_shape values) as [?|Hs]; [done|].
  destruct Hs as (Hne & _ & Hclean & _ & _ & Hfrom & _).
  destruct (KickMinerApp._normalize_preferred_games values) as [|g l]; [done|].
  apply Forall_cons in Hclean as [[_ Hg] _].
  destruct (Hfrom g) as (v & Hv & ->); [by left|]. by rewrite Hblank in Hg.
Qed.

Lemma normalize_preferred_games_idemp (values : list string) :
  KickMinerApp._normalize_preferred_games (KickMinerApp._normalize_preferred_games values)
  = KickMinerApp._normalize_preferred_games values.
Proof.
  destruct (normalize_preferred_games_shape values) as [->|Hs].
  - unfold KickMinerApp._normalize_preferred_games. simpl.
    change (strip ALL_GAMES_TOKEN) with ALL_GAMES_TOKEN. simpl.
    rewrite bool_decide_eq_false_2 by set_solver. done.
  - destruct Hs as (Hne & Hall & Hclean & Hnd & Hsorted & _ & _).
    set (n := KickMinerApp._normalize_preferred_games values) in *.
    unfold KickMinerApp._normalize_preferred_games at 1.
    rewrite clean_games_fixed by (try done; set_solver).
    destruct (existsb _ n) eqn:E; [by apply existsb_all_games in E|].
    destruct n as [|g l] eqn:En; [done|]. rewrite <- En in *.
    apply py_sorted_fixed.
    eapply StronglySorted_mono; [|exact Hsorted].
    intros a b Hab. by apply string_ltb_false_le.
Qed.

Lemma selected_of_all : KickMinerApp.selected_of [ALL_GAMES_TOKEN] = ∅.
Proof.
  unfold KickMinerApp.selected_of. rewrite filter_cons_False; [done|]. by intros [? _].
Qed.

Lemma selected_of_specific (values n : list string) :
  specific_games values n -> KickMinerApp.selected_of n <> ∅.
Proof.
  intros (Hne & Hall & Hclean & _). destruct n as [|g l]; [done|].
  apply Forall_cons in Hclean as [[Hs Hg] _].
  assert (casefold (strip g) ∈ KickMinerApp.selected_of (g :: l)) as Hin.
  2: { intros He. rewrite He in Hin. by apply not_elem_of_empty in Hin. }
  unfold KickMinerApp.selected_of. apply elem_of_list_to_set, list_elem_of_fmap.
  exists g. split; [done|]. apply list_elem_of_filter. split; [|by left].
  split; [|by rewrite Hs]. intros ->. apply Hall. by left.
Qed.
End PreferredGames.

(** C10.  A normalized selection is the single all-games token, or a
    non-empty list of stripped, non-empty game names without the token,
    pairwise different and ascending under case folding, that represents
    every non-blank input; a selection of blank entries only (or none)
    normalizes to the token; and the derived filter is never
    [(False, set())]. *)
Theorem normalize_preferred_games_spec `{PyRuntime} (values : list string)
    (app : KickMinerApp.t) :
  (KickMinerApp._normalize_preferred_games values = [ALL_GAMES_TOKEN] \/
   specific_games values (KickMinerApp._normalize_preferred_games values)) /\
  ((forall v, v ∈ values -> strip v = "") ->
   KickMinerApp._normalize_preferred_games values = [ALL_GAMES_TOKEN]) /\
  ~ ((KickMinerApp._preferred_game_filter app).2.1 = false /\
     (KickMinerApp._preferred_game_filter app).2.2 = ∅).
Proof.
  split; [apply normalize_preferred_games_shape|].
  split; [apply normalize_preferred_games_blank|].
  unfold KickMinerApp._preferred_game_filter. simpl.
  destruct (normalize_preferred_games_shape (KickMinerApp._preferred_games_cached app))
    as [->|Hs].
  - intros [Hm _]. by rewrite bool_decide_eq_true_2 in Hm by (by left).
  - intros [_ He]. by eapply selected_of_specific.
Qed.

(** ** The liveness cache *)

(** C6.  With no fresh entry for the slug and the network in use, a failing
    query is swallowed: the lookup returns the cached pair when there is
    one and [(None, 0)] otherwise, and the cache is returned as it was. *)
Theorem live_snapshot_network_failure (w : World)
    (cache : gmap string (option bool * Z * Z)) (slug : string) (max_age_seconds : Z)
    (e : exn) :
  KickMinerApp.is_fresh w (cache !! slug) max_age_seconds = false ->
  channel_live_status w slug = Raise e ->
  KickMinerApp._get_channel_live_snapshot w cache slug max_age_seconds true =
    (match cache !! slug with
     | Some (live, viewers, _) => (live, viewers)
     | None => (None, 0)
     end, cache).
Proof.
  intros Hstale Hfail. unfold KickMinerApp._get_channel_live_snapshot.
  rewrite Hstale. simpl. rewrite Hfail. simpl. done.
Qed.

Lemma live_snapshot_network_failure_witness :
  KickMinerApp.is_fresh (offline_world 100)
    (({["foo" := (Some true, 12, 0)]} : gmap string (option bool * Z * Z)) !! "foo") 45 = false /\
  KickMinerApp._get_channel_live_snapshot (offline_world 100)
    {["foo" := (Some true, 12, 0)]} "foo" 45 true =
    ((Some true, 12), {["foo" := (Some true, 12, 0)]}).
Proof.
  split; [reflexivity|].
  exact (live_snapshot_network_failure (offline_world 100)
           {["foo" := (Some true, 12, 0)]} "foo" 45 KickBrowserError eq_refl eq_refl).
Defined.

(** ** Persisted queue items *)

Lemma items_of_to_dict `{PyRuntime} (from : QueueItem.t -> QueueItem.t)
    (items : list QueueItem.t) :
  (forall item, QueueItem.from_dict (QueueItem.to_dict item) = Some (from item)) ->
  AppConfig.items_of (map (fun item => JDict (QueueItem.to_dict item)) items)
  = Some (from <$> items).
Proof.
  intros Hfrom. induction items as [|item items IH]; [done|].
  cbn [map AppConfig.items_of]. rewrite Hfrom, IH. done.
Qed.

Lemma from_dict_to_dict `{PyRuntime} (item : QueueItem.t) :
  QueueItem.from_dict (QueueItem.to_dict item) = Some (default_filled item).
Proof.
  destruct item as [url mt es st cid cname cat notes].
  unfold QueueItem.from_dict, QueueItem.to_dict, default_filled, dict_get. cbn.
  assert (Hstr : forall s d, py_str (py_or (JStr s) (JStr d)) = str_or s d).
  { intros s d. unfold py_or, str_or. simpl. by destruct (String.eqb s ""). }
  assert (Hself : forall s, str_or s "" = s).
  { intros s. unfold str_or. by destruct (String.eqb_spec s "") as [->|]. }
  rewrite !Hstr, !Hself.
  destruct cid, cname; cbn; do 2 f_equal;
    destruct cat as [n|]; cbn; try done; by destruct n.
Qed.

(** C8.  Reloading the persisted form of an item gives back the item, field
    for field, up to default filling: an empty status comes back as
    [PENDING] and category 0 as none; an item with a status and a category
    other than 0 comes back unchanged.  A whole configuration reloads with
    its queue item by item, in the same order. *)
Theorem queue_item_round_trip `{PyRuntime} :
  (forall item, QueueItem.from_dict (QueueItem.to_dict item) = Some (default_filled item)) /\
  (forall item, QueueItem.status item <> "" -> QueueItem.category_id item <> Some 0 ->
                default_filled item = item) /\
  (forall config, exists config',
      AppConfig.from_dict (AppConfig.to_dict config) = Ok (Some config') /\
      AppConfig.queue_items config' = default_filled <$> AppConfig.queue_items config).
Proof.
  split; [apply from_dict_to_dict|]. split.
  - intros [url mt es st cid cname cat notes] Hst Hcat. unfold default_filled. simpl in *.
    f_equal.
    + unfold str_or. by destruct (String.eqb_spec st "").
    + destruct cat as [[| |]|]; done.
  - intros config.
    pose proof (items_of_to_dict default_filled (AppConfig.queue_items config)
                  from_dict_to_dict) as Hitems.
    unfold AppConfig.from_dict, AppConfig.to_dict, AppConfig.int_or,
      dict_get, dict_get_default.
    cbn [dict_lookup String.eqb Ascii.eqb Bool.eqb default from_option id andb].
    set (raw := py_or _ (JList [])).
    assert (Hraw : match raw with
                   | JList l => AppConfig.items_of l
                   | _ => Some []
                   end = Some (default_filled <$> AppConfig.queue_items config)).
    { subst raw. destruct (AppConfig.queue_items config) as [|item items]; [done|].
      exact Hitems. }
    rewrite Hraw.
    assert (Hint : forall n d, exists m, py_int (py_or (JInt n) (JInt d)) = Ok m).
    { intros n d. unfold py_or. simpl. destruct (n =? 0); simpl; eauto. }
    destruct (Hint (AppConfig.default_minutes config) 120) as [m1 ->].
    destruct (Hint (AppConfig.watch_tick_seconds config) 60) as [m2 ->].
    destruct (Hint (AppConfig.poll_interval_seconds config) 20) as [m3 ->].
    destruct (Hint (AppConfig.auto_refresh_seconds config) 120) as [m4 ->].
    cbn. eexists. split; [reflexivity|]. done.
Qed.

(** ** Parsing the campaigns response *)

(** C7 on its failing input: the campaign whose [category] is a string makes
    [category.get] raise, and the well-formed campaign before it is lost
    with the whole parse. *)
Theorem parse_campaigns_response_text_category `{PyRuntime} :
  parse_campaigns_response payload_with_text_category = Raise AttributeError.
Proof. reflexivity. Qed.

(** ** The retry hint *)

Section RetryHint.
Context `{PyRuntime}.

Lemma partition_step_foldl (h : list QueueItem.t) (hint_id hint_name : string)
    (q a b : list loc) :
  foldl (KickMinerApp.partition_step h hint_id hint_name) (a, b) q =
  (a ++ filter (fun l => KickMinerApp.loc_matches h hint_id hint_name l = true) q,
   b ++ filter (fun l => KickMinerApp.loc_matches h hint_id hint_name l <> true) q)%list.
Proof.
  revert a b. induction q as [|l q IH]; intros a b; simpl.
  - by rewrite !app_nil_r.
  - unfold KickMinerApp.partition_step at 2. simpl.
    destruct (KickMinerApp.loc_matches h hint_id hint_name l) eqn:E.
    + rewrite IH, filter_cons_True by done.
      rewrite filter_cons_False by (intros Hn; by apply Hn).
      by rewrite <- app_assoc.
    + rewrite IH, filter_cons_False by congruence.
      rewrite filter_cons_True by congruence.
      by rewrite <- app_assoc.
Qed.

Lemma ordered_items_of_hinted (app : KickMinerApp.t) :
  (hint_of app).1 <> "" \/ (hint_of app).2 <> "" ->
  KickMinerApp.ordered_items_of app =
    match filter (fun l => hinted app l = true) (KickMinerApp.queue_items app) with
    | [] => (KickMinerApp.with_retry_hint app None None, KickMinerApp.queue_items app)
    | preferred =>
        (app, preferred ++
              filter (fun l => hinted app l <> true) (KickMinerApp.queue_items app))%list
    end.
Proof.
  intros Hset. unfold KickMinerApp.ordered_items_of, hinted, hint_of in *. simpl in Hset.
  assert (negb (String.eqb (strip (opt_str (KickMinerApp._retry_campaign_hint_id app))) "")
          || negb (String.eqb
                     (lower (strip (opt_str (KickMinerApp._retry_campaign_hint_name app)))) "")
          = true) as ->.
  { apply orb_true_iff.
    destruct Hset as [Hne|Hne]; [left|right]; apply negb_true_iff, String.eqb_neq; done. }
  rewrite partition_step_foldl. simpl.
  by destruct (filter _ (KickMinerApp.queue_items app)).
Qed.
End RetryHint.

(** C9.  With a retry hint set, the queue is examined as the items that
    match the hint by campaign id or name, in queue order, followed by the
    other items, in queue order; when no item matches, both hint fields
    are cleared and the queue is examined in its own order. *)
Theorem retry_hint_partition `{PyRuntime} (w : World) (app : KickMinerApp.t) :
  (hint_of app).1 <> "" \/ (hint_of app).2 <> "" ->
  let preferred := filter (fun l => hinted app l = true) (KickMinerApp.queue_items app) in
  let others := filter (fun l => hinted app l <> true) (KickMinerApp.queue_items app) in
  let app1 := (KickMinerApp._preferred_game_filter app).1 in
  let flt := (KickMinerApp._preferred_game_filter app).2 in
  let examined := if decide (preferred = []) then KickMinerApp.queue_items app
                  else (preferred ++ others)%list in
  let app2 := if decide (preferred = []) then KickMinerApp.with_retry_hint app1 None None
              else app1 in
  KickMinerApp.ordered_items_of app1 = (app2, examined) /\
  KickMinerApp.get_next_queue_item w app =
    (let '(h, cache, result) :=
       KickMinerApp.next_item_loop w (KickMinerApp.lookups_of app1 flt.1 flt.2)
         (KickMinerApp.heap app) (KickMinerApp._channel_live_cache app) None (-1) examined in
     (KickMinerApp.with_channel_live_cache
        (KickMinerApp.with_queue app2 h (KickMinerApp.queue_items app)) cache, result)).
Proof.
  intros Hset preferred others app1 flt examined app2.
  assert (Hord : KickMinerApp.ordered_items_of app1 = (app2, examined)).
  { rewrite ordered_items_of_hinted by exact Hset.
    change (filter (fun l => hinted app1 l = true) (KickMinerApp.queue_items app1))
      with preferred.
    subst examined app2. destruct (decide (preferred = [])) as [->|Hne]; [done|].
    by destruct preferred. }
  split; [exact Hord|].
  unfold KickMinerApp.get_next_queue_item.
  change (KickMinerApp._preferred_game_filter app) with (app1, (flt.1, flt.2)).
  cbv beta iota zeta. rewrite Hord.
  replace (KickMinerApp.heap app2) with (KickMinerApp.heap app)
    by (subst app2; by destruct (decide _)).
  replace (KickMinerApp._channel_live_cache app2) with (KickMinerApp._channel_live_cache app)
    by (subst app2; by destruct (decide _)).
  replace (KickMinerApp.queue_items app2) with (KickMinerApp.queue_items app)
    by (subst app2; by destruct (decide _)).
  done.
Qed.

Lemma retry_hint_partition_witness :
  ((@hint_of ascii_runtime (sample_app three_items [0; 1; 2]%nat [] (Some "c2"))).1 <> "" \/
   (@hint_of ascii_runtime (sample_app three_items [0; 1; 2]%nat [] (Some "c2"))).2 <> "") /\
  (@KickMinerApp.ordered_items_of ascii_runtime
     (@KickMinerApp._preferred_game_filter ascii_runtime
        (sample_app three_items [0; 1; 2]%nat [] (Some "c2"))).1).2 = [1; 2; 0]%nat.
Proof.
  assert (Hset : (@hint_of ascii_runtime (sample_app three_items [0; 1; 2]%nat [] (Some "c2"))).1 <> "" \/
                 (@hint_of ascii_runtime (sample_app three_items [0; 1; 2]%nat [] (Some "c2"))).2 <> "").
  { left. discriminate. }
  split; [exact Hset|].
  pose proof (@retry_hint_partition ascii_runtime (offline_world 0)
                (sample_app three_items [0; 1; 2]%nat [] (Some "c2")) Hset) as [Hord _].
  rewrite Hord. reflexivity.
Defined.

(** ** The redraw of the queue view *)

Section Refresh.
Context `{PyRuntime}.

Lemma with_status_same (item : QueueItem.t) :
  QueueItem.with_status item (QueueItem.status item) = item.
Proof. by destruct item. Qed.

Lemma live_snapshot_offline (w : World) (cache : gmap string (option bool * Z * Z))
    (slug : string) (max_age_seconds : Z) :
  (KickMinerApp._get_channel_live_snapshot w cache slug max_age_seconds false).2 = cache.
Proof.
  unfold KickMinerApp._get_channel_live_snapshot.
  by destruct (KickMinerApp.is_fresh w (cache !! slug) max_age_seconds).
Qed.

Section Item.
Variables (w : World) (cbi cbn : gmap string KickCampaign.t)
  (pbi pbn : gmap string KickProgressCampaign.t).

(** The status the redraw leaves, from the item as it finds it. *)
Lemma refresh_item_status (item : QueueItem.t) :
  KickMinerApp.refresh_item w cbi cbn pbi pbn item =
    QueueItem.with_status item
      (if KickMinerApp._is_progress_campaign_finished
            (KickMinerApp._resolve_item_progress_campaign item pbi pbn)
       then "FINISHED"
       else if KickMinerApp._is_campaign_expired w
                 (KickMinerApp._resolve_queue_item_campaign item cbi cbn)
            then "EXPIRED"
            else QueueItem.status item).
Proof.
  unfold KickMinerApp.refresh_item.
  destruct (KickMinerApp._is_campaign_expired w _);
    change (KickMinerApp._resolve_item_progress_campaign
              (QueueItem.with_status item "EXPIRED") pbi pbn)
      with (KickMinerApp._resolve_item_progress_campaign item pbi pbn);
    destruct (KickMinerApp._is_progress_campaign_finished _);
    by destruct item.
Qed.

Lemma refresh_item_with_status (item : QueueItem.t) (status : string) :
  KickMinerApp.refresh_item w cbi cbn pbi pbn (QueueItem.with_status item status) =
    QueueItem.with_status (KickMinerApp.refresh_item w cbi cbn pbi pbn item)
      (if KickMinerApp._is_progress_campaign_finished
            (KickMinerApp._resolve_item_progress_campaign item pbi pbn)
       then "FINISHED"
       else if KickMinerApp._is_campaign_expired w
                 (KickMinerApp._resolve_queue_item_campaign item cbi cbn)
            then "EXPIRED"
            else status).
Proof. by rewrite !refresh_item_status. Qed.

Lemma refresh_item_idemp (item : QueueItem.t) :
  KickMinerApp.refresh_item w cbi cbn pbi pbn
    (KickMinerApp.refresh_item w cbi cbn pbi pbn item) =
  KickMinerApp.refresh_item w cbi cbn pbi pbn item.
Proof.
  rewrite (refresh_item_status item), refresh_item_with_status, refresh_item_status.
  simpl. by repeat case_match.
Qed.

Lemma refresh_item_mark (item : QueueItem.t) :
  exists status,
    KickMinerApp.refresh_item w cbi cbn pbi pbn item = QueueItem.with_status item status /\
    (status = QueueItem.status item \/ status = "EXPIRED" \/ status = "FINISHED").
Proof.
  rewrite refresh_item_status. eexists. split; [done|].
  repeat case_match; auto.
Qed.

Lemma refresh_rows_spec (q : list loc) :
  forall (h : list QueueItem.t) (cache : gmap string (option bool * Z * Z)),
    (foldl (KickMinerApp.refresh_row w cbi cbn pbi pbn) (h, cache) q).2 = cache /\
    length (foldl (KickMinerApp.refresh_row w cbi cbn pbi pbn) (h, cache) q).1 = length h /\
    forall l,
      (foldl (KickMinerApp.refresh_row w cbi cbn pbi pbn) (h, cache) q).1 !! l =
      if decide (l ∈ q) then KickMinerApp.refresh_item w cbi cbn pbi pbn <$> h !! l
      else h !! l.
Proof.
  induction q as [|l0 q IH]; intros h cache; cbn [foldl].
  { split_and!; [done..|]. intros l. cbn [fst].
    destruct (decide (l ∈ [])) as [Hin|_]; [by apply elem_of_nil in Hin|done]. }
  assert (Hin_cons : forall l, l <> l0 -> (l ∈ l0 :: q) <-> l ∈ q).
  { intros l Hne. rewrite elem_of_cons. tauto. }
  unfold KickMinerApp.refresh_row at 2 4 6. cbn [fst snd].
  destruct (h !! l0) as [item|] eqn:Hl0.
  - pose proof (live_snapshot_offline w cache
                  (QueueItem.slug (KickMinerApp.refresh_item w cbi cbn pbi pbn item)) 120)
      as Hcache.
    destruct (KickMinerApp._get_channel_live_snapshot w cache _ 120 false) as [pair cache'].
    cbn [snd] in Hcache. subst cache'.
    destruct (IH (<[l0 := KickMinerApp.refresh_item w cbi cbn pbi pbn item]> h) cache)
      as (Hc & Hlen & Hlook).
    split_and!; [done|by rewrite Hlen, length_insert|].
    intros l. rewrite Hlook.
    destruct (decide (l = l0)) as [->|Hne].
    + rewrite list_lookup_insert_eq by (by eapply lookup_lt_Some).
      rewrite Hl0.
      destruct (decide (l0 ∈ l0 :: q)) as [_|Hout]; [|by destruct Hout; left].
      destruct (decide (l0 ∈ q)); [|done].
      cbn [fmap option_fmap option_map]. by rewrite refresh_item_idemp.
    + rewrite list_lookup_insert_ne by done.
      destruct (decide (l ∈ q)) as [Hin|Hout], (decide (l ∈ l0 :: q)) as [Hin'|Hout'];
        try done.
      * destruct Hout'. by apply Hin_cons.
      * destruct Hout. by apply Hin_cons.
  - destruct (IH h cache) as (Hc & Hlen & Hlook).
    split_and!; [done..|]. intros l. rewrite Hlook.
    destruct (decide (l = l0)) as [->|Hne].
    + rewrite Hl0. by repeat case_match.
    + destruct (decide (l ∈ q)) as [Hin|Hout], (decide (l ∈ l0 :: q)) as [Hin'|Hout'];
        try done.
      * destruct Hout'. by apply Hin_cons.
      * destruct Hout. by apply Hin_cons.
Qed.
End Item.

Lemma save_config_queue (app : KickMinerApp.t) :
  KickMinerApp.heap (KickMinerApp.save_config app) = KickMinerApp.heap app /\
  KickMinerApp.queue_items (KickMinerApp.save_config app) = KickMinerApp.queue_items app /\
  KickMinerApp._force_switch_urls (KickMinerApp.save_config app) =
    KickMinerApp._force_switch_urls app /\
  KickMinerApp._retry_campaign_hint_id (KickMinerApp.save_config app) =
    KickMinerApp._retry_campaign_hint_id app /\
  KickMinerApp._retry_campaign_hint_name (KickMinerApp.save_config app) =
    KickMinerApp._retry_campaign_hint_name app /\
  KickMinerApp.campaigns (KickMinerApp.save_config app) = KickMinerApp.campaigns app /\
  KickMinerApp.progress (KickMinerApp.save_config app) = KickMinerApp.progress app /\
  KickMinerApp._channel_live_cache (KickMinerApp.save_config app) =
    KickMinerApp._channel_live_cache app.
Proof. unfold KickMinerApp.save_config. by destruct (KickMinerApp._settings_game_vars app). Qed.

(** The redraw writes the heap and, through [save_config], the game
    selection; nothing else. *)
Lemma refresh_queue_tree_eq (w : World) (app : KickMinerApp.t) :
  KickMinerApp._refresh_queue_tree w app =
    KickMinerApp.save_config
      (KickMinerApp.with_queue app
         (KickMinerApp.heap (KickMinerApp._refresh_queue_tree w app))
         (KickMinerApp.queue_items app)).
Proof.
  unfold KickMinerApp._refresh_queue_tree.
  match goal with
  | |- context [foldl (KickMinerApp.refresh_row w ?a ?b ?c ?d) (?h, ?cache) ?q] =>
      pose proof (refresh_rows_spec w a b c d q h cache) as (Hc & _ & _);
      destruct (foldl (KickMinerApp.refresh_row w a b c d) (h, cache) q) as [h' cache']
  end.
  simpl in Hc. subst cache'.
  rewrite (proj1 (save_config_queue _)). reflexivity.
Qed.

Lemma refresh_queue_tree_queue (w : World) (app : KickMinerApp.t) :
  KickMinerApp.queue_items (KickMinerApp._refresh_queue_tree w app) =
    KickMinerApp.queue_items app.
Proof.
  rewrite refresh_queue_tree_eq. by destruct (save_config_queue
    (KickMinerApp.with_queue app (KickMinerApp.heap (KickMinerApp._refresh_queue_tree w app))
       (KickMinerApp.queue_items app))) as (_ & -> & _).
Qed.

Lemma refresh_queue_tree_campaigns (w : World) (app : KickMinerApp.t) :
  KickMinerApp.campaigns (KickMinerApp._refresh_queue_tree w app) =
    KickMinerApp.campaigns app.
Proof.
  rewrite refresh_queue_tree_eq. by destruct (save_config_queue
    (KickMinerApp.with_queue app (KickMinerApp.heap (KickMinerApp._refresh_queue_tree w app))
       (KickMinerApp.queue_items app))) as (_ & _ & _ & _ & _ & -> & _).
Qed.

Lemma refresh_queue_tree_progress (w : World) (app : KickMinerApp.t) :
  KickMinerApp.progress (KickMinerApp._refresh_queue_tree w app) =
    KickMinerApp.progress app.
Proof.
  rewrite refresh_queue_tree_eq. by destruct (save_config_queue
    (KickMinerApp.with_queue app (KickMinerApp.heap (KickMinerApp._refresh_queue_tree w app))
       (KickMinerApp.queue_items app))) as (_ & _ & _ & _ & _ & _ & -> & _).
Qed.

Lemma refresh_queue_tree_requests (w : World) (app : KickMinerApp.t) :
  KickMinerApp._force_switch_urls (KickMinerApp._refresh_queue_tree w app) =
    KickMinerApp._force_switch_urls app.
Proof.
  rewrite refresh_queue_tree_eq. by destruct (save_config_queue
    (KickMinerApp.with_queue app (KickMinerApp.heap (KickMinerApp._refresh_queue_tree w app))
       (KickMinerApp.queue_items app))) as (_ & _ & -> & _).
Qed.

Lemma refresh_queue_tree_hint (w : World) (app : KickMinerApp.t) :
  KickMinerApp._retry_campaign_hint_id (KickMinerApp._refresh_queue_tree w app) =
    KickMinerApp._retry_campaign_hint_id app /\
  KickMinerApp._retry_campaign_hint_name (KickMinerApp._refresh_queue_tree w app) =
    KickMinerApp._retry_campaign_hint_name app.
Proof.
  rewrite refresh_queue_tree_eq. by destruct (save_config_queue
    (KickMinerApp.with_queue app (KickMinerApp.heap (KickMinerApp._refresh_queue_tree w app))
       (KickMinerApp.queue_items app))) as (_ & _ & _ & -> & -> & _).
Qed.

Lemma refresh_queue_tree_cache (w : World) (app : KickMinerApp.t) :
  KickMinerApp._channel_live_cache (KickMinerApp._refresh_queue_tree w app) =
    KickMinerApp._channel_live_cache app.
Proof.
  unfold KickMinerApp._refresh_queue_tree.
  match goal with
  | |- context [foldl (KickMinerApp.refresh_row w ?a ?b ?c ?d) (?h, ?cache) ?q] =>
      pose proof (refresh_rows_spec w a b c d q h cache) as (Hc & _ & _);
      destruct (foldl (KickMinerApp.refresh_row w a b c d) (h, cache) q) as [h' cache']
  end.
  simpl in Hc. subst cache'.
  by destruct (save_config_queue
    (KickMinerApp.with_channel_live_cache
       (KickMinerApp.with_queue app h' (KickMinerApp.queue_items app))
       (KickMinerApp._channel_live_cache app))) as (_ & _ & _ & _ & _ & _ & _ & ->).
Qed.

Lemma refresh_queue_tree_heap (w : World) (app : KickMinerApp.t) :
  length (KickMinerApp.heap (KickMinerApp._refresh_queue_tree w app)) =
    length (KickMinerApp.heap app) /\
  forall l,
    KickMinerApp.heap (KickMinerApp._refresh_queue_tree w app) !! l =
    if decide (l ∈ KickMinerApp.queue_items app)
    then refreshed w app <$> KickMinerApp.heap app !! l
    else KickMinerApp.heap app !! l.
Proof.
  unfold KickMinerApp._refresh_queue_tree, refreshed.
  match goal with
  | |- context [foldl (KickMinerApp.refresh_row w ?a ?b ?c ?d) (?h, ?cache) ?q] =>
      pose proof (refresh_rows_spec w a b c d q h cache) as (_ & Hlen & Hlook);
      destruct (foldl (KickMinerApp.refresh_row w a b c d) (h, cache) q) as [h' cache']
  end.
  rewrite (proj1 (save_config_queue _)).
  simpl in *. split; [exact Hlen|exact Hlook].
Qed.

Lemma marks_only_refl (h : list QueueItem.t) : marks_only h h.
Proof.
  split; [done|]. intros l item Hl. exists (QueueItem.status item).
  rewrite with_status_same. auto.
Qed.

Lemma marks_only_trans (h1 h2 h3 : list QueueItem.t) :
  marks_only h1 h2 -> marks_only h2 h3 -> marks_only h1 h3.
Proof.
  intros [Hlen1 H1] [Hlen2 H2]. split; [congruence|].
  intros l item Hl.
  destruct (H1 _ _ Hl) as (s1 & Hl1 & Hs1).
  destruct (H2 _ _ Hl1) as (s2 & Hl2 & Hs2).
  exists s2. split; [by rewrite Hl2; destruct item|].
  simpl in Hs2. destruct Hs2 as [->|Hs2]; [exact Hs1|by right].
Qed.

Lemma refresh_queue_tree_marks (w : World) (app : KickMinerApp.t) :
  marks_only (KickMinerApp.heap app)
    (KickMinerApp.heap (KickMinerApp._refresh_queue_tree w app)).
Proof.
  destruct (refresh_queue_tree_heap w app) as [Hlen Hlook].
  split; [exact Hlen|]. intros l item Hl. rewrite Hlook, Hl.
  destruct (decide (l ∈ KickMinerApp.queue_items app)).
  - simpl. unfold refreshed.
    destruct (refresh_item_mark w
                (KickMinerApp.campaign_by_id (KickMinerApp.lookups_of app true ∅))
                (KickMinerApp.campaign_by_name (KickMinerApp.lookups_of app true ∅))
                (KickMinerApp.progress_by_id (KickMinerApp.lookups_of app true ∅))
                (KickMinerApp.progress_by_name (KickMinerApp.lookups_of app true ∅)) item)
      as (status & -> & Hs).
    eauto.
  - exists (QueueItem.status item). rewrite with_status_same. auto.
Qed.

(** Marking leaves every URL where it is. *)
Lemma find_loc_by_url_marks (h h' : list QueueItem.t) (q : list loc) (url : string) :
  marks_only h h' ->
  KickMinerApp.find_loc_by_url h' q url = KickMinerApp.find_loc_by_url h q url.
Proof.
  intros [Hlen Hmark]. induction q as [|l q IH]; simpl; [done|].
  destruct (h !! l) as [item|] eqn:Hl.
  - destruct (Hmark _ _ Hl) as (status & -> & _). simpl. by rewrite IH.
  - apply lookup_ge_None in Hl. rewrite <- Hlen in Hl. apply lookup_ge_None in Hl.
    by rewrite Hl, IH.
Qed.

Lemma refresh_queue_tree_find (w : World) (app : KickMinerApp.t) (url : string) :
  KickMinerApp._find_item_by_url (KickMinerApp._refresh_queue_tree w app) url =
    KickMinerApp._find_item_by_url app url.
Proof.
  unfold KickMinerApp._find_item_by_url. rewrite refresh_queue_tree_queue.
  apply find_loc_by_url_marks, refresh_queue_tree_marks.
Qed.
Lemma refreshed_same_data (w : World) (a b : KickMinerApp.t) (item : QueueItem.t) :
  KickMinerApp.campaigns b = KickMinerApp.campaigns a ->
  KickMinerApp.progress b = KickMinerApp.progress a ->
  refreshed w b item = refreshed w a item.
Proof. unfold refreshed, KickMinerApp.lookups_of. simpl. by intros -> ->. Qed.

Lemma refreshed_idemp (w : World) (app : KickMinerApp.t) (item : QueueItem.t) :
  refreshed w app (refreshed w app item) = refreshed w app item.
Proof. apply refresh_item_idemp. Qed.

(** The redraw looks at which objects are queued, not at their order. *)
Lemma refresh_queue_tree_perm (w : World) (a b : KickMinerApp.t) :
  KickMinerApp.campaigns b = KickMinerApp.campaigns a ->
  KickMinerApp.progress b = KickMinerApp.progress a ->
  KickMinerApp.heap b = KickMinerApp.heap a ->
  KickMinerApp.queue_items b ≡ₚ KickMinerApp.queue_items a ->
  KickMinerApp.heap (KickMinerApp._refresh_queue_tree w b) =
    KickMinerApp.heap (KickMinerApp._refresh_queue_tree w a).
Proof.
  intros Hc Hp Hh Hq. apply list_eq. intros l.
  rewrite (proj2 (refresh_queue_tree_heap w a) l), (proj2 (refresh_queue_tree_heap w b) l), Hh.
  destruct (decide (l ∈ KickMinerApp.queue_items b)) as [Hb|Hb],
    (decide (l ∈ KickMinerApp.queue_items a)) as [Ha|Ha]; try done.
  - destruct (KickMinerApp.heap a !! l); [|done]. simpl.
    by rewrite (refreshed_same_data w a b).
  - destruct Ha. by rewrite <- Hq.
  - destruct Hb. by rewrite Hq.
Qed.

(** A second redraw in the same world finds nothing to mark. *)
Lemma refresh_queue_tree_again (w : World) (a b : KickMinerApp.t) :
  KickMinerApp.campaigns b = KickMinerApp.campaigns a ->
  KickMinerApp.progress b = KickMinerApp.progress a ->
  KickMinerApp.heap b = KickMinerApp.heap (KickMinerApp._refresh_queue_tree w a) ->
  (forall l, l ∈ KickMinerApp.queue_items b -> l ∈ KickMinerApp.queue_items a) ->
  KickMinerApp.heap (KickMinerApp._refresh_queue_tree w b) = KickMinerApp.heap b.
Proof.
  intros Hc Hp Hh Hq. apply list_eq. intros l.
  rewrite (proj2 (refresh_queue_tree_heap w b) l).
  destruct (decide (l ∈ KickMinerApp.queue_items b)) as [Hb|Hb]; [|done].
  rewrite Hh, (proj2 (refresh_queue_tree_heap w a) l).
  rewrite decide_True by (by apply Hq).
  destruct (KickMinerApp.heap a !! l); [|done]. simpl.
  by rewrite (refreshed_same_data w a b), refreshed_idemp.
Qed.

End Refresh.

(** ** Manual channel switch *)

Section ForceSwitch.
Context `{PyRuntime}.

Lemma find_loc_by_url_insert (h : list QueueItem.t) (q : list loc) (l : loc)
    (item item' : QueueItem.t) (url : string) :
  h !! l = Some item -> QueueItem.url item' = QueueItem.url item ->
  KickMinerApp.find_loc_by_url (<[l := item']> h) q url = KickMinerApp.find_loc_by_url h q url.
Proof.
  intros Hl Hurl. induction q as [|l0 q IH]; simpl; [done|].
  destruct (decide (l0 = l)) as [->|Hne].
  - rewrite list_lookup_insert_eq by (by eapply lookup_lt_Some).
    rewrite Hl, Hurl, IH. done.
  - rewrite list_lookup_insert_ne by done. by rewrite IH.
Qed.

Lemma find_loc_by_url_elem (h : list QueueItem.t) (q : list loc) (url : string) (l : loc) :
  KickMinerApp.find_loc_by_url h q url = Some l -> l ∈ q.
Proof.
  induction q as [|l0 q IH]; simpl; [done|].
  destruct (h !! l0) as [item|]; [destruct (String.eqb (QueueItem.url item) url)|].
  - intros [= ->]. by left.
  - intros ?. right. auto.
  - intros ?. right. auto.
Qed.

Lemma index_of_elem (q : list loc) (l : loc) :
  l ∈ q -> exists idx, KickMinerApp.index_of q l = Some idx.
Proof.
  induction q as [|l0 q IH]; [by intros ?%elem_of_nil|].
  intros Hin. simpl. destruct (Nat.eqb_spec l0 l) as [->|Hne]; [eauto|].
  apply elem_of_cons in Hin as [->|Hin]; [done|].
  destruct (IH Hin) as [idx ->]. simpl. eauto.
Qed.

Lemma index_of_lookup (q : list loc) (l : loc) (idx : nat) :
  KickMinerApp.index_of q l = Some idx -> q !! idx = Some l.
Proof.
  revert idx. induction q as [|l0 q IH]; intros idx; simpl; [done|].
  destruct (Nat.eqb_spec l0 l) as [->|Hne]; [by intros [= <-]|].
  destruct (KickMinerApp.index_of q l) as [i|] eqn:E; simpl; [|done].
  intros [= <-]. simpl. by apply IH.
Qed.

(** After [_ui_rotate_item] the first item with the URL is the last of the
    queue. *)
Lemma ui_rotate_item_last (w : World) (app : KickMinerApp.t) (url : string) (l : loc) :
  KickMinerApp._find_item_by_url app url = Some l ->
  last (KickMinerApp.queue_items (KickMinerApp._ui_rotate_item w app url)) = Some l.
Proof.
  intros Hfind. unfold KickMinerApp._ui_rotate_item. rewrite Hfind.
  destruct (index_of_elem (KickMinerApp.queue_items app) l) as [idx Hidx].
  { by eapply find_loc_by_url_elem. }
  rewrite Hidx. pose proof (index_of_lookup _ _ _ Hidx) as Hlook.
  destruct (Nat.ltb_spec idx (length (KickMinerApp.queue_items app) - 1)) as [Hlt|Hge].
  - rewrite refresh_queue_tree_queue. simpl. by rewrite !app_assoc, last_snoc.
  - rewrite last_lookup.
    pose proof (lookup_lt_Some _ _ _ Hlook).
    replace (pred (length (KickMinerApp.queue_items app))) with idx by lia. done.
Qed.

(** [_ui_rotate_item] reorders the queue and, when it does, redraws. *)
Lemma ui_rotate_item_queue (w : World) (app : KickMinerApp.t) (url : string) :
  (KickMinerApp.heap (KickMinerApp._ui_rotate_item w app url) = KickMinerApp.heap app \/
   KickMinerApp.heap (KickMinerApp._ui_rotate_item w app url) =
     KickMinerApp.heap (KickMinerApp._refresh_queue_tree w app)) /\
  KickMinerApp.queue_items (KickMinerApp._ui_rotate_item w app url) ≡ₚ
    KickMinerApp.queue_items app /\
  forall l, KickMinerApp._find_item_by_url app url = Some l ->
    filter (fun x => x <> l)
      (KickMinerApp.queue_items (KickMinerApp._ui_rotate_item w app url)) =
    filter (fun x => x <> l) (KickMinerApp.queue_items app).
Proof.
  unfold KickMinerApp._ui_rotate_item.
  destruct (KickMinerApp._find_item_by_url app url) as [l|]; [|by split_and!; [left|..]].
  destruct (KickMinerApp.index_of (KickMinerApp.queue_items app) l) as [idx|] eqn:Hidx;
    [|split_and!; [by left|done|by intros l0 [= <-]]].
  pose proof (index_of_lookup _ _ _ Hidx) as Hlook.
  destruct (idx <? length (KickMinerApp.queue_items app) - 1)%nat;
    [|split_and!; [by left|done|by intros l0 [= <-]]].
  pose proof (take_drop_middle _ _ _ Hlook) as Hsplit.
  assert (Hperm : take idx (KickMinerApp.queue_items app) ++
                  drop (S idx) (KickMinerApp.queue_items app) ++ [l]
                  ≡ₚ KickMinerApp.queue_items app).
  { rewrite <- Hsplit at 3. apply Permutation_app_head. symmetry.
    apply Permutation_cons_append. }
  split_and!.
  - right. by apply refresh_queue_tree_perm.
  - rewrite refresh_queue_tree_queue. simpl. exact Hperm.
  - intros l0 [= <-]. rewrite refresh_queue_tree_queue. simpl. rewrite <- Hsplit at 3.
    rewrite !filter_app, filter_cons_False, (filter_cons_False _ l) by (intros Hne; by apply Hne).
    by rewrite filter_nil, app_nil_r.
Qed.

(** The fields [_ui_rotate_item] leaves alone. *)
Lemma ui_rotate_item_fields (w : World) (app : KickMinerApp.t) (url : string) :
  KickMinerApp.campaigns (KickMinerApp._ui_rotate_item w app url) =
    KickMinerApp.campaigns app /\
  KickMinerApp.progress (KickMinerApp._ui_rotate_item w app url) = KickMinerApp.progress app /\
  KickMinerApp._force_switch_urls (KickMinerApp._ui_rotate_item w app url) =
    KickMinerApp._force_switch_urls app /\
  KickMinerApp._retry_campaign_hint_id (KickMinerApp._ui_rotate_item w app url) =
    KickMinerApp._retry_campaign_hint_id app /\
  KickMinerApp._retry_campaign_hint_name (KickMinerApp._ui_rotate_item w app url) =
    KickMinerApp._retry_campaign_hint_name app.
Proof.
  unfold KickMinerApp._ui_rotate_item.
  destruct (KickMinerApp._find_item_by_url app url) as [l|]; [|done].
  destruct (KickMinerApp.index_of _ l) as [idx|]; [|done].
  destruct (idx <? _)%nat; [|done].
  rewrite refresh_queue_tree_campaigns, refresh_queue_tree_progress,
    refresh_queue_tree_requests.
  by rewrite !(proj1 (refresh_queue_tree_hint _ _)), !(proj2 (refresh_queue_tree_hint _ _)).
Qed.

(** [_ui_update_item] on the first item with the URL: the state it hands
    to the redraw. *)
Lemma ui_update_item_found (w : World) (app : KickMinerApp.t) (url : string)
    (changes : KickMinerApp.Changes) (l : loc) (item : QueueItem.t) :
  KickMinerApp._find_item_by_url app url = Some l ->
  KickMinerApp.heap app !! l = Some item ->
  let changed := KickMinerApp.apply_changes item changes in
  let item' := if QueueItem.done changed && negb (String.eqb (QueueItem.status changed) "FINISHED")
               then QueueItem.with_status changed "FINISHED" else changed in
  exists app',
    KickMinerApp._ui_update_item w app url changes = KickMinerApp._refresh_queue_tree w app' /\
    KickMinerApp.heap app' = <[l := item']> (KickMinerApp.heap app) /\
    KickMinerApp.queue_items app' = KickMinerApp.queue_items app /\
    KickMinerApp.campaigns app' = KickMinerApp.campaigns app /\
    KickMinerApp.progress app' = KickMinerApp.progress app /\
    KickMinerApp._force_switch_urls app' = KickMinerApp._force_switch_urls app.
Proof.
  intros Hfind Hl changed item'. unfold KickMinerApp._ui_update_item.
  rewrite Hfind, Hl. fold changed. fold item'.
  eexists. split; [reflexivity|].
  destruct (KickMinerApp.is_final_status (QueueItem.status item')); [|done].
  by destruct (_ || _).
Qed.
End ForceSwitch.

Lemma after_watch_turn_forced `{PyRuntime} (w ui : World) (b : QueueWorker.Browser)
    (self : QueueWorker.t) (app : KickMinerApp.t) (item : QueueItem.t)
    (poll_every tick_seconds : Z) (timers : QueueWorker.Timers) (last_save : Z) :
  QueueWorker.stop_event self = false ->
  strip (QueueItem.url item) <> "" ->
  strip (QueueItem.url item) ∈ KickMinerApp._force_switch_urls app ->
  after_watch_turn w ui b self app item poll_every tick_seconds timers last_save =
  (foldl (UiQueue.dispatch ui)
     (KickMinerApp._ui_rotate_item ui
        (KickMinerApp._ui_set_retry_campaign_hint
           (KickMinerApp._ui_update_item ui
              (KickMinerApp.with_force_switch_urls app
                 (KickMinerApp._force_switch_urls app ∖ {[strip (QueueItem.url item)]}))
              (QueueItem.url item) (QueueWorker.changes "RETRY" "cambio manual de canal"))
           (QueueItem.campaign_id item) (QueueItem.campaign_name item))
        (QueueItem.url item))
     (if 3 <=? now w - last_save then [UiQueue.post_save_config] else []),
   QueueWorker.Return "retry").
Proof.
  intros Hrun Hne Hpending.
  unfold after_watch_turn, QueueWorker.watch_loop_step, QueueWorker.watch_iteration,
    KickMinerApp._consume_force_channel_switch.
  rewrite Hrun.
  destruct (String.eqb_spec (strip (QueueItem.url item)) "") as [?|_]; [done|].
  rewrite bool_decide_eq_true_2 by done. reflexivity.
Qed.

(** C5, as amended.  With the stop event clear and a force-switch request
    pending for the URL of the watched item, the next turn of the watch
    loop consumes the request and returns "retry"; once the consumer has
    applied the messages of that turn and of [_run_loop], the item (the
    queue's first with that URL) carries a note containing "manual" and is
    the last of the queue.  Its status is then [RETRY], unless the redraw
    that ends the update handler finds its progress campaign fully claimed
    ([FINISHED]) or its campaign expired ([EXPIRED]), or its target is
    already reached, in which case the update handler has set
    [FINISHED]. *)
Theorem force_switch_next_turn `{PyRuntime} (w ui : World) (b : QueueWorker.Browser)
    (self : QueueWorker.t) (app : KickMinerApp.t) (l : loc) (item : QueueItem.t)
    (poll_every tick_seconds : Z) (timers : QueueWorker.Timers) (last_save : Z) :
  QueueWorker.stop_event self = false ->
  KickMinerApp.heap app !! l = Some item ->
  KickMinerApp._find_item_by_url app (QueueItem.url item) = Some l ->
  strip (QueueItem.url item) <> "" ->
  strip (QueueItem.url item) ∈ KickMinerApp._force_switch_urls app ->
  let turn :=
    after_watch_turn w ui b self app item poll_every tick_seconds timers last_save in
  turn.2 = QueueWorker.Return "retry" /\
  (strip (QueueItem.url item) ∉ KickMinerApp._force_switch_urls turn.1) /\
  (exists item',
     KickMinerApp.heap turn.1 !! l = Some item' /\
     contains (QueueItem.notes item') "manual" = true /\
     QueueItem.status item' =
       (if KickMinerApp._is_progress_campaign_finished
             (item_progress (lookups_for app) item)
        then "FINISHED"
        else if KickMinerApp._is_campaign_expired ui (item_campaign (lookups_for app) item)
             then "EXPIRED"
             else if QueueItem.done item then "FINISHED" else "RETRY")) /\
  last (KickMinerApp.queue_items turn.1) = Some l.
Proof.
  intros Hrun Hl Hfind Hne Hpending turn. subst turn.
  rewrite after_watch_turn_forced by done. cbn [fst snd].
  set (app1 := KickMinerApp.with_force_switch_urls app _).
  assert (Hfind1 : KickMinerApp._find_item_by_url app1 (QueueItem.url item) = Some l) by done.
  assert (Hl1 : KickMinerApp.heap app1 !! l = Some item) by done.
  destruct (ui_update_item_found ui app1 (QueueItem.url item)
              (QueueWorker.changes "RETRY" "cambio manual de canal") l item Hfind1 Hl1)
    as (pre & Hupd & Hheap & Hqueue & Hcs & Hps & Hforce).
  set (item' := if QueueItem.done _ && _ then _ else _) in Hheap.
  set (app2 := KickMinerApp._ui_update_item ui app1 _ _) in *.
  assert (Hurl' : QueueItem.url item' = QueueItem.url item).
  { subst item'. by destruct (_ && _). }
  assert (Hin : l ∈ KickMinerApp.queue_items pre).
  { rewrite Hqueue. by eapply find_loc_by_url_elem. }
  assert (Hl2 : KickMinerApp.heap app2 !! l = Some (refreshed ui app item')).
  { rewrite Hupd, (proj2 (refresh_queue_tree_heap ui pre) l), decide_True by done.
    rewrite Hheap, list_lookup_insert_eq by (by eapply lookup_lt_Some). simpl.
    f_equal. by apply refreshed_same_data. }
  set (app3 := KickMinerApp._ui_set_retry_campaign_hint app2 _ _).
  assert (Hfind3 : KickMinerApp._find_item_by_url app3 (QueueItem.url item) = Some l).
  { change (KickMinerApp._find_item_by_url app3 (QueueItem.url item))
      with (KickMinerApp._find_item_by_url app2 (QueueItem.url item)).
    rewrite Hupd, refresh_queue_tree_find. unfold KickMinerApp._find_item_by_url.
    rewrite Hheap, Hqueue. erewrite find_loc_by_url_insert by done. exact Hfind1. }
  pose proof (ui_rotate_item_last ui app3 (QueueItem.url item) l Hfind3) as Hlast.
  destruct (ui_rotate_item_fields ui app3 (QueueItem.url item)) as (_ & _ & Hforce4 & _).
  assert (Hh4 : KickMinerApp.heap (KickMinerApp._ui_rotate_item ui app3 (QueueItem.url item))
                = KickMinerApp.heap app2).
  { destruct (ui_rotate_item_queue ui app3 (QueueItem.url item)) as ([Hh|Hh] & _ & _);
      rewrite Hh; [done|].
    apply (refresh_queue_tree_again ui pre app3).
    - change (KickMinerApp.campaigns app3) with (KickMinerApp.campaigns app2).
      by rewrite Hupd, refresh_queue_tree_campaigns.
    - change (KickMinerApp.progress app3) with (KickMinerApp.progress app2).
      by rewrite Hupd, refresh_queue_tree_progress.
    - change (KickMinerApp.heap app3) with (KickMinerApp.heap app2). by rewrite Hupd.
    - change (KickMinerApp.queue_items app3) with (KickMinerApp.queue_items app2).
      rewrite Hupd, refresh_queue_tree_queue. done. }
  set (app4 := KickMinerApp._ui_rotate_item ui app3 _) in *.
  assert (Hsave : forall app5,
            app5 = foldl (UiQueue.dispatch ui) app4
                     (if 3 <=? now w - last_save then [UiQueue.post_save_config] else []) ->
            KickMinerApp.heap app5 = KickMinerApp.heap app4 /\
            KickMinerApp.queue_items app5 = KickMinerApp.queue_items app4 /\
            KickMinerApp._force_switch_urls app5 = KickMinerApp._force_switch_urls app4).
  { intros app5 ->. destruct (3 <=? now w - last_save); [|done]. simpl.
    destruct (save_config_queue app4) as (? & ? & ? & _). done. }
  destruct (Hsave _ eq_refl) as (Hh5 & Hq5 & Hf5).
  rewrite Hh5, Hq5, Hf5, Hh4. split; [done|]. split.
  { rewrite Hforce4.
    change (KickMinerApp._force_switch_urls app3) with (KickMinerApp._force_switch_urls app2).
    rewrite Hupd, refresh_queue_tree_requests, Hforce. subst app1. simpl.
    intros [_ Hn]%elem_of_difference. apply Hn. by apply elem_of_singleton. }
  split; [|exact Hlast].
  exists (refreshed ui app item'). split; [exact Hl2|].
  unfold refreshed. rewrite refresh_item_status.
  change (QueueItem.notes (QueueItem.with_status item' _)) with (QueueItem.notes item').
  change (QueueItem.status (QueueItem.with_status item' ?s)) with s.
  assert (Hitem' : item' = QueueItem.with_notes
                     (QueueItem.with_status item (if QueueItem.done item then "FINISHED"
                                                  else "RETRY"))
                     "cambio manual de canal").
  { subst item'. unfold KickMinerApp.apply_changes, QueueWorker.changes. simpl.
    unfold QueueItem.done. simpl. fold (QueueItem.done item).
    by destruct (QueueItem.done item). }
  rewrite Hitem'. split; [done|].
  unfold item_progress, item_campaign, lookups_for. simpl.
  by destruct (QueueItem.done item).
Qed.

Lemma force_switch_next_turn_witness :
  (QueueWorker.stop_event running_worker = false /\
   KickMinerApp.heap (switch_requested_app 0 0) !! 0%nat = Some (watched_item 0 0) /\
   KickMinerApp._find_item_by_url (switch_requested_app 0 0)
     (QueueItem.url (watched_item 0 0)) = Some 0%nat /\
   strip (QueueItem.url (watched_item 0 0)) <> "" /\
   strip (QueueItem.url (watched_item 0 0))
     ∈ KickMinerApp._force_switch_urls (switch_requested_app 0 0)) /\
  (@after_watch_turn ascii_runtime (offline_world 0) (offline_world 1) calm_browser
     running_worker (switch_requested_app 0 0) (watched_item 0 0) 5 30 fresh_timers 0).2
  = QueueWorker.Return "retry" /\
  last (KickMinerApp.queue_items
          (@after_watch_turn ascii_runtime (offline_world 0) (offline_world 1) calm_browser
             running_worker (switch_requested_app 0 0) (watched_item 0 0) 5 30
             fresh_timers 0).1)
  = Some 0%nat.
Proof.
  assert (Hpending : strip (QueueItem.url (watched_item 0 0))
                       ∈ KickMinerApp._force_switch_urls (switch_requested_app 0 0)).
  { apply elem_of_union. left. by apply elem_of_singleton. }
  assert (Hne : strip (QueueItem.url (watched_item 0 0)) <> "") by discriminate.
  split; [repeat split; done|].
  pose proof (@force_switch_next_turn ascii_runtime (offline_world 0) (offline_world 1)
                calm_browser running_worker (switch_requested_app 0 0) 0%nat
                (watched_item 0 0) 5 30 fresh_timers 0 eq_refl eq_refl eq_refl Hne Hpending)
    as Hturn.
  destruct Hturn as (Hret & _ & _ & Hlast). split; [exact Hret | exact Hlast].
Defined.

(** The claim of C5 has the watched item end with status [RETRY] at the
    tail of the queue.  An item whose target is reached when the request
    is consumed ends [FINISHED]; one whose campaign is expired ends
    [EXPIRED]; and when an earlier queue item has the URL of the watched
    one, it is that earlier item which is marked and moved, the watched
    one staying as it was. *)
Lemma force_switch_finished_item :
  (QueueItem.done (watched_item 1 60) = true /\
   (@after_watch_turn ascii_runtime (offline_world 0) (offline_world 0) calm_browser
      running_worker (switch_requested_app 1 60) (watched_item 1 60) 5 30 fresh_timers 0).2
   = QueueWorker.Return "retry" /\
   QueueItem.status <$>
     (KickMinerApp.heap
        (@after_watch_turn ascii_runtime (offline_world 0) (offline_world 0) calm_browser
           running_worker (switch_requested_app 1 60) (watched_item 1 60) 5 30
           fresh_timers 0).1 !! 0%nat)
   = Some "FINISHED") /\
  (QueueItem.done (watched_item 0 0) = false /\
   (@after_watch_turn ascii_runtime (offline_world 1700000000) (offline_world 1700000000) calm_browser
      running_worker expired_switch_app (watched_item 0 0) 5 30 fresh_timers 0).2
   = QueueWorker.Return "retry" /\
   QueueItem.status <$>
     (KickMinerApp.heap
        (@after_watch_turn ascii_runtime (offline_world 1700000000) (offline_world 1700000000) calm_browser
           running_worker expired_switch_app (watched_item 0 0) 5 30 fresh_timers 0).1
        !! 0%nat)
   = Some "EXPIRED") /\
  (KickMinerApp.heap twin_switch_app !! 1%nat = Some (watched_item 0 0) /\
   (@after_watch_turn ascii_runtime (offline_world 0) (offline_world 0) calm_browser
      running_worker twin_switch_app (watched_item 0 0) 5 30 fresh_timers 0).2
   = QueueWorker.Return "retry" /\
   KickMinerApp.heap
     (@after_watch_turn ascii_runtime (offline_world 0) (offline_world 0) calm_browser
        running_worker twin_switch_app (watched_item 0 0) 5 30 fresh_timers 0).1 !! 1%nat
   = Some (watched_item 0 0) /\
   KickMinerApp.queue_items
     (@after_watch_turn ascii_runtime (offline_world 0) (offline_world 0) calm_browser
        running_worker twin_switch_app (watched_item 0 0) 5 30 fresh_timers 0).1
   = [1; 0]%nat).
Proof. vm_compute. done. Qed.

(** ** Next-item selection *)

Section NextItem.
Context `{PyRuntime}.

Lemma done_implies_target (item : QueueItem.t) :
  (0 <? QueueItem.minutes_target item) && QueueItem.done item = QueueItem.done item.
Proof. unfold QueueItem.done. by destruct (0 <? QueueItem.minutes_target item). Qed.

(** A status assignment leaves the other tests of the loop body alone. *)
Lemma eligible_with_status (w : World) (lk : KickMinerApp.Lookups) (item : QueueItem.t)
    (s : string) :
  KickMinerApp.is_final_status s = true ->
  eligible w lk (QueueItem.with_status item s) = false.
Proof.
  intros Hs. unfold eligible, finalized_status, item_campaign.
  change (QueueItem.done (QueueItem.with_status item s)) with (QueueItem.done item).
  change (KickMinerApp._resolve_item_progress_campaign (QueueItem.with_status item s))
    with (KickMinerApp._resolve_item_progress_campaign item).
  change (KickMinerApp._resolve_queue_item_campaign (QueueItem.with_status item s))
    with (KickMinerApp._resolve_queue_item_campaign item).
  simpl. repeat case_match; simpl; try done; by rewrite Hs.
Qed.

Lemma examine_item_spec (w : World) (lk : KickMinerApp.Lookups)
    (cache : gmap string (option bool * Z * Z)) (item : QueueItem.t) :
  match KickMinerApp.examine_item w lk cache item with
  | KickMinerApp.Skip item' => eligible w lk item = false /\ eligible w lk item' = false
  | KickMinerApp.Candidate _ _ _ _ => eligible w lk item = true
  end.
Proof.
  unfold KickMinerApp.examine_item. rewrite done_implies_target.
  destruct (QueueItem.done item) eqn:Hdone.
  { split; [|by apply eligible_with_status].
    unfold eligible, finalized_status. by rewrite Hdone. }
  destruct (KickMinerApp._is_progress_campaign_finished _) eqn:Hfin.
  { simpl. split; [|by apply eligible_with_status].
    unfold eligible, finalized_status. by rewrite Hdone, Hfin. }
  destruct (KickMinerApp.is_final_status (QueueItem.status item)) eqn:Hfinal.
  { assert (eligible w lk item = false) as He; [|done].
    unfold eligible, finalized_status. rewrite Hdone, Hfin.
    destruct (KickMinerApp._is_campaign_expired w _); simpl; [done|]. by rewrite Hfinal. }
  set (item2 := if String.eqb (QueueItem.status item) "STOPPED"
                then QueueItem.with_status item "PENDING" else item).
  assert (Hcamp : KickMinerApp._resolve_queue_item_campaign item2
                    (KickMinerApp.campaign_by_id lk) (KickMinerApp.campaign_by_name lk)
                  = item_campaign lk item).
  { subst item2. by destruct (String.eqb _ "STOPPED"). }
  assert (Hgame : forall c, KickMinerApp.game_filtered_out lk item2 c
                            = KickMinerApp.game_filtered_out lk item c).
  { intros c. subst item2. by destruct (String.eqb _ "STOPPED"). }
  assert (Helig2 : eligible w lk item2 = eligible w lk item).
  { subst item2. destruct (String.eqb_spec (QueueItem.status item) "STOPPED") as [Hs|]; [|done].
    unfold eligible, finalized_status, item_campaign.
    change (QueueItem.done (QueueItem.with_status item "PENDING")) with (QueueItem.done item).
    change (KickMinerApp._resolve_item_progress_campaign (QueueItem.with_status item "PENDING"))
      with (KickMinerApp._resolve_item_progress_campaign item).
    change (KickMinerApp._resolve_queue_item_campaign (QueueItem.with_status item "PENDING"))
      with (KickMinerApp._resolve_queue_item_campaign item).
    change (KickMinerApp.game_filtered_out lk (QueueItem.with_status item "PENDING"))
      with (KickMinerApp.game_filtered_out lk item).
    rewrite Hdone, Hfin. destruct (KickMinerApp._is_campaign_expired w _); [done|].
    simpl. by rewrite Hs. }
  rewrite Hcamp, Hgame.
  destruct (KickMinerApp._is_campaign_expired w (item_campaign lk item)) eqn:Hexp.
  { split.
    - unfold eligible, finalized_status. by rewrite Hdone, Hfin, Hexp.
    - unfold eligible, finalized_status, item_campaign. simpl.
      change (QueueItem.done _) with (QueueItem.done item2).
      repeat case_match; done. }
  assert (Hyes : KickMinerApp.game_filtered_out lk item (item_campaign lk item) = false ->
                 eligible w lk item = true).
  { intros Hg. unfold eligible, finalized_status. by rewrite Hdone, Hfin, Hexp, Hfinal, Hg. }
  destruct (KickMinerApp.game_filtered_out lk item (item_campaign lk item)) eqn:Hg.
  { rewrite Helig2. assert (eligible w lk item = false) as He; [|done].
    unfold eligible. rewrite Hg. apply andb_false_r. }
  destruct (KickMinerApp._is_auto_games_channel_item item2).
  - destruct (KickMinerApp._get_channel_live_snapshot _ _ _ _ _) as [[? ?] ?]. auto.
  - destruct (KickMinerApp._set_item_channel_for_campaign _ _ _ _ _) as [[[? ?] ?] ?]. auto.
Qed.

(** The loop returns an item exactly when a fallback is already held or some
    item of the list passes the tests of the body. *)
Lemma next_item_loop_some (w : World) (lk : KickMinerApp.Lookups) (items : list loc) :
  forall (h : list QueueItem.t) (cache : gmap string (option bool * Z * Z))
         (fallback_item : option loc) (fallback_live_viewers : Z),
    is_Some (KickMinerApp.next_item_loop w lk h cache
               fallback_item fallback_live_viewers items).2 <->
    is_Some fallback_item \/
    exists l item, l ∈ items /\ h !! l = Some item /\ eligible w lk item = true.
Proof.
  induction items as [|l rest IH]; intros h cache fb fbv; simpl.
  - split; [by left|]. intros [?|(l & item & Hin & _)]; [done|]. by apply elem_of_nil in Hin.
  - destruct (h !! l) as [item|] eqn:Hl.
    2: { rewrite IH. split; intros [?|(l' & item' & Hin & Hl' & He)]; try by left.
         - right. exists l', item'. split; [by right|done].
         - apply elem_of_cons in Hin as [->|Hin]; [congruence|]. right. eauto. }
    pose proof (examine_item_spec w lk cache item) as Hspec.
    destruct (KickMinerApp.examine_item w lk cache item) as [item'|item' cache' is_live viewers].
    + destruct Hspec as [He He']. rewrite IH.
      assert (Hlt : (l < length h)%nat) by (by eapply lookup_lt_Some).
      split; intros [?|(l' & it & Hin & Hl' & Hit)]; try by left.
      * right. exists l', it. split; [by right|]. split; [|done].
        destruct (decide (l' = l)) as [->|Hne].
        -- rewrite list_lookup_insert_eq in Hl' by done. congruence.
        -- by rewrite list_lookup_insert_ne in Hl' by done.
      * apply elem_of_cons in Hin as [->|Hin]; [congruence|].
        right. exists l', it. split; [done|]. split; [|done].
        destruct (decide (l' = l)) as [->|Hne]; [congruence|].
        by rewrite list_lookup_insert_ne by done.
    + assert (Hright : is_Some fb \/
                exists l0 item0, l0 ∈ l :: rest /\ h !! l0 = Some item0 /\
                                 eligible w lk item0 = true).
      { right. exists l, item. split; [by left|done]. }
      destruct is_live; [by split; [|eexists]|].
      destruct fb as [f|]; [destruct (fbv <? viewers)|];
        (split; [done|]); intros _; apply IH; by left.
Qed.

Lemma next_item_loop_elem (w : World) (lk : KickMinerApp.Lookups) (items : list loc) :
  forall (h : list QueueItem.t) (cache : gmap string (option bool * Z * Z))
         (fallback_item : option loc) (fallback_live_viewers : Z) (l : loc),
    (KickMinerApp.next_item_loop w lk h cache
       fallback_item fallback_live_viewers items).2 = Some l ->
    fallback_item = Some l \/ l ∈ items.
Proof.
  induction items as [|l0 rest IH]; intros h cache fb fbv l; simpl; [by left|].
  assert (Hrest : forall h' c' v', (KickMinerApp.next_item_loop w lk h' c' fb v' rest).2 = Some l ->
                                   fb = Some l \/ l ∈ l0 :: rest).
  { intros h' c' v' Hr. destruct (IH _ _ _ _ _ Hr); [by left|right; by right]. }
  assert (Hnew : forall h' c' v', (KickMinerApp.next_item_loop w lk h' c' (Some l0) v' rest).2
                                  = Some l -> fb = Some l \/ l ∈ l0 :: rest).
  { intros h' c' v' Hr. destruct (IH _ _ _ _ _ Hr) as [[= ->]|?]; right; [by left|by right]. }
  destruct (h !! l0) as [item|]; [|by apply Hrest].
  destruct (KickMinerApp.examine_item w lk cache item) as [item'|item' cache' is_live viewers];
    [by apply Hrest|].
  destruct is_live; [intros [= ->]; right; by left|].
  destruct fb as [f|]; [destruct (fbv <? viewers)|]; eauto.
Qed.

Lemma ordered_items_of_perm (app : KickMinerApp.t) :
  (KickMinerApp.ordered_items_of app).2 ≡ₚ KickMinerApp.queue_items app /\
  KickMinerApp.heap (KickMinerApp.ordered_items_of app).1 = KickMinerApp.heap app /\
  KickMinerApp._channel_live_cache (KickMinerApp.ordered_items_of app).1
    = KickMinerApp._channel_live_cache app.
Proof.
  unfold KickMinerApp.ordered_items_of.
  destruct (_ || _); [|done].
  rewrite partition_step_foldl. simpl.
  set (P := fun l => KickMinerApp.loc_matches _ _ _ l = true).
  pose proof (filter_app_complement P (KickMinerApp.queue_items app)) as Hperm.
  destruct (filter P (KickMinerApp.queue_items app)) eqn:E; [done|].
  split; [|done]. exact Hperm.
Qed.
End NextItem.

(** C1.  [get_next_queue_item] returns an item exactly when some item of
    the queue, after the finalization marks, is neither [FINISHED] nor
    [EXPIRED] and is not skipped by the game filter; otherwise it returns
    [None].  An item it returns is an item of the queue.  (The statement
    holds for the empty queue as well.) *)
Theorem get_next_queue_item_some_iff `{PyRuntime} (w : World) (app : KickMinerApp.t) :
  (is_Some (KickMinerApp.get_next_queue_item w app).2 <->
   exists l item,
     l ∈ KickMinerApp.queue_items app /\
     KickMinerApp.heap app !! l = Some item /\
     eligible w (lookups_for app) item = true) /\
  ((KickMinerApp.get_next_queue_item w app).2 = None <->
   forall l item,
     l ∈ KickMinerApp.queue_items app -> KickMinerApp.heap app !! l = Some item ->
     KickMinerApp.is_final_status (finalized_status w (lookups_for app) item) = true \/
     KickMinerApp.game_filtered_out (lookups_for app) item
       (item_campaign (lookups_for app) item) = true) /\
  (forall l, (KickMinerApp.get_next_queue_item w app).2 = Some l ->
             l ∈ KickMinerApp.queue_items app).
Proof.
  unfold KickMinerApp.get_next_queue_item, lookups_for.
  destruct (KickMinerApp._preferred_game_filter app) as [app1 [mine_all selected]] eqn:Hflt.
  assert (Hq1 : KickMinerApp.queue_items app1 = KickMinerApp.queue_items app /\
                KickMinerApp.heap app1 = KickMinerApp.heap app).
  { unfold KickMinerApp._preferred_game_filter in Hflt. by injection Hflt as <- _ _. }
  destruct Hq1 as [Hq1 Hh1].
  destruct (ordered_items_of_perm app1) as (Hperm & Hh2 & _).
  destruct (KickMinerApp.ordered_items_of app1) as [app2 ordered] eqn:Hord. simpl in *.
  rewrite Hh2, Hh1. rewrite Hq1 in Hperm.
  set (lk := KickMinerApp.lookups_of app1 mine_all selected).
  pose proof (next_item_loop_some w lk ordered (KickMinerApp.heap app)
                (KickMinerApp._channel_live_cache app2) None (-1)) as Hsome.
  pose proof (next_item_loop_elem w lk ordered (KickMinerApp.heap app)
                (KickMinerApp._channel_live_cache app2) None (-1)) as Helem.
  destruct (KickMinerApp.next_item_loop w lk (KickMinerApp.heap app)
              (KickMinerApp._channel_live_cache app2) None (-1) ordered)
    as [[h' cache'] result]. simpl in *.
  assert (Hiff : is_Some result <->
                 exists l item, l ∈ KickMinerApp.queue_items app /\
                                KickMinerApp.heap app !! l = Some item /\
                                eligible w lk item = true).
  { rewrite Hsome. split.
    - intros [[? [=]]|(l & item & Hin & ?)]. exists l, item. by rewrite <- Hperm.
    - intros (l & item & Hin & ?). right. exists l, item. by rewrite Hperm. }
  split; [exact Hiff|]. split.
  - split.
    + intros -> l item Hin Hl.
      destruct (eligible w lk item) eqn:He.
      * destruct Hiff as [_ Hback]. destruct Hback as [? [=]]. eauto.
      * unfold eligible in He. apply andb_false_iff in He as [He|He];
          apply negb_false_iff in He; auto.
    + intros Hall. destruct result as [l|]; [|done].
      destruct Hiff as [Hfwd _]. destruct Hfwd as (l' & item & Hin & Hl & He); [by eexists|].
      unfold eligible in He. apply andb_true_iff in He as [He1 He2].
      apply negb_true_iff in He1, He2.
      destruct (Hall l' item Hin Hl); congruence.
  - intros l Hr. destruct (Helem l Hr) as [[=]|Hin]. by rewrite <- Hperm.
Qed.

(** ** Discovery reconciliation *)

Lemma foldl_invariant {A B} (f : B -> A -> B) (Inv : list A -> B -> Prop) (l : list A) (b0 : B) :
  Inv [] b0 ->
  (forall done x rest b, l = (done ++ x :: rest)%list -> Inv done b -> Inv (done ++ [x])%list (f b x)) ->
  Inv l (foldl f b0 l).
Proof.
  intros H0 Hstep.
  assert (Hgen : forall rest done b, l = (done ++ rest)%list -> Inv done b ->
                                     Inv (done ++ rest)%list (foldl f b rest)).
  { induction rest as [|x rest IH]; intros done b Hl Hb; simpl.
    - by rewrite app_nil_r.
    - replace (done ++ x :: rest)%list with ((done ++ [x]) ++ rest)%list
        by (by rewrite <- app_assoc).
      apply IH; [by rewrite <- app_assoc | by eapply Hstep]. }
  apply (Hgen l [] b0); done.
Qed.

Section Discovery.
Context `{PyRuntime}.

Lemma row_url_nonempty (row : Row) : KickMinerApp.row_url row <> "".
Proof.
  unfold KickMinerApp.row_url, str_or.
  destruct (String.eqb_spec (KickChannel.url (row_channel row)) ""); [|done].
  unfold KICK_URL_PREFIX. discriminate.
Qed.

Lemma find_loc_by_url_sound (h : list QueueItem.t) (q : list loc) (u : string) (l : loc) :
  KickMinerApp.find_loc_by_url h q u = Some l ->
  exists item, h !! l = Some item /\ QueueItem.url item = u.
Proof.
  induction q as [|l0 q IH]; simpl; [done|].
  destruct (h !! l0) as [item|] eqn:E; [|done].
  destruct (String.eqb_spec (QueueItem.url item) u); [|done].
  intros [= <-]. eauto.
Qed.

Lemma existing_by_url_of_spec (h : list QueueItem.t) (q : list loc) (u : string) :
  KickMinerApp.existing_by_url_of h q !! u =
  if String.eqb u "" then None else KickMinerApp.find_loc_by_url h q u.
Proof.
  unfold KickMinerApp.existing_by_url_of.
  assert (Hgen : forall m : gmap string loc,
             foldl (fun m l =>
                      match h !! l with
                      | Some item =>
                          let u := QueueItem.url item in
                          if negb (String.eqb u "") && bool_decide (m !! u = None)
                          then <[u := l]> m else m
                      | None => m
                      end) m q !! u =
             match m !! u with
             | Some l => Some l
             | None => if String.eqb u "" then None else KickMinerApp.find_loc_by_url h q u
             end).
  { induction q as [|l q IH]; intros m; simpl.
    - destruct (m !! u); [done|]. by destruct (String.eqb u "").
    - rewrite IH. destruct (h !! l) as [item|] eqn:E; [|done]. simpl.
      destruct (String.eqb_spec (QueueItem.url item) "") as [He|Hne]; simpl.
      { destruct (m !! u); [done|].
        destruct (String.eqb_spec u "") as [|Hu]; [done|].
        destruct (String.eqb_spec (QueueItem.url item) u); [congruence|done]. }
      case_bool_decide as Hm.
      + destruct (decide (QueueItem.url item = u)) as [<-|Hu].
        * rewrite lookup_insert_eq, Hm.
          destruct (String.eqb_spec (QueueItem.url item) ""); [done|].
          by rewrite String.eqb_refl.
        * rewrite lookup_insert_ne by done. destruct (m !! u); [done|].
          destruct (String.eqb u ""); [done|].
          by destruct (String.eqb_spec (QueueItem.url item) u).
      + destruct (m !! u) eqn:Hu; [done|].
        destruct (String.eqb u ""); [done|].
        destruct (String.eqb_spec (QueueItem.url item) u) as [<-|]; [congruence|done]. }
  rewrite Hgen. by rewrite lookup_empty.
Qed.

Lemma existing_by_url_of_sound (h : list QueueItem.t) (q : list loc) :
  existing_sound h (KickMinerApp.existing_by_url_of h q).
Proof.
  intros u l. rewrite existing_by_url_of_spec.
  destruct (String.eqb u ""); [done|]. apply find_loc_by_url_sound.
Qed.

Lemma reconcile_keeps_url (existing : QueueItem.t) (cid cname : option string)
    (cat : option Z) (notes : string) :
  QueueItem.url
    (if String.eqb (QueueItem.status (QueueItem.with_campaign existing cid cname cat notes))
         "EXPIRED"
     then QueueItem.with_status (QueueItem.with_campaign existing cid cname cat notes) "PENDING"
     else QueueItem.with_campaign existing cid cname cat notes)
  = QueueItem.url existing.
Proof. by destruct (String.eqb _ _). Qed.

Lemma rows_inv_step (h0 : list QueueItem.t) (ex : gmap string loc) (past : list Row)
    (acc : KickMinerApp.Reconcile) (row : Row) :
  existing_sound h0 ex -> rows_inv h0 ex past acc ->
  rows_inv h0 ex (past ++ [row]) (KickMinerApp.reconcile_row ex acc row).
Proof.
  intros Hex (Hlen & Hkeep & Hurls & Hfinal & Hhit).
  assert (Hmono : forall u, u ∈ KickMinerApp.row_url <$> past ->
                            u ∈ KickMinerApp.row_url <$> (past ++ [row])%list).
  { intros u Hu. rewrite fmap_app. apply elem_of_app. by left. }
  assert (Hlast : KickMinerApp.row_url row ∈ KickMinerApp.row_url <$> (past ++ [row])%list).
  { rewrite fmap_app. apply elem_of_app. right. by left. }
  assert (Hurls' : forall X : gset string,
             (forall u, u ∈ X <-> u ∈ KickMinerApp.row_url <$> past) ->
             forall u, u ∈ {[KickMinerApp.row_url row]} ∪ X <->
                       u ∈ KickMinerApp.row_url <$> (past ++ [row])%list).
  { intros X HX u. rewrite elem_of_union, elem_of_singleton, HX, fmap_app, elem_of_app.
    simpl. rewrite list_elem_of_singleton. tauto. }
  unfold KickMinerApp.reconcile_row. cbv zeta.
  destruct (ex !! KickMinerApp.row_url row) as [l1|] eqn:Hl1.
  - destruct (Hex _ _ Hl1) as (item0 & Hitem0 & Hurl0).
    destruct (Hkeep _ _ Hitem0) as (existing & Hexisting & Hurl1 & _).
    rewrite Hexisting.
    set (existing' := if String.eqb _ "EXPIRED" then _ else _).
    assert (Hurl' : QueueItem.url existing' = QueueItem.url existing)
      by apply reconcile_keeps_url.
    assert (Hlt : (l1 < length (KickMinerApp.r_heap acc))%nat) by (by eapply lookup_lt_Some).
    split_and!; simpl.
    + by rewrite length_insert.
    + intros l item Hl. destruct (Hkeep _ _ Hl) as (item' & Hitem' & Hu & Hsame).
      destruct (decide (l = l1)) as [->|Hne].
      * exists existing'. rewrite list_lookup_insert_eq by done.
        split; [done|]. split; [congruence|].
        intros Hnot. destruct Hnot. replace item with item0 by congruence.
        by rewrite Hurl0.
      * exists item'. rewrite list_lookup_insert_ne by done.
        split; [done|]. split; [done|]. intros Hnot. apply Hsame. intros Hin. by apply Hnot, Hmono.
    + by apply Hurls'.
    + intros l [Hin|Heq%list_elem_of_singleton]%elem_of_app.
      * destruct (Hfinal l Hin) as [?|(item & ? & ?)]; [by left|]. right. eauto.
      * subst l. right. exists item0. split; [done|]. by rewrite Hurl0.
    + intros row' l [Hin|Heq%list_elem_of_singleton]%elem_of_app Hl; apply elem_of_app.
      * left. eauto.
      * subst row'. right. apply list_elem_of_singleton. congruence.
  - split_and!; simpl.
    + rewrite length_app. lia.
    + intros l item Hl. destruct (Hkeep _ _ Hl) as (item' & Hitem' & Hu & Hsame).
      exists item'. split; [by apply lookup_app_l_Some|]. split; [done|].
      intros Hnot. apply Hsame. intros Hin. by apply Hnot, Hmono.
    + by apply Hurls'.
    + intros l [Hin|Heq%list_elem_of_singleton]%elem_of_app.
      * destruct (Hfinal l Hin) as [?|(item & ? & ?)]; [by left|]. right. eauto.
      * subst l. by left.
    + intros row' l [Hin|Heq%list_elem_of_singleton]%elem_of_app Hl; [|congruence].
      apply elem_of_app. left. eauto.
Qed.

Lemma rows_inv_foldl (h0 : list QueueItem.t) (ex : gmap string loc) (rows : list Row) :
  existing_sound h0 ex ->
  rows_inv h0 ex rows
    (foldl (KickMinerApp.reconcile_row ex)
       {| KickMinerApp.r_heap := h0; KickMinerApp.r_added := 0; KickMinerApp.r_updated := 0;
          KickMinerApp.r_ordered_urls := ∅; KickMinerApp.r_final_queue := [] |} rows).
Proof.
  intros Hex. apply (foldl_invariant _ (rows_inv h0 ex)).
  - split_and!; simpl.
    + done.
    + intros l item Hl. eauto.
    + intros u. split; [by intros ?%not_elem_of_empty | by intros ?%elem_of_nil].
    + by intros l ?%elem_of_nil.
    + by intros row l ?%elem_of_nil.
  - intros done x rest b _ Hb. by apply rows_inv_step.
Qed.

(** The last loop appends the surviving items and counts the dropped ones. *)
Lemma keep_survivor_foldl (h : list QueueItem.t) (urls : gset string) (q : list loc)
    (a : list loc) (n : nat) :
  foldl (KickMinerApp.keep_survivor h urls) (a, n) q =
  ((a ++ filter (fun l => survives h urls l = true) q)%list,
   (n + length (filter (fun l => dropped h urls l = true) q))%nat).
Proof.
  revert a n. induction q as [|l q IH]; intros a n; simpl.
  - by rewrite app_nil_r, Nat.add_0_r.
  - unfold KickMinerApp.keep_survivor at 2.
    assert (Hs : survives h urls l = match h !! l with
                                     | Some item =>
                                         negb (bool_decide (QueueItem.url item ∈ urls))
                                         && negb (KickMinerApp._is_auto_games_channel_item item)
                                     | None => false
                                     end) by done.
    assert (Hd : dropped h urls l = match h !! l with
                                    | Some item =>
                                        negb (bool_decide (QueueItem.url item ∈ urls))
                                        && KickMinerApp._is_auto_games_channel_item item
                                    | None => false
                                    end) by done.
    destruct (h !! l) as [item|].
    2: { rewrite IH, filter_cons_False, (filter_cons_False _ l) by (rewrite ?Hs, ?Hd; done).
         done. }
    destruct (bool_decide (QueueItem.url item ∈ urls)); simpl in *.
    { rewrite IH, filter_cons_False, (filter_cons_False _ l) by (rewrite ?Hs, ?Hd; done).
      done. }
    destruct (KickMinerApp._is_auto_games_channel_item item); simpl in *.
    + rewrite IH, filter_cons_False by (rewrite Hs; done).
      rewrite (filter_cons_True _ l) by done. simpl. f_equal. lia.
    + rewrite IH, filter_cons_True by done.
      rewrite (filter_cons_False _ l) by (rewrite Hd; done).
      by rewrite <- app_assoc.
Qed.
Lemma preferred_game_filter_guard (app : KickMinerApp.t) :
  negb (KickMinerApp._preferred_game_filter app).2.1
  && bool_decide ((KickMinerApp._preferred_game_filter app).2.2 = ∅) = false.
Proof.
  unfold KickMinerApp._preferred_game_filter. simpl.
  destruct (normalize_preferred_games_shape (KickMinerApp._preferred_games_cached app))
    as [->|Hs].
  - by rewrite bool_decide_eq_true_2 by (by left).
  - rewrite (bool_decide_eq_false_2 (_ = ∅)); [apply andb_false_r|].
    by eapply selected_of_specific.
Qed.

(** The accumulator of the loop over [ordered] in a run on [app]. *)
Lemma auto_queue_selected_games_run (w : World) (app : KickMinerApp.t) :
  KickMinerApp.campaigns app <> [] ->
  let acc :=
    foldl (KickMinerApp.reconcile_row
             (KickMinerApp.existing_by_url_of (KickMinerApp.heap app)
                (KickMinerApp.queue_items app)))
      {| KickMinerApp.r_heap := KickMinerApp.heap app; KickMinerApp.r_added := 0;
         KickMinerApp.r_updated := 0; KickMinerApp.r_ordered_urls := ∅;
         KickMinerApp.r_final_queue := [] |}
      (desired_rows w app) in
  let run := KickMinerApp._auto_queue_selected_games w app in
  KickMinerApp.heap run.1 = KickMinerApp.r_heap acc /\
  KickMinerApp.queue_items run.1 =
    (KickMinerApp.r_final_queue acc ++
     filter (fun l => survives (KickMinerApp.r_heap acc) (KickMinerApp.r_ordered_urls acc) l
                      = true) (KickMinerApp.queue_items app))%list /\
  run.2 = {| visible := length (desired_rows w app);
             added := KickMinerApp.r_added acc;
             updated := KickMinerApp.r_updated acc;
             removed := length (filter (fun l => dropped (KickMinerApp.r_heap acc)
                                                   (KickMinerApp.r_ordered_urls acc) l = true)
                                  (KickMinerApp.queue_items app)) |} /\
  KickMinerApp._channel_live_cache run.1 =
    (KickMinerApp.desired_by_url_of w
       (KickMinerApp._preferred_game_filter app).2.1
       (KickMinerApp._preferred_game_filter app).2.2
       (KickMinerApp.campaigns app) (KickMinerApp._channel_live_cache app)).1 /\
  KickMinerApp.campaigns run.1 = KickMinerApp.campaigns app /\
  KickMinerApp._preferred_games_cached run.1 =
    KickMinerApp._normalize_preferred_games (KickMinerApp._preferred_games_cached app).
Proof.
  intros Hne acc run. subst run acc.
  unfold KickMinerApp._auto_queue_selected_games, desired_rows.
  pose proof (preferred_game_filter_guard app) as Hguard.
  unfold KickMinerApp._preferred_game_filter in *. simpl in *.
  destruct (KickMinerApp.campaigns app) as [|c cs] eqn:Hcs; [done|].
  rewrite Hguard.
  destruct (KickMinerApp.desired_by_url_of w _ _ (c :: cs) _) as [cache desired].
  rewrite keep_survivor_foldl. simpl.
  split_and!; try done.
  clear Hguard. case_bool_decide as Hd; done.
Qed.

Lemma find_loc_by_url_unique (h : list QueueItem.t) (q : list loc) (l : loc)
    (item : QueueItem.t) :
  NoDup (omap (fun l => QueueItem.url <$> h !! l) q) ->
  l ∈ q -> h !! l = Some item ->
  KickMinerApp.find_loc_by_url h q (QueueItem.url item) = Some l.
Proof.
  induction q as [|l0 q IH]; intros Hnd Hin Hl; [by apply elem_of_nil in Hin|].
  simpl in *. destruct (h !! l0) as [item0|] eqn:Hl0; simpl in Hnd.
  - apply NoDup_cons in Hnd as [Hfirst Hnd].
    destruct (String.eqb_spec (QueueItem.url item0) (QueueItem.url item)) as [Heq|Hneq].
    + apply elem_of_cons in Hin as [->|Hin]; [done|].
      destruct Hfirst. rewrite Heq. apply list_elem_of_omap. exists l. by rewrite Hl.
    + apply elem_of_cons in Hin as [->|Hin]; [congruence|]. by apply IH.
  - apply elem_of_cons in Hin as [->|Hin]; [congruence|]. by apply IH.
Qed.
End Discovery.

(** In a run that gets past the guard on the campaign list, on a queue
    whose items have pairwise different URLs: an item carrying the
    discovery marker is removed exactly when its URL is not a URL of the
    desired rows, and an item without the marker is never removed,
    whatever the game selection. *)
Theorem discovery_removes_auto_items `{PyRuntime} (w : World) (app : KickMinerApp.t)
    (l : loc) (item : QueueItem.t) :
  KickMinerApp.campaigns app <> [] ->
  NoDup (queue_urls app) ->
  l ∈ KickMinerApp.queue_items app ->
  KickMinerApp.heap app !! l = Some item ->
  (KickMinerApp._is_auto_games_channel_item item = true ->
   (l ∉ KickMinerApp.queue_items (KickMinerApp._auto_queue_selected_games w app).1 <->
    QueueItem.url item ∉ desired_urls w app)) /\
  (KickMinerApp._is_auto_games_channel_item item = false ->
   l ∈ KickMinerApp.queue_items (KickMinerApp._auto_queue_selected_games w app).1).
Proof.
  intros Hcs Hnd Hin Hl.
  destruct (auto_queue_selected_games_run w app Hcs) as (_ & Hq & _).
  rewrite Hq. clear Hq.
  pose proof (rows_inv_foldl (KickMinerApp.heap app)
                (KickMinerApp.existing_by_url_of (KickMinerApp.heap app)
                   (KickMinerApp.queue_items app))
                (desired_rows w app) (existing_by_url_of_sound _ _))
    as (Hlen & Hkeep & Hurls & Hfinal & Hhit).
  set (acc := foldl _ _ (desired_rows w app)) in *.
  fold (desired_urls w app) in Hkeep, Hurls, Hfinal.
  destruct (Hkeep l item Hl) as (item' & Hitem' & _ & Hsame).
  destruct (decide (QueueItem.url item ∈ desired_urls w app)) as [Hdes|Hdes].
  - assert (Hthere : l ∈ KickMinerApp.r_final_queue acc).
    { apply list_elem_of_fmap in Hdes as (row & Hrow & Hrin).
      apply (Hhit row l Hrin). rewrite existing_by_url_of_spec, <- Hrow.
      destruct (String.eqb_spec (QueueItem.url item) "") as [He|_].
      - destruct (row_url_nonempty row). congruence.
      - by apply find_loc_by_url_unique. }
    split.
    + intros _. split; [|done]. intros Hnot. destruct Hnot. apply elem_of_app. by left.
    + intros _. apply elem_of_app. by left.
  - rewrite (Hsame Hdes) in Hitem'.
    assert (Hsurv : survives (KickMinerApp.r_heap acc) (KickMinerApp.r_ordered_urls acc) l
                    = negb (KickMinerApp._is_auto_games_channel_item item)).
    { unfold survives. rewrite Hitem'. rewrite bool_decide_eq_false_2; [done|].
      by rewrite Hurls. }
    split.
    + intros Hauto. split; [done|]. intros _.
      intros [Hf|Hf]%elem_of_app.
      * destruct (Hfinal l Hf) as [Hge|(it & Hit & Hu)].
        -- apply lookup_lt_Some in Hl. lia.
        -- replace it with item in Hu by congruence. done.
      * apply list_elem_of_filter in Hf as [Hf _]. rewrite Hsurv, Hauto in Hf. done.
    + intros Hauto. apply elem_of_app. right. apply list_elem_of_filter.
      split; [|done]. by rewrite Hsurv, Hauto.
Qed.

Lemma discovery_removes_auto_items_witness :
  (KickMinerApp.campaigns discovery_app <> [] /\
   NoDup (queue_urls discovery_app) /\
   0%nat ∈ KickMinerApp.queue_items discovery_app /\
   KickMinerApp.heap discovery_app !! 0%nat = Some stale_auto_item) /\
  (0%nat ∉ KickMinerApp.queue_items
             (@KickMinerApp._auto_queue_selected_games ascii_runtime (live_world 0)
                discovery_app).1).
Proof.
  assert (Hnd : NoDup (queue_urls discovery_app)).
  { apply (bool_decide_unpack _). by vm_compute. }
  assert (Hin : 0%nat ∈ KickMinerApp.queue_items discovery_app) by (by left).
  assert (Hcs : KickMinerApp.campaigns discovery_app <> []) by discriminate.
  split; [by repeat split|].
  pose proof (@discovery_removes_auto_items ascii_runtime (live_world 0) discovery_app 0%nat
                stale_auto_item Hcs Hnd Hin eq_refl) as [Hauto _].
  apply (Hauto eq_refl).
  change (@desired_urls ascii_runtime (live_world 0) discovery_app)
    with ["https://kick.com/foo"].
  intros Hold%list_elem_of_singleton. discriminate.
Defined.

(** With no campaign loaded the run stops at its guard, and a marked item
    stays although no URL is desired. *)
Lemma discovery_keeps_auto_item_without_campaigns :
  KickMinerApp._is_auto_games_channel_item stale_auto_item = true /\
  @desired_urls ascii_runtime (offline_world 0)
    (sample_app [stale_auto_item] [0%nat] [] None) = [] /\
  KickMinerApp.queue_items
    (@KickMinerApp._auto_queue_selected_games ascii_runtime (offline_world 0)
       (sample_app [stale_auto_item] [0%nat] [] None)).1 = [0%nat].
Proof. vm_compute. done. Qed.

(** C3.  The claim has an item without the marker never removed.  When
    two queue items have the same URL and that URL is desired, the run
    keeps the first of them as the item of the row and passes over the
    second in its last loop, whatever its notes: here an unmarked item
    with ten minutes watched leaves the queue, and the run counts nothing
    as removed. *)
Lemma discovery_drops_unmarked_twin :
  KickMinerApp.heap twin_discovery_app !! 1%nat = Some manual_foo_item /\
  KickMinerApp.queue_items twin_discovery_app = [0; 1]%nat /\
  KickMinerApp._is_auto_games_channel_item manual_foo_item = false /\
  QueueItem.url manual_foo_item ∈
    @desired_urls ascii_runtime (live_world 0) twin_discovery_app /\
  KickMinerApp.queue_items
    (@KickMinerApp._auto_queue_selected_games ascii_runtime (live_world 0)
       twin_discovery_app).1 = [0%nat] /\
  removed (@KickMinerApp._auto_queue_selected_games ascii_runtime (live_world 0)
             twin_discovery_app).2 = 0%nat.
Proof.
  split_and!; try (by vm_compute).
  assert (Hurls : @desired_urls ascii_runtime (live_world 0) twin_discovery_app =
                  ["https://kick.com/foo"]) by (by vm_compute).
  rewrite Hurls. by left.
Qed.

(** ** Two runs in succession *)

Section Idempotence.
Context `{PyRuntime}.

Lemma from_campaign_channel_wf (data : pydict) (channel : KickChannel.t) :
  KickChannel.from_campaign_channel data = Ok (Some channel) -> channel_wf channel.
Proof.
  unfold KickChannel.from_campaign_channel.
  set (slug := strip _).
  destruct (String.eqb_spec slug "") as [|Hne]; [done|].
  destruct (py_get _ "username") as [uname|]; [|done]. simpl.
  destruct (py_get _ "profile_picture") as [pic|]; [|done]. simpl.
  intros [= <-]. split_and!; simpl; [apply strip_idemp | done | done].
Qed.

(** A lookup leaves the cache in a state that answers every lookup of the
    same instant as before. *)
Lemma live_snapshot_stable (w : World) (cache : gmap string (option bool * Z * Z))
    (s s' : string) :
  (KickMinerApp._get_channel_live_snapshot w
     (KickMinerApp._get_channel_live_snapshot w cache s 45 true).2 s' 45 true).1 =
  (KickMinerApp._get_channel_live_snapshot w cache s' 45 true).1.
Proof.
  unfold KickMinerApp._get_channel_live_snapshot at 2.
  destruct (KickMinerApp.is_fresh w (cache !! s) 45) eqn:Hf; [done|]. simpl.
  destruct (channel_live_status w s) as [info|e] eqn:Hq; [|done]. simpl.
  unfold KickMinerApp._get_channel_live_snapshot.
  destruct (decide (s' = s)) as [->|Hne].
  - rewrite lookup_insert_eq, Hf. simpl. rewrite Hq. simpl.
    by replace (now w - now w <=? 45) with true by (symmetry; apply Z.leb_le; lia).
  - rewrite lookup_insert_ne by done.
    destruct (KickMinerApp.is_fresh w (cache !! s') 45); [done|]. simpl.
    by destruct (channel_live_status w s').
Qed.

Lemma same_snapshots_step (w2 w1 : World) (c2 c1 : gmap string (option bool * Z * Z))
    (s : string) :
  same_snapshots w2 c2 w1 c1 ->
  same_snapshots w2 (KickMinerApp._get_channel_live_snapshot w2 c2 s 45 true).2
                 w1 (KickMinerApp._get_channel_live_snapshot w1 c1 s 45 true).2.
Proof. intros Hs s'. rewrite !live_snapshot_stable. apply Hs. Qed.

Lemma desired_channel_same (w2 w1 : World) (campaign : KickCampaign.t)
    (acc2 acc1 : gmap string (option bool * Z * Z) * list (string * Row))
    (channel : KickChannel.t) :
  same_desired w2 w1 acc2 acc1 ->
  same_desired w2 w1 (KickMinerApp.desired_channel w2 campaign acc2 channel)
                     (KickMinerApp.desired_channel w1 campaign acc1 channel).
Proof.
  destruct acc2 as [c2 d2], acc1 as [c1 d1]. intros [Hd Hs]. simpl in Hd, Hs. subst d2.
  unfold KickMinerApp.desired_channel.
  destruct (String.eqb (strip (KickChannel.slug channel)) ""); [done|].
  destruct (String.eqb (strip (str_or _ _)) ""); [done|].
  pose proof (Hs (strip (KickChannel.slug channel))) as Heq.
  pose proof (same_snapshots_step _ _ _ _ (strip (KickChannel.slug channel)) Hs) as Hs'.
  destruct (KickMinerApp._get_channel_live_snapshot w2 c2 _ 45 true) as [[live2 v2] c2'].
  destruct (KickMinerApp._get_channel_live_snapshot w1 c1 _ 45 true) as [[live1 v1] c1'].
  simpl in Heq, Hs'. injection Heq as -> ->.
  destruct (dict_lookup d1 _) as [previous|]; [|done].
  by destruct (sort_key_ltb _ _).
Qed.

Lemma desired_channels_same (w2 w1 : World) (campaign : KickCampaign.t)
    (channels : list KickChannel.t)
    (acc2 acc1 : gmap string (option bool * Z * Z) * list (string * Row)) :
  same_desired w2 w1 acc2 acc1 ->
  same_desired w2 w1 (foldl (KickMinerApp.desired_channel w2 campaign) acc2 channels)
                     (foldl (KickMinerApp.desired_channel w1 campaign) acc1 channels).
Proof.
  revert acc2 acc1. induction channels as [|channel channels IH]; intros acc2 acc1 Hacc;
    simpl; [done|].
  by apply IH, desired_channel_same.
Qed.

Lemma desired_by_url_of_same (w2 w1 : World) (mine_all : bool) (selected : gset string)
    (campaigns : list KickCampaign.t) (c2 c1 : gmap string (option bool * Z * Z)) :
  (forall c, c ∈ campaigns ->
     KickMinerApp._is_campaign_expired w2 (Some c) =
     KickMinerApp._is_campaign_expired w1 (Some c)) ->
  same_snapshots w2 c2 w1 c1 ->
  same_desired w2 w1 (KickMinerApp.desired_by_url_of w2 mine_all selected campaigns c2)
                     (KickMinerApp.desired_by_url_of w1 mine_all selected campaigns c1).
Proof.
  intros Hexp Hs. unfold KickMinerApp.desired_by_url_of.
  assert (Hgen : forall acc2 acc1, same_desired w2 w1 acc2 acc1 ->
            same_desired w2 w1
              (foldl (KickMinerApp.desired_campaign w2 mine_all selected) acc2 campaigns)
              (foldl (KickMinerApp.desired_campaign w1 mine_all selected) acc1 campaigns)).
  { induction campaigns as [|c cs IH]; intros acc2 acc1 Hacc; simpl; [done|].
    apply IH.
    - intros c' Hc'. apply Hexp. by right.
    - unfold KickMinerApp.desired_campaign.
      destruct (negb mine_all && _); [done|].
      rewrite (Hexp c) by (by left).
      destruct (KickMinerApp._is_campaign_expired w1 (Some c)); [done|].
      by apply desired_channels_same. }
  by apply Hgen.
Qed.

(** *** The keys of [desired_by_url] *)

Lemma dict_set_key_elem {V} (d : list (string * V)) (k : string) (v : V) (x : string) :
  x ∈ (dict_set d k v).*1 -> x = k \/ x ∈ d.*1.
Proof.
  induction d as [|[k' v'] d IH]; simpl.
  - intros ?%list_elem_of_singleton. by left.
  - destruct (String.eqb_spec k' k) as [->|Hne]; simpl.
    + intros [->|Hx]%elem_of_cons; [by left|]. right. by right.
    + intros [->|Hx]%elem_of_cons; [right; by left|].
      destruct (IH Hx) as [->|?]; [by left|]. right. by right.
Qed.

Lemma dict_set_NoDup {V} (d : list (string * V)) (k : string) (v : V) :
  NoDup d.*1 -> NoDup (dict_set d k v).*1.
Proof.
  induction d as [|[k' v'] d IH]; simpl; intros Hnd.
  - apply NoDup_singleton.
  - apply NoDup_cons in Hnd as [Hk' Hnd].
    destruct (String.eqb_spec k' k) as [->|Hne]; simpl.
    + by apply NoDup_cons.
    + apply NoDup_cons. split; [|by apply IH].
      intros [->|Hx]%dict_set_key_elem; done.
Qed.

Lemma dict_set_Forall {V} (P : string * V -> Prop) (d : list (string * V))
    (k : string) (v : V) :
  P (k, v) -> Forall P d -> Forall P (dict_set d k v).
Proof.
  intros Hkv. induction d as [|[k' v'] d IH]; simpl; intros Hd.
  - by apply Forall_singleton.
  - apply Forall_cons in Hd as [Hk' Hd].
    destruct (String.eqb k' k); apply Forall_cons; auto.
Qed.

Lemma desired_keys_ok_set (d : list (string * Row)) (row : Row) :
  desired_keys_ok d -> desired_keys_ok (dict_set d (KickMinerApp.row_url row) row).
Proof.
  intros [Hnd Hkeys]. split; [by apply dict_set_NoDup | by apply dict_set_Forall].
Qed.

Lemma desired_channel_keys (w : World) (campaign : KickCampaign.t)
    (acc : gmap string (option bool * Z * Z) * list (string * Row))
    (channel : KickChannel.t) :
  channel_wf channel -> desired_keys_ok acc.2 ->
  desired_keys_ok (KickMinerApp.desired_channel w campaign acc channel).2.
Proof.
  destruct acc as [cache d]. intros (Hstrip & Hne & Hurl) Hd. simpl in Hd.
  unfold KickMinerApp.desired_channel.
  destruct (String.eqb (strip (KickChannel.slug channel)) ""); [done|].
  assert (Hkey : strip (str_or (KickChannel.url channel)
                          (KICK_URL_PREFIX +:+ strip (KickChannel.slug channel))) =
                 KickChannel.url channel).
  { unfold str_or. rewrite Hurl.
    destruct (String.eqb_spec (KICK_URL_PREFIX +:+ KickChannel.slug channel) "") as [He|_];
      [done|].
    by apply strip_kick_url. }
  rewrite Hkey.
  destruct (String.eqb (KickChannel.url channel) ""); [done|].
  destruct (KickMinerApp._get_channel_live_snapshot w cache _ 45 true) as [[live v] cache'].
  set (row := {| row_campaign := campaign |}).
  assert (Hrow : KickMinerApp.row_url row = KickChannel.url channel).
  { unfold KickMinerApp.row_url, str_or. simpl. rewrite Hurl.
    by destruct (String.eqb_spec (KICK_URL_PREFIX +:+ KickChannel.slug channel) ""). }
  rewrite <- Hrow.
  destruct (dict_lookup d _) as [previous|]; [destruct (sort_key_ltb _ _)|]; simpl;
    by try apply desired_keys_ok_set.
Qed.

Lemma desired_by_url_of_keys (w : World) (mine_all : bool) (selected : gset string)
    (campaigns : list KickCampaign.t) (cache : gmap string (option bool * Z * Z)) :
  campaigns_wf campaigns ->
  desired_keys_ok (KickMinerApp.desired_by_url_of w mine_all selected campaigns cache).2.
Proof.
  intros Hwf. unfold KickMinerApp.desired_by_url_of.
  assert (Hgen : forall acc, desired_keys_ok acc.2 ->
            desired_keys_ok
              (foldl (KickMinerApp.desired_campaign w mine_all selected) acc campaigns).2).
  { induction Hwf as [|c cs Hc Hcs IH]; intros acc Hacc; simpl; [done|].
    apply IH. unfold KickMinerApp.desired_campaign.
    destruct (negb mine_all && _); [done|].
    destruct (KickMinerApp._is_campaign_expired w (Some c)); [done|].
    clear IH Hcs. revert acc Hacc.
    induction Hc as [|channel channels Hch Hchs IHc]; intros acc Hacc; simpl; [done|].
    by apply IHc, desired_channel_keys. }
  apply Hgen. split; simpl; [apply NoDup_nil_2 | apply Forall_nil_2].
Qed.

Lemma desired_urls_NoDup (w : World) (app : KickMinerApp.t) :
  campaigns_wf (KickMinerApp.campaigns app) -> NoDup (desired_urls w app).
Proof.
  intros Hwf. unfold desired_urls, desired_rows.
  set (d := (KickMinerApp.desired_by_url_of w _ _ _ _).2).
  assert (Hd : desired_keys_ok d) by (by apply desired_by_url_of_keys).
  destruct Hd as [Hnd Hkeys].
  rewrite (py_sorted_perm row_sort_key sort_key_ltb (map snd d)).
  replace (KickMinerApp.row_url <$> map snd d) with d.*1; [done|].
  clear Hnd. induction Hkeys as [|[k row] d' Hk Hd' IH]; [done|].
  simpl map. rewrite !fmap_cons. f_equal; [exact Hk | exact IH].
Qed.

(** *** The first run settles every row *)

Lemma Forall2_impl_in {A B} (P Q : A -> B -> Prop) (l : list A) (k : list B) :
  Forall2 P l k -> (forall x y, x ∈ l -> P x y -> Q x y) -> Forall2 Q l k.
Proof.
  induction 1 as [|x y l k Hxy Hlk IH]; intros Himp; [constructor|].
  constructor.
  - apply Himp; [by left | done].
  - apply IH. intros x' y' Hx'. apply Himp. by right.
Qed.

Lemma settled_step (h0 : list QueueItem.t) (ex : gmap string loc) (past : list Row)
    (acc : KickMinerApp.Reconcile) (row : Row) :
  existing_sound h0 ex -> rows_inv h0 ex past acc ->
  KickMinerApp.row_url row ∉ KickMinerApp.row_url <$> past ->
  Forall2 (settled (KickMinerApp.r_heap acc)) past (KickMinerApp.r_final_queue acc) ->
  Forall2 (settled (KickMinerApp.r_heap (KickMinerApp.reconcile_row ex acc row)))
    (past ++ [row]) (KickMinerApp.r_final_queue (KickMinerApp.reconcile_row ex acc row)).
Proof.
  intros Hex (Hlen & Hkeep & Hurls & Hfinal & Hhit) Hnew Hset.
  unfold KickMinerApp.reconcile_row. cbv zeta.
  destruct (ex !! KickMinerApp.row_url row) as [l1|] eqn:Hl1.
  - destruct (Hex _ _ Hl1) as (item0 & Hitem0 & Hurl0).
    destruct (Hkeep _ _ Hitem0) as (existing & Hexisting & Hurl1 & _).
    rewrite Hexisting. simpl.
    assert (Hlt : (l1 < length (KickMinerApp.r_heap acc))%nat) by (by eapply lookup_lt_Some).
    apply Forall2_app.
    + eapply Forall2_impl_in; [exact Hset|].
      intros r l Hr (it & Hit & Hu & Hrest).
      exists it. split; [|done]. rewrite list_lookup_insert_ne; [done|].
      intros Heq. subst l. apply Hnew. apply list_elem_of_fmap. exists r.
      split; [|done]. congruence.
    + constructor; [|constructor].
      eexists. split; [by apply list_lookup_insert_eq|].
      simpl.
      destruct (String.eqb_spec (QueueItem.status existing) "EXPIRED") as [He|Hne];
        simpl; split_and!; try done; congruence.
  - simpl. apply Forall2_app.
    + eapply Forall2_impl_in; [exact Hset|].
      intros r l Hr (it & Hit & Hrest). exists it. split; [|done].
      by apply lookup_app_l_Some.
    + constructor; [|constructor].
      eexists. split; [by apply list_lookup_middle|].
      simpl. split_and!; done.
Qed.

Lemma reconcile_settles (h0 : list QueueItem.t) (ex : gmap string loc) (rows : list Row) :
  existing_sound h0 ex ->
  NoDup (KickMinerApp.row_url <$> rows) ->
  Forall2
    (settled
       (KickMinerApp.r_heap
          (foldl (KickMinerApp.reconcile_row ex)
             {| KickMinerApp.r_heap := h0; KickMinerApp.r_added := 0;
                KickMinerApp.r_updated := 0; KickMinerApp.r_ordered_urls := ∅;
                KickMinerApp.r_final_queue := [] |} rows)))
    rows
    (KickMinerApp.r_final_queue
       (foldl (KickMinerApp.reconcile_row ex)
          {| KickMinerApp.r_heap := h0; KickMinerApp.r_added := 0;
             KickMinerApp.r_updated := 0; KickMinerApp.r_ordered_urls := ∅;
             KickMinerApp.r_final_queue := [] |} rows)).
Proof.
  intros Hex Hnd.
  refine (proj2 (foldl_invariant _
            (fun past acc =>
               rows_inv h0 ex past acc /\
               Forall2 (settled (KickMinerApp.r_heap acc)) past
                 (KickMinerApp.r_final_queue acc)) rows _ _ _)).
  - split; [|constructor]. split_and!; simpl.
    + done.
    + intros l item Hl. eauto.
    + intros u. split; [by intros ?%not_elem_of_empty | by intros ?%elem_of_nil].
    + by intros l ?%elem_of_nil.
    + by intros row l ?%elem_of_nil.
  - intros past x rest b Hrows [Hinv Hset]. split; [by apply rows_inv_step|].
    apply (settled_step h0); try done.
    rewrite Hrows, fmap_app, fmap_cons in Hnd.
    apply NoDup_app in Hnd as (_ & Hdisj & _).
    intros Hin. apply (Hdisj _ Hin). by left.
Qed.

(** *** The second run finds every row settled *)

Lemma find_loc_by_url_prefix (h : list QueueItem.t) (rows : list Row) (ls rest : list loc) :
  Forall2 (holds_row_url h) rows ls ->
  NoDup (KickMinerApp.row_url <$> rows) ->
  forall i row l, rows !! i = Some row -> ls !! i = Some l ->
    KickMinerApp.find_loc_by_url h (ls ++ rest) (KickMinerApp.row_url row) = Some l.
Proof.
  induction 1 as [|r0 l0 rows ls (it0 & Hit0 & Hu0) Hrest IH]; intros Hnd i row l Hrow Hl;
    [done|].
  rewrite fmap_cons in Hnd. apply NoDup_cons in Hnd as [Hfirst Hnd].
  simpl. rewrite Hit0. destruct i as [|i]; simpl in Hrow, Hl.
  - injection Hrow as ->. injection Hl as ->. by rewrite Hu0, String.eqb_refl.
  - destruct (String.eqb_spec (QueueItem.url it0) (KickMinerApp.row_url row)) as [Heq|_].
    + destruct Hfirst. rewrite <- Hu0, Heq. apply list_elem_of_fmap. exists row.
      split; [done|]. by eapply list_elem_of_lookup_2.
    + by eapply IH.
Qed.

Lemma reconcile_row_settled (ex : gmap string loc) (acc : KickMinerApp.Reconcile)
    (row : Row) (l : loc) :
  ex !! KickMinerApp.row_url row = Some l ->
  settled (KickMinerApp.r_heap acc) row l ->
  KickMinerApp.reconcile_row ex acc row =
  {| KickMinerApp.r_heap := KickMinerApp.r_heap acc;
     KickMinerApp.r_added := KickMinerApp.r_added acc;
     KickMinerApp.r_updated := KickMinerApp.r_updated acc;
     KickMinerApp.r_ordered_urls :=
       {[KickMinerApp.row_url row]} ∪ KickMinerApp.r_ordered_urls acc;
     KickMinerApp.r_final_queue := (KickMinerApp.r_final_queue acc ++ [l])%list |}.
Proof.
  intros Hex (item & Hl & Hu & Hcid & Hcn & Hcat & Hnotes & Hst).
  unfold KickMinerApp.reconcile_row. cbv zeta. rewrite Hex, Hl.
  assert (Hsame : QueueItem.with_campaign item
                    (Some (KickCampaign.id (row_campaign row)))
                    (Some (KickCampaign.name (row_campaign row)))
                    (KickCampaign.category_id (row_campaign row))
                    (KickMinerApp._build_auto_games_item_notes (row_campaign row)
                       (row_channel row) (row_viewers row)) = item).
  { destruct item. simpl in *. unfold QueueItem.with_campaign. simpl. congruence. }
  rewrite Hsame.
  destruct (String.eqb_spec (QueueItem.status item) "EXPIRED") as [|_]; [done|].
  rewrite bool_decide_eq_false_2 by (intros Hne; by apply Hne).
  by rewrite list_insert_id.
Qed.

Lemma reconcile_rows_settled (ex : gmap string loc) (h : list QueueItem.t)
    (rows : list Row) (ls : list loc) :
  Forall2 (fun row l => settled h row l /\ ex !! KickMinerApp.row_url row = Some l) rows ls ->
  forall acc, KickMinerApp.r_heap acc = h ->
    foldl (KickMinerApp.reconcile_row ex) acc rows =
    {| KickMinerApp.r_heap := h;
       KickMinerApp.r_added := KickMinerApp.r_added acc;
       KickMinerApp.r_updated := KickMinerApp.r_updated acc;
       KickMinerApp.r_ordered_urls :=
         list_to_set (KickMinerApp.row_url <$> rows) ∪ KickMinerApp.r_ordered_urls acc;
       KickMinerApp.r_final_queue := (KickMinerApp.r_final_queue acc ++ ls)%list |}.
Proof.
  induction 1 as [|row l rows ls [Hset Hex] Hrest IH]; intros acc Hacc; simpl.
  - destruct acc; simpl in *. subst. f_equal; [|by rewrite app_nil_r].
    apply set_eq. intros u. rewrite elem_of_union, elem_of_empty. tauto.
  - rewrite (reconcile_row_settled ex acc row l) by (by rewrite ?Hacc).
    rewrite IH by done. simpl. f_equal; [|by rewrite <- app_assoc].
    apply set_eq. intros u.
    rewrite !elem_of_union, elem_of_singleton. tauto.
Qed.

Lemma filter_none {A} (P : A -> Prop) `{!forall x, Decision (P x)} (l : list A) :
  (forall x, x ∈ l -> ~ P x) -> filter P l = [].
Proof.
  induction l as [|x l IH]; intros Hl; [done|].
  rewrite filter_cons_False by (apply Hl; by left).
  apply IH. intros y Hy. apply Hl. by right.
Qed.

Lemma filter_all {A} (P : A -> Prop) `{!forall x, Decision (P x)} (l : list A) :
  (forall x, x ∈ l -> P x) -> filter P l = l.
Proof.
  induction l as [|x l IH]; intros Hl; [done|].
  rewrite filter_cons_True by (apply Hl; by left).
  f_equal. apply IH. intros y Hy. apply Hl. by right.
Qed.

Lemma preferred_game_filter_normalized (app app' : KickMinerApp.t) :
  KickMinerApp._preferred_games_cached app' =
    KickMinerApp._normalize_preferred_games (KickMinerApp._preferred_games_cached app) ->
  (KickMinerApp._preferred_game_filter app').2 = (KickMinerApp._preferred_game_filter app).2.
Proof.
  intros Hn. unfold KickMinerApp._preferred_game_filter. simpl.
  by rewrite Hn, normalize_preferred_games_idemp.
Qed.

Lemma auto_queue_no_campaigns (w : World) (app : KickMinerApp.t) :
  KickMinerApp.campaigns app = [] ->
  KickMinerApp._auto_queue_selected_games w app =
  ((KickMinerApp._preferred_game_filter app).1, KickMinerApp.no_counts).
Proof.
  intros Hnil. unfold KickMinerApp._auto_queue_selected_games.
  unfold KickMinerApp._preferred_game_filter. simpl. by rewrite Hnil.
Qed.

(** The rows of a second run are the rows of the first. *)
Lemma desired_rows_again (w1 w2 : World) (app : KickMinerApp.t) :
  KickMinerApp.campaigns app <> [] ->
  (forall c, c ∈ KickMinerApp.campaigns app ->
     KickMinerApp._is_campaign_expired w2 (Some c) =
     KickMinerApp._is_campaign_expired w1 (Some c)) ->
  same_snapshots w2
    (KickMinerApp._channel_live_cache (KickMinerApp._auto_queue_selected_games w1 app).1)
    w1 (KickMinerApp._channel_live_cache app) ->
  desired_rows w2 (KickMinerApp._auto_queue_selected_games w1 app).1 = desired_rows w1 app.
Proof.
  intros Hne Hexp Hsnap.
  destruct (auto_queue_selected_games_run w1 app Hne) as (_ & _ & _ & _ & Hcs & Hpref).
  unfold desired_rows.
  rewrite (preferred_game_filter_normalized app _ Hpref), Hcs.
  do 2 f_equal. by apply desired_by_url_of_same.
Qed.

(** The state a run leaves: every row settled at its place in the
    queue, followed by the surviving items of the old queue. *)
Lemma auto_queue_selected_games_settles (w : World) (app : KickMinerApp.t) :
  KickMinerApp.campaigns app <> [] ->
  campaigns_wf (KickMinerApp.campaigns app) ->
  exists (ls surv : list loc) (urls : gset string),
    KickMinerApp.queue_items (KickMinerApp._auto_queue_selected_games w app).1
      = (ls ++ surv)%list /\
    Forall2 (settled (KickMinerApp.heap (KickMinerApp._auto_queue_selected_games w app).1))
      (desired_rows w app) ls /\
    (forall u, u ∈ urls <-> u ∈ desired_urls w app) /\
    (forall l, l ∈ surv ->
       survives (KickMinerApp.heap (KickMinerApp._auto_queue_selected_games w app).1)
         urls l = true).
Proof.
  intros Hne Hwf.
  destruct (auto_queue_selected_games_run w app Hne) as (Hh & Hq & _).
  pose proof (rows_inv_foldl (KickMinerApp.heap app) _ (desired_rows w app)
                (existing_by_url_of_sound (KickMinerApp.heap app)
                   (KickMinerApp.queue_items app))) as (_ & _ & Hurls & _).
  pose proof (reconcile_settles (KickMinerApp.heap app) _ (desired_rows w app)
                (existing_by_url_of_sound (KickMinerApp.heap app)
                   (KickMinerApp.queue_items app))
                (desired_urls_NoDup w app Hwf)) as Hset.
  eexists _, _, _. rewrite Hh. split; [exact Hq|]. split; [exact Hset|].
  split; [exact Hurls|].
  by intros l [Hl _]%list_elem_of_filter.
Qed.

(** A run on a state in which every row is settled at the head of the
    queue, the rest surviving, changes nothing. *)
Lemma auto_queue_selected_games_settled (w : World) (app : KickMinerApp.t)
    (ls surv : list loc) (urls : gset string) :
  KickMinerApp.campaigns app <> [] ->
  NoDup (desired_urls w app) ->
  KickMinerApp.queue_items app = (ls ++ surv)%list ->
  Forall2 (settled (KickMinerApp.heap app)) (desired_rows w app) ls ->
  (forall u, u ∈ urls <-> u ∈ desired_urls w app) ->
  (forall l, l ∈ surv -> survives (KickMinerApp.heap app) urls l = true) ->
  (KickMinerApp._auto_queue_selected_games w app).2 =
    {| visible := length (desired_rows w app); added := 0; updated := 0; removed := 0 |} /\
  KickMinerApp.queue_items (KickMinerApp._auto_queue_selected_games w app).1 =
    KickMinerApp.queue_items app /\
  KickMinerApp.heap (KickMinerApp._auto_queue_selected_games w app).1 =
    KickMinerApp.heap app.
Proof.
  intros Hne Hnd Hq Hset Hurls Hsurv.
  destruct (auto_queue_selected_games_run w app Hne) as (Hh & Hq' & Hc & _).
  assert (Hfound :
            Forall2 (fun row l =>
                       settled (KickMinerApp.heap app) row l /\
                       KickMinerApp.existing_by_url_of (KickMinerApp.heap app)
                         (KickMinerApp.queue_items app) !! KickMinerApp.row_url row = Some l)
              (desired_rows w app) ls).
  { apply Forall2_same_length_lookup. split; [by eapply Forall2_length|].
    intros i row l Hrow Hl. split; [by eapply Forall2_lookup_lr|].
    rewrite existing_by_url_of_spec, Hq.
    destruct (String.eqb_spec (KickMinerApp.row_url row) "") as [He|_];
      [by apply row_url_nonempty in He|].
    eapply find_loc_by_url_prefix; [|exact Hnd|exact Hrow|exact Hl].
    eapply Forall2_impl; [exact Hset|].
    intros r l' (it & Hit & Hu & _). by exists it. }
  rewrite (reconcile_rows_settled _ (KickMinerApp.heap app) _ ls Hfound) in Hh, Hq', Hc
    by done.
  simpl in Hh, Hq', Hc.
  assert (Hsame : list_to_set (KickMinerApp.row_url <$> desired_rows w app) ∪ ∅ = urls).
  { apply set_eq. intros u.
    rewrite elem_of_union, elem_of_empty, elem_of_list_to_set, Hurls. unfold desired_urls.
    tauto. }
  rewrite Hsame in Hq', Hc.
  assert (Hhead : forall l, l ∈ ls ->
            survives (KickMinerApp.heap app) urls l = false /\
            dropped (KickMinerApp.heap app) urls l = false).
  { intros l Hl. apply list_elem_of_lookup_1 in Hl as [i Hi].
    destruct (Forall2_lookup_r _ _ _ _ _ Hset Hi) as (row & Hrow & it & Hit & Hu & _).
    unfold survives, dropped. rewrite Hit.
    rewrite bool_decide_eq_true_2; [done|].
    apply Hurls. rewrite Hu. apply list_elem_of_fmap. exists row.
    split; [done|]. by eapply list_elem_of_lookup_2. }
  assert (Htail : forall l, l ∈ surv -> dropped (KickMinerApp.heap app) urls l = false).
  { intros l Hl. specialize (Hsurv l Hl). unfold survives, dropped in *.
    destruct (KickMinerApp.heap app !! l) as [it|]; [|done].
    destruct (bool_decide _); [done|]. simpl in *.
    by destruct (KickMinerApp._is_auto_games_channel_item it). }
  rewrite Hq in Hq', Hc. rewrite !filter_app in Hq', Hc.
  rewrite (filter_none _ ls), (filter_all _ surv) in Hq'.
  2: { intros l Hl. by apply Hsurv. }
  2: { intros l Hl. destruct (Hhead l Hl) as [Hs _]. by rewrite Hs. }
  rewrite (filter_none _ ls), (filter_none _ surv) in Hc.
  2: { intros l Hl. by rewrite (Htail l Hl). }
  2: { intros l Hl. destruct (Hhead l Hl) as [_ Hd]. by rewrite Hd. }
  split; [exact Hc|]. split; [by rewrite Hq', Hq | exact Hh].
Qed.

(** Within one world, a run leaves the cache answering as before: a second
    run at the same instant sees the snapshots of the first. *)
Lemma desired_by_url_of_snapshots (w : World) (mine_all : bool) (selected : gset string)
    (campaigns : list KickCampaign.t) (cache : gmap string (option bool * Z * Z)) :
  same_snapshots w
    (KickMinerApp.desired_by_url_of w mine_all selected campaigns cache).1 w cache.
Proof.
  unfold KickMinerApp.desired_by_url_of.
  assert (Hchannel : forall campaign channels acc,
            same_snapshots w acc.1 w cache ->
            same_snapshots w
              (foldl (KickMinerApp.desired_channel w campaign) acc channels).1 w cache).
  { intros campaign channels. induction channels as [|channel channels IH];
      intros [c d] Hacc; simpl; [done|].
    apply IH. simpl in Hacc. unfold KickMinerApp.desired_channel.
    destruct (String.eqb (strip (KickChannel.slug channel)) ""); [done|].
    destruct (String.eqb (strip (str_or _ _)) ""); [done|].
    pose proof (live_snapshot_stable w c (strip (KickChannel.slug channel))) as Hst.
    destruct (KickMinerApp._get_channel_live_snapshot w c _ 45 true) as [[live v] c'].
    simpl in Hst.
    assert (Hc' : same_snapshots w c' w cache).
    { intros s'. rewrite Hst. apply Hacc. }
    destruct (dict_lookup d _) as [previous|]; [|done].
    by match goal with |- context [if ?b then _ else _] => destruct b end. }
  assert (Hgen : forall acc, same_snapshots w acc.1 w cache ->
            same_snapshots w
              (foldl (KickMinerApp.desired_campaign w mine_all selected) acc campaigns).1
              w cache).
  { induction campaigns as [|c cs IH]; intros acc Hacc; simpl; [done|].
    apply IH. unfold KickMinerApp.desired_campaign.
    destruct (negb mine_all && _); [done|].
    destruct (KickMinerApp._is_campaign_expired w (Some c)); [done|].
    by apply Hchannel. }
  by apply Hgen.
Qed.
End Idempotence.

(** C4, as amended.  A run followed by a second run: when the channels
    are those the parser builds, the campaigns expired for the second run
    are those expired for the first, and every channel's liveness
    snapshot is the same in both, the second run adds, updates and
    removes nothing and leaves the queue, and every queued item, as the
    first run left them. *)
Theorem discovery_second_run_quiet `{PyRuntime} (w1 w2 : World) (app : KickMinerApp.t) :
  campaigns_wf (KickMinerApp.campaigns app) ->
  (forall c, c ∈ KickMinerApp.campaigns app ->
     KickMinerApp._is_campaign_expired w2 (Some c) =
     KickMinerApp._is_campaign_expired w1 (Some c)) ->
  same_snapshots w2
    (KickMinerApp._channel_live_cache (KickMinerApp._auto_queue_selected_games w1 app).1)
    w1 (KickMinerApp._channel_live_cache app) ->
  added (KickMinerApp._auto_queue_selected_games w2
           (KickMinerApp._auto_queue_selected_games w1 app).1).2 = 0%nat /\
  updated (KickMinerApp._auto_queue_selected_games w2
             (KickMinerApp._auto_queue_selected_games w1 app).1).2 = 0%nat /\
  removed (KickMinerApp._auto_queue_selected_games w2
             (KickMinerApp._auto_queue_selected_games w1 app).1).2 = 0%nat /\
  KickMinerApp.queue_items
    (KickMinerApp._auto_queue_selected_games w2
       (KickMinerApp._auto_queue_selected_games w1 app).1).1 =
    KickMinerApp.queue_items (KickMinerApp._auto_queue_selected_games w1 app).1 /\
  KickMinerApp.heap
    (KickMinerApp._auto_queue_selected_games w2
       (KickMinerApp._auto_queue_selected_games w1 app).1).1 =
    KickMinerApp.heap (KickMinerApp._auto_queue_selected_games w1 app).1.
Proof.
  intros Hwf Hexp Hsnap.
  assert (Hcase : KickMinerApp.campaigns app = [] \/ KickMinerApp.campaigns app <> [])
    by (destruct (KickMinerApp.campaigns app); [by left | by right]).
  destruct Hcase as [Hnil|Hne].
  - rewrite (auto_queue_no_campaigns w1 app Hnil). cbn [fst].
    by rewrite (auto_queue_no_campaigns w2 (KickMinerApp._preferred_game_filter app).1 Hnil).
  - destruct (auto_queue_selected_games_run w1 app Hne) as (_ & _ & _ & _ & Hcs & _).
    destruct (auto_queue_selected_games_settles w1 app Hne Hwf)
      as (ls & surv & urls & Hq & Hset & Hurls & Hsurv).
    pose proof (desired_rows_again w1 w2 app Hne Hexp Hsnap) as Hrows.
    destruct (auto_queue_selected_games_settled w2
                (KickMinerApp._auto_queue_selected_games w1 app).1 ls surv urls)
      as (Hc & Hq2 & Hh2).
    + by rewrite Hcs.
    + unfold desired_urls. rewrite Hrows. by apply desired_urls_NoDup.
    + done.
    + by rewrite Hrows.
    + intros u. unfold desired_urls. rewrite Hrows. apply Hurls.
    + done.
    + by rewrite Hc.
Qed.

Lemma discovery_second_run_quiet_witness :
  (campaigns_wf (KickMinerApp.campaigns discovery_app) /\
   same_snapshots (live_world 30)
     (KickMinerApp._channel_live_cache
        (@KickMinerApp._auto_queue_selected_games ascii_runtime (live_world 0)
           discovery_app).1)
     (live_world 0) (KickMinerApp._channel_live_cache discovery_app)) /\
  (added (@KickMinerApp._auto_queue_selected_games ascii_runtime (live_world 0)
            discovery_app).2 = 1%nat /\
   added (@KickMinerApp._auto_queue_selected_games ascii_runtime (live_world 30)
            (@KickMinerApp._auto_queue_selected_games ascii_runtime (live_world 0)
               discovery_app).1).2 = 0%nat /\
   KickMinerApp.queue_items
     (@KickMinerApp._auto_queue_selected_games ascii_runtime (live_world 30)
        (@KickMinerApp._auto_queue_selected_games ascii_runtime (live_world 0)
           discovery_app).1).1 = [2; 1]%nat).
Proof.
  assert (Hwf : campaigns_wf (KickMinerApp.campaigns discovery_app)).
  { repeat constructor. discriminate. }
  assert (Hsnap : same_snapshots (live_world 30)
            (KickMinerApp._channel_live_cache
               (@KickMinerApp._auto_queue_selected_games ascii_runtime (live_world 0)
                  discovery_app).1)
            (live_world 0) (KickMinerApp._channel_live_cache discovery_app)).
  { intros slug.
    change (KickMinerApp._channel_live_cache
              (@KickMinerApp._auto_queue_selected_games ascii_runtime (live_world 0)
                 discovery_app).1)
      with (<["foo" := (Some true, 5, 0)]> (∅ : gmap string (option bool * Z * Z))).
    unfold KickMinerApp._get_channel_live_snapshot.
    destruct (decide (slug = "foo")) as [->|Hne].
    - by rewrite lookup_insert_eq.
    - by rewrite lookup_insert_ne, !lookup_empty. }
  assert (Hexp : forall c, c ∈ KickMinerApp.campaigns discovery_app ->
            @KickMinerApp._is_campaign_expired ascii_runtime (live_world 30) (Some c) =
            @KickMinerApp._is_campaign_expired ascii_runtime (live_world 0) (Some c)).
  { by intros c ->%list_elem_of_singleton. }
  split; [by split|].
  destruct (@discovery_second_run_quiet ascii_runtime (live_world 0) (live_world 30)
              discovery_app Hwf Hexp Hsnap) as (Hadded & _ & _ & Hq & _).
  split; [by vm_compute|]. split; [exact Hadded|].
  rewrite Hq. by vm_compute.
Defined.

(** The claim of C4 asks for the same campaign list, the same game
    selection and the same liveness snapshots.  The expiry test reads the
    clock: when a campaign ends between the two runs, the second run
    finds no channel desired and removes the item the first run had
    queued. *)
Lemma discovery_second_run_after_expiry :
  (@KickMinerApp._is_campaign_expired ascii_runtime (live_world 1672531190)
     (Some short_campaign) = false /\
   @KickMinerApp._is_campaign_expired ascii_runtime (live_world 1672531210)
     (Some short_campaign) = true) /\
  (KickMinerApp.campaigns
     (@KickMinerApp._auto_queue_selected_games ascii_runtime (live_world 1672531190)
        expiring_app).1 = KickMinerApp.campaigns expiring_app /\
   (@KickMinerApp._preferred_game_filter ascii_runtime
      (@KickMinerApp._auto_queue_selected_games ascii_runtime (live_world 1672531190)
         expiring_app).1).2 =
   (@KickMinerApp._preferred_game_filter ascii_runtime expiring_app).2 /\
   same_snapshots (live_world 1672531210)
     (KickMinerApp._channel_live_cache
        (@KickMinerApp._auto_queue_selected_games ascii_runtime (live_world 1672531190)
           expiring_app).1)
     (live_world 1672531190) (KickMinerApp._channel_live_cache expiring_app)) /\
  KickMinerApp.queue_items
    (@KickMinerApp._auto_queue_selected_games ascii_runtime (live_world 1672531190)
       expiring_app).1 = [0%nat] /\
  removed
    (@KickMinerApp._auto_queue_selected_games ascii_runtime (live_world 1672531210)
       (@KickMinerApp._auto_queue_selected_games ascii_runtime (live_world 1672531190)
          expiring_app).1).2 = 1%nat /\
  KickMinerApp.queue_items
    (@KickMinerApp._auto_queue_selected_games ascii_runtime (live_world 1672531210)
       (@KickMinerApp._auto_queue_selected_games ascii_runtime (live_world 1672531190)
          expiring_app).1).1 = [].
Proof.
  split; [by vm_compute|]. split.
  { split; [by vm_compute|]. split; [by vm_compute|].
    intros slug.
    change (KickMinerApp._channel_live_cache
              (@KickMinerApp._auto_queue_selected_games ascii_runtime
                 (live_world 1672531190) expiring_app).1)
      with (<["foo" := (Some true, 5, 1672531190)]>
              (∅ : gmap string (option bool * Z * Z))).
    unfold KickMinerApp._get_channel_live_snapshot.
    destruct (decide (slug = "foo")) as [->|Hne].
    - by rewrite lookup_insert_eq.
    - by rewrite lookup_insert_ne, !lookup_empty. }
  split_and!; by vm_compute.
Qed.

(** * Further properties of the code *)

(** ** Force-switch requests *)

(** X1.  A force-switch request is consumed exactly once: after a request
    for a URL that is not blank, the first consume of that URL answers
    true and removes the request, so the second answers false; what is
    pending for another URL is left as it was. *)
Theorem force_switch_request_one_shot (app : KickMinerApp.t) (url other : string) :
  strip url <> "" ->
  strip other <> strip url ->
  (KickMinerApp._consume_force_channel_switch
     (KickMinerApp._request_force_channel_switch app url) url).2 = true /\
  (KickMinerApp._consume_force_channel_switch
     (KickMinerApp._consume_force_channel_switch
        (KickMinerApp._request_force_channel_switch app url) url).1 url).2 = false /\
  (KickMinerApp._consume_force_channel_switch
     (KickMinerApp._consume_force_channel_switch
        (KickMinerApp._request_force_channel_switch app url) url).1 other).2 =
  (KickMinerApp._consume_force_channel_switch app other).2.
Proof.
  intros Hurl Hother.
  unfold KickMinerApp._request_force_channel_switch,
    KickMinerApp._consume_force_channel_switch.
  destruct (String.eqb_spec (strip url) "") as [|_]; [done|]. simpl.
  rewrite (bool_decide_eq_true_2 (strip url ∈ _)); simpl.
  2: { apply elem_of_union. left. by apply elem_of_singleton. }
  rewrite (bool_decide_eq_false_2 (strip url ∈ _ ∖ _)); simpl.
  2: { intros [_ Hnot]%elem_of_difference. apply Hnot. by apply elem_of_singleton. }
  split; [done|]. split; [done|].
  destruct (String.eqb (strip other) ""); [done|].
  assert (Hiff : strip other ∈ ({[strip url]} ∪ KickMinerApp._force_switch_urls app)
                               ∖ {[strip url]} <->
                 strip other ∈ KickMinerApp._force_switch_urls app).
  { rewrite elem_of_difference, elem_of_union, !elem_of_singleton. tauto. }
  destruct (decide (strip other ∈ KickMinerApp._force_switch_urls app)) as [Hin|Hout].
  - rewrite !bool_decide_eq_true_2; [done..|]. by apply Hiff.
  - rewrite !bool_decide_eq_false_2; [done..|]. by rewrite Hiff.
Qed.

Lemma force_switch_request_one_shot_witness :
  (strip " https://kick.com/foo " <> "" /\
   strip "https://kick.com/bar" <> strip " https://kick.com/foo ") /\
  (KickMinerApp._consume_force_channel_switch
     (KickMinerApp._request_force_channel_switch (sample_app [] [] [] None)
        " https://kick.com/foo ") " https://kick.com/foo ").2 = true.
Proof.
  assert (Hurl : strip " https://kick.com/foo " <> "") by discriminate.
  assert (Hother : strip "https://kick.com/bar" <> strip " https://kick.com/foo ")
    by discriminate.
  split; [done|].
  exact (proj1 (force_switch_request_one_shot (sample_app [] [] [] None)
                  " https://kick.com/foo " "https://kick.com/bar" Hurl Hother)).
Defined.

(** ** The handlers of the message consumer *)

Section Handlers.
Context `{PyRuntime}.

Lemma same_items_refl (app : KickMinerApp.t) : same_items app app.
Proof. split_and!; [done..|]. intros l item Hl. exists item. split_and!; [done..|lia]. Qed.

Lemma same_items_trans (a b c : KickMinerApp.t) :
  same_items a b -> same_items b c -> same_items a c.
Proof.
  intros (Hq1 & Hlen1 & Hk1) (Hq2 & Hlen2 & Hk2). split_and!.
  - by rewrite Hq2.
  - by rewrite Hlen2.
  - intros l item Hl.
    destruct (Hk1 _ _ Hl) as (item1 & Hl1 & Hu1 & Ht1 & He1).
    destruct (Hk2 _ _ Hl1) as (item2 & Hl2 & Hu2 & Ht2 & He2).
    exists item2. split_and!; [done|congruence|congruence|lia].
Qed.

(** Writing back an object with its URL and target, and no less watch
    time. *)
Lemma same_items_store (app : KickMinerApp.t) (l : loc) (item item' : QueueItem.t) :
  KickMinerApp.heap app !! l = Some item ->
  QueueItem.url item' = QueueItem.url item ->
  QueueItem.minutes_target item' = QueueItem.minutes_target item ->
  QueueItem.elapsed_seconds item <= QueueItem.elapsed_seconds item' ->
  same_items app
    (KickMinerApp.with_queue app (<[l := item']> (KickMinerApp.heap app))
       (KickMinerApp.queue_items app)).
Proof.
  intros Hl Hu Ht He. split_and!; simpl; [done|by rewrite length_insert|].
  intros l0 item0 Hl0. destruct (decide (l0 = l)) as [->|Hne].
  - exists item'. rewrite list_lookup_insert_eq by (by eapply lookup_lt_Some).
    replace item0 with item by congruence. done.
  - exists item0. rewrite list_lookup_insert_ne by done. split_and!; [done..|lia].
Qed.

Lemma apply_changes_keeps (item : QueueItem.t) (changes : KickMinerApp.Changes) :
  QueueItem.url (KickMinerApp.apply_changes item changes) = QueueItem.url item /\
  QueueItem.minutes_target (KickMinerApp.apply_changes item changes) =
    QueueItem.minutes_target item /\
  QueueItem.elapsed_seconds (KickMinerApp.apply_changes item changes) =
    QueueItem.elapsed_seconds item.
Proof.
  unfold KickMinerApp.apply_changes.
  by destruct (KickMinerApp.ch_status changes), (KickMinerApp.ch_notes changes).
Qed.

(** What the redraw marks keeps its place, its URL, its target and its
    watch time. *)
Lemma marks_same_items (a b : KickMinerApp.t) :
  KickMinerApp.queue_items b ≡ₚ KickMinerApp.queue_items a ->
  marks_only (KickMinerApp.heap a) (KickMinerApp.heap b) ->
  same_items a b.
Proof.
  intros Hq [Hlen Hmark]. split_and!; [done..|].
  intros l item Hl. destruct (Hmark _ _ Hl) as (status & Hl' & _).
  eexists. split; [exact Hl'|]. simpl. split_and!; [done..|lia].
Qed.

Lemma refresh_queue_tree_same_items (w : World) (app : KickMinerApp.t) :
  same_items app (KickMinerApp._refresh_queue_tree w app).
Proof.
  apply marks_same_items; [|apply refresh_queue_tree_marks].
  by rewrite refresh_queue_tree_queue.
Qed.

(** The status the redraw of [app] leaves on an item. *)
Lemma refreshed_status (w : World) (app : KickMinerApp.t) (item : QueueItem.t) :
  refreshed w app item =
    QueueItem.with_status item
      (if KickMinerApp._is_progress_campaign_finished (item_progress (lookups_for app) item)
       then "FINISHED"
       else if KickMinerApp._is_campaign_expired w (item_campaign (lookups_for app) item)
            then "EXPIRED"
            else QueueItem.status item).
Proof. unfold refreshed. by rewrite refresh_item_status. Qed.

(** The object written at a queued address, after the redraw that
    follows. *)
Lemma refresh_after_store (w : World) (app app' : KickMinerApp.t) (l : loc)
    (item item' : QueueItem.t) :
  KickMinerApp.heap app !! l = Some item ->
  l ∈ KickMinerApp.queue_items app ->
  KickMinerApp.heap app' = <[l := item']> (KickMinerApp.heap app) ->
  KickMinerApp.queue_items app' = KickMinerApp.queue_items app ->
  KickMinerApp.campaigns app' = KickMinerApp.campaigns app ->
  KickMinerApp.progress app' = KickMinerApp.progress app ->
  KickMinerApp.heap (KickMinerApp._refresh_queue_tree w app') !! l =
    Some (refreshed w app item').
Proof.
  intros Hl Hin Hh Hq Hc Hp.
  rewrite (proj2 (refresh_queue_tree_heap w app') l), Hq, decide_True by done.
  rewrite Hh, list_lookup_insert_eq by (by eapply lookup_lt_Some). simpl.
  f_equal. by apply refreshed_same_data.
Qed.

Lemma ui_update_item_same_items (w : World) (app : KickMinerApp.t) (url : string)
    (changes : KickMinerApp.Changes) :
  same_items app (KickMinerApp._ui_update_item w app url changes).
Proof.
  destruct (KickMinerApp._find_item_by_url app url) as [l|] eqn:Hfind;
    [|unfold KickMinerApp._ui_update_item; rewrite Hfind; apply same_items_refl].
  destruct (KickMinerApp.heap app !! l) as [item|] eqn:Hl;
    [|unfold KickMinerApp._ui_update_item; rewrite Hfind, Hl; apply same_items_refl].
  destruct (ui_update_item_found w app url changes l item Hfind Hl)
    as (pre & -> & Hheap & Hqueue & _).
  eapply same_items_trans; [|apply refresh_queue_tree_same_items].
  destruct (apply_changes_keeps item changes) as (Hu & Ht & He).
  set (item' := if _ && _ then _ else _) in Hheap.
  assert (Hstore : same_items app
                     (KickMinerApp.with_queue app (<[l := item']> (KickMinerApp.heap app))
                        (KickMinerApp.queue_items app))).
  { apply (same_items_store app l item); [done|..]; subst item';
      destruct (_ && _); simpl; rewrite ?Hu, ?Ht, ?He; done || lia. }
  destruct Hstore as (Hq & Hlen & Hkeep). unfold same_items.
  rewrite Hheap, Hqueue. done.
Qed.

Lemma ui_increment_elapsed_same_items (w : World) (app : KickMinerApp.t) (url : string)
    (seconds : Z) :
  same_items app (KickMinerApp._ui_increment_elapsed w app url seconds).
Proof.
  unfold KickMinerApp._ui_increment_elapsed.
  destruct (KickMinerApp._find_item_by_url app url) as [l|]; [|apply same_items_refl].
  destruct (KickMinerApp.heap app !! l) as [item|] eqn:Hl; [|apply same_items_refl].
  eapply same_items_trans; [|apply refresh_queue_tree_same_items].
  apply (same_items_store app l item); [done|..];
    destruct (QueueItem.done _); simpl; done || lia.
Qed.

Lemma ui_rotate_item_marks (w : World) (app : KickMinerApp.t) (url : string) :
  marks_only (KickMinerApp.heap app)
    (KickMinerApp.heap (KickMinerApp._ui_rotate_item w app url)).
Proof.
  destruct (ui_rotate_item_queue w app url) as ([-> | ->] & _ & _);
    [apply marks_only_refl|apply refresh_queue_tree_marks].
Qed.
End Handlers.

(** X2.  [_ui_rotate_item] reorders the queue and redraws it: the queue
    afterwards holds the addresses it held, with the item found by the URL
    last and the other items in their order; no object is changed except
    that the redraw may have set a status to [EXPIRED] or [FINISHED]. *)
Theorem ui_rotate_item_reorders `{PyRuntime} (w : World) (app : KickMinerApp.t)
    (url : string) :
  marks_only (KickMinerApp.heap app)
    (KickMinerApp.heap (KickMinerApp._ui_rotate_item w app url)) /\
  KickMinerApp.queue_items (KickMinerApp._ui_rotate_item w app url) ≡ₚ
    KickMinerApp.queue_items app /\
  forall l, KickMinerApp._find_item_by_url app url = Some l ->
    last (KickMinerApp.queue_items (KickMinerApp._ui_rotate_item w app url)) = Some l /\
    filter (fun x => x <> l)
      (KickMinerApp.queue_items (KickMinerApp._ui_rotate_item w app url)) =
    filter (fun x => x <> l) (KickMinerApp.queue_items app).
Proof.
  destruct (ui_rotate_item_queue w app url) as (_ & Hperm & Hrest).
  split; [apply ui_rotate_item_marks|]. split; [done|]. intros l Hl.
  split; [|by apply Hrest]. by apply ui_rotate_item_last.
Qed.

(** X3.  [_ui_increment_elapsed] credits at least one second, whatever the
    amount posted: the first item with the URL gains [max(1, seconds)] and
    keeps its URL and target; the queue order stays.  Its status after
    the redraw that ends the handler is [FINISHED] when its progress
    campaign is fully claimed, else [EXPIRED] when its campaign is
    expired, else [FINISHED] when the watch time reaches the target, and
    the status it had otherwise. *)
Theorem ui_increment_elapsed_credits `{PyRuntime} (w : World) (app : KickMinerApp.t)
    (url : string) (seconds : Z) (l : loc) (item : QueueItem.t) :
  KickMinerApp._find_item_by_url app url = Some l ->
  KickMinerApp.heap app !! l = Some item ->
  exists item',
    KickMinerApp.heap (KickMinerApp._ui_increment_elapsed w app url seconds) !! l
      = Some item' /\
    QueueItem.elapsed_seconds item' = QueueItem.elapsed_seconds item + Z.max 1 seconds /\
    QueueItem.elapsed_seconds item < QueueItem.elapsed_seconds item' /\
    QueueItem.url item' = QueueItem.url item /\
    QueueItem.minutes_target item' = QueueItem.minutes_target item /\
    QueueItem.status item' =
      (if KickMinerApp._is_progress_campaign_finished (item_progress (lookups_for app) item)
       then "FINISHED"
       else if KickMinerApp._is_campaign_expired w (item_campaign (lookups_for app) item)
            then "EXPIRED"
            else if QueueItem.done item' then "FINISHED" else QueueItem.status item) /\
    KickMinerApp.queue_items (KickMinerApp._ui_increment_elapsed w app url seconds) =
      KickMinerApp.queue_items app.
Proof.
  intros Hfind Hl. unfold KickMinerApp._ui_increment_elapsed. rewrite Hfind, Hl.
  set (bumped := QueueItem.with_elapsed_seconds item _).
  set (item1 := if QueueItem.done bumped then _ else bumped).
  assert (Hin : l ∈ KickMinerApp.queue_items app) by (by eapply find_loc_by_url_elem).
  exists (refreshed w app item1). split.
  { by apply (refresh_after_store w app _ l item item1). }
  rewrite refreshed_status.
  assert (H1 : QueueItem.elapsed_seconds item1 =
               QueueItem.elapsed_seconds item + Z.max 1 seconds /\
               QueueItem.url item1 = QueueItem.url item /\
               QueueItem.minutes_target item1 = QueueItem.minutes_target item /\
               QueueItem.campaign_id item1 = QueueItem.campaign_id item /\
               QueueItem.campaign_name item1 = QueueItem.campaign_name item /\
               QueueItem.status item1 =
                 (if QueueItem.done bumped then "FINISHED" else QueueItem.status item)).
  { subst item1. by destruct (QueueItem.done bumped). }
  destruct H1 as (He & Hu & Ht & Hci & Hcn & Hs).
  assert (Hdone : forall s, QueueItem.done (QueueItem.with_status item1 s) =
                            QueueItem.done bumped).
  { intros s. unfold QueueItem.done. simpl. by rewrite Ht, He. }
  assert (Hprog : item_progress (lookups_for app) item1 = item_progress (lookups_for app) item).
  { unfold item_progress, KickMinerApp._resolve_item_progress_campaign.
    by rewrite Hci, Hcn. }
  assert (Hcamp : item_campaign (lookups_for app) item1 = item_campaign (lookups_for app) item).
  { unfold item_campaign, KickMinerApp._resolve_queue_item_campaign.
    by rewrite Hci, Hcn. }
  rewrite Hdone, Hprog, Hcamp, refresh_queue_tree_queue. simpl.
  split_and!; [done|lia|done|done| |done].
  by rewrite Hs.
Qed.

Lemma ui_increment_elapsed_credits_witness :
  (KickMinerApp._find_item_by_url (sample_app [watched_item 1 0] [0%nat] [] None)
     "https://kick.com/foo" = Some 0%nat /\
   KickMinerApp.heap (sample_app [watched_item 1 0] [0%nat] [] None) !! 0%nat =
     Some (watched_item 1 0)) /\
  exists item',
    KickMinerApp.heap
      (@KickMinerApp._ui_increment_elapsed ascii_runtime (offline_world 0)
         (sample_app [watched_item 1 0] [0%nat] [] None) "https://kick.com/foo" (-5))
      !! 0%nat = Some item' /\
    QueueItem.elapsed_seconds item' = 1.
Proof.
  split; [by vm_compute|].
  destruct (@ui_increment_elapsed_credits ascii_runtime (offline_world 0)
              (sample_app [watched_item 1 0] [0%nat] [] None) "https://kick.com/foo" (-5)
              0%nat (watched_item 1 0) eq_refl eq_refl)
    as (item' & Hl & He & _).
  exists item'. split; [exact Hl|]. rewrite He. done.
Defined.

(** X4.  Whatever changes [_ui_update_item] is given, it leaves the item it
    finds with a final status when its target is reached: an update
    posted late cannot bring a completed item back to [LIVE] or [RETRY].
    After the redraw that ends the handler the status is [FINISHED] when
    the progress campaign of the item is fully claimed, else [EXPIRED]
    when its campaign is expired, else [FINISHED] when the target is
    reached, and the status posted (the old one when none is posted)
    otherwise.  The URL, the target and the watch time are not
    changed. *)
Theorem ui_update_item_keeps_finished `{PyRuntime} (w : World) (app : KickMinerApp.t)
    (url : string) (changes : KickMinerApp.Changes) (l : loc) (item : QueueItem.t) :
  KickMinerApp._find_item_by_url app url = Some l ->
  KickMinerApp.heap app !! l = Some item ->
  exists item',
    KickMinerApp.heap (KickMinerApp._ui_update_item w app url changes) !! l = Some item' /\
    (QueueItem.done item = true ->
     KickMinerApp.is_final_status (QueueItem.status item') = true) /\
    QueueItem.status item' =
      (if KickMinerApp._is_progress_campaign_finished (item_progress (lookups_for app) item)
       then "FINISHED"
       else if KickMinerApp._is_campaign_expired w (item_campaign (lookups_for app) item)
            then "EXPIRED"
            else if QueueItem.done item then "FINISHED"
                 else default (QueueItem.status item) (KickMinerApp.ch_status changes)) /\
    QueueItem.url item' = QueueItem.url item /\
    QueueItem.minutes_target item' = QueueItem.minutes_target item /\
    QueueItem.elapsed_seconds item' = QueueItem.elapsed_seconds item.
Proof.
  intros Hfind Hl.
  destruct (ui_update_item_found w app url changes l item Hfind Hl)
    as (pre & -> & Hheap & Hqueue & Hcs & Hps & _).
  set (item1 := if _ && _ then _ else _) in Hheap.
  assert (Hin : l ∈ KickMinerApp.queue_items app) by (by eapply find_loc_by_url_elem).
  exists (refreshed w app item1). split.
  { by apply (refresh_after_store w app pre l item item1). }
  destruct (apply_changes_keeps item changes) as (Hu & Ht & He).
  assert (Hdone : QueueItem.done (KickMinerApp.apply_changes item changes) =
                  QueueItem.done item).
  { unfold QueueItem.done. by rewrite Ht, He. }
  assert (Hst : QueueItem.status (KickMinerApp.apply_changes item changes) =
                default (QueueItem.status item) (KickMinerApp.ch_status changes)).
  { unfold KickMinerApp.apply_changes.
    by destruct (KickMinerApp.ch_status changes), (KickMinerApp.ch_notes changes). }
  assert (Hlink : QueueItem.campaign_id (KickMinerApp.apply_changes item changes) =
                    QueueItem.campaign_id item /\
                  QueueItem.campaign_name (KickMinerApp.apply_changes item changes) =
                    QueueItem.campaign_name item).
  { unfold KickMinerApp.apply_changes.
    by destruct (KickMinerApp.ch_status changes), (KickMinerApp.ch_notes changes). }
  destruct Hlink as [Hci Hcn].
  assert (H1 : QueueItem.url item1 = QueueItem.url item /\
               QueueItem.minutes_target item1 = QueueItem.minutes_target item /\
               QueueItem.elapsed_seconds item1 = QueueItem.elapsed_seconds item /\
               QueueItem.campaign_id item1 = QueueItem.campaign_id item /\
               QueueItem.campaign_name item1 = QueueItem.campaign_name item /\
               QueueItem.status item1 =
                 (if QueueItem.done item then "FINISHED"
                  else default (QueueItem.status item) (KickMinerApp.ch_status changes))).
  { subst item1. rewrite Hdone.
    destruct (QueueItem.done item); simpl; [|done].
    destruct (String.eqb_spec (QueueItem.status (KickMinerApp.apply_changes item changes))
                "FINISHED") as [Hfin|Hnot]; simpl; done. }
  destruct H1 as (Hu1 & Ht1 & He1 & Hci1 & Hcn1 & Hs1).
  assert (Hprog : item_progress (lookups_for app) item1 = item_progress (lookups_for app) item).
  { unfold item_progress, KickMinerApp._resolve_item_progress_campaign.
    by rewrite Hci1, Hcn1. }
  assert (Hcamp : item_campaign (lookups_for app) item1 = item_campaign (lookups_for app) item).
  { unfold item_campaign, KickMinerApp._resolve_queue_item_campaign.
    by rewrite Hci1, Hcn1. }
  rewrite refreshed_status, Hprog, Hcamp, Hs1. simpl.
  split_and!; [|done..].
  intros ->. by repeat case_match.
Qed.

Lemma ui_update_item_keeps_finished_witness :
  (KickMinerApp._find_item_by_url (sample_app [watched_item 1 60] [0%nat] [] None)
     "https://kick.com/foo" = Some 0%nat /\
   KickMinerApp.heap (sample_app [watched_item 1 60] [0%nat] [] None) !! 0%nat =
     Some (watched_item 1 60)) /\
  exists item',
    KickMinerApp.heap
      (@KickMinerApp._ui_update_item ascii_runtime (offline_world 0)
         (sample_app [watched_item 1 60] [0%nat] [] None) "https://kick.com/foo"
         (QueueWorker.changes "LIVE" "viewers=3"))
      !! 0%nat = Some item' /\
    KickMinerApp.is_final_status (QueueItem.status item') = true.
Proof.
  split; [by vm_compute|].
  destruct (@ui_update_item_keeps_finished ascii_runtime (offline_world 0)
              (sample_app [watched_item 1 60] [0%nat] [] None) "https://kick.com/foo"
              (QueueWorker.changes "LIVE" "viewers=3") 0%nat (watched_item 1 60)
              eq_refl eq_refl)
    as (item' & Hl & Hfin & _).
  exists item'. split; [exact Hl|]. by apply Hfin.
Defined.

(** X5.  However many messages the worker has posted, applying them never
    adds, drops or re-addresses a queue item, never changes an item's URL
    or target, and never takes watch time away. *)
Theorem pump_ui_queue_same_items `{PyRuntime} (w : World) (app : KickMinerApp.t)
    (msgs : list UiQueue.Msg) :
  same_items app (UiQueue._pump_ui_queue w app msgs).
Proof.
  unfold UiQueue._pump_ui_queue. revert app.
  induction msgs as [|m msgs IH]; intros app; simpl; [apply same_items_refl|].
  eapply same_items_trans; [|apply IH].
  destruct m; simpl; try apply same_items_refl.
  - apply refresh_queue_tree_same_items.
  - apply ui_update_item_same_items.
  - apply ui_increment_elapsed_same_items.
  - destruct (save_config_queue app) as (Hh & Hq & _).
    unfold KickMinerApp._ui_save_config, same_items. rewrite Hh, Hq.
    apply same_items_refl.
  - apply marks_same_items; [|apply ui_rotate_item_marks].
    by destruct (ui_rotate_item_queue w app url) as (_ & Hperm & _).
  - split_and!; [done..|]. intros l item Hl. exists item. split_and!; [done..|lia].
Qed.

(** ** Expiry and the liveness cache *)

(** X6.  Expiry only grows with the clock: a campaign that is expired at
    one instant is expired at every later one. *)
Theorem campaign_expired_stays_expired `{PyRuntime} (w w' : World)
    (campaign : option KickCampaign.t) :
  now w <= now w' ->
  KickMinerApp._is_campaign_expired w campaign = true ->
  KickMinerApp._is_campaign_expired w' campaign = true.
Proof.
  intros Hclock. unfold KickMinerApp._is_campaign_expired.
  destruct campaign as [c|]; [|done].
  destruct (existsb _ _); [done|].
  destruct (KickMinerApp._parse_kick_datetime (KickCampaign.ends_at c)) as [ends_at|];
    [|done].
  intros Hle%Z.leb_le. apply Z.leb_le. lia.
Qed.

Lemma campaign_expired_stays_expired_witness :
  (now (live_world 1700000000) <= now (live_world 1800000000) /\
   @KickMinerApp._is_campaign_expired ascii_runtime (live_world 1700000000)
     (Some (ending_campaign "c1" "2023-01-01T00:00:00Z")) = true) /\
  @KickMinerApp._is_campaign_expired ascii_runtime (live_world 1800000000)
    (Some (ending_campaign "c1" "2023-01-01T00:00:00Z")) = true.
Proof.
  assert (Hclock : now (live_world 1700000000) <= now (live_world 1800000000))
    by (simpl; lia).
  assert (Hexp : @KickMinerApp._is_campaign_expired ascii_runtime (live_world 1700000000)
                   (Some (ending_campaign "c1" "2023-01-01T00:00:00Z")) = true)
    by (by vm_compute).
  split; [done|].
  exact (@campaign_expired_stays_expired ascii_runtime _ _ _ Hclock Hexp).
Defined.

(** X7.  A successful network lookup is remembered: for as long as the
    entry is within the age limit, every later lookup of the slug returns
    the pair that lookup returned and leaves the cache alone, with or
    without the network and whatever the remote service would answer
    then. *)
Theorem live_snapshot_remembered (w w' : World)
    (cache : gmap string (option bool * Z * Z)) (slug : string) (max_age_seconds : Z)
    (use_network : bool) (info : LiveInfo) :
  KickMinerApp.is_fresh w (cache !! slug) max_age_seconds = false ->
  channel_live_status w slug = Ok info ->
  now w' - now w <= max_age_seconds ->
  (KickMinerApp._get_channel_live_snapshot w cache slug max_age_seconds true).1 =
    (Some (live info), viewer_count info) /\
  KickMinerApp._get_channel_live_snapshot w'
    (KickMinerApp._get_channel_live_snapshot w cache slug max_age_seconds true).2
    slug max_age_seconds use_network =
  ((Some (live info), viewer_count info),
   (KickMinerApp._get_channel_live_snapshot w cache slug max_age_seconds true).2).
Proof.
  intros Hstale Hq Hage.
  unfold KickMinerApp._get_channel_live_snapshot at 1 3 4. rewrite Hstale, Hq. simpl.
  split; [done|].
  unfold KickMinerApp._get_channel_live_snapshot. rewrite lookup_insert_eq. simpl.
  by replace (now w' - now w <=? max_age_seconds) with true
    by (symmetry; apply Z.leb_le; lia).
Qed.

Lemma live_snapshot_remembered_witness :
  (KickMinerApp.is_fresh (mixed_world 100) ((∅ : gmap string (option bool * Z * Z)) !! "foo")
     45 = false /\
   channel_live_status (mixed_world 100) "foo" =
     Ok {| live := true; viewer_count := 5; live_category_id := None |} /\
   now (offline_world 130) - now (mixed_world 100) <= 45) /\
  (KickMinerApp._get_channel_live_snapshot (offline_world 130)
     (KickMinerApp._get_channel_live_snapshot (mixed_world 100) ∅ "foo" 45 true).2
     "foo" 45 true).1 = (Some true, 5).
Proof.
  assert (Hage : now (offline_world 130) - now (mixed_world 100) <= 45) by (simpl; lia).
  assert (Hstale : KickMinerApp.is_fresh (mixed_world 100)
                     ((∅ : gmap string (option bool * Z * Z)) !! "foo") 45 = false)
    by (by rewrite lookup_empty).
  split; [by split_and!|].
  destruct (live_snapshot_remembered (mixed_world 100) (offline_world 130) ∅ "foo" 45 true
              {| live := true; viewer_count := 5; live_category_id := None |}
              Hstale eq_refl Hage) as [_ Hagain].
  by rewrite Hagain.
Defined.

(** ** Choosing a channel of a campaign *)

Section Pick.

Lemma live_snapshot_stable_any (w : World) (cache : gmap string (option bool * Z * Z))
    (use_network : bool) (s s' : string) :
  (KickMinerApp._get_channel_live_snapshot w
     (KickMinerApp._get_channel_live_snapshot w cache s 45 use_network).2 s' 45
     use_network).1 =
  (KickMinerApp._get_channel_live_snapshot w cache s' 45 use_network).1.
Proof.
  destruct use_network; [apply live_snapshot_stable|].
  unfold KickMinerApp._get_channel_live_snapshot at 2.
  by destruct (KickMinerApp.is_fresh w (cache !! s) 45).
Qed.

Lemma pick_step_inv (w : World) (cache : gmap string (option bool * Z * Z))
    (use_network : bool) (past : list KickChannel.t) (st : KickMinerApp.PickState)
    (channel : KickChannel.t) :
  pick_inv w cache use_network past st ->
  pick_inv w cache use_network (past ++ [channel])
    (KickMinerApp.pick_step w use_network st channel).
Proof.
  intros (Hcache & Hfb & Hbest & Hlow).
  unfold KickMinerApp.pick_step.
  pose proof (Hcache (KickChannel.slug channel)) as Hsnap.
  pose proof (live_snapshot_stable_any w (KickMinerApp.p_cache st) use_network
                (KickChannel.slug channel)) as Hstable.
  fold (snapshot_of w cache use_network channel) in Hsnap.
  destruct (KickMinerApp._get_channel_live_snapshot w (KickMinerApp.p_cache st)
              (KickChannel.slug channel) 45 use_network) as [[live viewers] cache'].
  simpl in Hsnap, Hstable.
  assert (Hin : forall c, c ∈ past -> c ∈ (past ++ [channel])%list)
    by (intros c Hc; apply elem_of_app; by left).
  assert (Hlast : channel ∈ (past ++ [channel])%list)
    by (apply elem_of_app; right; by left).
  assert (Hcases : forall c' (P : KickChannel.t -> Prop),
            (forall c, c ∈ past -> P c) -> P channel -> c' ∈ (past ++ [channel])%list -> P c').
  { intros c' P Hpast Hch [Hc|Hc%list_elem_of_singleton]%elem_of_app; [by apply Hpast|].
    by subst. }
  split_and!; simpl.
  - intros s. rewrite Hstable. apply Hcache.
  - destruct (KickMinerApp.fallback st) as [fb|].
    + destruct Hfb as (Hfbin & Hfbv & Hfbmax).
      destruct (Z.ltb_spec (KickMinerApp.fallback_viewers st) viewers) as [Hlt|Hge].
      * split; [done|]. split; [by rewrite <- Hsnap|].
        intros c'. apply (Hcases c' (fun c => (snapshot_of w cache use_network c).2 <= viewers)).
        -- intros c Hc. specialize (Hfbmax c Hc). lia.
        -- rewrite <- Hsnap. simpl. lia.
      * split; [by apply Hin|]. split; [done|].
        intros c'. apply (Hcases c' (fun c => (snapshot_of w cache use_network c).2 <=
                                              KickMinerApp.fallback_viewers st)); [done|].
        rewrite <- Hsnap. simpl. lia.
    + subst past. split; [done|]. split; [by rewrite <- Hsnap|].
      intros c' ->%list_elem_of_singleton. rewrite <- Hsnap. simpl. lia.
  - assert (Hkeep : forall bound,
              (forall c', c' ∈ past -> (snapshot_of w cache use_network c').1 = Some true ->
                 (snapshot_of w cache use_network c').2 <= bound) ->
              (live = Some true -> viewers <= bound) ->
              forall c', c' ∈ (past ++ [channel])%list ->
                (snapshot_of w cache use_network c').1 = Some true ->
                (snapshot_of w cache use_network c').2 <= bound).
    { intros bound Hpast Hch c'.
      apply (Hcases c' (fun c => (snapshot_of w cache use_network c).1 = Some true ->
                                 (snapshot_of w cache use_network c).2 <= bound)); [done|].
      rewrite <- Hsnap. simpl. done. }
    destruct live as [[|]|].
    + destruct (Z.leb_spec (KickMinerApp.best_live_viewers st) viewers) as [Hle|Hgt].
      * split; [done|]. split; [by rewrite <- Hsnap|].
        apply Hkeep; [|lia].
        destruct (KickMinerApp.best_live st) as [b|].
        -- destruct Hbest as (_ & _ & Hmax). intros c' Hc' Hlive.
           specialize (Hmax c' Hc' Hlive). lia.
        -- destruct Hbest as [_ Hbest].
           intros c' Hc' Hlive. specialize (Hbest c' Hc' Hlive). lia.
      * destruct (KickMinerApp.best_live st) as [b|].
        -- destruct Hbest as (Hbin & Hbv & Hmax). split; [by apply Hin|]. split; [done|].
           apply Hkeep; [done|lia].
        -- destruct Hbest as [Hm1 Hbest]. split; [done|]. intros c'.
           apply (Hcases c' (fun c => (snapshot_of w cache use_network c).1 = Some true ->
                                      (snapshot_of w cache use_network c).2 < -1)); [done|].
           rewrite <- Hsnap. simpl. lia.
    + destruct (KickMinerApp.best_live st) as [b|].
      * destruct Hbest as (Hbin & Hbv & Hmax). split; [by apply Hin|]. split; [done|].
        by apply Hkeep.
      * destruct Hbest as [Hm1 Hbest]. split; [done|]. intros c'.
        apply (Hcases c' (fun c => (snapshot_of w cache use_network c).1 = Some true ->
                                   (snapshot_of w cache use_network c).2 < -1)); [done|].
        by rewrite <- Hsnap.
    + destruct (KickMinerApp.best_live st) as [b|].
      * destruct Hbest as (Hbin & Hbv & Hmax). split; [by apply Hin|]. split; [done|].
        by apply Hkeep.
      * destruct Hbest as [Hm1 Hbest]. split; [done|]. intros c'.
        apply (Hcases c' (fun c => (snapshot_of w cache use_network c).1 = Some true ->
                                   (snapshot_of w cache use_network c).2 < -1)); [done|].
        by rewrite <- Hsnap.
  - destruct live as [[|]|]; try done.
    destruct (Z.leb_spec (KickMinerApp.best_live_viewers st) viewers); lia.
Qed.

Lemma pick_loop_inv (w : World) (cache : gmap string (option bool * Z * Z))
    (use_network : bool) (channels : list KickChannel.t) :
  pick_inv w cache use_network channels
    (foldl (KickMinerApp.pick_step w use_network)
       {| KickMinerApp.p_cache := cache; KickMinerApp.best_live := None;
          KickMinerApp.best_live_viewers := -1; KickMinerApp.fallback := None;
          KickMinerApp.fallback_viewers := -1 |} channels).
Proof.
  apply (foldl_invariant _ (pick_inv w cache use_network)).
  - split_and!; simpl; [done|done| |lia]. split; [done|]. by intros c' ?%elem_of_nil.
  - intros past x rest st _ Hst. by apply pick_step_inv.
Qed.

Lemma pick_preferred_channel_cases (w : World) (cache : gmap string (option bool * Z * Z))
    (campaign : KickCampaign.t) (use_network : bool) :
  KickCampaign.channels campaign <> [] ->
  exists c is_live,
    (KickMinerApp._pick_preferred_channel_for_campaign w cache campaign use_network).1 =
      (Some c, is_live, Z.max 0 (snapshot_of w cache use_network c).2) /\
    c ∈ KickCampaign.channels campaign /\
    (is_live = true ->
     (snapshot_of w cache use_network c).1 = Some true /\
     forall c', c' ∈ KickCampaign.channels campaign ->
       (snapshot_of w cache use_network c').1 = Some true ->
       (snapshot_of w cache use_network c').2 <= (snapshot_of w cache use_network c).2) /\
    (is_live = false ->
     (forall c', c' ∈ KickCampaign.channels campaign ->
        (snapshot_of w cache use_network c').1 = Some true ->
        (snapshot_of w cache use_network c').2 < -1) /\
     forall c', c' ∈ KickCampaign.channels campaign ->
       (snapshot_of w cache use_network c').2 <= (snapshot_of w cache use_network c).2).
Proof.
  intros Hne. unfold KickMinerApp._pick_preferred_channel_for_campaign.
  pose proof (pick_loop_inv w cache use_network (KickCampaign.channels campaign))
    as (_ & Hfb & Hbest & _).
  destruct (KickCampaign.channels campaign) as [|c0 cs] eqn:Hcs; [done|].
  rewrite <- Hcs in *. clear Hne.
  destruct (KickMinerApp.best_live _) as [b|].
  - destruct Hbest as (Hbin & Hbv & Hmax). exists b, true. rewrite Hbv. simpl.
    split; [done|]. split; [done|]. split; [|done]. intros _. split; [done|]. exact Hmax.
  - destruct (KickMinerApp.fallback _) as [fb|].
    + destruct Hfb as (Hfin & Hfv & Hmax). exists fb, false. rewrite Hfv. simpl.
      split; [done|]. split; [done|]. split; [done|]. intros _.
      split; [exact (proj2 Hbest)|exact Hmax].
    + by rewrite Hfb in Hcs.
Qed.
End Pick.

(** X8.  From a campaign with channels, [_pick_preferred_channel_for_campaign]
    returns one of its channels and that channel's viewer count (a negative
    one as 0).  When it reports the channel live, the channel's snapshot is
    live and no live channel of the campaign has more viewers; when it does
    not, no channel's snapshot is live (with a count of -1 or more) and no
    channel has more viewers than the one returned. *)
Theorem pick_preferred_channel_best (w : World) (cache : gmap string (option bool * Z * Z))
    (campaign : KickCampaign.t) (use_network : bool) :
  KickCampaign.channels campaign <> [] ->
  exists c is_live,
    (KickMinerApp._pick_preferred_channel_for_campaign w cache campaign use_network).1 =
      (Some c, is_live, Z.max 0 (snapshot_of w cache use_network c).2) /\
    c ∈ KickCampaign.channels campaign /\
    (is_live = true ->
     (snapshot_of w cache use_network c).1 = Some true /\
     forall c', c' ∈ KickCampaign.channels campaign ->
       (snapshot_of w cache use_network c').1 = Some true ->
       (snapshot_of w cache use_network c').2 <= (snapshot_of w cache use_network c).2) /\
    (is_live = false ->
     (forall c', c' ∈ KickCampaign.channels campaign ->
        (snapshot_of w cache use_network c').1 = Some true ->
        (snapshot_of w cache use_network c').2 < -1) /\
     forall c', c' ∈ KickCampaign.channels campaign ->
       (snapshot_of w cache use_network c').2 <= (snapshot_of w cache use_network c).2).
Proof. apply pick_preferred_channel_cases. Qed.

Lemma pick_preferred_channel_best_witness :
  KickCampaign.channels two_channel_campaign <> [] /\
  exists c is_live,
    (KickMinerApp._pick_preferred_channel_for_campaign (mixed_world 0) ∅
       two_channel_campaign true).1 =
      (Some c, is_live, Z.max 0 (snapshot_of (mixed_world 0) ∅ true c).2) /\
    c ∈ KickCampaign.channels two_channel_campaign.
Proof.
  assert (Hne : KickCampaign.channels two_channel_campaign <> []) by discriminate.
  split; [done|].
  destruct (pick_preferred_channel_best (mixed_world 0) ∅ two_channel_campaign true Hne)
    as (c & is_live & Hpick & Hin & _).
  by exists c, is_live.
Defined.

(** X9.  [_set_item_channel_for_campaign] never touches the target, the
    watch time or the status of the item.  With a campaign that has
    channels, the item afterwards points at the URL of one of them and is
    linked to the campaign; with no campaign, or one without channels, the
    item and the cache are returned as they were, with [(False, 0)]. *)
Theorem set_item_channel_keeps_progress (w : World)
    (cache : gmap string (option bool * Z * Z)) (item : QueueItem.t)
    (campaign : option KickCampaign.t) (use_network : bool) :
  QueueItem.minutes_target
    (KickMinerApp._set_item_channel_for_campaign w cache item campaign use_network).1.2 =
    QueueItem.minutes_target item /\
  QueueItem.elapsed_seconds
    (KickMinerApp._set_item_channel_for_campaign w cache item campaign use_network).1.2 =
    QueueItem.elapsed_seconds item /\
  QueueItem.status
    (KickMinerApp._set_item_channel_for_campaign w cache item campaign use_network).1.2 =
    QueueItem.status item /\
  (forall c, campaign = Some c -> KickCampaign.channels c <> [] ->
     (exists channel, channel ∈ KickCampaign.channels c /\
        QueueItem.url
          (KickMinerApp._set_item_channel_for_campaign w cache item campaign use_network).1.2 =
        KickChannel.url channel) /\
     QueueItem.campaign_id
       (KickMinerApp._set_item_channel_for_campaign w cache item campaign use_network).1.2 =
       Some (KickCampaign.id c) /\
     QueueItem.campaign_name
       (KickMinerApp._set_item_channel_for_campaign w cache item campaign use_network).1.2 =
       Some (KickCampaign.name c) /\
     QueueItem.category_id
       (KickMinerApp._set_item_channel_for_campaign w cache item campaign use_network).1.2 =
       KickCampaign.category_id c) /\
  ((campaign = None \/ exists c, campaign = Some c /\ KickCampaign.channels c = []) ->
   KickMinerApp._set_item_channel_for_campaign w cache item campaign use_network =
   ((false, 0), item, cache)).
Proof.
  unfold KickMinerApp._set_item_channel_for_campaign.
  destruct campaign as [c|].
  2: { by split_and!. }
  destruct (KickCampaign.channels c) as [|c0 cs] eqn:Hcs.
  { unfold KickMinerApp._pick_preferred_channel_for_campaign. rewrite Hcs. simpl.
    split_and!; try done. intros c' [= <-]. by rewrite Hcs. }
  destruct (pick_preferred_channel_cases w cache c use_network) as
    (ch & is_live & Hpick & Hin & _); [by rewrite Hcs|].
  destruct (KickMinerApp._pick_preferred_channel_for_campaign w cache c use_network)
    as [[[preferred live] viewers] cache'].
  simpl in Hpick. injection Hpick as -> -> ->.
  assert (Hurl : QueueItem.url
                   (if String.eqb (QueueItem.url item) (KickChannel.url ch) then item
                    else QueueItem.with_url item (KickChannel.url ch)) = KickChannel.url ch).
  { by destruct (String.eqb_spec (QueueItem.url item) (KickChannel.url ch)). }
  split_and!; simpl.
  - by destruct (String.eqb _ _).
  - by destruct (String.eqb _ _).
  - by destruct (String.eqb _ _).
  - intros c' [= <-] _. split_and!; try done. exists ch. split; [|done].
    first [done | by rewrite Hcs | by rewrite <- Hcs].
  - intros [|(c' & [= <-] & Hnil)]; [done|]. by rewrite Hcs in Hnil.
Qed.

(** ** What the parser and the configuration loader return *)

Section ParseFacts.
Context `{PyRuntime}.

Lemma exc_map_Forall {A B} (f : A -> Exc B) (P : B -> Prop) (l : list A) (r : list B) :
  (forall x y, f x = Ok y -> P y) -> exc_map f l = Ok r -> Forall P r.
Proof.
  intros Hf. revert r. induction l as [|x l IH]; intros r; simpl.
  - intros [= <-]. constructor.
  - destruct (f x) as [y|] eqn:Hx; simpl; [|done].
    destruct (exc_map f l) as [ys|]; simpl; [|done].
    intros [= <-]. constructor; eauto.
Qed.

Lemma channels_of_wf (src : list json) (channels : list KickChannel.t) :
  KickCampaign.channels_of src = Ok channels -> Forall channel_wf channels.
Proof.
  revert channels. induction src as [|v src IH]; intros channels; simpl.
  - intros [= <-]. constructor.
  - destruct v; try apply IH.
    destruct (KickChannel.from_campaign_channel d) as [o|] eqn:Hd; simpl; [|done].
    destruct (KickCampaign.channels_of src) as [rest|]; simpl; [|done].
    intros [= <-]. destruct o as [c|]; [|by apply IH].
    constructor; [by eapply from_campaign_channel_wf | by apply IH].
Qed.

Lemma from_api_channels_wf (data : pydict) (c : KickCampaign.t) :
  KickCampaign.from_api data = Ok c ->
  Forall channel_wf (KickCampaign.channels c) /\
  KickCampaign.progress_status c = "not_started" /\ KickCampaign.progress_units c = 0.
Proof.
  unfold KickCampaign.from_api.
  destruct (py_iter (py_or (dict_get data "rewards") _)) as [rewards_src|]; simpl; [|done].
  destruct (py_iter (py_or (dict_get data "channels") _)) as [channels_src|]; simpl; [|done].
  destruct (KickCampaign.channels_of channels_src) as [channels|] eqn:Hch; simpl; [|done].
  destruct (py_get _ "name") as [cname|]; simpl; [|done].
  destruct (py_get _ "slug") as [cslug|]; simpl; [|done].
  destruct (py_get _ "image_url") as [cimage|]; simpl; [|done].
  destruct (py_get _ "id") as [cid|]; simpl; [|done].
  intros [= <-]. simpl. split; [by eapply channels_of_wf|done].
Qed.
End ParseFacts.

(** X10.  Whatever the payload, the campaigns [parse_campaigns_response]
    returns all have an id, every channel of theirs has a stripped,
    non-empty slug and the URL [https://kick.com/<slug>], and their
    progress fields are the defaults.  A payload whose [data] is missing,
    null or not a list gives the empty list without raising. *)
Theorem parse_campaigns_response_well_formed `{PyRuntime} :
  (forall payload campaigns,
     parse_campaigns_response payload = Ok campaigns ->
     Forall (fun c => KickCampaign.id c <> "" /\
                      KickCampaign.progress_status c = "not_started" /\
                      KickCampaign.progress_units c = 0) campaigns /\
     campaigns_wf campaigns) /\
  (forall payload,
     (forall l, dict_get payload "data" <> JList l) ->
     parse_campaigns_response payload = Ok []).
Proof.
  split.
  - intros payload campaigns. unfold parse_campaigns_response.
    destruct (py_or (dict_get payload "data") (JList [])) as [| | | |data|];
      try (intros [= <-]; split; constructor).
    destruct (exc_map KickCampaign.from_api (dict_entries data)) as [cs|] eqn:Hcs;
      simpl; [|done].
    intros [= <-].
    pose proof (exc_map_Forall _ _ _ _ from_api_channels_wf Hcs) as Hall.
    split.
    + apply Forall_forall. intros c [Hid Hc]%list_elem_of_filter.
      rewrite Forall_forall in Hall. destruct (Hall c Hc) as (_ & Hps & Hpu). done.
    + apply Forall_forall. intros c [Hid Hc]%list_elem_of_filter.
      rewrite Forall_forall in Hall. by destruct (Hall c Hc) as (Hwf & _).
  - intros payload Hdata. unfold parse_campaigns_response, py_or.
    destruct (dict_get payload "data") as [| | | |l|]; simpl; try done.
    + by destruct b.
    + by destruct (n =? 0).
    + by destruct (String.eqb s "").
    + by destruct (Hdata l).
    + by destruct d.
Qed.

Lemma parse_campaigns_response_well_formed_witness :
  exists campaigns,
    @parse_campaigns_response ascii_runtime payload_with_junk = Ok campaigns /\
    length campaigns = 1%nat /\
    campaigns_wf campaigns.
Proof.
  eexists. split; [by vm_compute|]. split; [done|].
  eapply (proj1 (@parse_campaigns_response_well_formed ascii_runtime) payload_with_junk).
  by vm_compute.
Defined.

(** X11.  A configuration with nothing to fill in or tidy survives a save
    and reload unchanged: [AppConfig.from_dict (to_dict config)] is
    [config], every field included. *)
Theorem app_config_round_trip `{PyRuntime} (config : AppConfig.t) :
  config_normal config ->
  AppConfig.from_dict (AppConfig.to_dict config) = Ok (Some config).
Proof.
  intros (Hitems & Hdm & Hwt & Hpi & Har & Hcs & Hlu & Hpg & Hlne & Hlang).
  pose proof (items_of_to_dict default_filled (AppConfig.queue_items config)
                from_dict_to_dict) as Hload.
  assert (Hsame : default_filled <$> AppConfig.queue_items config =
                  AppConfig.queue_items config).
  { clear Hload. induction Hitems as [|item items Hitem _ IH]; [done|].
    by rewrite fmap_cons, Hitem, IH. }
  rewrite Hsame in Hload. clear Hsame Hitems.
  unfold AppConfig.from_dict, AppConfig.to_dict, AppConfig.int_or,
    dict_get, dict_get_default.
  cbn [dict_lookup String.eqb Ascii.eqb Bool.eqb default from_option id andb].
  set (raw := py_or _ (JList [])).
  assert (Hraw : match raw with
                 | JList l => AppConfig.items_of l
                 | _ => Some []
                 end = Some (AppConfig.queue_items config)).
  { subst raw. destruct (AppConfig.queue_items config) as [|item items']; [done|].
    exact Hload. }
  rewrite Hraw.
  assert (Hint : forall n d, n <> 0 -> py_int (py_or (JInt n) (JInt d)) = Ok n).
  { intros n d Hn. unfold py_or. simpl. by destruct (Z.eqb_spec n 0). }
  rewrite !Hint by done.
  assert (Hstr : forall s d, s <> "" -> py_str (py_or (JStr s) (JStr d)) = s).
  { intros s d Hs. unfold py_or. simpl. by destruct (String.eqb_spec s ""). }
  rewrite (Hstr (AppConfig.browser_cookie_source config)) by done.
  rewrite (Hstr (AppConfig.language config)) by done.
  assert (Hlogin : strip (py_str (py_or (JStr (AppConfig.login_username config)) (JStr "")))
                   = AppConfig.login_username config).
  { unfold py_or. simpl.
    destruct (String.eqb_spec (AppConfig.login_username config) "") as [He|]; [|done].
    simpl. by rewrite He. }
  rewrite Hlogin, Hlang.
  assert (Hgames : filter (fun g => g <> "")
                     (map (fun v => strip (py_str v))
                        (map JStr (AppConfig.preferred_games config)))
                   = AppConfig.preferred_games config).
  { clear -Hpg. induction Hpg as [|g pg [Hs Hg] _ IH]; [done|].
    simpl. rewrite Hs, filter_cons_True by done. by rewrite IH. }
  rewrite Hgames.
  unfold str_or. destruct (String.eqb_spec (AppConfig.language config) "") as [|_]; [done|].
  destruct config as [items hp ac dm wt pi cs sb arp ar lu agm pg lang]. simpl.
  by destruct hp, ac, sb, arp, agm.
Qed.

Lemma app_config_round_trip_witness :
  @config_normal ascii_runtime stock_config /\
  @AppConfig.from_dict ascii_runtime (AppConfig.to_dict stock_config) = Ok (Some stock_config).
Proof.
  assert (Hnormal : @config_normal ascii_runtime stock_config).
  { unfold config_normal, clean_name. simpl. split_and!; try done.
    - by repeat constructor.
    - by repeat constructor. }
  split; [done|]. by apply (@app_config_round_trip ascii_runtime).
Defined.

(** ** The slug of a queued URL *)

Section Slug.

Lemma rev_app_app (cur acc b : string) :
  String.rev_app cur acc +:+ b = String.rev_app cur (acc +:+ b).
Proof. revert acc. induction cur as [|a cur IH]; intros acc; simpl; [done|]. by rewrite IH. Qed.

Lemma last_segment_go_slash_free (cur b : string) :
  slash_free b = true -> last_segment_go cur b = String.rev cur +:+ b.
Proof.
  revert cur. induction b as [|a b IH]; intros cur; simpl.
  - intros _. unfold String.rev. rewrite rev_app_app. done.
  - intros [Ha Hb]%andb_prop. apply negb_true_iff in Ha. rewrite Ha, IH by done.
    unfold String.rev. simpl. by rewrite !rev_app_app.
Qed.

Lemma last_segment_go_after_slash (a cur b : string) :
  last_segment_go cur (a +:+ String "/"%char b) = last_segment_go EmptyString b.
Proof.
  revert cur. induction a as [|c a IH]; intros cur; simpl; [done|].
  by destruct (is_slash c).
Qed.

Lemma rstrip_slashes_after (s t : string) :
  slash_free s = true -> rstrip_with is_slash t = EmptyString ->
  rstrip_with is_slash (s +:+ t) = s.
Proof.
  intros Hs Ht. induction s as [|a s IH]; [done|].
  simpl in Hs. apply andb_prop in Hs as [Ha Hs]. apply negb_true_iff in Ha.
  change (String a s +:+ t) with (String a (s +:+ t)). simpl. rewrite IH by done.
  destruct s; by rewrite ?Ha.
Qed.
End Slug.

(** X12.  The slug the worker polls is the slug the URL was built from:
    for a URL [https://kick.com/<slug>], with any number of slashes after
    it, [QueueItem.slug] is [<slug>], provided the slug is stripped,
    non-empty and has no slash of its own. *)
Theorem queue_item_slug_of_kick_url (item : QueueItem.t) (s t : string) :
  slash_free s = true -> strip s = s -> s <> "" ->
  rstrip_with is_slash t = EmptyString ->
  QueueItem.url item = KICK_URL_PREFIX +:+ s +:+ t ->
  QueueItem.slug item = s.
Proof.
  intros Hfree Hstrip Hne Ht Hurl. unfold QueueItem.slug. rewrite Hurl.
  rewrite rstrip_with_app; rewrite rstrip_slashes_after by done; [|done].
  change (KICK_URL_PREFIX +:+ s) with ("https://kick.com" +:+ String "/"%char s).
  unfold last_segment. rewrite last_segment_go_after_slash.
  by rewrite last_segment_go_slash_free.
Qed.

Lemma queue_item_slug_of_kick_url_witness :
  (slash_free "foo" = true /\ strip "foo" = "foo" /\ "foo" <> "" /\
   rstrip_with is_slash "//" = EmptyString /\
   QueueItem.url (sample_item "https://kick.com/foo//" "PENDING" None "") =
     KICK_URL_PREFIX +:+ "foo" +:+ "//") /\
  QueueItem.slug (sample_item "https://kick.com/foo//" "PENDING" None "") = "foo".
Proof.
  split; [by split_and!|].
  by apply (queue_item_slug_of_kick_url _ "foo" "//").
Defined.

(** ** More on the discovery run *)

Section DiscoveryMore.
Context `{PyRuntime}.

Lemma keeps_progress_refl (h : list QueueItem.t) : keeps_progress h h.
Proof. intros l item Hl. by exists item. Qed.

Lemma keeps_progress_trans (h1 h2 h3 : list QueueItem.t) :
  keeps_progress h1 h2 -> keeps_progress h2 h3 -> keeps_progress h1 h3.
Proof.
  intros H12 H23 l item Hl.
  destruct (H12 _ _ Hl) as (item2 & Hl2 & Hu2 & Ht2 & He2).
  destruct (H23 _ _ Hl2) as (item3 & Hl3 & Hu3 & Ht3 & He3).
  exists item3. split_and!; [done|congruence..].
Qed.

Lemma reconcile_row_keeps_progress (ex : gmap string loc) (acc : KickMinerApp.Reconcile)
    (row : Row) :
  keeps_progress (KickMinerApp.r_heap acc)
    (KickMinerApp.r_heap (KickMinerApp.reconcile_row ex acc row)).
Proof.
  unfold KickMinerApp.reconcile_row. cbv zeta.
  destruct (ex !! KickMinerApp.row_url row) as [l1|].
  - destruct (KickMinerApp.r_heap acc !! l1) as [existing|] eqn:Hl1;
      [|apply keeps_progress_refl].
    simpl. intros l item Hl. destruct (decide (l = l1)) as [->|Hne].
    + eexists. split; [apply list_lookup_insert_eq; by eapply lookup_lt_Some|].
      replace item with existing by congruence.
      by destruct (String.eqb _ "EXPIRED").
    + exists item. by rewrite list_lookup_insert_ne.
  - simpl. intros l item Hl. exists item. split; [by apply lookup_app_l_Some|done].
Qed.

Lemma reconcile_rows_keep_progress (ex : gmap string loc) (rows : list Row)
    (acc : KickMinerApp.Reconcile) :
  keeps_progress (KickMinerApp.r_heap acc)
    (KickMinerApp.r_heap (foldl (KickMinerApp.reconcile_row ex) acc rows)).
Proof.
  revert acc. induction rows as [|row rows IH]; intros acc; simpl;
    [apply keeps_progress_refl|].
  eapply keeps_progress_trans; [apply reconcile_row_keeps_progress|apply IH].
Qed.

Lemma auto_queue_selected_games_keeps_progress (w : World) (app : KickMinerApp.t) :
  keeps_progress (KickMinerApp.heap app)
    (KickMinerApp.heap (KickMinerApp._auto_queue_selected_games w app).1).
Proof.
  assert (Hcase : KickMinerApp.campaigns app = [] \/ KickMinerApp.campaigns app <> [])
    by (destruct (KickMinerApp.campaigns app); [by left | by right]).
  destruct Hcase as [Hnil|Hne].
  - rewrite (auto_queue_no_campaigns w app Hnil). apply keeps_progress_refl.
  - destruct (auto_queue_selected_games_run w app Hne) as (Hh & _). rewrite Hh.
    apply (reconcile_rows_keep_progress _ _
             {| KickMinerApp.r_heap := KickMinerApp.heap app; KickMinerApp.r_added := 0;
                KickMinerApp.r_updated := 0; KickMinerApp.r_ordered_urls := ∅;
                KickMinerApp.r_final_queue := [] |}).
Qed.

(** The objects the loop over [ordered] creates have the URL of a row. *)
Lemma reconcile_rows_new_items (h0 : list QueueItem.t) (ex : gmap string loc)
    (rows : list Row) :
  existing_sound h0 ex ->
  forall l item,
    (length h0 <= l)%nat ->
    KickMinerApp.r_heap
      (foldl (KickMinerApp.reconcile_row ex)
         {| KickMinerApp.r_heap := h0; KickMinerApp.r_added := 0;
            KickMinerApp.r_updated := 0; KickMinerApp.r_ordered_urls := ∅;
            KickMinerApp.r_final_queue := [] |} rows) !! l = Some item ->
    QueueItem.url item ∈
      KickMinerApp.r_ordered_urls
        (foldl (KickMinerApp.reconcile_row ex)
           {| KickMinerApp.r_heap := h0; KickMinerApp.r_added := 0;
              KickMinerApp.r_updated := 0; KickMinerApp.r_ordered_urls := ∅;
              KickMinerApp.r_final_queue := [] |} rows).
Proof.
  intros Hex.
  refine (foldl_invariant _
            (fun _ acc =>
               forall l item, (length h0 <= l)%nat ->
                 KickMinerApp.r_heap acc !! l = Some item ->
                 QueueItem.url item ∈ KickMinerApp.r_ordered_urls acc) rows _ _ _).
  - simpl. intros l item Hl Hitem. apply lookup_lt_Some in Hitem. lia.
  - intros past row rest acc _ Hacc l item Hl.
    unfold KickMinerApp.reconcile_row. cbv zeta.
    destruct (ex !! KickMinerApp.row_url row) as [l1|] eqn:Hl1.
    + destruct (Hex _ _ Hl1) as (item0 & Hitem0 & _).
      apply lookup_lt_Some in Hitem0.
      destruct (KickMinerApp.r_heap acc !! l1) as [existing|]; [|by apply Hacc].
      simpl. rewrite list_lookup_insert_ne by lia. intros Hitem.
      apply elem_of_union. right. by eapply Hacc.
    + simpl. intros Hitem. apply elem_of_union.
      destruct (decide (l < length (KickMinerApp.r_heap acc))%nat) as [Hlt|Hge].
      * right. rewrite lookup_app_l in Hitem by done. by eapply Hacc.
      * left. rewrite lookup_app_r in Hitem by lia.
        destruct (l - length (KickMinerApp.r_heap acc))%nat; [|done].
        injection Hitem as <-. simpl. by apply elem_of_singleton.
Qed.

Lemma sort_key_ltb_asym (a b : sort_key) :
  sort_key_ltb a b = true -> sort_key_ltb b a = false.
Proof.
  intros Hab. destruct (sort_key_ltb b a) eqn:Hba; [|done].
  pose proof (sort_key_ltb_trans _ _ _ Hab Hba) as Haa.
  by rewrite sort_key_ltb_irrefl in Haa.
Qed.

Lemma sort_key_not_after_trans (a b c : sort_key) :
  sort_key_ltb b a = false -> sort_key_ltb c b = false -> sort_key_ltb c a = false.
Proof.
  intros Hba Hcb. destruct (sort_key_ltb c a) eqn:Hca; [|done].
  destruct (sort_key_ltb_trichotomy a b) as [Hab|[->|Hab]].
  - pose proof (sort_key_ltb_trans _ _ _ Hca Hab). congruence.
  - congruence.
  - congruence.
Qed.

Lemma omap_filter_ext {A B} (f g : A -> option B) (P : A -> Prop)
    `{!forall x, Decision (P x)} (l : list A) :
  (forall x, P x -> f x = g x) -> omap f (filter P l) = omap g (filter P l).
Proof.
  intros Hfg. induction l as [|x l IH]; [done|].
  destruct (decide (P x)) as [Hx|Hx].
  - rewrite filter_cons_True by done. simpl. rewrite (Hfg x Hx).
    destruct (g x); [f_equal|]; exact IH.
  - by rewrite filter_cons_False.
Qed.

Lemma settled_is_auto (h : list QueueItem.t) (rows : list Row) (ls : list loc) :
  Forall2 (settled h) rows ls ->
  Forall (fun l => exists item,
            h !! l = Some item /\ KickMinerApp._is_auto_games_channel_item item = true) ls.
Proof.
  induction 1 as [|row l rows ls (item & Hl & _ & _ & _ & _ & Hnotes & _) _ IH];
    constructor; [|done].
  exists item. split; [done|].
  unfold KickMinerApp._is_auto_games_channel_item. rewrite Hnotes. reflexivity.
Qed.

Lemma settled_urls (h : list QueueItem.t) (rows : list Row) (ls : list loc) :
  Forall2 (settled h) rows ls ->
  omap (fun l => QueueItem.url <$> h !! l) ls = KickMinerApp.row_url <$> rows.
Proof.
  induction 1 as [|row l rows ls (item & Hl & Hu & _) _ IH]; [done|].
  rewrite fmap_cons. simpl. rewrite Hl. simpl. rewrite Hu. f_equal. exact IH.
Qed.

Lemma omap_filter_NoDup {A B} (f : A -> option B) (P : A -> Prop)
    `{!forall x, Decision (P x)} (l : list A) :
  NoDup (omap f l) -> NoDup (omap f (filter P l)).
Proof.
  induction l as [|x l IH]; [done|]. intros Hnd.
  assert (Hsub : forall b, b ∈ omap f (filter P l) -> b ∈ omap f l).
  { intros b (a & [_ Ha]%list_elem_of_filter & Hb)%list_elem_of_omap.
    apply list_elem_of_omap. eauto. }
  simpl in Hnd. destruct (decide (P x)).
  - rewrite filter_cons_True by done. simpl.
    destruct (f x) as [b|]; [|by apply IH].
    apply NoDup_cons in Hnd as [Hb Hnd]. apply NoDup_cons. split; [|by apply IH].
    intros Hin. by apply Hb, Hsub.
  - rewrite filter_cons_False by done. apply IH.
    destruct (f x); [by apply NoDup_cons in Hnd as [_ Hnd]|done].
Qed.
End DiscoveryMore.

Section DiscoveryOrigin.
Context `{PyRuntime}.

(** Where the entries of the final queue come from, and what the objects
    created by the loop over [ordered] hold. *)
Lemma reconcile_rows_origin (h0 : list QueueItem.t) (ex : gmap string loc)
    (rows : list Row) :
  existing_sound h0 ex ->
  let acc :=
    foldl (KickMinerApp.reconcile_row ex)
      {| KickMinerApp.r_heap := h0; KickMinerApp.r_added := 0;
         KickMinerApp.r_updated := 0; KickMinerApp.r_ordered_urls := ∅;
         KickMinerApp.r_final_queue := [] |} rows in
  (length h0 <= length (KickMinerApp.r_heap acc))%nat /\
  (forall l, l ∈ KickMinerApp.r_final_queue acc ->
     (length h0 <= l)%nat \/ exists u, ex !! u = Some l) /\
  (forall l item, (length h0 <= l)%nat -> KickMinerApp.r_heap acc !! l = Some item ->
     QueueItem.minutes_target item = 0 /\ QueueItem.elapsed_seconds item = 0).
Proof.
  intros Hex. cbv zeta.
  refine (foldl_invariant _
            (fun _ acc =>
               (length h0 <= length (KickMinerApp.r_heap acc))%nat /\
               (forall l, l ∈ KickMinerApp.r_final_queue acc ->
                  (length h0 <= l)%nat \/ exists u, ex !! u = Some l) /\
               (forall l item, (length h0 <= l)%nat ->
                  KickMinerApp.r_heap acc !! l = Some item ->
                  QueueItem.minutes_target item = 0 /\ QueueItem.elapsed_seconds item = 0))
            rows _ _ _).
  - simpl. split_and!; [done|by intros l ?%elem_of_nil|].
    intros l item Hl Hitem. apply lookup_lt_Some in Hitem. lia.
  - intros past row rest acc _ (Hlen & Hfrom & Hnew).
    unfold KickMinerApp.reconcile_row. cbv zeta.
    destruct (ex !! KickMinerApp.row_url row) as [l1|] eqn:Hl1.
    + destruct (Hex _ _ Hl1) as (item0 & Hitem0 & _).
      apply lookup_lt_Some in Hitem0.
      destruct (KickMinerApp.r_heap acc !! l1) as [existing|]; [|done].
      simpl. split_and!.
      * by rewrite length_insert.
      * intros l [Hin| ->%list_elem_of_singleton]%elem_of_app; [by apply Hfrom|].
        right. eauto.
      * intros l item Hl. rewrite list_lookup_insert_ne by lia. by apply Hnew.
    + simpl. split_and!.
      * rewrite length_app. simpl. lia.
      * intros l [Hin| ->%list_elem_of_singleton]%elem_of_app; [by apply Hfrom|].
        by left.
      * intros l item Hl Hitem.
        destruct (decide (l < length (KickMinerApp.r_heap acc))%nat) as [Hlt|Hge].
        -- rewrite lookup_app_l in Hitem by done. by eapply Hnew.
        -- rewrite lookup_app_r in Hitem by lia.
           destruct (l - length (KickMinerApp.r_heap acc))%nat; [|done].
           by injection Hitem as <-.
Qed.
End DiscoveryOrigin.

(** X13.  A run of discovery edits no watch time.  An item that is in the
    queue after the run is either an item that was in the queue before,
    with the URL, the minute target and the elapsed seconds it had, or an
    object the run has created, with no target and no watch time.  (An
    item the run drops leaves the queue with its watch time.) *)
Theorem discovery_keeps_progress `{PyRuntime} (w : World) (app : KickMinerApp.t)
    (l : loc) (item' : QueueItem.t) :
  l ∈ KickMinerApp.queue_items (KickMinerApp._auto_queue_selected_games w app).1 ->
  KickMinerApp.heap (KickMinerApp._auto_queue_selected_games w app).1 !! l = Some item' ->
  (l ∈ KickMinerApp.queue_items app /\
   exists item,
     KickMinerApp.heap app !! l = Some item /\
     QueueItem.url item' = QueueItem.url item /\
     QueueItem.minutes_target item' = QueueItem.minutes_target item /\
     QueueItem.elapsed_seconds item' = QueueItem.elapsed_seconds item) \/
  ((length (KickMinerApp.heap app) <= l)%nat /\
   QueueItem.minutes_target item' = 0 /\ QueueItem.elapsed_seconds item' = 0).
Proof.
  assert (Hcase : KickMinerApp.campaigns app = [] \/ KickMinerApp.campaigns app <> [])
    by (destruct (KickMinerApp.campaigns app); [by left | by right]).
  destruct Hcase as [Hnil|Hne].
  { rewrite (auto_queue_no_campaigns w app Hnil). simpl. intros Hin Hl. left.
    split; [done|]. by exists item'. }
  pose proof (auto_queue_selected_games_keeps_progress w app) as Hkeep.
  destruct (auto_queue_selected_games_run w app Hne) as (Hh & Hq & _).
  rewrite Hq. rewrite Hh in Hkeep |- *.
  destruct (reconcile_rows_origin (KickMinerApp.heap app)
              (KickMinerApp.existing_by_url_of (KickMinerApp.heap app)
                 (KickMinerApp.queue_items app))
              (desired_rows w app) (existing_by_url_of_sound _ _))
    as (Hlen & Hfrom & Hnew).
  set (acc := foldl _ _ (desired_rows w app)) in *.
  intros Hin Hl.
  assert (Hold : l ∈ KickMinerApp.queue_items app ->
                 (l < length (KickMinerApp.heap app))%nat ->
                 l ∈ KickMinerApp.queue_items app /\
                 exists item,
                   KickMinerApp.heap app !! l = Some item /\
                   QueueItem.url item' = QueueItem.url item /\
                   QueueItem.minutes_target item' = QueueItem.minutes_target item /\
                   QueueItem.elapsed_seconds item' = QueueItem.elapsed_seconds item).
  { intros Hq0 Hlt. split; [done|].
    destruct (lookup_lt_is_Some_2 _ _ Hlt) as [item Hitem].
    destruct (Hkeep _ _ Hitem) as (item2 & Hitem2 & ?).
    exists item. split; [done|]. congruence. }
  assert (Hcases : (l < length (KickMinerApp.heap app))%nat \/
                   (length (KickMinerApp.heap app) <= l)%nat) by lia.
  apply elem_of_app in Hin as [Hin|Hin].
  - destruct (Hfrom l Hin) as [Hge|[u Hu]]; [right; split; [done|by eapply Hnew]|].
    rewrite existing_by_url_of_spec in Hu.
    destruct (String.eqb u ""); [done|].
    left. apply Hold; [by eapply find_loc_by_url_elem|].
    destruct (find_loc_by_url_sound _ _ _ _ Hu) as (item & Hitem & _).
    by eapply lookup_lt_Some.
  - apply list_elem_of_filter in Hin as [_ Hin].
    destruct Hcases as [Hlt|Hge]; [left; by apply Hold|].
    right. split; [done|by eapply Hnew].
Qed.

Lemma discovery_keeps_progress_witness :
  (1%nat ∈ KickMinerApp.queue_items
             (@KickMinerApp._auto_queue_selected_games ascii_runtime (live_world 0)
                discovery_app).1 /\
   KickMinerApp.heap
     (@KickMinerApp._auto_queue_selected_games ascii_runtime (live_world 0)
        discovery_app).1 !! 1%nat = Some manual_item) /\
  ((1%nat ∈ KickMinerApp.queue_items discovery_app /\
    exists item,
      KickMinerApp.heap discovery_app !! 1%nat = Some item /\
      QueueItem.url manual_item = QueueItem.url item /\
      QueueItem.minutes_target manual_item = QueueItem.minutes_target item /\
      QueueItem.elapsed_seconds manual_item = QueueItem.elapsed_seconds item) \/
   ((length (KickMinerApp.heap discovery_app) <= 1)%nat /\
    QueueItem.minutes_target manual_item = 0 /\ QueueItem.elapsed_seconds manual_item = 0)).
Proof.
  assert (Hin : 1%nat ∈ KickMinerApp.queue_items
                  (@KickMinerApp._auto_queue_selected_games ascii_runtime (live_world 0)
                     discovery_app).1).
  { replace (KickMinerApp.queue_items
               (@KickMinerApp._auto_queue_selected_games ascii_runtime (live_world 0)
                  discovery_app).1) with [2; 1]%nat by (by vm_compute).
    right. by left. }
  assert (Hl : KickMinerApp.heap
                 (@KickMinerApp._auto_queue_selected_games ascii_runtime (live_world 0)
                    discovery_app).1 !! 1%nat = Some manual_item) by (by vm_compute).
  split; [done|].
  exact (@discovery_keeps_progress ascii_runtime (live_world 0) discovery_app 1%nat
           manual_item Hin Hl).
Defined.

(** X14.  After a run that gets past its guards, the queue starts with one
    item per desired row, in the ascending order of the liveness sort key;
    each of them has the URL of its row, is linked to the row's campaign,
    carries the discovery marker and is not [EXPIRED].  The rest of the
    queue are the old items that are neither of a desired URL nor marked,
    in their old order; [visible] counts the rows. *)
Theorem discovery_queue_order `{PyRuntime} (w : World) (app : KickMinerApp.t) :
  KickMinerApp.campaigns app <> [] ->
  campaigns_wf (KickMinerApp.campaigns app) ->
  exists ls,
    KickMinerApp.queue_items (KickMinerApp._auto_queue_selected_games w app).1 =
      (ls ++ filter (fun l => survives
                                (KickMinerApp.heap
                                   (KickMinerApp._auto_queue_selected_games w app).1)
                                (list_to_set (desired_urls w app)) l = true)
               (KickMinerApp.queue_items app))%list /\
    Forall2 (settled (KickMinerApp.heap (KickMinerApp._auto_queue_selected_games w app).1))
      (desired_rows w app) ls /\
    Forall (fun l => exists item,
              KickMinerApp.heap (KickMinerApp._auto_queue_selected_games w app).1 !! l
                = Some item /\
              KickMinerApp._is_auto_games_channel_item item = true) ls /\
    StronglySorted (not_after row_sort_key sort_key_ltb) (desired_rows w app) /\
    visible (KickMinerApp._auto_queue_selected_games w app).2 = length (desired_rows w app).
Proof.
  intros Hne Hwf.
  destruct (auto_queue_selected_games_run w app Hne) as (Hh & Hq & Hc & _).
  pose proof (rows_inv_foldl (KickMinerApp.heap app) _ (desired_rows w app)
                (existing_by_url_of_sound (KickMinerApp.heap app)
                   (KickMinerApp.queue_items app))) as (_ & _ & Hurls & _).
  pose proof (reconcile_settles (KickMinerApp.heap app) _ (desired_rows w app)
                (existing_by_url_of_sound (KickMinerApp.heap app)
                   (KickMinerApp.queue_items app))
                (desired_urls_NoDup w app Hwf)) as Hset.
  rewrite <- Hh in Hset, Hq.
  set (acc := foldl _ _ _) in *.
  assert (Hsame : KickMinerApp.r_ordered_urls acc = list_to_set (desired_urls w app)).
  { apply set_eq. intros u. rewrite Hurls, elem_of_list_to_set. done. }
  rewrite Hsame in Hq.
  exists (KickMinerApp.r_final_queue acc). split_and!.
  - exact Hq.
  - exact Hset.
  - by eapply settled_is_auto.
  - apply py_sorted_sorted; [apply sort_key_ltb_asym | apply sort_key_not_after_trans].
  - by rewrite Hc.
Qed.

Lemma discovery_queue_order_witness :
  (KickMinerApp.campaigns discovery_app <> [] /\
   campaigns_wf (KickMinerApp.campaigns discovery_app)) /\
  exists ls,
    KickMinerApp.queue_items
      (@KickMinerApp._auto_queue_selected_games ascii_runtime (live_world 0)
         discovery_app).1 =
      (ls ++ filter (fun l => survives
                                (KickMinerApp.heap
                                   (@KickMinerApp._auto_queue_selected_games ascii_runtime
                                      (live_world 0) discovery_app).1)
                                (list_to_set (@desired_urls ascii_runtime (live_world 0)
                                                discovery_app)) l = true)
               (KickMinerApp.queue_items discovery_app))%list.
Proof.
  assert (Hne : KickMinerApp.campaigns discovery_app <> []) by discriminate.
  assert (Hwf : campaigns_wf (KickMinerApp.campaigns discovery_app)).
  { repeat constructor. discriminate. }
  split; [done|].
  destruct (@discovery_queue_order ascii_runtime (live_world 0) discovery_app Hne Hwf)
    as (ls & Hq & _).
  by exists ls.
Defined.

(** X15.  Discovery keeps the queue free of duplicate URLs: when no two
    queued items share a URL before a run, none do after it. *)
Theorem discovery_keeps_urls_distinct `{PyRuntime} (w : World) (app : KickMinerApp.t) :
  campaigns_wf (KickMinerApp.campaigns app) ->
  NoDup (queue_urls app) ->
  NoDup (queue_urls (KickMinerApp._auto_queue_selected_games w app).1).
Proof.
  intros Hwf Hnd.
  assert (Hcase : KickMinerApp.campaigns app = [] \/ KickMinerApp.campaigns app <> [])
    by (destruct (KickMinerApp.campaigns app); [by left | by right]).
  destruct Hcase as [Hnil|Hne].
  { by rewrite (auto_queue_no_campaigns w app Hnil). }
  destruct (auto_queue_selected_games_run w app Hne) as (Hh & Hq & _).
  pose proof (existing_by_url_of_sound (KickMinerApp.heap app)
                (KickMinerApp.queue_items app)) as Hex.
  pose proof (rows_inv_foldl (KickMinerApp.heap app) _ (desired_rows w app) Hex)
    as (_ & _ & Hurls & _).
  pose proof (reconcile_settles (KickMinerApp.heap app) _ (desired_rows w app) Hex
                (desired_urls_NoDup w app Hwf)) as Hset.
  pose proof (reconcile_rows_new_items (KickMinerApp.heap app) _ (desired_rows w app) Hex)
    as Hnew.
  pose proof (auto_queue_selected_games_keeps_progress w app) as Hkeep.
  unfold queue_urls. rewrite Hq, Hh in *. clear Hq Hh.
  set (acc := foldl _ _ _) in *.
  set (h1 := KickMinerApp.r_heap acc) in *.
  set (urls := KickMinerApp.r_ordered_urls acc) in *.
  rewrite omap_app. apply NoDup_app. split_and!.
  - rewrite (settled_urls h1 _ _ Hset). by apply desired_urls_NoDup.
  - intros u (l & Hl & Hu)%list_elem_of_omap (l' & [Hs Hl']%list_elem_of_filter & Hu')%list_elem_of_omap.
    unfold survives in Hs. fold h1 in Hs.
    destruct (h1 !! l') as [item'|]; [|done]. simpl in Hu'. injection Hu' as <-.
    apply andb_prop in Hs as [Hout _]. apply negb_true_iff, bool_decide_eq_false in Hout.
    apply Hout, Hurls.
    destruct (h1 !! l) as [item|] eqn:Hitem; [|done]. simpl in Hu. injection Hu as <-.
    rewrite <- (settled_urls h1 _ _ Hset). apply list_elem_of_omap.
    exists l. by rewrite Hitem.
  - assert (Hold : forall l, survives h1 urls l = true ->
              QueueItem.url <$> h1 !! l = QueueItem.url <$> KickMinerApp.heap app !! l).
    { intros l Hs. unfold survives in Hs.
      destruct (KickMinerApp.heap app !! l) as [item|] eqn:Hl.
      - destruct (Hkeep _ _ Hl) as (item' & Hl' & Hu & _). rewrite Hl'. simpl. by rewrite Hu.
      - destruct (h1 !! l) as [item'|] eqn:Hl'; [|done].
        apply andb_prop in Hs as [Hout _]. apply negb_true_iff, bool_decide_eq_false in Hout.
        destruct Hout. apply (Hnew l item'); [|done].
        apply lookup_ge_None in Hl. lia. }
    rewrite (omap_filter_ext _ (fun l => QueueItem.url <$> KickMinerApp.heap app !! l) _ _ Hold).
    by apply omap_filter_NoDup.
Qed.

Lemma discovery_keeps_urls_distinct_witness :
  (campaigns_wf (KickMinerApp.campaigns discovery_app) /\
   NoDup (queue_urls discovery_app)) /\
  NoDup (queue_urls
           (@KickMinerApp._auto_queue_selected_games ascii_runtime (live_world 0)
              discovery_app).1).
Proof.
  assert (Hwf : campaigns_wf (KickMinerApp.campaigns discovery_app)).
  { repeat constructor. discriminate. }
  assert (Hnd : NoDup (queue_urls discovery_app)).
  { apply (bool_decide_unpack _). by vm_compute. }
  split; [done|].
  by apply (@discovery_keeps_urls_distinct ascii_runtime).
Defined.

(** ** The watch loop *)

Lemma no_increment_in (msgs : list UiQueue.Msg) (u : string) (s : Z) :
  Forall (fun m => forall u s, m <> UiQueue.post_increment_elapsed u s) msgs ->
  UiQueue.post_increment_elapsed u s ∈ msgs -> False.
Proof. intros Hall Hin. rewrite Forall_forall in Hall. by eapply Hall. Qed.

Ltac no_increment :=
  let Hin := fresh "Hin" in
  intros Hin; exfalso; revert Hin; apply no_increment_in; by repeat constructor.

(** X16.  The watch loop credits watch time only while it goes on
    watching: an iteration posts an increment only for the watched URL and
    by the tick length, only when the tick is due, the item is not yet
    done or final and no switch was requested, and only in an iteration
    that continues, with the next tick rescheduled; and if the liveness
    poll was due in that iteration, it found the channel live in the right
    category.  An iteration that returns (retry, finished) or lets an
    exception through posts no increment. *)
Theorem watch_iteration_credits_only_live `{PyRuntime} (w : World) (b : QueueWorker.Browser)
    (self : QueueWorker.t) (app : KickMinerApp.t) (item : QueueItem.t) (url slug : string)
    (poll_every tick_seconds : Z) (timers : QueueWorker.Timers) (u : string) (s : Z) :
  UiQueue.post_increment_elapsed u s ∈
    (QueueWorker.watch_iteration w b self app item url slug poll_every tick_seconds
       timers).1.2 ->
  u = url /\ s = tick_seconds /\
  QueueWorker.next_tick timers <= now w /\
  QueueItem.done item = false /\
  (KickMinerApp._consume_force_channel_switch app url).2 = false /\
  (exists timers',
     (QueueWorker.watch_iteration w b self app item url slug poll_every tick_seconds
        timers).2 = QueueWorker.Continue timers' /\
     QueueWorker.next_tick timers' = now w + tick_seconds) /\
  (QueueWorker.next_poll timers <= now w ->
   exists info, channel_live_status w slug = Ok info /\ live info = true /\
                QueueWorker.wrong_category item info = false).
Proof.
  unfold QueueWorker.watch_iteration.
  destruct (KickMinerApp._consume_force_channel_switch app url) as [app' forced].
  destruct forced; simpl.
  { no_increment. }
  destruct (QueueItem.done item) eqn:Hdone; simpl.
  { destruct (String.eqb _ "EXPIRED"); simpl; intros Hin; exfalso; revert Hin; apply no_increment_in.
    - by repeat constructor.
    - constructor; [done|]. destruct (QueueWorker.auto_claim self); [|constructor].
      unfold QueueWorker._auto_claim_if_enabled.
      destruct (negb _); [constructor|].
      destruct (QueueWorker.best_effort_claim_all b); [|by repeat constructor].
      constructor; [done|]. destruct (String.eqb _ ""); [constructor|].
      destruct (QueueWorker.open_channel b _); by repeat constructor. }
  destruct (KickMinerApp.is_final_status _); simpl.
  { destruct (String.eqb _ "EXPIRED"); simpl; intros Hin; exfalso; revert Hin; apply no_increment_in.
    - by repeat constructor.
    - constructor; [done|]. destruct (QueueWorker.auto_claim self); [|constructor].
      unfold QueueWorker._auto_claim_if_enabled.
      destruct (negb _); [constructor|].
      destruct (QueueWorker.best_effort_claim_all b); [|by repeat constructor].
      constructor; [done|]. destruct (String.eqb _ ""); [constructor|].
      destruct (QueueWorker.open_channel b _); by repeat constructor. }
  destruct (Z.leb_spec (QueueWorker.next_poll timers) (now w)) as [Hpoll|Hpoll].
  - unfold QueueWorker.poll_live.
    destruct (channel_live_status w slug) as [info|e] eqn:Hq; simpl.
    2: { no_increment. }
    destruct (live info) eqn:Hlive; simpl.
    2: { no_increment. }
    destruct (QueueWorker.wrong_category item info) eqn:Hcat; simpl.
    { no_increment. }
    destruct (QueueWorker.apply_watch_page_tweaks b); simpl.
    2: { no_increment. }
    destruct (Z.leb_spec (QueueWorker.next_tick timers) (now w)) as [Htick|Htick]; simpl.
    2: { no_increment. }
    rewrite !elem_of_cons, elem_of_nil. intros Hin. destruct_or! Hin; try done.
    injection Hin as -> ->. split_and!; try done; eauto.
  - simpl.
    destruct (Z.leb_spec (QueueWorker.next_tick timers) (now w)) as [Htick|Htick]; simpl.
    2: { by intros Hin%elem_of_nil. }
    rewrite !elem_of_cons, elem_of_nil. intros Hin. destruct_or! Hin; try done.
    injection Hin as -> ->. split_and!; try done; [eauto|lia].
Qed.

Lemma watch_iteration_credits_only_live_witness :
  UiQueue.post_increment_elapsed "https://kick.com/foo" 60 ∈
    (@QueueWorker.watch_iteration ascii_runtime (live_world 100) calm_browser running_worker
       (sample_app [watched_item 10 0] [0%nat] [] None) (watched_item 10 0)
       "https://kick.com/foo" "foo" 20 60 fresh_timers).1.2 /\
  exists timers',
    (@QueueWorker.watch_iteration ascii_runtime (live_world 100) calm_browser running_worker
       (sample_app [watched_item 10 0] [0%nat] [] None) (watched_item 10 0)
       "https://kick.com/foo" "foo" 20 60 fresh_timers).2 = QueueWorker.Continue timers' /\
    QueueWorker.next_tick timers' = 160.
Proof.
  assert (Hin : UiQueue.post_increment_elapsed "https://kick.com/foo" 60 ∈
    (@QueueWorker.watch_iteration ascii_runtime (live_world 100) calm_browser running_worker
       (sample_app [watched_item 10 0] [0%nat] [] None) (watched_item 10 0)
       "https://kick.com/foo" "foo" 20 60 fresh_timers).1.2).
  { vm_compute. apply list_elem_of_further, list_elem_of_here. }
  split; [exact Hin|].
  destruct (@watch_iteration_credits_only_live ascii_runtime _ _ _ _ _ _ _ _ _ _ _ _ Hin)
    as (_ & _ & _ & _ & _ & Hcont & _).
  exact Hcont.
Defined.

(** ** Choosing the next item *)

Section NextItemMore.
Context `{PyRuntime}.

Lemma keeps_time_refl (h : list QueueItem.t) : keeps_time h h.
Proof. split; [done|]. intros l item Hl. by exists item. Qed.

Lemma keeps_time_trans (h1 h2 h3 : list QueueItem.t) :
  keeps_time h1 h2 -> keeps_time h2 h3 -> keeps_time h1 h3.
Proof.
  intros [Hlen12 H12] [Hlen23 H23]. split; [congruence|]. intros l item Hl.
  destruct (H12 _ _ Hl) as (item2 & Hl2 & Ht2 & He2).
  destruct (H23 _ _ Hl2) as (item3 & Hl3 & Ht3 & He3).
  exists item3. split_and!; [done|congruence..].
Qed.

Lemma keeps_time_store (h : list QueueItem.t) (l : loc) (item item' : QueueItem.t) :
  h !! l = Some item ->
  QueueItem.minutes_target item' = QueueItem.minutes_target item ->
  QueueItem.elapsed_seconds item' = QueueItem.elapsed_seconds item ->
  keeps_time h (<[l := item']> h).
Proof.
  intros Hl Ht He. split; [by rewrite length_insert|]. intros l0 item0 Hl0.
  destruct (decide (l0 = l)) as [->|Hne].
  - exists item'. rewrite list_lookup_insert_eq by (by eapply lookup_lt_Some).
    replace item0 with item by congruence. done.
  - exists item0. by rewrite list_lookup_insert_ne.
Qed.

Lemma set_item_channel_keeps_time (w : World) (cache : gmap string (option bool * Z * Z))
    (item : QueueItem.t) (campaign : option KickCampaign.t) (use_network : bool) :
  QueueItem.minutes_target
    (KickMinerApp._set_item_channel_for_campaign w cache item campaign use_network).1.2 =
    QueueItem.minutes_target item /\
  QueueItem.elapsed_seconds
    (KickMinerApp._set_item_channel_for_campaign w cache item campaign use_network).1.2 =
    QueueItem.elapsed_seconds item.
Proof.
  unfold KickMinerApp._set_item_channel_for_campaign.
  destruct campaign as [c|]; [|done].
  destruct (KickMinerApp._pick_preferred_channel_for_campaign w cache c use_network)
    as [[[[preferred|] live] viewers] cache']; [|done].
  simpl. by destruct (String.eqb _ _).
Qed.

(** The item an examination hands back, skipped or candidate. *)
Lemma examine_item_keeps_time (w : World) (lk : KickMinerApp.Lookups)
    (cache : gmap string (option bool * Z * Z)) (item : QueueItem.t) :
  match KickMinerApp.examine_item w lk cache item with
  | KickMinerApp.Skip item' | KickMinerApp.Candidate item' _ _ _ =>
      QueueItem.minutes_target item' = QueueItem.minutes_target item /\
      QueueItem.elapsed_seconds item' = QueueItem.elapsed_seconds item
  end.
Proof.
  unfold KickMinerApp.examine_item.
  destruct (_ && QueueItem.done item); [done|].
  set (item1 := if KickMinerApp._is_progress_campaign_finished _ then _ else item).
  assert (H1 : QueueItem.minutes_target item1 = QueueItem.minutes_target item /\
               QueueItem.elapsed_seconds item1 = QueueItem.elapsed_seconds item).
  { subst item1. by destruct (KickMinerApp._is_progress_campaign_finished _). }
  destruct (KickMinerApp.is_final_status (QueueItem.status item1)); [done|].
  set (item2 := if String.eqb (QueueItem.status item1) "STOPPED" then _ else item1).
  assert (H2 : QueueItem.minutes_target item2 = QueueItem.minutes_target item /\
               QueueItem.elapsed_seconds item2 = QueueItem.elapsed_seconds item).
  { subst item2. by destruct (String.eqb _ "STOPPED"). }
  destruct (KickMinerApp._is_campaign_expired w _); [done|].
  destruct (KickMinerApp.game_filtered_out lk item2 _); [done|].
  destruct (KickMinerApp._is_auto_games_channel_item item2).
  - by destruct (KickMinerApp._get_channel_live_snapshot w cache _ 30 true) as [[live v] c].
  - pose proof (set_item_channel_keeps_time w cache item2
                  (KickMinerApp._resolve_queue_item_campaign item2
                     (KickMinerApp.campaign_by_id lk) (KickMinerApp.campaign_by_name lk))
                  true) as [Ht He].
    destruct (KickMinerApp._set_item_channel_for_campaign w cache item2 _ true)
      as [[[is_live viewers] item3] cache'].
    simpl in Ht, He. destruct H2 as [H2t H2e]. split; congruence.
Qed.

Lemma next_item_loop_keeps_time (w : World) (lk : KickMinerApp.Lookups) (items : list loc) :
  forall h cache fallback_item fallback_live_viewers,
    keeps_time h
      (KickMinerApp.next_item_loop w lk h cache fallback_item fallback_live_viewers items).1.1.
Proof.
  induction items as [|l items IH]; intros h cache fb fv; simpl; [apply keeps_time_refl|].
  destruct (h !! l) as [item|] eqn:Hl; [|apply IH].
  pose proof (examine_item_keeps_time w lk cache item) as Hkeep.
  destruct (KickMinerApp.examine_item w lk cache item) as [item'|item' cache' is_live viewers];
    destruct Hkeep as [Ht He];
    pose proof (keeps_time_store h l item item' Hl Ht He) as Hstore.
  - eapply keeps_time_trans; [exact Hstore|apply IH].
  - destruct is_live; [exact Hstore|].
    destruct fb as [f|]; [destruct (fv <? viewers)|];
      (eapply keeps_time_trans; [exact Hstore|apply IH]).
Qed.

Lemma ordered_items_of_state (app : KickMinerApp.t) :
  KickMinerApp.heap (KickMinerApp.ordered_items_of app).1 = KickMinerApp.heap app /\
  KickMinerApp.queue_items (KickMinerApp.ordered_items_of app).1 =
    KickMinerApp.queue_items app /\
  KickMinerApp.campaigns (KickMinerApp.ordered_items_of app).1 = KickMinerApp.campaigns app.
Proof.
  unfold KickMinerApp.ordered_items_of.
  destruct (_ || _); [|done].
  destruct (foldl _ _ _) as [preferred others]. by destruct preferred.
Qed.
End NextItemMore.

(** X17.  Choosing the next item costs nothing: [get_next_queue_item]
    leaves the queue list in its order, adds and removes no object, and
    every item keeps its minute target and its elapsed seconds (statuses,
    notes and the channel URL of a campaign item may change). *)
Theorem get_next_queue_item_keeps_time `{PyRuntime} (w : World) (app : KickMinerApp.t) :
  KickMinerApp.queue_items (KickMinerApp.get_next_queue_item w app).1 =
    KickMinerApp.queue_items app /\
  keeps_time (KickMinerApp.heap app)
    (KickMinerApp.heap (KickMinerApp.get_next_queue_item w app).1) /\
  KickMinerApp.campaigns (KickMinerApp.get_next_queue_item w app).1 =
    KickMinerApp.campaigns app.
Proof.
  unfold KickMinerApp.get_next_queue_item, KickMinerApp._preferred_game_filter.
  set (app1 := KickMinerApp.with_preferred_games_cached app _).
  destruct (ordered_items_of_state app1) as (Hh & Hq & Hc).
  destruct (KickMinerApp.ordered_items_of app1) as [app2 ordered].
  simpl in Hh, Hq, Hc.
  pose proof (next_item_loop_keeps_time w
                (KickMinerApp.lookups_of app1
                   (bool_decide (ALL_GAMES_TOKEN ∈
                      KickMinerApp._normalize_preferred_games
                        (KickMinerApp._preferred_games_cached app)))
                   (KickMinerApp.selected_of
                      (KickMinerApp._normalize_preferred_games
                         (KickMinerApp._preferred_games_cached app))))
                ordered (KickMinerApp.heap app2) (KickMinerApp._channel_live_cache app2)
                None (-1)) as Hloop.
  destruct (KickMinerApp.next_item_loop _ _ _ _ _ _ _) as [[h cache] result].
  simpl in *. rewrite Hh in Hloop. by rewrite Hq, Hc.
Qed.

(** ** What discovery counts as added *)

Section DiscoveryCounts.
Context `{PyRuntime}.

Lemma find_loc_by_url_None (h : list QueueItem.t) (q : list loc) (u : string) :
  KickMinerApp.find_loc_by_url h q u = None <->
  u ∉ omap (fun l => QueueItem.url <$> h !! l) q.
Proof.
  induction q as [|l q IH]; simpl.
  - split; [intros _ Hin; by apply elem_of_nil in Hin|done].
  - destruct (h !! l) as [item|]; simpl; [|exact IH].
    destruct (String.eqb_spec (QueueItem.url item) u) as [->|Hne].
    + split; [done|]. intros Hnot. destruct Hnot. by left.
    + rewrite IH. rewrite not_elem_of_cons. split; [by split|by intros [_ ?]].
Qed.

Lemma reconcile_rows_added (ex : gmap string loc) (rows : list Row) (h0 : list QueueItem.t) :
  KickMinerApp.r_added
    (foldl (KickMinerApp.reconcile_row ex)
       {| KickMinerApp.r_heap := h0; KickMinerApp.r_added := 0;
          KickMinerApp.r_updated := 0; KickMinerApp.r_ordered_urls := ∅;
          KickMinerApp.r_final_queue := [] |} rows) =
  length (filter (fun row => ex !! KickMinerApp.row_url row = None) rows).
Proof.
  refine (foldl_invariant _
            (fun past acc =>
               KickMinerApp.r_added acc =
               length (filter (fun row => ex !! KickMinerApp.row_url row = None) past))
            rows _ _ _); [done|].
  intros past row rest acc _ Hacc. rewrite filter_app, length_app.
  unfold KickMinerApp.reconcile_row. cbv zeta.
  destruct (ex !! KickMinerApp.row_url row) as [l|] eqn:Hl.
  - rewrite filter_cons_False by (by rewrite Hl). simpl. rewrite Nat.add_0_r.
    by destruct (KickMinerApp.r_heap acc !! l).
  - rewrite filter_cons_True by done. simpl. lia.
Qed.
End DiscoveryCounts.

(** X18.  What a run reports as added is the number of desired rows whose
    URL no queued item had when the run began. *)
Theorem discovery_added_count `{PyRuntime} (w : World) (app : KickMinerApp.t) :
  KickMinerApp.campaigns app <> [] ->
  added (KickMinerApp._auto_queue_selected_games w app).2 =
  length (filter (fun row => KickMinerApp.row_url row ∉ queue_urls app)
            (desired_rows w app)).
Proof.
  intros Hne.
  destruct (auto_queue_selected_games_run w app Hne) as (_ & _ & Hc & _).
  rewrite Hc. simpl. rewrite reconcile_rows_added. f_equal.
  apply list_filter_iff. intros row.
  rewrite existing_by_url_of_spec.
  destruct (String.eqb_spec (KickMinerApp.row_url row) "") as [He|_];
    [by apply row_url_nonempty in He|].
  apply find_loc_by_url_None.
Qed.

Lemma discovery_added_count_witness :
  KickMinerApp.campaigns discovery_app <> [] /\
  added (@KickMinerApp._auto_queue_selected_games ascii_runtime (live_world 0)
           discovery_app).2 =
  length (filter (fun row => KickMinerApp.row_url row ∉ queue_urls discovery_app)
            (@desired_rows ascii_runtime (live_world 0) discovery_app)).
Proof.
  assert (Hne : KickMinerApp.campaigns discovery_app <> []) by discriminate.
  split; [done|]. by apply (@discovery_added_count ascii_runtime).
Defined.

(** ** Reading the liveness of a channel from its payload *)

Lemma live_flag_no_bool `{PyRuntime} (data : pydict) (keys : list string) :
  (forall key b, key ∈ keys -> dict_get data key <> JBool b) ->
  KickBrowserClient.live_flag [] data keys = false.
Proof.
  induction keys as [|key keys IH]; intros Hflags; simpl; [done|].
  assert (Hrest : KickBrowserClient.live_flag [] data keys = false).
  { apply IH. intros k b Hk. apply Hflags. by right. }
  pose proof (Hflags key) as Hkey.
  destruct (dict_get data key) as [|flag| | | |]; try done.
  exfalso. apply (Hkey flag); [by left|done].
Qed.

(** X19.  [channel_live_status] reads both shapes of the channel payload
    alike: an object wrapped in [data] gives what the object itself gives.
    A stream object with one of [id], [session_title], [created_at],
    [playback_url], [key] present makes the channel live, whatever the
    boolean flags say; without a stream object and without a boolean flag
    the channel is reported offline.  The category never makes the call
    fail. *)
Theorem channel_live_status_shapes `{PyRuntime} :
  (forall d, dict_lookup d "data" = None ->
     KickBrowserClient.channel_live_status (Ok [("data", JDict d)]) =
     KickBrowserClient.channel_live_status (Ok d)) /\
  (forall payload st key info,
     dict_lookup payload "data" = None ->
     dict_get payload "livestream" = JDict st -> st <> [] ->
     key ∈ KickBrowserClient.stream_keys -> dict_get st key <> JNull ->
     KickBrowserClient.channel_live_status (Ok payload) = Ok info ->
     live info = true) /\
  (forall payload info,
     dict_lookup payload "data" = None ->
     truthy (dict_get payload "livestream") = false ->
     truthy (dict_get payload "stream") = false ->
     truthy (dict_get payload "live_stream") = false ->
     (forall key b, key ∈ KickBrowserClient.truthy_keys -> dict_get payload key <> JBool b) ->
     KickBrowserClient.channel_live_status (Ok payload) = Ok info ->
     live info = false).
Proof.
  assert (Hplain : forall payload, dict_lookup payload "data" = None ->
            KickBrowserClient.payload_data payload = payload).
  { intros payload Hd. unfold KickBrowserClient.payload_data. by rewrite Hd. }
  split_and!.
  - intros d Hd. unfold KickBrowserClient.channel_live_status.
    cbn [mbind exc_mbind exc_bind]. rewrite (Hplain d Hd).
    replace (KickBrowserClient.payload_data [("data", JDict d)]) with d; [done|].
    unfold KickBrowserClient.payload_data, py_or. simpl. by destruct d.
  - intros payload st key info Hdata Hstream Hst Hkey Hval.
    unfold KickBrowserClient.channel_live_status.
    cbn [mbind exc_mbind exc_bind]. rewrite (Hplain payload Hdata).
    assert (Hs : KickBrowserClient.data_stream payload = st).
    { unfold KickBrowserClient.data_stream. rewrite Hstream.
      assert (Htruthy : forall x, py_or (JDict st) x = JDict st).
      { intros x. unfold py_or. simpl. by destruct st. }
      by rewrite !Htruthy. }
    rewrite Hs.
    destruct (py_int _) as [n|]; cbn [exc_bind]; [|done]. intros [= <-]. simpl.
    unfold KickBrowserClient.live_of.
    destruct (KickBrowserClient.live_flag _ _ _); [done|].
    apply existsb_exists. exists key. split; [by apply list_elem_of_In|].
    by destruct (dict_get st key).
  - intros payload info Hdata Hl Hs Hls Hflags.
    unfold KickBrowserClient.channel_live_status.
    cbn [mbind exc_mbind exc_bind]. rewrite (Hplain payload Hdata).
    assert (Hstream : KickBrowserClient.data_stream payload = []).
    { unfold KickBrowserClient.data_stream.
      unfold py_or at 3. rewrite Hl. unfold py_or at 2. rewrite Hs.
      unfold py_or at 1. by rewrite Hls. }
    rewrite Hstream.
    destruct (py_int _) as [n|]; cbn [exc_bind]; [|done]. intros [= <-]. simpl.
    unfold KickBrowserClient.live_of.
    by rewrite live_flag_no_bool.
Qed.

(** ** Editing the queue by hand *)

Section Moves.

Lemma swap_at_lookup (q : list loc) (i j : nat) (a b : loc) (k : nat) :
  q !! i = Some a -> q !! j = Some b ->
  KickMinerApp.swap_at q i j !! k = q !! transpose i j k.
Proof.
  intros Hi Hj. unfold KickMinerApp.swap_at, transpose. rewrite Hi, Hj.
  pose proof (lookup_lt_Some _ _ _ Hi). pose proof (lookup_lt_Some _ _ _ Hj).
  rewrite !list_lookup_insert, length_insert.
  repeat case_decide; try done; try (destruct_and?; subst; lia || congruence).
  all: destruct_and?; subst; try congruence.
  all: exfalso; naive_solver lia.
Qed.

Lemma swap_at_length (q : list loc) (i j : nat) :
  length (KickMinerApp.swap_at q i j) = length q.
Proof.
  unfold KickMinerApp.swap_at. destruct (q !! i), (q !! j); try done.
  by rewrite !length_insert.
Qed.

Lemma transpose_involutive (i j k : nat) : transpose i j (transpose i j k) = k.
Proof. unfold transpose. repeat case_decide; congruence. Qed.

Lemma transpose_sym (i j k : nat) : transpose i j k = transpose j i k.
Proof. unfold transpose. repeat case_decide; congruence. Qed.

Lemma swap_at_perm (q : list loc) (i j : nat) : KickMinerApp.swap_at q i j ≡ₚ q.
Proof.
  destruct (q !! i) as [a|] eqn:Hi; [|by unfold KickMinerApp.swap_at; rewrite Hi].
  destruct (q !! j) as [b|] eqn:Hj; [|by unfold KickMinerApp.swap_at; rewrite Hi, Hj].
  apply Permutation_inj. split; [apply swap_at_length|].
  exists (transpose i j). split.
  - intros x y Hxy. by rewrite <- (transpose_involutive i j x), Hxy, transpose_involutive.
  - intros k. by eapply swap_at_lookup.
Qed.

Lemma swap_at_back (q : list loc) (i j : nat) (a b : loc) :
  q !! i = Some a -> q !! j = Some b ->
  KickMinerApp.swap_at (KickMinerApp.swap_at q i j) j i = q.
Proof.
  intros Hi Hj. apply list_eq. intros k.
  assert (Hi' : KickMinerApp.swap_at q i j !! i = Some b).
  { rewrite (swap_at_lookup q i j a b) by done. unfold transpose.
    by rewrite decide_True by done. }
  assert (Hj' : KickMinerApp.swap_at q i j !! j = Some a).
  { rewrite (swap_at_lookup q i j a b) by done. unfold transpose.
    destruct (decide (j = i)) as [->|]; [congruence|]. by rewrite decide_True by done. }
  rewrite (swap_at_lookup _ j i a b) by done.
  rewrite (swap_at_lookup q i j a b) by done.
  by rewrite (transpose_sym j i), transpose_involutive.
Qed.

Lemma foldl_perm {A} (f : list loc -> A -> list loc) (xs : list A) (q : list loc) :
  (forall q x, f q x ≡ₚ q) -> foldl f q xs ≡ₚ q.
Proof.
  intros Hf. revert q. induction xs as [|x xs IH]; intros q; simpl; [done|].
  by rewrite IH.
Qed.
End Moves.

Section MoveButtons.
Context `{PyRuntime}.

Lemma move_selected_up_queue (w : World) (app : KickMinerApp.t) (selected : list Z) :
  KickMinerApp.queue_items (KickMinerApp.move_selected_up w app selected) =
    foldl (fun q idx =>
             if (idx <=? 0) || (Z.of_nat (length q) <=? idx) then q
             else KickMinerApp.swap_at q (Z.to_nat (idx - 1)) (Z.to_nat idx))
      (KickMinerApp.queue_items app) (py_sorted (fun idx : Z => idx) Z.ltb selected) /\
  marks_only (KickMinerApp.heap app)
    (KickMinerApp.heap (KickMinerApp.move_selected_up w app selected)).
Proof.
  unfold KickMinerApp.move_selected_up.
  destruct selected as [|idx selected]; [split; [done|apply marks_only_refl]|].
  split; [by rewrite refresh_queue_tree_queue|].
  apply (refresh_queue_tree_marks w (KickMinerApp.with_queue app (KickMinerApp.heap app) _)).
Qed.

Lemma move_selected_down_queue (w : World) (app : KickMinerApp.t) (selected : list Z) :
  KickMinerApp.queue_items (KickMinerApp.move_selected_down w app selected) =
    foldl (fun q idx =>
             if (idx <? 0) || (Z.of_nat (length q) - 1 <=? idx) then q
             else KickMinerApp.swap_at q (Z.to_nat (idx + 1)) (Z.to_nat idx))
      (KickMinerApp.queue_items app)
      (py_sorted (fun idx : Z => idx) (fun a b => b <? a) selected) /\
  marks_only (KickMinerApp.heap app)
    (KickMinerApp.heap (KickMinerApp.move_selected_down w app selected)).
Proof.
  unfold KickMinerApp.move_selected_down.
  destruct selected as [|idx selected]; [split; [done|apply marks_only_refl]|].
  split; [by rewrite refresh_queue_tree_queue|].
  apply (refresh_queue_tree_marks w (KickMinerApp.with_queue app (KickMinerApp.heap app) _)).
Qed.
End MoveButtons.

(** X20.  The move buttons reorder and redraw: whatever rows are
    selected, [move_selected_up] and [move_selected_down] leave a
    permutation of the queue, and no object is changed except that the
    redraw may have set a status to [EXPIRED] or [FINISHED].  With the
    single row [i] selected (not the first), moving up exchanges the items
    at [i - 1] and [i], and moving the item down again from [i - 1]
    restores the queue. *)
Theorem move_selected_reorders `{PyRuntime} :
  (forall w app selected,
     KickMinerApp.queue_items (KickMinerApp.move_selected_up w app selected) ≡ₚ
       KickMinerApp.queue_items app /\
     KickMinerApp.queue_items (KickMinerApp.move_selected_down w app selected) ≡ₚ
       KickMinerApp.queue_items app /\
     marks_only (KickMinerApp.heap app)
       (KickMinerApp.heap (KickMinerApp.move_selected_up w app selected)) /\
     marks_only (KickMinerApp.heap app)
       (KickMinerApp.heap (KickMinerApp.move_selected_down w app selected))) /\
  (forall w w' app i,
     0 < i < Z.of_nat (length (KickMinerApp.queue_items app)) ->
     KickMinerApp.queue_items (KickMinerApp.move_selected_up w app [i]) !! Z.to_nat (i - 1) =
       KickMinerApp.queue_items app !! Z.to_nat i /\
     KickMinerApp.queue_items (KickMinerApp.move_selected_up w app [i]) !! Z.to_nat i =
       KickMinerApp.queue_items app !! Z.to_nat (i - 1) /\
     KickMinerApp.queue_items
       (KickMinerApp.move_selected_down w'
          (KickMinerApp.move_selected_up w app [i]) [i - 1]) =
       KickMinerApp.queue_items app).
Proof.
  split.
  - intros w app selected.
    destruct (move_selected_up_queue w app selected) as [Hup Hup_heap].
    destruct (move_selected_down_queue w app selected) as [Hdown Hdown_heap].
    rewrite Hup, Hdown. split_and!; try done.
    + apply foldl_perm. intros q x. destruct (_ || _); [done|apply swap_at_perm].
    + apply foldl_perm. intros q x. destruct (_ || _); [done|apply swap_at_perm].
  - intros w w' app i Hi.
    rewrite (proj1 (move_selected_down_queue w' _ [i - 1])).
    rewrite !(proj1 (move_selected_up_queue w app [i])). simpl.
    set (q := KickMinerApp.queue_items app) in *.
    destruct (Z.leb_spec i 0) as [|_]; [lia|].
    destruct (Z.leb_spec (Z.of_nat (length q)) i) as [|_]; [lia|]. simpl.
    rewrite swap_at_length.
    destruct (Z.ltb_spec (i - 1) 0) as [|_]; [lia|].
    destruct (Z.leb_spec (Z.of_nat (length q) - 1) (i - 1)) as [|_]; [lia|]. simpl.
    replace (i - 1 + 1) with i by lia.
    destruct (lookup_lt_is_Some_2 q (Z.to_nat (i - 1))) as [a Ha]; [lia|].
    destruct (lookup_lt_is_Some_2 q (Z.to_nat i)) as [b Hb]; [lia|].
    rewrite !(swap_at_lookup q _ _ a b) by done.
    rewrite (swap_at_back q _ _ a b) by done.
    unfold transpose. rewrite decide_True by done.
    destruct (decide (Z.to_nat i = Z.to_nat (i - 1))) as [|_]; [lia|].
    by rewrite decide_True by done.
Qed.

Section Removal.

Lemma drop_positions_ext (s1 s2 : list Z) (q : list loc) (pos : Z) :
  (forall p, pos <= p < pos + Z.of_nat (length q) -> p ∈ s1 <-> p ∈ s2) ->
  drop_positions s1 pos q = drop_positions s2 pos q.
Proof.
  revert pos. induction q as [|l q IH]; intros pos Hiff; simpl; [done|].
  rewrite (IH (pos + 1)).
  2: { intros p Hp. apply Hiff. simpl. lia. }
  assert (Hpos : pos ∈ s1 <-> pos ∈ s2) by (apply Hiff; simpl; lia).
  destruct (decide (pos ∈ s1)) as [Hin|Hout].
  - by rewrite !bool_decide_eq_true_2 by tauto.
  - by rewrite !bool_decide_eq_false_2 by tauto.
Qed.

Lemma drop_positions_none (s : list Z) (q : list loc) (pos : Z) :
  (forall p, p ∈ s -> p < pos) -> drop_positions s pos q = q.
Proof.
  revert pos. induction q as [|l q IH]; intros pos Hlow; simpl; [done|].
  rewrite bool_decide_eq_false_2.
  2: { intros Hin. specialize (Hlow _ Hin). lia. }
  f_equal. apply IH. intros p Hp. specialize (Hlow _ Hp). lia.
Qed.

Lemma drop_positions_delete (rest : list Z) (i : Z) (q : list loc) (pos : Z) :
  (forall r, r ∈ rest -> r < i) -> pos <= i -> i - pos < Z.of_nat (length q) ->
  drop_positions rest pos (delete (Z.to_nat (i - pos)) q) = drop_positions (i :: rest) pos q.
Proof.
  intros Hrest. revert pos. induction q as [|l q IH]; intros pos Hpos Hlen; simpl in *;
    [lia|].
  destruct (decide (pos = i)) as [->|Hne].
  - replace (Z.to_nat (i - i)) with 0%nat by lia. simpl.
    rewrite bool_decide_eq_true_2 by (by left).
    rewrite (drop_positions_none rest) by (intros r Hr; specialize (Hrest r Hr); lia).
    rewrite (drop_positions_none (i :: rest)); [done|].
    intros r [->|Hr]%elem_of_cons; [lia|]. specialize (Hrest r Hr). lia.
  - replace (Z.to_nat (i - pos)) with (S (Z.to_nat (i - (pos + 1)))) by lia. simpl.
    rewrite IH by lia.
    destruct (decide (pos ∈ rest)) as [Hin|Hout].
    + rewrite !bool_decide_eq_true_2; [done|by right|done].
    + rewrite !bool_decide_eq_false_2; [done| |done].
      intros [?|?]%elem_of_cons; [lia|done].
Qed.

Lemma remove_descending (s : list Z) (q : list loc) :
  StronglySorted (fun a b => b < a) s ->
  foldl (fun q idx => if KickMinerApp.in_range q idx then delete (Z.to_nat idx) q else q) q s =
  drop_positions s 0 q.
Proof.
  intros Hs. revert q. induction Hs as [|i rest Hrest IH Hall]; intros q; simpl.
  - symmetry. apply drop_positions_none. by intros p ?%elem_of_nil.
  - rewrite IH. rewrite Forall_forall in Hall.
    unfold KickMinerApp.in_range.
    destruct (Z.leb_spec 0 i) as [Hle|Hneg]; simpl.
    + destruct (Z.ltb_spec i (Z.of_nat (length q))) as [Hlt|Hge].
      * replace i with (i - 0) at 1 by lia.
        apply drop_positions_delete; [done|lia|lia].
      * apply drop_positions_ext. intros p Hp. rewrite elem_of_cons. split; [tauto|].
        intros [->|?]; [lia|done].
    + apply drop_positions_ext. intros p Hp. rewrite elem_of_cons. split; [tauto|].
      intros [->|?]; [lia|done].
Qed.

Lemma sorted_descending_strict (s : list Z) :
  NoDup s -> StronglySorted (fun a b => (a <? b) = false) s ->
  StronglySorted (fun a b => b < a) s.
Proof.
  intros Hnd Hs. induction Hs as [|a s Hs IH Hall]; constructor.
  - apply IH. by apply NoDup_cons in Hnd as [_ ?].
  - apply NoDup_cons in Hnd as [Hnot _].
    rewrite Forall_forall in *. intros b Hb.
    specialize (Hall b Hb). apply Z.ltb_ge in Hall.
    assert (a <> b) by (by intros ->). lia.
Qed.
End Removal.

(** X21.  Removing the selected rows removes exactly those rows: with the
    row ids distinct, as a tree selection has them,
    [remove_selected_queue_items] leaves the queue entries whose position
    is not selected, in their order; ids that are no position of the
    queue are ignored.  No object is changed except that the redraw that
    follows may have set a status to [EXPIRED] or [FINISHED]. *)
Theorem remove_selected_queue_items_exact `{PyRuntime} (w : World) (app : KickMinerApp.t)
    (selected : list Z) :
  NoDup selected ->
  KickMinerApp.queue_items (KickMinerApp.remove_selected_queue_items w app selected) =
    drop_positions selected 0 (KickMinerApp.queue_items app) /\
  marks_only (KickMinerApp.heap app)
    (KickMinerApp.heap (KickMinerApp.remove_selected_queue_items w app selected)).
Proof.
  intros Hnd.
  assert (Hq : KickMinerApp.queue_items
                 (KickMinerApp.remove_selected_queue_items w app selected) =
               foldl (fun q idx => if KickMinerApp.in_range q idx
                                   then delete (Z.to_nat idx) q else q)
                 (KickMinerApp.queue_items app)
                 (py_sorted (fun idx : Z => idx) (fun a b => b <? a) selected)).
  { unfold KickMinerApp.remove_selected_queue_items.
    destruct selected; [done|]. by rewrite refresh_queue_tree_queue. }
  split.
  2: { unfold KickMinerApp.remove_selected_queue_items.
       destruct selected; [apply marks_only_refl|].
       apply (refresh_queue_tree_marks w
                (KickMinerApp.with_queue app (KickMinerApp.heap app) _)). }
  rewrite Hq.
  pose proof (py_sorted_perm (fun idx : Z => idx) (fun a b => b <? a) selected) as Hperm.
  rewrite remove_descending.
  - apply drop_positions_ext. intros p _. by rewrite Hperm.
  - apply sorted_descending_strict; [by rewrite Hperm|].
    eapply StronglySorted_mono;
      [|apply (py_sorted_sorted (fun idx : Z => idx) (fun a b : Z => b <? a))].
    + intros a b Hab. exact Hab.
    + intros a b Hab. apply Z.ltb_lt in Hab. apply Z.ltb_ge. lia.
    + intros a b c Hab Hbc. apply Z.ltb_ge in Hab, Hbc. apply Z.ltb_ge. lia.
Qed.

Lemma remove_selected_queue_items_exact_witness :
  NoDup [0; 2; 7] /\
  KickMinerApp.queue_items
    (@KickMinerApp.remove_selected_queue_items ascii_runtime (offline_world 0)
       (sample_app three_items [0; 1; 2]%nat [] None) [0; 2; 7]) = [1%nat].
Proof.
  assert (Hnd : NoDup [0; 2; 7]).
  { apply (bool_decide_unpack _). by vm_compute. }
  split; [done|].
  by rewrite (proj1 (@remove_selected_queue_items_exact ascii_runtime (offline_world 0)
                       (sample_app three_items [0; 1; 2]%nat [] None) [0; 2; 7] Hnd)).
Defined.

(** ** Adding a channel of a campaign *)

Lemma omap_ext_Forall {A B} (f g : A -> option B) (l : list A) :
  Forall (fun x => f x = g x) l -> omap f l = omap g l.
Proof.
  induction 1 as [|x l Hx _ IH]; [done|].
  simpl. rewrite Hx. destruct (g x); [f_equal|]; exact IH.
Qed.

Lemma queue_urls_marks (a b : KickMinerApp.t) :
  marks_only (KickMinerApp.heap a) (KickMinerApp.heap b) ->
  KickMinerApp.queue_items b = KickMinerApp.queue_items a ->
  queue_urls b = queue_urls a.
Proof.
  intros [Hlen Hmark] Hq. unfold queue_urls. rewrite Hq.
  apply omap_ext_Forall, Forall_forall. intros l _.
  destruct (KickMinerApp.heap a !! l) as [item|] eqn:Hl.
  - by destruct (Hmark _ _ Hl) as (status & -> & _).
  - apply lookup_ge_None in Hl. rewrite <- Hlen in Hl. apply lookup_ge_None in Hl.
    by rewrite Hl.
Qed.

(** X22.  [_add_campaign_channel_to_queue] refuses a URL that is already
    queued and leaves the state as it is; otherwise it appends a fresh
    item for the URL, linked to the campaign, with no target and no watch
    time, behind the items already queued.  Called with [silent] it
    touches no other item and the new item is [PENDING]; called without,
    the redraw that follows may have set the status of any queued item,
    the new one included, to [EXPIRED] or [FINISHED], and changes nothing
    else.  Either way a queue without duplicate URLs stays without. *)
Theorem add_campaign_channel_to_queue_spec `{PyRuntime} (w : World) (app : KickMinerApp.t)
    (url : string) (campaign : KickCampaign.t) (silent : bool) :
  queue_sound app ->
  ((KickMinerApp._add_campaign_channel_to_queue w app url campaign silent).2 = false <->
   url ∈ queue_urls app) /\
  ((KickMinerApp._add_campaign_channel_to_queue w app url campaign silent).2 = false ->
   (KickMinerApp._add_campaign_channel_to_queue w app url campaign silent).1 = app) /\
  ((KickMinerApp._add_campaign_channel_to_queue w app url campaign silent).2 = true ->
   queue_urls (KickMinerApp._add_campaign_channel_to_queue w app url campaign silent).1 =
     (queue_urls app ++ [url])%list /\
   (forall l item, KickMinerApp.heap app !! l = Some item ->
      exists status,
        KickMinerApp.heap
          (KickMinerApp._add_campaign_channel_to_queue w app url campaign silent).1 !! l
          = Some (QueueItem.with_status item status) /\
        (status = QueueItem.status item \/ status = "EXPIRED" \/ status = "FINISHED") /\
        (silent = true -> status = QueueItem.status item)) /\
   exists l item,
     last (KickMinerApp.queue_items
             (KickMinerApp._add_campaign_channel_to_queue w app url campaign silent).1)
       = Some l /\
     KickMinerApp.heap
       (KickMinerApp._add_campaign_channel_to_queue w app url campaign silent).1 !! l
       = Some item /\
     QueueItem.url item = url /\
     (QueueItem.status item = "PENDING" \/ QueueItem.status item = "EXPIRED" \/
      QueueItem.status item = "FINISHED") /\
     (silent = true -> QueueItem.status item = "PENDING") /\
     QueueItem.minutes_target item = 0 /\ QueueItem.elapsed_seconds item = 0 /\
     QueueItem.campaign_id item = Some (KickCampaign.id campaign)) /\
  (NoDup (queue_urls app) ->
   NoDup (queue_urls
            (KickMinerApp._add_campaign_channel_to_queue w app url campaign silent).1)) /\
  queue_sound (KickMinerApp._add_campaign_channel_to_queue w app url campaign silent).1.
Proof.
  intros Hsound. unfold KickMinerApp._add_campaign_channel_to_queue,
    KickMinerApp._find_item_by_url.
  pose proof (find_loc_by_url_None (KickMinerApp.heap app) (KickMinerApp.queue_items app) url)
    as Hnone.
  fold (queue_urls app) in Hnone.
  destruct (KickMinerApp.find_loc_by_url _ _ url) as [l|] eqn:Hfind; cbn [fst snd].
  - split_and!; try done.
    split; [|done]. intros _. destruct (decide (url ∈ queue_urls app)) as [|Hout]; [done|].
    by apply Hnone in Hout.
  - assert (Hout : url ∉ queue_urls app) by (by apply Hnone).
    set (item := {| QueueItem.url := url |}).
    set (pre := KickMinerApp.with_queue app (KickMinerApp.heap app ++ [item])
                  (KickMinerApp.queue_items app ++ [length (KickMinerApp.heap app)])).
    set (post := if silent then pre else KickMinerApp._refresh_queue_tree w pre).
    assert (Hpost : marks_only (KickMinerApp.heap pre) (KickMinerApp.heap post) /\
                    KickMinerApp.queue_items post = KickMinerApp.queue_items pre /\
                    (silent = true -> KickMinerApp.heap post = KickMinerApp.heap pre)).
    { subst post. destruct silent.
      - split_and!; [apply marks_only_refl|done..].
      - split_and!; [apply refresh_queue_tree_marks|by rewrite refresh_queue_tree_queue|done]. }
    destruct Hpost as (Hmarks & Hq & Hsilent).
    assert (Hurls : queue_urls post = (queue_urls app ++ [url])%list).
    { rewrite (queue_urls_marks pre post) by done.
      unfold queue_urls. simpl. rewrite omap_app. simpl.
      rewrite list_lookup_middle by done. simpl. f_equal.
      apply omap_ext_Forall. eapply Forall_impl; [exact Hsound|].
      intros l0 Hl0. simpl. by rewrite lookup_app_l. }
    split_and!; try done.
    + intros _. split_and!; [exact Hurls| |].
      * intros l0 item0 Hl0.
        assert (Hpre : KickMinerApp.heap pre !! l0 = Some item0)
          by (by apply lookup_app_l_Some).
        destruct (proj2 Hmarks _ _ Hpre) as (status & Hl' & Hs).
        exists status. split_and!; [done..|].
        intros Hsil. rewrite (Hsilent Hsil), Hpre in Hl'.
        injection Hl' as Heq. by rewrite Heq.
      * assert (Hpre : KickMinerApp.heap pre !! length (KickMinerApp.heap app) = Some item)
          by (by apply list_lookup_middle).
        destruct (proj2 Hmarks _ _ Hpre) as (status & Hl' & Hs).
        exists (length (KickMinerApp.heap app)), (QueueItem.with_status item status).
        rewrite Hq. simpl. rewrite last_snoc. split_and!; try done.
        intros Hsil. rewrite (Hsilent Hsil), Hpre in Hl'.
        injection Hl' as Heq. by rewrite <- Heq.
    + intros Hnd. rewrite Hurls. apply NoDup_app. split_and!; [done| |apply NoDup_singleton].
      intros u Hu ->%list_elem_of_singleton. done.
    + unfold queue_sound in *. rewrite Hq, (proj1 Hmarks). simpl. rewrite length_app. simpl.
      apply Forall_app. split.
      * eapply Forall_impl; [exact Hsound|]. intros l0 Hl0. simpl in Hl0. lia.
      * constructor; [lia|constructor].
Qed.

Lemma add_campaign_channel_to_queue_spec_witness :
  queue_sound discovery_app /\
  ((@KickMinerApp._add_campaign_channel_to_queue ascii_runtime (offline_world 0)
      discovery_app "https://kick.com/bar" (sample_campaign "c1" "Game" []) false).2 = false
   <-> "https://kick.com/bar" ∈ queue_urls discovery_app).
Proof.
  assert (Hsound : queue_sound discovery_app).
  { unfold queue_sound. simpl. repeat constructor. }
  split; [done|].
  exact (proj1 (@add_campaign_channel_to_queue_spec ascii_runtime (offline_world 0)
                  discovery_app "https://kick.com/bar"
                  (sample_campaign "c1" "Game" []) false Hsound)).
Defined.

(** ** The campaign of a channel added by hand *)

Section BestCampaign.
Context `{PyRuntime}.

Lemma pair_ltb_spec (a b : Z * Z) :
  KickMinerApp.pair_ltb a b = true <-> a.1 < b.1 \/ (a.1 = b.1 /\ a.2 < b.2).
Proof.
  unfold KickMinerApp.pair_ltb.
  rewrite orb_true_iff, andb_true_iff, !Z.ltb_lt, Z.eqb_eq. done.
Qed.

Lemma pair_ltb_false (a b : Z * Z) :
  KickMinerApp.pair_ltb a b = false <-> b.1 < a.1 \/ (a.1 = b.1 /\ b.2 <= a.2).
Proof.
  destruct (KickMinerApp.pair_ltb a b) eqn:E.
  - apply pair_ltb_spec in E. split; [done|]. lia.
  - split; [intros _|done].
    assert (Hn : ~ (a.1 < b.1 \/ (a.1 = b.1 /\ a.2 < b.2))).
    { intros Hlt. apply pair_ltb_spec in Hlt. congruence. }
    lia.
Qed.

(** The first element of a sorted list is one of the list, and none has a
    smaller key. *)
Lemma py_sorted_head {A} (key : A -> Z * Z) (l : list A) (x : A) :
  head (py_sorted key KickMinerApp.pair_ltb l) = Some x ->
  x ∈ l /\ forall y, y ∈ l -> KickMinerApp.pair_ltb (key y) (key x) = false.
Proof.
  intros Hhead.
  pose proof (py_sorted_perm key KickMinerApp.pair_ltb l) as Hperm.
  assert (Hsorted : StronglySorted (not_after key KickMinerApp.pair_ltb)
                      (py_sorted key KickMinerApp.pair_ltb l)).
  { apply py_sorted_sorted.
    - intros a b Hab. apply pair_ltb_spec in Hab. apply pair_ltb_false. lia.
    - intros a b c Hba Hcb. apply pair_ltb_false in Hba, Hcb. apply pair_ltb_false. lia. }
  destruct (py_sorted key KickMinerApp.pair_ltb l) as [|x0 rest]; [done|].
  injection Hhead as ->. split.
  - rewrite <- Hperm. by left.
  - intros y Hy. rewrite <- Hperm in Hy.
    apply StronglySorted_inv in Hsorted as [_ Hall].
    apply elem_of_cons in Hy as [->|Hy].
    + apply pair_ltb_false. lia.
    + rewrite Forall_forall in Hall. by apply Hall.
Qed.

Lemma py_sorted_head_some {A} (key : A -> Z * Z) (l : list A) :
  l <> [] -> is_Some (head (py_sorted key KickMinerApp.pair_ltb l)).
Proof.
  intros Hne. pose proof (py_sorted_perm key KickMinerApp.pair_ltb l) as Hperm.
  destruct (py_sorted key KickMinerApp.pair_ltb l) as [|x rest]; [|by eexists].
  apply Permutation_nil_l in Hperm. congruence.
Qed.
End BestCampaign.

(** X23.  The campaign [_find_best_campaign_for_channel_slug] links to a
    channel added by hand is one of the loaded campaigns that lists the
    slug (compared stripped and in lower case).  It is not an expired one
    if a campaign that is not expired lists the slug, and among the
    campaigns it is chosen from none has a smaller score.  It finds none
    exactly when the slug is blank or no campaign lists it. *)
Theorem find_best_campaign_for_channel_slug_spec `{PyRuntime} (w : World)
    (app : KickMinerApp.t) (slug : string) :
  match KickMinerApp._find_best_campaign_for_channel_slug w app slug with
  | Some c =>
      lower (strip slug) <> "" /\
      c ∈ KickMinerApp.campaigns app /\
      KickMinerApp.lists_slug (lower (strip slug)) c = true /\
      forall c', c' ∈ KickMinerApp.campaigns app ->
        KickMinerApp.lists_slug (lower (strip slug)) c' = true ->
        (KickMinerApp._is_campaign_expired w (Some c') = false ->
         KickMinerApp._is_campaign_expired w (Some c) = false) /\
        (KickMinerApp._is_campaign_expired w (Some c') = false \/
         KickMinerApp._is_campaign_expired w (Some c) = true ->
         KickMinerApp.pair_ltb (KickMinerApp._score c') (KickMinerApp._score c) = false)
  | None =>
      lower (strip slug) = "" \/
      forall c, c ∈ KickMinerApp.campaigns app ->
        KickMinerApp.lists_slug (lower (strip slug)) c = false
  end.
Proof.
  unfold KickMinerApp._find_best_campaign_for_channel_slug.
  destruct (String.eqb_spec (lower (strip slug)) "") as [|Hslug]; [by left|].
  set (listed := fun c => KickMinerApp.lists_slug (lower (strip slug)) c = true).
  set (open := fun c => KickMinerApp._is_campaign_expired w (Some c) = false).
  destruct (filter listed (KickMinerApp.campaigns app)) as [|c0 cs] eqn:Hcands.
  { right. intros c Hc. destruct (KickMinerApp.lists_slug _ c) eqn:Hl; [|done].
    assert (Hin : c ∈ filter listed (KickMinerApp.campaigns app))
      by (by apply list_elem_of_filter).
    rewrite Hcands in Hin. by apply elem_of_nil in Hin. }
  rewrite <- Hcands.
  set (cands := filter listed (KickMinerApp.campaigns app)) in *.
  set (pool := match filter open cands with [] => cands | _ => filter open cands end).
  assert (Hpool : pool <> []).
  { subst pool. destruct (filter open cands); [by rewrite Hcands|done]. }
  destruct (py_sorted_head_some KickMinerApp._score pool Hpool) as [c Hc].
  rewrite Hc. destruct (py_sorted_head _ _ _ Hc) as [Hin Hmin].
  assert (Hsub : forall x, x ∈ pool -> x ∈ cands).
  { intros x. subst pool. destruct (filter open cands) eqn:Ho; [done|].
    rewrite <- Ho. by intros [_ ?]%list_elem_of_filter. }
  pose proof (Hsub c Hin) as [Hlisted Hcamp]%list_elem_of_filter.
  split; [done|]. split; [done|]. split; [done|].
  intros c' Hc' Hl'.
  assert (Hcand' : c' ∈ cands) by (by apply list_elem_of_filter).
  assert (Hopen : KickMinerApp._is_campaign_expired w (Some c') = false ->
                  KickMinerApp._is_campaign_expired w (Some c) = false /\ c' ∈ pool).
  { intros Ho'. assert (Hin' : c' ∈ filter open cands) by (by apply list_elem_of_filter).
    subst pool. destruct (filter open cands) eqn:Ho; [by apply elem_of_nil in Hin'|].
    rewrite <- Ho in *. split; [|done]. by apply list_elem_of_filter in Hin as [? _]. }
  split; [by intros [? _]%Hopen|].
  intros [Ho'|Hexp]; apply Hmin; [by apply Hopen|].
  subst pool. destruct (filter open cands) eqn:Ho; [done|].
  rewrite <- Ho in Hin. apply list_elem_of_filter in Hin as [Hin _].
  unfold open in Hin. congruence.
Qed.

(** ** The change-channel button *)

Section ChangeChannel.
Context `{PyRuntime}.

(** Starting the worker touches the game selection only. *)
Lemma ensure_queue_worker_running_fields (app : KickMinerApp.t)
    (worker : option KickMinerApp.WorkerHandle) :
  KickMinerApp.heap (KickMinerApp._ensure_queue_worker_running app worker) =
    KickMinerApp.heap app /\
  KickMinerApp.queue_items (KickMinerApp._ensure_queue_worker_running app worker) =
    KickMinerApp.queue_items app /\
  KickMinerApp._force_switch_urls (KickMinerApp._ensure_queue_worker_running app worker) =
    KickMinerApp._force_switch_urls app.
Proof.
  unfold KickMinerApp._ensure_queue_worker_running, KickMinerApp.start_queue.
  destruct (KickMinerApp._shutting_down app); [done|].
  destruct (negb _); [done|].
  destruct (KickMinerApp.worker_alive worker); [done|].
  destruct (KickMinerApp.queue_items app) eqn:Hq; [done|]. rewrite <- Hq.
  cbn [fst]. destruct (save_config_queue app) as (? & ? & ? & _). done.
Qed.

(** The item written at a queued address, after a rotation and the redraw
    that follows it. *)
Lemma refresh_after_rotate (w : World) (app app1 : KickMinerApp.t) (url : string) (l : loc)
    (item' : QueueItem.t) :
  KickMinerApp.campaigns app1 = KickMinerApp.campaigns app ->
  KickMinerApp.progress app1 = KickMinerApp.progress app ->
  l ∈ KickMinerApp.queue_items app1 ->
  KickMinerApp.heap app1 !! l = Some item' ->
  KickMinerApp.heap
    (KickMinerApp._refresh_queue_tree w (KickMinerApp._ui_rotate_item w app1 url)) !! l =
    Some (refreshed w app item').
Proof.
  intros Hc Hp Hin Hl.
  destruct (ui_rotate_item_queue w app1 url) as (Hh & Hperm & _).
  destruct (ui_rotate_item_fields w app1 url) as (Hc' & Hp' & _).
  rewrite (proj2 (refresh_queue_tree_heap w _) l).
  rewrite decide_True by (by rewrite Hperm).
  assert (Hsame : forall x, refreshed w (KickMinerApp._ui_rotate_item w app1 url) x =
                            refreshed w app x).
  { intros x. apply refreshed_same_data; congruence. }
  destruct Hh as [-> | ->].
  - rewrite Hl. simpl. by rewrite Hsame.
  - rewrite (proj2 (refresh_queue_tree_heap w app1) l), decide_True, Hl by done. simpl.
    rewrite Hsame, (refreshed_same_data w app app1) by done.
    by rewrite refreshed_idemp.
Qed.
End ChangeChannel.

(** X24.  Pressing the change-channel button with no row selected while
    the worker is on a queued URL notes the request on that item, keeps
    its watch time, moves it to the end of the queue and leaves a
    force-switch request for its URL: the next iteration of the watch loop
    on that URL returns [retry].  The status of the item is then [RETRY],
    unless the redraw finds its progress campaign fully claimed
    ([FINISHED]) or its campaign expired ([EXPIRED]). *)
Theorem change_channel_now_switches `{PyRuntime} (w ui : World) (b : QueueWorker.Browser)
    (worker : QueueWorker.t) (handle : KickMinerApp.WorkerHandle) (app : KickMinerApp.t)
    (l : loc) (item watched : QueueItem.t) (slug : string) (poll_every tick_seconds : Z)
    (timers : QueueWorker.Timers) :
  strip (KickMinerApp.worker_current_url handle) <> "" ->
  KickMinerApp._find_item_by_url app (KickMinerApp.worker_current_url handle) = Some l ->
  KickMinerApp.heap app !! l = Some item ->
  (exists item',
     KickMinerApp.heap (KickMinerApp.change_channel_now ui app [] (Some handle)) !! l
       = Some item' /\
     QueueItem.status item' =
       (if KickMinerApp._is_progress_campaign_finished
             (item_progress (lookups_for app) item)
        then "FINISHED"
        else if KickMinerApp._is_campaign_expired ui (item_campaign (lookups_for app) item)
             then "EXPIRED"
             else "RETRY") /\
     QueueItem.notes item' = "cambio manual solicitado" /\
     QueueItem.url item' = KickMinerApp.worker_current_url handle /\
     QueueItem.minutes_target item' = QueueItem.minutes_target item /\
     QueueItem.elapsed_seconds item' = QueueItem.elapsed_seconds item) /\
  last (KickMinerApp.queue_items (KickMinerApp.change_channel_now ui app [] (Some handle)))
    = Some l /\
  KickMinerApp.queue_items (KickMinerApp.change_channel_now ui app [] (Some handle)) ≡ₚ
    KickMinerApp.queue_items app /\
  (KickMinerApp._consume_force_channel_switch
     (KickMinerApp.change_channel_now ui app [] (Some handle))
     (KickMinerApp.worker_current_url handle)).2 = true /\
  (QueueWorker.watch_iteration w b worker
     (KickMinerApp.change_channel_now ui app [] (Some handle)) watched
     (KickMinerApp.worker_current_url handle) slug poll_every tick_seconds timers).2
    = QueueWorker.Return "retry".
Proof.
  set (u := KickMinerApp.worker_current_url handle).
  intros Hstrip Hfind Hl.
  assert (Hu : u <> "") by (by intros Heq; rewrite Heq in Hstrip).
  destruct (find_loc_by_url_sound _ _ _ _ Hfind) as (item0 & Hl0 & Hurl).
  replace item0 with item in Hurl by congruence. clear item0 Hl0.
  unfold KickMinerApp.change_channel_now. fold u.
  destruct (String.eqb_spec u "") as [|_]; [done|].
  rewrite Hfind, Hl, Hurl. cbv zeta.
  set (item' := QueueItem.with_notes (QueueItem.with_status item "RETRY") _).
  set (app1 := KickMinerApp.with_queue (KickMinerApp._request_force_channel_switch app u)
                 _ _).
  change (QueueItem.url item') with (QueueItem.url item). rewrite Hurl.
  assert (Hfields1 : KickMinerApp.heap app1 = <[l := item']> (KickMinerApp.heap app) /\
                     KickMinerApp.queue_items app1 = KickMinerApp.queue_items app /\
                     KickMinerApp.campaigns app1 = KickMinerApp.campaigns app /\
                     KickMinerApp.progress app1 = KickMinerApp.progress app).
  { subst app1. unfold KickMinerApp._request_force_channel_switch.
    by destruct (String.eqb (strip u) ""). }
  destruct Hfields1 as (Hheap1 & Hqueue1 & Hc1 & Hp1).
  assert (Hreq1 : strip u ∈ KickMinerApp._force_switch_urls app1).
  { subst app1. unfold KickMinerApp._request_force_channel_switch.
    destruct (String.eqb_spec (strip u) "") as [|_]; [done|]. simpl.
    apply elem_of_union. left. by apply elem_of_singleton. }
  assert (Hfind1 : KickMinerApp._find_item_by_url app1 u = Some l).
  { unfold KickMinerApp._find_item_by_url. rewrite Hheap1, Hqueue1.
    by rewrite (find_loc_by_url_insert _ _ l item item'). }
  assert (Hin1 : l ∈ KickMinerApp.queue_items app1) by (by eapply find_loc_by_url_elem).
  assert (Hl1 : KickMinerApp.heap app1 !! l = Some item').
  { rewrite Hheap1. apply list_lookup_insert_eq. by eapply lookup_lt_Some. }
  destruct (ui_rotate_item_queue ui app1 u) as (_ & Hperm & _).
  pose proof (ui_rotate_item_last ui app1 u l Hfind1) as Hlast.
  destruct (ui_rotate_item_fields ui app1 u) as (_ & _ & Hforce & _).
  pose proof (refresh_after_rotate ui app app1 u l item' Hc1 Hp1 Hin1 Hl1) as Hl2.
  set (app2 := KickMinerApp._refresh_queue_tree ui (KickMinerApp._ui_rotate_item ui app1 u))
    in *.
  assert (Hfields2 : KickMinerApp.queue_items app2 =
                       KickMinerApp.queue_items (KickMinerApp._ui_rotate_item ui app1 u) /\
                     KickMinerApp._force_switch_urls app2 =
                       KickMinerApp._force_switch_urls app1).
  { subst app2. by rewrite refresh_queue_tree_queue, refresh_queue_tree_requests, Hforce. }
  destruct Hfields2 as [Hqueue2 Hforce2].
  destruct (ensure_queue_worker_running_fields app2 (Some handle)) as (Hh3 & Hq3 & Hf3).
  assert (Hconsume : (KickMinerApp._consume_force_channel_switch
                        (KickMinerApp._ensure_queue_worker_running app2 (Some handle)) u).2
                     = true).
  { unfold KickMinerApp._consume_force_channel_switch.
    destruct (String.eqb_spec (strip u) "") as [|_]; [done|].
    rewrite Hf3, Hforce2. by rewrite bool_decide_eq_true_2. }
  rewrite Hh3, Hq3, Hqueue2. split_and!.
  - exists (refreshed ui app item'). split; [exact Hl2|].
    rewrite refreshed_status. simpl. by split_and!.
  - exact Hlast.
  - by rewrite Hperm, Hqueue1.
  - exact Hconsume.
  - unfold QueueWorker.watch_iteration.
    destruct (KickMinerApp._consume_force_channel_switch _ u) as [app3 forced].
    simpl in Hconsume. by subst forced.
Qed.

Lemma change_channel_now_switches_witness :
  (strip "https://kick.com/foo" <> "" /\
   KickMinerApp._find_item_by_url watching_app "https://kick.com/foo" = Some 0%nat /\
   KickMinerApp.heap watching_app !! 0%nat = Some (watched_item 0 0)) /\
  (@QueueWorker.watch_iteration ascii_runtime (live_world 0) calm_browser running_worker
     (@KickMinerApp.change_channel_now ascii_runtime (live_world 0) watching_app []
        (Some {| KickMinerApp.is_alive := true;
                 KickMinerApp.worker_current_url := "https://kick.com/foo" |}))
     (watched_item 0 0) "https://kick.com/foo" "foo" 20 60 fresh_timers).2 =
    QueueWorker.Return "retry".
Proof.
  assert (Hstrip : strip "https://kick.com/foo" <> "") by discriminate.
  split; [by split_and!|].
  by destruct (@change_channel_now_switches ascii_runtime (live_world 0) (live_world 0)
                 calm_browser running_worker
                 {| KickMinerApp.is_alive := true;
                    KickMinerApp.worker_current_url := "https://kick.com/foo" |}
                 watching_app 0%nat
                 (watched_item 0 0) (watched_item 0 0) "foo" 20 60 fresh_timers
                 Hstrip eq_refl eq_refl) as (_ & _ & _ & _ & Hret).
Defined.

(** ** After a retry *)

Section AfterRetry.
Context `{PyRuntime}.

Lemma last_filter {A} (P : A -> Prop) `{!forall x, Decision (P x)} (l : list A) (x : A) :
  last l = Some x -> P x -> last (filter P l) = Some x.
Proof.
  intros Hlast Hx. destruct l as [|y l _] using rev_ind; [done|].
  rewrite last_snoc in Hlast. injection Hlast as ->.
  rewrite filter_app, (filter_cons_True P) by done.
  rewrite filter_nil. apply last_snoc.
Qed.
End AfterRetry.

(** X25.  After [_process_item] has returned [retry] for an item of a
    campaign, the messages [_run_loop] posts leave the hint on that
    campaign and the item at the end of the queue; the next selection then
    examines the queued items of the same campaign first, in queue order
    and the retried item last among them, and the other items after
    them.  Applying the messages changes no object except that the redraw
    may have set a status to [EXPIRED] or [FINISHED]. *)
Theorem retry_examines_same_campaign_first `{PyRuntime} (ui : World) (app : KickMinerApp.t)
    (item : QueueItem.t) (l : loc) (now last_save : Z) :
  KickMinerApp._find_item_by_url app (QueueItem.url item) = Some l ->
  KickMinerApp.heap app !! l = Some item ->
  strip (opt_str (QueueItem.campaign_id item)) <> "" ->
  marks_only (KickMinerApp.heap app)
    (KickMinerApp.heap
       (UiQueue._pump_ui_queue ui app
          (QueueWorker.after_process_item item "retry" now last_save))) /\
  KickMinerApp.queue_items
    (UiQueue._pump_ui_queue ui app
       (QueueWorker.after_process_item item "retry" now last_save))
    ≡ₚ KickMinerApp.queue_items app /\
  (hint_of
     (UiQueue._pump_ui_queue ui app
        (QueueWorker.after_process_item item "retry" now last_save))).1
    = strip (opt_str (QueueItem.campaign_id item)) /\
  (KickMinerApp.ordered_items_of
     (UiQueue._pump_ui_queue ui app
        (QueueWorker.after_process_item item "retry" now last_save))).2
    = (filter (fun l' => hinted
                           (UiQueue._pump_ui_queue ui app
                              (QueueWorker.after_process_item item "retry" now last_save))
                           l' = true)
         (KickMinerApp.queue_items
            (UiQueue._pump_ui_queue ui app
               (QueueWorker.after_process_item item "retry" now last_save))) ++
       filter (fun l' => hinted
                           (UiQueue._pump_ui_queue ui app
                              (QueueWorker.after_process_item item "retry" now last_save))
                           l' <> true)
         (KickMinerApp.queue_items
            (UiQueue._pump_ui_queue ui app
               (QueueWorker.after_process_item item "retry" now last_save))))%list /\
  last (filter (fun l' => hinted
                            (UiQueue._pump_ui_queue ui app
                               (QueueWorker.after_process_item item "retry" now last_save))
                            l' = true)
          (KickMinerApp.queue_items
             (UiQueue._pump_ui_queue ui app
                (QueueWorker.after_process_item item "retry" now last_save)))) = Some l.
Proof.
  intros Hfind Hl Hcid.
  set (app1 := KickMinerApp._ui_set_retry_campaign_hint app (QueueItem.campaign_id item)
                 (QueueItem.campaign_name item)).
  set (app2 := KickMinerApp._ui_rotate_item ui app1 (QueueItem.url item)).
  set (app3 := UiQueue._pump_ui_queue ui app
                 (QueueWorker.after_process_item item "retry" now last_save)).
  assert (Hpump : KickMinerApp.heap app3 = KickMinerApp.heap app2 /\
                  KickMinerApp.queue_items app3 = KickMinerApp.queue_items app2 /\
                  KickMinerApp._retry_campaign_hint_id app3 =
                    KickMinerApp._retry_campaign_hint_id app2 /\
                  KickMinerApp._retry_campaign_hint_name app3 =
                    KickMinerApp._retry_campaign_hint_name app2).
  { subst app3. unfold UiQueue._pump_ui_queue, QueueWorker.after_process_item. simpl.
    destruct (3 <=? now - last_save); [|done]. simpl.
    destruct (save_config_queue app2) as (? & ? & _ & ? & ? & _). done. }
  destruct Hpump as (Hh3 & Hq3 & Hid3 & Hname3).
  assert (Hfind1 : KickMinerApp._find_item_by_url app1 (QueueItem.url item) = Some l) by done.
  destruct (ui_rotate_item_queue ui app1 (QueueItem.url item)) as (_ & Hperm & _).
  pose proof (ui_rotate_item_marks ui app1 (QueueItem.url item)) as Hmarks.
  pose proof (ui_rotate_item_last ui app1 (QueueItem.url item) l Hfind1) as Hlast.
  destruct (ui_rotate_item_fields ui app1 (QueueItem.url item)) as (_ & _ & _ & Hid & Hname).
  fold app2 in Hperm, Hmarks, Hlast, Hid, Hname.
  change (KickMinerApp.heap app1) with (KickMinerApp.heap app) in Hmarks.
  rewrite <- Hh3 in Hmarks. rewrite <- Hq3 in Hperm, Hlast.
  rewrite <- Hid3 in Hid. rewrite <- Hname3 in Hname.
  assert (Hhint : (hint_of app3).1 = strip (opt_str (QueueItem.campaign_id item))).
  { unfold hint_of. cbn [fst]. rewrite Hid. subst app1. simpl.
    unfold KickMinerApp.none_if_empty.
    destruct (String.eqb_spec (strip (opt_str (QueueItem.campaign_id item))) "") as [|_];
      [done|].
    simpl. apply strip_idemp. }
  assert (Hhinted : hinted app3 l = true).
  { unfold hinted, KickMinerApp.loc_matches. rewrite Hhint.
    destruct (proj2 Hmarks _ _ Hl) as (status & -> & _).
    unfold KickMinerApp.hint_matches.
    change (QueueItem.campaign_id (QueueItem.with_status item status))
      with (QueueItem.campaign_id item).
    destruct (String.eqb_spec (strip (opt_str (QueueItem.campaign_id item))) "") as [|_];
      [done|].
    cbn [negb andb]. by rewrite String.eqb_refl. }
  assert (Hlastf : last (filter (fun l' => hinted app3 l' = true)
                           (KickMinerApp.queue_items app3)) = Some l)
    by (by apply last_filter).
  split_and!; [done|done|done| |done].
  rewrite ordered_items_of_hinted by (left; by rewrite Hhint).
  destruct (filter (fun l' => hinted app3 l' = true) (KickMinerApp.queue_items app3));
    [done|done].
Qed.

Lemma retry_examines_same_campaign_first_witness :
  (KickMinerApp._find_item_by_url (sample_app three_items [0; 1; 2]%nat [] None)
     "https://kick.com/b" = Some 1%nat /\
   KickMinerApp.heap (sample_app three_items [0; 1; 2]%nat [] None) !! 1%nat =
     Some (sample_item "https://kick.com/b" "PENDING" (Some "c2") "") /\
   strip (opt_str (QueueItem.campaign_id
                     (sample_item "https://kick.com/b" "PENDING" (Some "c2") ""))) <> "") /\
  (@KickMinerApp.ordered_items_of ascii_runtime
     (@UiQueue._pump_ui_queue ascii_runtime (offline_world 0)
        (sample_app three_items [0; 1; 2]%nat [] None)
        (QueueWorker.after_process_item
           (sample_item "https://kick.com/b" "PENDING" (Some "c2") "") "retry" 10 0))).2
    = [2; 1; 0]%nat.
Proof.
  assert (Hcid : strip (opt_str (QueueItem.campaign_id
                   (sample_item "https://kick.com/b" "PENDING" (Some "c2") ""))) <> "")
    by discriminate.
  split; [by split_and!|].
  destruct (@retry_examines_same_campaign_first ascii_runtime (offline_world 0)
              (sample_app three_items [0; 1; 2]%nat [] None)
              (sample_item "https://kick.com/b" "PENDING" (Some "c2") "") 1%nat 10 0
              eq_refl eq_refl Hcid) as (_ & _ & _ & Hord & _).
  rewrite Hord. by vm_compute.
Defined.

(** ** The item the selection returns *)

Section ReturnedItem.
Context `{PyRuntime}.

Lemma set_item_channel_keeps_status (w : World) (cache : gmap string (option bool * Z * Z))
    (item : QueueItem.t) (campaign : option KickCampaign.t) (use_network : bool) :
  QueueItem.status
    (KickMinerApp._set_item_channel_for_campaign w cache item campaign use_network).1.2 =
    QueueItem.status item.
Proof.
  unfold KickMinerApp._set_item_channel_for_campaign.
  destruct campaign as [c|]; [|done].
  destruct (KickMinerApp._pick_preferred_channel_for_campaign w cache c use_network)
    as [[[[preferred|] live] viewers] cache']; [|done].
  simpl. by destruct (String.eqb _ _).
Qed.

Lemma examine_item_candidate_open (w : World) (lk : KickMinerApp.Lookups)
    (cache cache' : gmap string (option bool * Z * Z)) (item item' : QueueItem.t)
    (is_live : bool) (viewers : Z) :
  KickMinerApp.examine_item w lk cache item =
    KickMinerApp.Candidate item' cache' is_live viewers ->
  QueueItem.done item' = false /\
  QueueItem.status item' <> "FINISHED" /\ QueueItem.status item' <> "EXPIRED" /\
  QueueItem.status item' <> "STOPPED".
Proof.
  intros Hex.
  pose proof (examine_item_keeps_time w lk cache item) as Hkeep.
  rewrite Hex in Hkeep. destruct Hkeep as [Ht He].
  assert (Hdone : QueueItem.done item = false).
  { unfold KickMinerApp.examine_item in Hex.
    destruct (_ && QueueItem.done item) eqn:Hd; [done|].
    unfold QueueItem.done in *.
    by destruct (0 <? QueueItem.minutes_target item). }
  split; [unfold QueueItem.done in *; by rewrite Ht, He|].
  unfold KickMinerApp.examine_item in Hex.
  destruct (_ && QueueItem.done item); [done|].
  set (item1 := if KickMinerApp._is_progress_campaign_finished _ then _ else item) in Hex.
  destruct (KickMinerApp.is_final_status (QueueItem.status item1)) eqn:Hfinal; [done|].
  set (item2 := if String.eqb (QueueItem.status item1) "STOPPED" then _ else item1) in Hex.
  assert (H2 : QueueItem.status item2 <> "FINISHED" /\ QueueItem.status item2 <> "EXPIRED" /\
               QueueItem.status item2 <> "STOPPED").
  { unfold KickMinerApp.is_final_status in Hfinal.
    apply orb_false_elim in Hfinal as [Hf He'].
    apply String.eqb_neq in Hf, He'.
    subst item2. by destruct (String.eqb_spec (QueueItem.status item1) "STOPPED"). }
  destruct (KickMinerApp._is_campaign_expired w _); [done|].
  destruct (KickMinerApp.game_filtered_out lk item2 _); [done|].
  destruct (KickMinerApp._is_auto_games_channel_item item2).
  - destruct (KickMinerApp._get_channel_live_snapshot w cache _ 30 true) as [[live v] c].
    by injection Hex as <- _ _ _.
  - pose proof (set_item_channel_keeps_status w cache item2
                  (KickMinerApp._resolve_queue_item_campaign item2
                     (KickMinerApp.campaign_by_id lk) (KickMinerApp.campaign_by_name lk))
                  true) as Hs.
    destruct (KickMinerApp._set_item_channel_for_campaign w cache item2 _ true)
      as [[[live v] item3] c].
    simpl in Hs. injection Hex as <- _ _ _. by rewrite Hs.
Qed.

Lemma open_item_store (h : list QueueItem.t) (l f : loc) (item : QueueItem.t) :
  f <> l -> open_item h f -> open_item (<[l := item]> h) f.
Proof.
  intros Hne (item0 & Hf & Hopen). exists item0. by rewrite list_lookup_insert_ne.
Qed.

Lemma next_item_loop_returns_open (w : World) (lk : KickMinerApp.Lookups) (items : list loc) :
  forall h cache fallback_item fallback_live_viewers l,
    NoDup items ->
    (forall f, fallback_item = Some f -> (f ∉ items) /\ open_item h f) ->
    (KickMinerApp.next_item_loop w lk h cache fallback_item fallback_live_viewers items).2
      = Some l ->
    open_item
      (KickMinerApp.next_item_loop w lk h cache fallback_item fallback_live_viewers items).1.1
      l.
Proof.
  induction items as [|l0 items IH]; intros h cache fb fv l Hnd Hfb; simpl.
  { intros Hres. by apply Hfb. }
  apply NoDup_cons in Hnd as [Hl0 Hnd].
  assert (Hfb' : forall f, fb = Some f -> (f ∉ items) /\ f <> l0 /\ open_item h f).
  { intros f Hf. destruct (Hfb f Hf) as [Hnot Hopen].
    apply not_elem_of_cons in Hnot as [? ?]. done. }
  destruct (h !! l0) as [item|] eqn:Hl.
  2:{ apply IH; [done|]. intros f Hf. destruct (Hfb' f Hf) as (? & ? & ?). done. }
  assert (Hkept : forall item' f, fb = Some f ->
            (f ∉ items) /\ open_item (<[l0 := item']> h) f).
  { intros item' f Hf. destruct (Hfb' f Hf) as (? & ? & ?).
    split; [done|]. by apply open_item_store. }
  assert (Hnew : forall item' cache' is_live viewers f,
            KickMinerApp.examine_item w lk cache item =
              KickMinerApp.Candidate item' cache' is_live viewers ->
            Some l0 = Some f -> (f ∉ items) /\ open_item (<[l0 := item']> h) f).
  { intros item' cache' is_live viewers f Hex [= <-]. split; [done|].
    exists item'. split; [|by eapply examine_item_candidate_open].
    apply list_lookup_insert_eq. by eapply lookup_lt_Some. }
  destruct (KickMinerApp.examine_item w lk cache item)
    as [item'|item' cache' is_live viewers] eqn:Hex.
  - apply IH; [done|]. apply Hkept.
  - destruct is_live.
    + simpl. intros [= <-]. exact (proj2 (Hnew _ _ _ _ l0 eq_refl eq_refl)).
    + destruct fb as [f|]; [destruct (fv <? viewers)|].
      * apply IH; [done|]. intros f0 Hf0. exact (Hnew _ _ _ _ f0 eq_refl Hf0).
      * apply IH; [done|]. apply Hkept.
      * apply IH; [done|]. intros f0 Hf0. exact (Hnew _ _ _ _ f0 eq_refl Hf0).
Qed.
End ReturnedItem.

(** X26.  On a queue that lists no object twice, the item
    [get_next_queue_item] returns is one the worker can watch: after the
    call it is not done, and its status is none of [FINISHED], [EXPIRED]
    and [STOPPED] (a stopped item it picks has been set to [PENDING]). *)
Theorem get_next_queue_item_returns_open `{PyRuntime} (w : World) (app : KickMinerApp.t)
    (l : loc) :
  NoDup (KickMinerApp.queue_items app) ->
  (KickMinerApp.get_next_queue_item w app).2 = Some l ->
  open_item (KickMinerApp.heap (KickMinerApp.get_next_queue_item w app).1) l.
Proof.
  intros Hnd.
  unfold KickMinerApp.get_next_queue_item, KickMinerApp._preferred_game_filter.
  set (app1 := KickMinerApp.with_preferred_games_cached app _).
  destruct (ordered_items_of_perm app1) as (Hperm & _ & _).
  destruct (KickMinerApp.ordered_items_of app1) as [app2 ordered].
  simpl in Hperm.
  assert (Hnd' : NoDup ordered) by (by rewrite Hperm).
  pose proof (next_item_loop_returns_open w
                (KickMinerApp.lookups_of app1
                   (bool_decide (ALL_GAMES_TOKEN ∈
                      KickMinerApp._normalize_preferred_games
                        (KickMinerApp._preferred_games_cached app)))
                   (KickMinerApp.selected_of
                      (KickMinerApp._normalize_preferred_games
                         (KickMinerApp._preferred_games_cached app))))
                ordered (KickMinerApp.heap app2) (KickMinerApp._channel_live_cache app2)
                None (-1) l Hnd') as Hloop.
  destruct (KickMinerApp.next_item_loop _ _ _ _ _ _ _) as [[h cache] result].
  simpl in *. intros Hres. apply Hloop; [done|exact Hres].
Qed.

Lemma get_next_queue_item_returns_open_witness :
  (NoDup [0; 1]%nat /\
   (@KickMinerApp.get_next_queue_item ascii_runtime (offline_world 100)
      (sample_app [ sample_item "https://kick.com/a" "FINISHED" None "";
                    sample_item "https://kick.com/b" "STOPPED" None "" ]
         [0; 1]%nat [] None)).2 = Some 1%nat) /\
  open_item
    (KickMinerApp.heap
       (@KickMinerApp.get_next_queue_item ascii_runtime (offline_world 100)
          (sample_app [ sample_item "https://kick.com/a" "FINISHED" None "";
                        sample_item "https://kick.com/b" "STOPPED" None "" ]
             [0; 1]%nat [] None)).1) 1%nat.
Proof.
  assert (Hnd : NoDup [0; 1]%nat) by (apply NoDup_ListNoDup; repeat constructor; simpl; lia).
  assert (Hres :
    (@KickMinerApp.get_next_queue_item ascii_runtime (offline_world 100)
       (sample_app [ sample_item "https://kick.com/a" "FINISHED" None "";
                     sample_item "https://kick.com/b" "STOPPED" None "" ]
          [0; 1]%nat [] None)).2 = Some 1%nat) by (by vm_compute).
  split; [done|].
  exact (@get_next_queue_item_returns_open ascii_runtime (offline_world 100)
           (sample_app [ sample_item "https://kick.com/a" "FINISHED" None "";
                         sample_item "https://kick.com/b" "STOPPED" None "" ]
              [0; 1]%nat [] None) 1%nat Hnd Hres).
Defined.
